(** * Generation and validation orchestrator: a shallow embedding

    The development follows the generation route of the repository
    (the handler [POST] and its helper functions): the Evidence Verifier
    ([normalizeUrlString], [checkUrlExists]), the Retry Gateway
    ([isRetryableEdgeFunctionError], [invokeEdgeFunctionWithRetry]), the
    source-section rendering ([stripTrailingSourcesSection],
    [formatSourcesSection]), the Validation Swarm ([validation_swarm]) and
    the Workflow Decider at the end of [POST].

    Conventions.
    - A JavaScript string is a Rocq [string] whose characters are read as
      code units 0..255; white space is the ECMAScript class restricted to
      that range (TAB, LF, VT, FF, CR, SPACE, NBSP).
    - A JavaScript number is a [JsNumber]: NaN, the two infinities, or a
      finite value carried as a rational.
    - A row of data answered by a collaborator is a [JsVal], whatever it
      holds; a property read on [null] or [undefined] throws, and what is
      thrown is carried to the [catch] the source has for it.
    - Every await on an external collaborator is a [Call]; a handler is a
      finite tree of calls ([Prog]) run against an arbitrary environment
      ([Oracle]).  Theorems quantify over all environments. *)

From Stdlib Require Import ZArith QArith Qround List String Ascii Bool Lia.
From Stdlib Require Import DecimalString.
Import ListNotations.

Set Warnings "-register-all".
Open Scope string_scope.
Open Scope Z_scope.

(* ================================================================== *)
(** ** JavaScript strings *)

Module JsString.

Definition chr (n : nat) : string := String (ascii_of_nat n) EmptyString.
Definition LF : string := chr 10.
Definition CR : string := chr 13.

Definition code (c : ascii) : N := N_of_ascii c.

(** [\s] and the class removed by [String.prototype.trim]. *)
Definition isWhiteSpace (c : ascii) : bool :=
  let n := code c in
  ((9 <=? n) && (n <=? 13) || (n =? 32) || (n =? 160))%N.

(** [[\r\n]] *)
Definition isLineBreak (c : ascii) : bool :=
  let n := code c in ((n =? 10) || (n =? 13))%N.

(** [\w] *)
Definition isWordChar (c : ascii) : bool :=
  let n := code c in
  ((48 <=? n) && (n <=? 57) || (65 <=? n) && (n <=? 90)
   || (97 <=? n) && (n <=? 122) || (n =? 95))%N.

Definition lowerChar (c : ascii) : ascii :=
  let n := code c in
  if ((65 <=? n) && (n <=? 90)
      || (192 <=? n) && (n <=? 222) && negb (n =? 215))%N
  then ascii_of_N (n + 32) else c.

(** Case folding of a regular expression with the [i] flag and without the
    [u] flag: only the ASCII letters fold onto ASCII letters. *)
Definition foldChar (c : ascii) : ascii :=
  let n := code c in
  if ((65 <=? n) && (n <=? 90))%N then ascii_of_N (n + 32) else c.

Fixpoint toLowerCase (s : string) : string :=
  match s with
  | EmptyString => EmptyString
  | String c r => String (lowerChar c) (toLowerCase r)
  end.

Fixpoint trimStart (s : string) : string :=
  match s with
  | EmptyString => EmptyString
  | String c r => if isWhiteSpace c then trimStart r else s
  end.

Fixpoint trimEnd (s : string) : string :=
  match s with
  | EmptyString => EmptyString
  | String c r =>
      match trimEnd r with
      | EmptyString => if isWhiteSpace c then EmptyString else String c EmptyString
      | r' => String c r'
      end
  end.

Definition trim (s : string) : string := trimEnd (trimStart s).

Definition isEmpty (s : string) : bool :=
  match s with EmptyString => true | _ => false end.

Definition startsWith (s p : string) : bool := String.prefix p s.

Fixpoint includes (s needle : string) : bool :=
  String.prefix needle s
  || match s with
     | EmptyString => false
     | String _ r => includes r needle
     end.

(** [s.slice(0, n)] for [0 <= n]. *)
Definition sliceTo (n : nat) (s : string) : string := String.substring 0 n s.

Fixpoint dropWhile (p : ascii -> bool) (s : string) : string :=
  match s with
  | EmptyString => EmptyString
  | String c r => if p c then dropWhile p r else s
  end.

Fixpoint takeWhile (p : ascii -> bool) (s : string) : string :=
  match s with
  | EmptyString => EmptyString
  | String c r => if p c then String c (takeWhile p r) else EmptyString
  end.

Fixpoint existsChar (p : ascii -> bool) (s : string) : bool :=
  match s with
  | EmptyString => false
  | String c r => p c || existsChar p r
  end.

(** Case-insensitive literal at the head of [s]: the rest of [s] after the
    literal [lit] (given in lower case), if it is there. *)
Fixpoint afterLiteralCI (lit s : string) : option string :=
  match lit with
  | EmptyString => Some s
  | String l lit' =>
      match s with
      | EmptyString => None
      | String c r =>
          if Ascii.eqb (foldChar c) l then afterLiteralCI lit' r else None
      end
  end.

(** Exact literal at the head of [s]. *)
Fixpoint afterLiteral (lit s : string) : option string :=
  match lit with
  | EmptyString => Some s
  | String l lit' =>
      match s with
      | EmptyString => None
      | String c r => if Ascii.eqb c l then afterLiteral lit' r else None
      end
  end.

(** First index at which the anchored matcher [m] accepts the rest of the
    string: [String.prototype.search] for a pattern whose anchored matcher
    is [m]. *)
Fixpoint searchFrom (m : string -> bool) (i : nat) (s : string) : option nat :=
  if m s then Some i
  else match s with
       | EmptyString => None
       | String _ r => searchFrom m (S i) r
       end.

Definition search (m : string -> bool) (s : string) : option nat :=
  searchFrom m 0 s.

(** [RegExp.prototype.test] for a pattern without flags [g] or [y]. *)
Definition test (m : string -> bool) (s : string) : bool :=
  match search m s with Some _ => true | None => false end.

(** Number of indices at which the anchored matcher accepts. *)
Fixpoint countMatches (m : string -> bool) (s : string) : nat :=
  ((if m s then 1 else 0)
   + match s with
     | EmptyString => 0
     | String _ r => countMatches m r
     end)%nat.

Definition join (sep : string) (l : list string) : string := String.concat sep l.

Definition ofNat (n : nat) : string := NilEmpty.string_of_uint (Nat.to_uint n).

End JsString.
Import JsString.

(* ================================================================== *)
(** ** JavaScript numbers and values *)

Inductive JsNumber : Type :=
| NaN
| NegInf
| Fin (q : Q)
| PosInf.

Definition ofZ (z : Z) : JsNumber := Fin (inject_Z z).

Definition isFinite (n : JsNumber) : bool :=
  match n with Fin _ => true | _ => false end.

(** [a < b] *)
Definition js_lt (a b : JsNumber) : bool :=
  match a, b with
  | NaN, _ | _, NaN => false
  | NegInf, NegInf => false
  | NegInf, _ => true
  | _, NegInf => false
  | PosInf, _ => false
  | _, PosInf => true
  | Fin x, Fin y => negb (Qle_bool y x)
  end.

(** [a > b] *)
Definition js_gt (a b : JsNumber) : bool := js_lt b a.

(** [Math.max(a, b)] *)
Definition Math_max (a b : JsNumber) : JsNumber :=
  match a, b with
  | NaN, _ | _, NaN => NaN
  | _, _ => if js_lt a b then b else a
  end.

(** [Math.min(a, b)] *)
Definition Math_min (a b : JsNumber) : JsNumber :=
  match a, b with
  | NaN, _ | _, NaN => NaN
  | _, _ => if js_lt b a then b else a
  end.

(** [a - b] on finite numbers (the only use in the handler). *)
Definition js_sub (a b : JsNumber) : JsNumber :=
  match a, b with
  | Fin x, Fin y => Fin (x - y)
  | NaN, _ | _, NaN => NaN
  | PosInf, PosInf | NegInf, NegInf => NaN
  | PosInf, _ | _, NegInf => PosInf
  | NegInf, _ | _, PosInf => NegInf
  end.

(** [Math.floor] *)
Definition Math_floor (a : JsNumber) : JsNumber :=
  match a with Fin x => ofZ (Qfloor x) | _ => a end.

Inductive JsVal : Type :=
| JUndefined
| JNull
| JBool (b : bool)
| JNum (n : JsNumber)
| JStr (s : string)
| JArr (items : list JsVal)
| JObj (fields : list (string * JsVal)).

(** Truthiness ([ToBoolean]). *)
Definition truthy (v : JsVal) : bool :=
  match v with
  | JUndefined | JNull => false
  | JBool b => b
  | JNum NaN => false
  | JNum (Fin q) => negb (Qeq_bool q 0)
  | JNum _ => true
  | JStr s => negb (isEmpty s)
  | JArr _ | JObj _ => true
  end.

(** [a || b] *)
Definition js_or (a b : JsVal) : JsVal := if truthy a then a else b.

(** [typeof value === 'object' && value !== null] *)
Definition isRecord (v : JsVal) : bool :=
  match v with JArr _ | JObj _ => true | _ => false end.

Fixpoint assoc (k : string) (l : list (string * JsVal)) : JsVal :=
  match l with
  | [] => JUndefined
  | (k', v) :: r => if String.eqb k k' then v else assoc k r
  end.

(** Property read [v.k] on a value that is not null or undefined. *)
Definition prop (v : JsVal) (k : string) : JsVal :=
  match v with JObj fs => assoc k fs | _ => JUndefined end.

(** What the language runtime and the platform supply: the coercions
    [String(v)] and [Number(v)] on values that are not already of the target
    type, the URL parser ([new URL(s)], giving the protocol, the host
    name and the serialised URL, or nothing when it throws), [JSON.parse]
    (nothing when it throws), and the message of the [TypeError] that
    reading the property [k] of [v] throws when [v] is [null] or
    [undefined]. *)
Record URL : Type := {
  protocol : string;
  hostname : string;
  href : string
}.

Record Platform : Type := {
  coerceString : JsVal -> string;
  coerceNumber : JsVal -> JsNumber;
  URL_parse : string -> option URL;
  JSON_parse : string -> option JsVal;
  nullReadMessage : JsVal -> string -> string
}.

(** [String(v)] *)
Definition String_ (P : Platform) (v : JsVal) : string :=
  match v with JStr s => s | _ => coerceString P v end.

(** [Number(v)] *)
Definition Number_ (P : Platform) (v : JsVal) : JsNumber :=
  match v with JNum n => n | _ => coerceNumber P v end.

(** A value thrown, or returned in an [error] field: an [Error] instance
    with its message, a string, or any other value with the text
    [JSON.stringify] gives for it. *)
Inductive JsError : Type :=
| ErrorObject (message : string)
| ErrorString (s : string)
| ErrorOther (json : string).

(** [v] is [null] or [undefined]: reading a property of it throws. *)
Definition isNullish (v : JsVal) : bool :=
  match v with JUndefined | JNull => true | _ => false end.

(** What [rows.map((d) => d.k ...)] throws: the [TypeError] of the first
    row that is [null] or [undefined], if there is one. *)
Definition readError (P : Platform) (k : string) (rows : list JsVal) : option JsError :=
  match find isNullish rows with
  | Some v => Some (ErrorObject (nullReadMessage P v k))
  | None => None
  end.

(* ================================================================== *)
(** ** Pure helpers of the route *)

Definition errorMessage (err : JsError) : string :=
  match err with
  | ErrorObject m => m
  | ErrorString s => s
  | ErrorOther j => j
  end.

Definition clamp (n min max : JsNumber) : JsNumber :=
  Math_max min (Math_min max n).

(** *** Retry Gateway: classification of an error text *)

Definition isRetryableEdgeFunctionError (err : JsError) : bool :=
  let msg := toLowerCase (errorMessage err) in
  if isEmpty msg then false
  else if includes msg "cohere_unavailable" then false
  else if includes msg "_timeout" then true
  else if includes msg "earlydrop" then true
  else if includes msg "shutdown" then true
  else if includes msg "edge function" && includes msg "failed" then true
  else if includes msg "fetch failed" then true
  else if includes msg "econnreset" then true
  else if includes msg "etimedout" then true
  else if includes msg "socket" then true
  else if includes msg "504" || includes msg "503" then true
  else false.

(** *** Evidence Verifier: URL normalisation *)

Fixpoint revString (s acc : string) : string :=
  match s with
  | EmptyString => acc
  | String c r => revString r (String c acc)
  end.

Definition isAsciiLetter (c : ascii) : bool :=
  let n := code (foldChar c) in ((97 <=? n) && (n <=? 122))%N.

(** The class [[a-z0-9.-]] under the [i] flag. *)
Definition isHostChar (c : ascii) : bool :=
  let n := code c in
  isAsciiLetter c || ((48 <=? n) && (n <=? 57) || (n =? 46) || (n =? 45))%N.

(** Anchored matcher of [/^[a-z0-9.-]+\.[a-z]{2,}(?:[/?#]|$)/i]: the
    maximal run of host characters is followed by [/], [?], [#] or the end
    of the string, and ends with a dot and at least two letters, the dot
    being preceded by at least one host character. *)
Definition looksLikeBareHost (s : string) : bool :=
  let host := takeWhile isHostChar s in
  let rest := dropWhile isHostChar s in
  let followOk :=
    match rest with
    | EmptyString => true
    | String c _ => let n := code c in ((n =? 47) || (n =? 63) || (n =? 35))%N
    end in
  let rh := revString host EmptyString in
  let letters := takeWhile isAsciiLetter rh in
  let before := dropWhile isAsciiLetter rh in
  followOk
  && (2 <=? String.length letters)%nat
  && match before with
     | String dot (String _ _) => (code dot =? 46)%N
     | _ => false
     end.

Definition normalizeUrlString (P : Platform) (input : string) : string :=
  let raw := trim input in
  if isEmpty raw then EmptyString
  else
    let candidate := if startsWith raw "//" then "https:" ++ raw else raw in
    let candidate :=
      if negb (startsWith candidate "http://") && negb (startsWith candidate "https://")
      then
        if startsWith candidate "www." then "https://" ++ candidate
        else if looksLikeBareHost candidate then "https://" ++ candidate
        else candidate
      else candidate in
    match URL_parse P candidate with
    | Some u =>
        if negb (String.eqb (protocol u) "http:") && negb (String.eqb (protocol u) "https:")
        then EmptyString
        else href u
    | None => EmptyString
    end.

(** *** Sources section *)

(** A citation.  The link is a string wherever the route makes one; the
    title and the source are the values of the row they come from, which
    [formatSourcesSection] brings to text. *)
Record Citation : Type := {
  title : JsVal;
  url : string;
  source : JsVal
}.

(** The tail [\s*[\r\n]] of the heading pattern: the white space that
    follows holds a line break. *)
Definition headingTail (s : string) : bool :=
  existsChar isLineBreak (takeWhile isWhiteSpace s).

(** Anchored matcher of
    [/\n##\s*(Sources\s*\/\s*References|Sources|References)\s*[\r\n]/i]. *)
Definition sourcesHeadingAt (s : string) : bool :=
  match afterLiteral (LF ++ "##") s with
  | None => false
  | Some r =>
      let r1 := dropWhile isWhiteSpace r in
      let alt1 :=
        match afterLiteralCI "sources" r1 with
        | Some r2 =>
            match afterLiteral "/" (dropWhile isWhiteSpace r2) with
            | Some r3 =>
                match afterLiteralCI "references" (dropWhile isWhiteSpace r3) with
                | Some r4 => headingTail r4
                | None => false
                end
            | None => false
            end
        | None => false
        end in
      let alt2 :=
        match afterLiteralCI "sources" r1 with
        | Some r2 => headingTail r2
        | None => false
        end in
      let alt3 :=
        match afterLiteralCI "references" r1 with
        | Some r2 => headingTail r2
        | None => false
        end in
      alt1 || alt2 || alt3
  end.

Definition stripTrailingSourcesSection (text : string) : string :=
  match search sourcesHeadingAt text with
  | None => trim text
  | Some idx => trim (sliceTo idx text)
  end.

(** One entry of the rendered list: the callback of [citations.map] in
    [formatSourcesSection], at index [i]. *)
Definition sourceEntry (P : Platform) (i : nat) (c : Citation) : string :=
  let t0 := trim (String_ P (js_or (title c) (JStr "Source"))) in
  let t := if isEmpty t0 then "Source" else t0 in
  let u := trim (url c) in
  if isEmpty u then "[" ++ ofNat (i + 1) ++ "] " ++ t
  else "[" ++ ofNat (i + 1) ++ "] " ++ t ++ " - " ++ u.

Fixpoint mapi {A B : Type} (f : nat -> A -> B) (i : nat) (l : list A) : list B :=
  match l with
  | [] => []
  | x :: r => f i x :: mapi f (S i) r
  end.

Definition sourcesHeader : string :=
  LF ++ LF ++ "## Sources / References" ++ LF.

Definition formatSourcesSection (P : Platform) (citations : list Citation) : string :=
  match citations with
  | [] => sourcesHeader ++ "No sources were retrieved." ++ LF
  | _ => sourcesHeader ++ join LF (mapi (sourceEntry P) 0 citations) ++ LF
  end.

Definition buildGenerationNotice (contentSource status : string) : string :=
  "## Generation Notice" ++ LF ++ "Content source: " ++ trim contentSource ++ LF
  ++ "Status: " ++ trim status ++ LF ++ LF.

(** Anchored matcher of [/##\s*Content Source Notice\b/i]. *)
Definition noticeHeadingAt (s : string) : bool :=
  match afterLiteral "##" s with
  | None => false
  | Some r =>
      match afterLiteralCI "content source notice" (dropWhile isWhiteSpace r) with
      | Some (String c _) => negb (isWordChar c)
      | Some EmptyString => true
      | None => false
      end
  end.

(** [/##\s*Content Source Notice\b/i.test(body)] *)
Definition hasSourceNotice (body : string) : bool := test noticeHeadingAt body.

(** The three lines that close the draft after generation and after each
    rewrite ([POST], after the generation loop and inside the rewrite
    block): the model's own sources section is cut, the canonical list is
    appended, and the notice is added when internet fallback was used and
    the body has no notice heading. *)
Definition withCanonicalSources (P : Platform) (text : string) (citations : list Citation)
    (internetFallbackUsed : bool) (contentSourceNotice : string) : string :=
  let body := stripTrailingSourcesSection text ++ formatSourcesSection P citations in
  if internetFallbackUsed && negb (hasSourceNotice body)
  then body ++ LF ++ LF ++ "## Content Source Notice" ++ LF ++ contentSourceNotice ++ LF
  else body.

(** *** Validation agents *)

Inductive Status : Type := pass | fail.

Definition Status_eqb (a b : Status) : bool :=
  match a, b with pass, pass | fail, fail => true | _, _ => false end.

Record ValidationAgentResult : Type := {
  status : Status;
  issues : list string;
  confidence : JsNumber
}.

Record ValidationSwarmResults : Type := {
  citation : ValidationAgentResult;
  recency : ValidationAgentResult;
  fact_check : ValidationAgentResult;
  tone : ValidationAgentResult
}.

Definition failed (issue : string) : ValidationAgentResult :=
  {| status := fail; issues := [issue]; confidence := ofZ 0 |}.

Definition normalizeAgentResult (P : Platform) (raw : JsVal) (fallbackIssue : string)
  : ValidationAgentResult :=
  if negb (isRecord raw) then failed fallbackIssue
  else
    let st := match prop raw "status" with
              | JStr s => if String.eqb s "pass" then pass else fail
              | _ => fail
              end in
    let iss := match prop raw "issues" with
               | JArr l =>
                   firstn 25
                     (filter (fun s => negb (isEmpty (trim s))) (map (String_ P) l))
               | _ => []
               end in
    let c := clamp (Number_ P (prop raw "confidence")) (ofZ 0) (ofZ 1) in
    {| status := st; issues := iss;
       confidence := if isFinite c then c else ofZ 0 |}.

Fixpoint indexOfChar (c : ascii) (i : nat) (s : string) : option nat :=
  match s with
  | EmptyString => None
  | String d r => if Ascii.eqb c d then Some i else indexOfChar c (S i) r
  end.

Fixpoint lastIndexOfChar (c : ascii) (i : nat) (s : string) : option nat :=
  match s with
  | EmptyString => None
  | String d r =>
      match lastIndexOfChar c (S i) r with
      | Some j => Some j
      | None => if Ascii.eqb c d then Some i else None
      end
  end.

(** [safeJsonParse]; [JNull] stands for its [null]. *)
Definition safeJsonParse (P : Platform) (text : string) : JsVal :=
  let t := trim text in
  if isEmpty t then JNull
  else
    match JSON_parse P t with
    | Some v => v
    | None =>
        match indexOfChar "{"%char 0 t, lastIndexOfChar "}"%char 0 t with
        | Some start, Some e =>
            if (start <? e)%nat
            then match JSON_parse P (String.substring start (e + 1 - start) t) with
                 | Some v => v
                 | None => JNull
                 end
            else JNull
        | _, _ => JNull
        end
    end.

(* ================================================================== *)
(** ** External collaborators and handlers *)

(** Outcome of [withTimeout]: the timer won, or the promise resolved. *)
Inductive Timed (T : Type) : Type :=
| TimedOut
| Resolved (value : T).
Arguments TimedOut {T}.
Arguments Resolved {T} value.

(** What a Supabase call resolves to: [{ data, error }]; a falsy [error] is
    [None]. *)
Record SupabaseResult : Type := {
  sb_data : JsVal;
  sb_error : option JsError
}.

(** Outcome of the [fetch] of [checkUrlExists]. *)
Inductive ProbeResponse : Type :=
| ProbeThrew
| ProbeAnswered (status : Z) (finalUrl : string).

(** Outcome of the [fetch] of a chat completion: aborted by the timer,
    failed otherwise, answered with an error status (and the body text), or
    answered with [choices[0].message.content] (empty when absent). *)
Inductive ChatResponse : Type :=
| ChatAborted
| ChatThrew (e : JsError)
| ChatHttpError (httpStatus : Z) (errText : string)
| ChatOk (content : string).

Record InternetDoc : Type := {
  idoc_title : string;
  idoc_url : string;
  idoc_content : string;
  idoc_source : string
}.

Record RagChunk : Type := {
  chunk_content : string;
  chunk_metadata : JsVal
}.

Record AgentInsert : Type := {
  agent_name : string;
  agent_status : Status;
  agent_confidence : JsNumber;
  agent_details : ValidationAgentResult;
  agent_raw_text : string
}.

(** The fields of [baseOutput] that the handler computes (the hero image
    links and the constant empty fields are left out). *)
Record BaseOutput : Type := {
  out_citations : list Citation;
  validation_results : ValidationSwarmResults;
  trust_score : JsNumber;
  out_warnings : list string;
  internet_fallback_used : bool;
  content_source : string;
  content_source_notice : string;
  out_humanized : bool;
  out_status : string
}.

(** [outputForDb] (the token accounting [run_metrics] is left out). *)
Record OutputForDb : Type := {
  db_base : BaseOutput;
  db_body : string;
  db_blocked : bool
}.

(** [outputForClient], with the [draft_id] added in the response. *)
Record OutputForClient : Type := {
  cl_base : BaseOutput;
  body : string;
  review_body : string;
  blocked : bool;
  draft_id : string
}.

Record GeneratedContentRow : Type := {
  row_user_id : string;
  row_topic : string;
  row_mode : JsVal;
  output_json : OutputForDb;
  row_trust_score : JsNumber;
  requires_review : bool
}.

Record AgentRow : Type := {
  arow_draft_id : string;
  arow_insert : AgentInsert
}.

(** The request body sent to the [query-docs] edge function. *)
Record EdgeBody : Type := {
  eb_query : string;
  eb_mode : string;
  eb_user_id : string;
  eb_top_k : Z
}.

(** The awaits of the route. *)
Inductive Call : Type :=
| DateNow
| TodayISO
| BackgroundCollect (keyword : string)
| FunctionsInvoke (fn : string) (body : EdgeBody) (timeoutMs : Z)
| Sleep (ms : Z)
| PrivateTextSearch (query userId : string) (topK : Z)
| PublicTextSearch (query : string) (topK : Z)
| CollectDocuments (keyword : string) (timeoutMs : Z)
| ProbeUrl (url : string) (timeoutMs : Z)
| CollectInternetDocs (query : string) (maxDocs searchTimeoutMs pageTimeoutMs : Z)
| ChatCompletion (purpose model system user : string) (temperatureZero : bool)
    (timeoutMs : JsNumber)
| InsertGeneratedContent (row : GeneratedContentRow)
| InsertAgentResults (rows : list AgentRow).

Definition Resp (c : Call) : Type :=
  match c with
  | DateNow => Z
  | TodayISO => string
  | BackgroundCollect _ => unit
  | FunctionsInvoke _ _ _ => Timed (option SupabaseResult)
  | Sleep _ => unit
  | PrivateTextSearch _ _ _ => SupabaseResult
  | PublicTextSearch _ _ => SupabaseResult
  | CollectDocuments _ _ => option JsVal
  | ProbeUrl _ _ => ProbeResponse
  | CollectInternetDocs _ _ _ _ => (JsError + list InternetDoc)%type
  | ChatCompletion _ _ _ _ _ _ => ChatResponse
  | InsertGeneratedContent _ => Timed JsVal
  | InsertAgentResults _ => Timed JsVal
  end.

(** A handler: a finite tree of awaits. *)
Inductive Prog (A : Type) : Type :=
| Ret (a : A)
| Vis (c : Call) (k : Resp c -> Prog A).
Arguments Ret {A} a.
Arguments Vis {A} c k.

Fixpoint bind {A B : Type} (m : Prog A) (f : A -> Prog B) : Prog B :=
  match m with
  | Ret a => f a
  | Vis c k => Vis c (fun r => bind (k r) f)
  end.

Definition await (c : Call) : Prog (Resp c) := Vis c Ret.

Notation "x <- m ;; k" := (bind m (fun x => k))
  (at level 61, m at next level, right associativity).
Notation "' p <- m ;; k" := (bind m (fun x => let p := x in k))
  (at level 61, p pattern, m at next level, right associativity).

(** The environment: the answer to each await, given the awaits made so
    far. *)
Definition Oracle : Type := forall (history : list Call) (c : Call), Resp c.

(** Running a handler from a history: its result and the awaits it made. *)
Fixpoint exec {A : Type} (o : Oracle) (h : list Call) (p : Prog A) : A * list Call :=
  match p with
  | Ret a => (a, [])
  | Vis c k =>
      let (a, t) := exec o (h ++ [c]) (k (o h c)) in
      (a, c :: t)
  end.

(** *** Retry Gateway *)

Record EdgeResult : Type := {
  data : JsVal;
  error : option JsError;
  attempts : Z
}.

(** [v ?? null] *)
Definition orNull (v : JsVal) : JsVal :=
  match v with JUndefined => JNull | _ => v end.

(** The loop of [invokeEdgeFunctionWithRetry], from attempt [attempt], with
    [fuel] iterations left ([max - attempt + 1] of them at the start). *)
Fixpoint retryLoop (fn : string) (body : EdgeBody) (timeoutMs max : Z)
    (fuel : nat) (attempt : Z) : Prog EdgeResult :=
  match fuel with
  | O => Ret {| data := JNull; error := Some (ErrorObject "unreachable"); attempts := max |}
  | S fuel' =>
      inv <- await (FunctionsInvoke fn body timeoutMs) ;;
      match inv with
      | TimedOut =>
          let err := ErrorObject (fn ++ "_timeout") in
          if (attempt <? max) && isRetryableEdgeFunctionError err
          then _ <- await (Sleep (250 * attempt)) ;;
               retryLoop fn body timeoutMs max fuel' (attempt + 1)
          else Ret {| data := JNull; error := Some err; attempts := attempt |}
      | Resolved val =>
          match match val with Some v => sb_error v | None => None end with
          | Some fnError =>
              if (attempt <? max) && isRetryableEdgeFunctionError fnError
              then _ <- await (Sleep (250 * attempt)) ;;
                   retryLoop fn body timeoutMs max fuel' (attempt + 1)
              else Ret {| data := JNull; error := Some fnError; attempts := attempt |}
          | None =>
              Ret {| data := match val with Some v => orNull (sb_data v) | None => JNull end;
                     error := None; attempts := attempt |}
          end
      end
  end.

Definition invokeEdgeFunctionWithRetry (fn : string) (body : EdgeBody)
    (timeoutMs maxAttempts : Z) : Prog EdgeResult :=
  let max := Z.max 1 maxAttempts in
  retryLoop fn body timeoutMs max (Z.to_nat max) 1.

(** *** Evidence Verifier: the probe *)

Record UrlCheck : Type := {
  chk_ok : bool;
  chk_url : string;
  chk_status : option Z
}.

(** The status test of [checkUrlExists]. *)
Definition statusCountsAsExisting (st : Z) : bool :=
  (200 <=? st) && (st <? 400) || (st =? 401) || (st =? 403) || (st =? 405) || (st =? 429).

Definition checkUrlExists (P : Platform) (url : string) (timeoutMs : Z) : Prog UrlCheck :=
  let u := normalizeUrlString P url in
  if isEmpty u then Ret {| chk_ok := false; chk_url := EmptyString; chk_status := None |}
  else
    res <- await (ProbeUrl u timeoutMs) ;;
    match res with
    | ProbeThrew => Ret {| chk_ok := false; chk_url := u; chk_status := None |}
    | ProbeAnswered st finalUrl =>
        let n := normalizeUrlString P (if isEmpty finalUrl then u else finalUrl) in
        Ret {| chk_ok := statusCountsAsExisting st;
               chk_url := if isEmpty n then u else n;
               chk_status := Some st |}
    end.

(** *** Chat completions *)

Definition ofInt (z : Z) : string := NilEmpty.string_of_int (Z.to_int z).

Inductive TextResult : Type :=
| TextOk (text : string)
| TextFail (reason : string).

Inductive JsonResult : Type :=
| JsonOk (parsed : JsVal) (rawText : string)
| JsonFail (reason : string).

Definition callOpenRouterText (model system user : string) (timeoutMs : JsNumber)
    (purpose : string) : Prog TextResult :=
  res <- await (ChatCompletion purpose model system user false timeoutMs) ;;
  Ret match res with
      | ChatAborted => TextFail "timeout"
      | ChatThrew e => TextFail (errorMessage e)
      | ChatHttpError st errText =>
          TextFail (if isEmpty errText then "openrouter_http_" ++ ofInt st else errText)
      | ChatOk content => TextOk (trim content)
      end.

Definition callOpenRouterJson (P : Platform) (model system user : string)
    (timeoutMs : JsNumber) (purpose : string) : Prog JsonResult :=
  res <- await (ChatCompletion purpose model system user true timeoutMs) ;;
  Ret match res with
      | ChatAborted => JsonFail "timeout"
      | ChatThrew e => JsonFail (errorMessage e)
      | ChatHttpError st _ => JsonFail ("openrouter_http_" ++ ofInt st)
      | ChatOk content =>
          let rawText := trim content in
          let parsed := safeJsonParse P rawText in
          if truthy parsed then JsonOk parsed rawText else JsonFail "invalid_json"
      end.

(** *** Configuration *)

Record Env : Type := {
  appBaseUrl : string;
  supabaseServiceRoleKey : string;
  openRouterApiKey : string;
  textModel : string;
  textModelFallback : string;
  humanizeContentModel : string;
  validationSwarmAgent1 : string;
  validationSwarmAgent2 : string;
  validationSwarmAgent3 : string;
  validationSwarmAgent4 : string;
  recencyDays : JsNumber;
  trustThreshold : JsNumber;
  allowedDomains : list string;
  (** [process.env.GENERATION_ATTEMPT_TIMEOUT_MS] and
      [process.env.GENERATION_MAX_ATTEMPTS], empty when unset. *)
  GENERATION_ATTEMPT_TIMEOUT_MS : string;
  GENERATION_MAX_ATTEMPTS : string
}.

(** [Number(process.env.X || dflt)], the variable being empty when unset. *)
Definition envNumber (P : Platform) (value : string) (dflt : Z) : JsNumber :=
  if isEmpty value then ofZ dflt else Number_ P (JStr value).


(** [requireKeys] on string-valued keys, given with their values: the
    error it throws, if any. *)
Definition requireKeys (keys : list (string * string)) : option JsError :=
  match filter (fun kv => isEmpty (snd kv)) keys with
  | [] => None
  | missing => Some (ErrorObject ("Missing required env: " ++ join ", " (map fst missing)))
  end.

(** *** Validation Swarm *)

Record BasePayload : Type := {
  bp_topic : string;
  bp_mode : string;
  bp_keyword : string;
  bp_today : string;
  bp_recency_days : JsNumber;
  bp_allowed_domains : list string;
  bp_internet_fallback_used : bool;
  bp_citations : list Citation;
  bp_rag_chunks : list RagChunk;
  bp_draft : string
}.

Record PromptInputs : Type := {
  pi_topic : string;
  pi_primary : string;
  pi_secondary : string;
  pi_mode : JsVal;
  pi_contentType : string;
  pi_targetWordsCapped : option JsNumber;
  pi_inputBody : string;
  pi_citations : list Citation;
  pi_context : string;
  pi_internetFallbackUsed : bool;
  pi_contentSourceNotice : string
}.

(** The prompt texts.  They are string templates over the values listed;
    no branch of the route reads them back. *)
Record Prompts : Type := {
  (** system prompt of the agent named (citation, recency, fact_check,
      tone), given [internetFallbackUsed] and [recencyDays] *)
  swarmSystem : string -> bool -> JsNumber -> string;
  (** [JSON.stringify(basePayload)] *)
  swarmUser : BasePayload -> string;
  (** [systemPromptFinal] and [userPrompt] *)
  generationSystem : PromptInputs -> string;
  generationUser : PromptInputs -> string;
  rewriteSystemStandard : string;
  rewriteSystemStrong : string
}.

Record SwarmArgs : Type := {
  sw_draft : string;
  sw_mode : string;
  sw_topic : string;
  sw_keyword : string;
  sw_citations : list Citation;
  sw_ragChunks : list RagChunk;
  sw_todayISO : string;
  sw_recencyDays : JsNumber;
  sw_internetFallbackUsed : bool
}.

Record SwarmOutcome : Type := {
  results : ValidationSwarmResults;
  trustScore : JsNumber;
  warnings : list string;
  agentInserts : list AgentInsert
}.

(** [Number(x.toFixed(2))] on a finite number. *)
Definition toFixed2 (n : JsNumber) : JsNumber :=
  match n with
  | Fin q => Fin (Qfloor (q * 100 + (1 # 2)) # 100)
  | _ => n
  end.

(** Recency is applicable: [args.mode === 'news' || args.internetFallbackUsed]. *)
Definition recencyApplicable (args : SwarmArgs) : bool :=
  String.eqb (sw_mode args) "news" || sw_internetFallbackUsed args.

(** Result of one agent: [res.ok ? normalizeAgentResult(res.parsed, ...) :
    { status: 'fail', issues: [`<agent>_agent_<reason>`], confidence: 0 }]. *)
Definition agentParsed (P : Platform) (agent : string) (res : JsonResult)
  : ValidationAgentResult :=
  match res with
  | JsonOk parsed _ => normalizeAgentResult P parsed (agent ++ "_agent_failed")
  | JsonFail reason => failed (agent ++ "_agent_" ++ reason)
  end.

Definition rawTextOf (res : JsonResult) : string :=
  match res with JsonOk _ raw => raw | JsonFail _ => EmptyString end.

Definition penalty (applies : bool) (r : ValidationAgentResult) (weight : Z) : JsNumber :=
  if applies && Status_eqb (status r) fail then ofZ weight else ofZ 0.

(** The score computed from the four parsed results (the [penalties]
    object and the [trustScore] line of [validation_swarm]). *)
Definition scoreOf (applicable : bool) (c r f t : ValidationAgentResult) : JsNumber :=
  clamp (js_sub (js_sub (js_sub (js_sub (ofZ 100) (penalty true c 25))
                                (penalty applicable r 20))
                        (penalty true f 40))
                (penalty true t 15))
        (ofZ 0) (ofZ 100).

Definition agentInsertOf (name : string) (r : ValidationAgentResult) (raw : string)
  : AgentInsert :=
  {| agent_name := name; agent_status := status r;
     agent_confidence := toFixed2 (confidence r);
     agent_details := r; agent_raw_text := raw |}.

Definition validation_swarm (P : Platform) (T : Prompts) (env : Env) (args : SwarmArgs)
  : Prog SwarmOutcome :=
  let draft := sliceTo 20000 (sw_draft args) in
  let ragChunks :=
    map (fun c => {| chunk_content := sliceTo 1500 (chunk_content c);
                     chunk_metadata := js_or (chunk_metadata c) (JObj []) |})
        (firstn 8 (sw_ragChunks args)) in
  let citations := firstn 10 (sw_citations args) in
  let basePayload :=
    {| bp_topic := sw_topic args; bp_mode := sw_mode args; bp_keyword := sw_keyword args;
       bp_today := sw_todayISO args; bp_recency_days := sw_recencyDays args;
       bp_allowed_domains := allowedDomains env;
       bp_internet_fallback_used := sw_internetFallbackUsed args;
       bp_citations := citations; bp_rag_chunks := ragChunks; bp_draft := draft |} in
  let system agent :=
    swarmSystem T agent (sw_internetFallbackUsed args) (sw_recencyDays args) in
  let user := swarmUser T basePayload in
  citationRes <- callOpenRouterJson P (validationSwarmAgent1 env) (system "citation") user
                   (ofZ 7000) "validation_citation" ;;
  factRes <- callOpenRouterJson P (validationSwarmAgent3 env) (system "fact_check") user
               (ofZ 9000) "validation_fact_check" ;;
  toneRes <- callOpenRouterJson P (validationSwarmAgent4 env) (system "tone") user
               (ofZ 7000) "validation_tone" ;;
  recencyRes <-
    (if recencyApplicable args
     then callOpenRouterJson P
            (if isEmpty (validationSwarmAgent2 env)
             then validationSwarmAgent1 env else validationSwarmAgent2 env)
            (system "recency") user (ofZ 7000) "validation_recency"
     else Ret (JsonOk (JObj [("status", JStr "pass");
                             ("issues", JArr [JStr "skipped_non_news_mode"]);
                             ("confidence", JNum (ofZ 1))])
                      EmptyString)) ;;
  let citationParsed := agentParsed P "citation" citationRes in
  let recencyParsed :=
    if recencyApplicable args then agentParsed P "recency" recencyRes
    else match recencyRes with
         | JsonOk parsed _ => normalizeAgentResult P parsed "recency_skipped"
         | JsonFail _ => normalizeAgentResult P JUndefined "recency_skipped"
         end in
  let factParsed := agentParsed P "fact_check" factRes in
  let toneParsed := agentParsed P "tone" toneRes in
  let score := scoreOf (recencyApplicable args) citationParsed recencyParsed factParsed toneParsed in
  Ret {| results := {| citation := citationParsed; recency := recencyParsed;
                       fact_check := factParsed; tone := toneParsed |};
         trustScore := score;
         warnings := if js_lt score (trustThreshold env)
                     then ["This content requires manual review."] else [];
         agentInserts :=
           [ agentInsertOf "citation" citationParsed (rawTextOf citationRes);
             agentInsertOf "recency" recencyParsed
               (if String.eqb (sw_mode args) "news" then rawTextOf recencyRes else EmptyString);
             agentInsertOf "fact_check" factParsed (rawTextOf factRes);
             agentInsertOf "tone" toneParsed (rawTextOf toneRes) ] |}.

(* ================================================================== *)
(** ** The handler [POST] *)

Record RequestBody : Type := {
  topic : JsVal;
  keyword : JsVal;
  primaryKeyword : JsVal;
  secondaryKeyword : JsVal;
  mode : JsVal;
  userId : JsVal;
  targetWordCount : JsVal;
  contentType : JsVal;
  inputBody : JsVal;
  humanizeLevel : JsVal
}.

Inductive HumanizeLevel : Type := off | standard | strong.

Inductive ContentType : Type :=
| long_article | short_article | web2_article | pr
| webpage_revision | meta_tags | webpage_summary.

Definition HumanizeLevel_eqb (a b : HumanizeLevel) : bool :=
  match a, b with
  | off, off | standard, standard | strong, strong => true
  | _, _ => false
  end.

Definition isMetaTags (c : ContentType) : bool :=
  match c with meta_tags => true | _ => false end.

Definition contentTypeName (c : ContentType) : string :=
  match c with
  | long_article => "long_article"
  | short_article => "short_article"
  | web2_article => "web2_article"
  | pr => "pr"
  | webpage_revision => "webpage_revision"
  | meta_tags => "meta_tags"
  | webpage_summary => "webpage_summary"
  end.

(** [typeof humanizeLevel === 'string' && isHumanizeLevel(humanizeLevel)
    ? humanizeLevel : 'standard'] *)
Definition humanizeLevelText (humanizeLevel : JsVal) : HumanizeLevel :=
  match humanizeLevel with
  | JStr s =>
      if String.eqb s "off" then off
      else if String.eqb s "standard" then standard
      else if String.eqb s "strong" then strong
      else standard
  | _ => standard
  end.

Definition contentTypeText (contentType : JsVal) : ContentType :=
  match contentType with
  | JStr s =>
      if String.eqb s "long_article" then long_article
      else if String.eqb s "short_article" then short_article
      else if String.eqb s "web2_article" then web2_article
      else if String.eqb s "pr" then pr
      else if String.eqb s "webpage_revision" then webpage_revision
      else if String.eqb s "meta_tags" then meta_tags
      else if String.eqb s "webpage_summary" then webpage_summary
      else long_article
  | _ => long_article
  end.

(** [mode === m] *)
Definition modeIs (mode : JsVal) (m : string) : bool :=
  match mode with JStr s => String.eqb s m | _ => false end.

(** The values the handler derives from the request body before any
    await. *)
Record Parsed : Type := {
  topicText : string;
  userIdText : string;
  primary : string;
  secondary : string;
  keywordText : string;
  targetWordsCapped : option JsNumber;
  inputBodyText : string;
  humanizeLevelOf : HumanizeLevel;
  contentTypeOf : ContentType;
  modeOf : JsVal
}.

Definition parseRequest (P : Platform) (b : RequestBody) : Parsed :=
  let coerced v := trim (String_ P (js_or v (JStr EmptyString))) in
  let prim := trim (String_ P (js_or (js_or (keyword b) (primaryKeyword b)) (JStr EmptyString))) in
  let sec := match secondaryKeyword b with JStr s => trim s | _ => EmptyString end in
  let parsedWords := Number_ P (targetWordCount b) in
  {| topicText := match topic b with JStr s => trim s | v => coerced v end;
     userIdText := match userId b with JStr s => trim s | v => coerced v end;
     primary := prim;
     secondary := sec;
     keywordText := trim (join " " (filter (fun s => negb (isEmpty s)) [prim; sec]));
     targetWordsCapped :=
       if isFinite parsedWords && js_gt parsedWords (ofZ 0)
       then Some (clamp (Math_floor parsedWords) (ofZ 50) (ofZ 2000))
       else None;
     inputBodyText := match inputBody b with JStr s => trim s | _ => EmptyString end;
     humanizeLevelOf := humanizeLevelText (humanizeLevel b);
     contentTypeOf := contentTypeText (contentType b);
     modeOf := mode b |}.

Definition isNewsMode (p : Parsed) : bool := modeIs (modeOf p) "news".
Definition isPrivateMode (p : Parsed) : bool := modeIs (modeOf p) "private".
Definition isGeneralMode (p : Parsed) : bool := modeIs (modeOf p) "general".

(** A JSON error response: [NextResponse.json({ error, details,
    retrieval_error }, { status })]. *)
Record ErrorBody : Type := {
  httpStatus : Z;
  error_code : string;
  details : option string;
  retrieval_error : option string
}.

Inductive Response : Type :=
| Failure (e : ErrorBody)
| Success (payload : OutputForClient).

Definition failure (st : Z) (code : string) (det : option string) : Response :=
  Failure {| httpStatus := st; error_code := code; details := det; retrieval_error := None |}.

(** A row of the index after [verifyUrls]: the spread [{ ...d, url }]
    keeps the title, the content and the source as the row has them and
    sets the link to a string. *)
Record RagDoc : Type := {
  rd_title : JsVal;
  rd_url : string;
  rd_content : JsVal;
  rd_source : JsVal
}.

(** The variables the retrieval part of the handler assigns. *)
Record RetrievalState : Type := {
  context : string;
  citations : list Citation;
  st_warnings : list string;
  retrievalError : option string;
  internetFallbackUsed : bool;
  retrievedDocs : list JsVal;
  ragChunksForValidation : list RagChunk
}.

Definition initialState : RetrievalState :=
  {| context := EmptyString; citations := []; st_warnings := []; retrievalError := None;
     internetFallbackUsed := false; retrievedDocs := []; ragChunksForValidation := [] |}.

(** The two parts of retrieval that run only outside private mode: the
    public-index branch of the retrieval [try] block (with its [catch]),
    started from the initial variables, and the body of the secondary boost
    ([if (!isPrivateMode && citations.length < 3)]).  They are arbitrary
    handlers here. *)
Record PublicRetrieval : Type := {
  publicIndexBranch : Parsed -> Prog RetrievalState;
  secondaryBoost : Parsed -> RetrievalState -> Prog RetrievalState
}.

Definition remainingMs (startedAt : Z) : Prog Z :=
  now <- await DateNow ;;
  Ret (85000 - (now - startedAt)).

(** [d.content || ''] brought to text, as [join] and [String()] do, on a
    chunk that is not [null] or [undefined]. *)
Definition chunkContent (P : Platform) (d : JsVal) : string :=
  String_ P (js_or (prop d "content") (JStr EmptyString)).

Definition sopCitation (m : JsVal) : Citation :=
  {| title := JStr match prop m "title" with
                   | JStr s => if isEmpty (trim s) then "SOP" else s
                   | _ => "SOP"
                   end;
     url := match prop m "url" with JStr s => s | _ => EmptyString end;
     source := JStr "SOP" |}.

Definition privateCitations (chunks : list JsVal) : list Citation :=
  map sopCitation (filter isRecord (map (fun d => prop d "metadata") chunks)).

Definition privateRagChunks (P : Platform) (chunks : list JsVal) : list RagChunk :=
  map (fun d => {| chunk_content := chunkContent P d;
                   chunk_metadata := let m := prop d "metadata" in
                                     if isRecord m then m else JObj [] |})
      chunks.

Definition privateContext (P : Platform) (chunks : list JsVal) : string :=
  join (LF ++ LF) (map (chunkContent P) chunks).

Fixpoint escapeForIlike (s : string) : string :=
  match s with
  | EmptyString => EmptyString
  | String c r =>
      if Ascii.eqb c "%"%char || Ascii.eqb c "_"%char
      then String "\"%char (String c (escapeForIlike r))
      else String c (escapeForIlike r)
  end.

(** [fallbackPrivateTextSearch]: the rows, or the error it throws. *)
Definition fallbackPrivateTextSearch (query userId : string) (topK : Z)
  : Prog (JsError + list JsVal) :=
  let q := trim query in
  if isEmpty q then Ret (inr [])
  else
    res <- await (PrivateTextSearch ("%" ++ escapeForIlike q ++ "%") userId
                    (Z.max 1 (if topK =? 0 then 5 else topK))) ;;
    Ret match sb_error res with
        | Some e => inl e
        | None => inr match sb_data res with JArr l => l | _ => [] end
        end.

(** The state the [catch] of the retrieval [try] block leaves when the
    block threw before it assigned anything. *)
Definition retrievalFailed (err : JsError) : RetrievalState :=
  {| context := EmptyString; citations := []; st_warnings := [];
     retrievalError := Some (errorMessage err);
     internetFallbackUsed := false; retrievedDocs := [];
     ragChunksForValidation := [] |}.

(** The private branch of the retrieval [try] block, with the [catch] of
    the block.  The chunks are read with [chunks.map((d) => d.content ...)]
    first, which throws on a chunk that is [null]: from the answer of the
    edge function the error reaches the [catch] of the block before anything
    is assigned, and the text search and the default citation are passed
    over; from the rows of the text search it reaches the [catch] of the
    inner [try], after the first warning was pushed. *)
Definition privateBranch (P : Platform) (p : Parsed) : Prog RetrievalState :=
  let query := topicText p ++ " " ++ keywordText p in
  let timeoutMs := if isNewsMode p then 18000 else 12000 in
  priv <- invokeEdgeFunctionWithRetry "query-docs"
            {| eb_query := query; eb_mode := "private";
               eb_user_id := userIdText p; eb_top_k := 5 |}
            timeoutMs 2 ;;
  let assigned : JsError + RetrievalState :=
    match error priv with
    | Some privError =>
        inr {| context := EmptyString; citations := []; st_warnings := [];
               retrievalError := Some (errorMessage privError);
               internetFallbackUsed := false; retrievedDocs := [];
               ragChunksForValidation := [] |}
    | None =>
        match data priv with
        | JArr chunks =>
            match readError P "content" chunks with
            | Some thrown => inl thrown
            | None =>
                inr {| context := privateContext P chunks;
                       citations := privateCitations chunks;
                       st_warnings := []; retrievalError := None;
                       internetFallbackUsed := false; retrievedDocs := [];
                       ragChunksForValidation := privateRagChunks P chunks |}
            end
        | _ => inr initialState
        end
    end in
  match assigned with
  | inl thrown => Ret (retrievalFailed thrown)
  | inr st1 =>
      st2 <-
        (if isEmpty (context st1)
         then
           found <- fallbackPrivateTextSearch query (userIdText p) 5 ;;
           Ret match found with
               | inr fallbackChunks =>
                   match fallbackChunks with
                   | [] => st1
                   | _ =>
                       let warned :=
                         (st_warnings st1
                          ++ ["Used private text search fallback for retrieval."])%list in
                       match readError P "content" fallbackChunks with
                       | Some thrown =>
                           {| context := context st1; citations := citations st1;
                              st_warnings :=
                                (warned
                                 ++ [("Private text search fallback failed: "
                                      ++ errorMessage thrown)%string])%list;
                              retrievalError := retrievalError st1;
                              internetFallbackUsed := internetFallbackUsed st1;
                              retrievedDocs := retrievedDocs st1;
                              ragChunksForValidation := ragChunksForValidation st1 |}
                       | None =>
                           {| context := privateContext P fallbackChunks;
                              citations := privateCitations fallbackChunks;
                              st_warnings := warned;
                              retrievalError := retrievalError st1;
                              internetFallbackUsed := internetFallbackUsed st1;
                              retrievedDocs := retrievedDocs st1;
                              ragChunksForValidation := privateRagChunks P fallbackChunks |}
                       end
                   end
               | inl err =>
                   {| context := context st1; citations := citations st1;
                      st_warnings :=
                        st_warnings st1
                        ++ ["Private text search fallback failed: " ++ errorMessage err];
                      retrievalError := retrievalError st1;
                      internetFallbackUsed := internetFallbackUsed st1;
                      retrievedDocs := retrievedDocs st1;
                      ragChunksForValidation := ragChunksForValidation st1 |}
               end
         else Ret st1) ;;
      Ret (if negb (isEmpty (context st2)) && (List.length (citations st2) =? 0)%nat
           then {| context := context st2;
                   citations := [ {| title := JStr "SOP"; url := EmptyString;
                                     source := JStr "SOP" |} ];
                   st_warnings := st_warnings st2; retrievalError := retrievalError st2;
                   internetFallbackUsed := internetFallbackUsed st2;
                   retrievedDocs := retrievedDocs st2;
                   ragChunksForValidation := ragChunksForValidation st2 |}
           else st2)
  end.

Definition toHostSource (P : Platform) (url : string) : string :=
  match URL_parse P url with
  | Some u =>
      match afterLiteral "www." (hostname u) with
      | Some rest => rest
      | None => hostname u
      end
  | None => "Internet"
  end.

(** The body of the internet fallback ([if (!isPrivateMode &&
    citations.length === 0)]). *)
Definition internetFallback (P : Platform) (p : Parsed) (st : RetrievalState)
  : Prog RetrievalState :=
  r <- await (CollectInternetDocs (topicText p ++ " " ++ keywordText p) 5 15000 15000) ;;
  Ret match r with
      | inr [] => st
      | inr internetDocs =>
          let sourceOf d :=
            if isEmpty (idoc_source d) then toHostSource P (idoc_url d) else idoc_source d in
          let internetContext :=
            join (LF ++ LF)
                 (map (fun d => idoc_title d ++ LF ++ idoc_content d) internetDocs) in
          {| context := if isEmpty (context st) then internetContext
                        else internetContext ++ LF ++ LF ++ context st;
             citations :=
               map (fun d => {| title := JStr (if isEmpty (idoc_title d) then "Source"
                                               else idoc_title d);
                                url := idoc_url d; source := JStr (sourceOf d) |})
                   internetDocs;
             st_warnings :=
               (st_warnings st
                ++ ["No universe sources found; used internet sources as fallback."])%list;
             retrievalError := retrievalError st;
             internetFallbackUsed := true;
             retrievedDocs := retrievedDocs st;
             ragChunksForValidation :=
               (map (fun d => {| chunk_content := idoc_content d;
                                 chunk_metadata :=
                                   JObj [("title", JStr (idoc_title d));
                                         ("url", JStr (idoc_url d));
                                         ("source", JStr (sourceOf d))] |})
                    internetDocs
                ++ ragChunksForValidation st)%list |}
      | inl err =>
          {| context := context st; citations := citations st;
             st_warnings :=
               (st_warnings st ++ [("Internet fallback failed: " ++ errorMessage err)%string])%list;
             retrievalError := retrievalError st;
             internetFallbackUsed := internetFallbackUsed st;
             retrievedDocs := retrievedDocs st;
             ragChunksForValidation := ragChunksForValidation st |}
      end.

(** Retrieval: the [try] block, the secondary boost and the internet
    fallback. *)
Definition retrieval (P : Platform) (R : PublicRetrieval) (p : Parsed)
  : Prog RetrievalState :=
  st <- (if isPrivateMode p then privateBranch P p else publicIndexBranch R p) ;;
  st <- (if negb (isPrivateMode p) && (List.length (citations st) <? 3)%nat
         then secondaryBoost R p st else Ret st) ;;
  if negb (isPrivateMode p) && (List.length (citations st) =? 0)%nat
  then internetFallback P p st else Ret st.

(** *** Generation *)

(** [array.slice(0, n)]: how many elements it keeps of [len]. *)
Definition sliceCount (n : JsNumber) (len : nat) : nat :=
  match n with
  | NaN | NegInf => 0%nat
  | PosInf => len
  | Fin q =>
      let k := Z.quot (Qnum q) (Zpos (Qden q)) in
      if k <? 0 then Z.to_nat (Z.max (Z.of_nat len + k) 0)
      else Nat.min (Z.to_nat k) len
  end.

Definition candidates (env : Env) : list string :=
  filter (fun m => negb (isEmpty m)) [textModel env; textModelFallback env; "openrouter/auto"].

Definition perAttemptMs (P : Platform) (env : Env) (p : Parsed) : JsNumber :=
  let longForm :=
    match targetWordsCapped p with
    | Some w => negb (js_lt w (ofZ 1500)) && negb (match w with NaN => true | _ => false end)
    | None => false
    end in
  envNumber P (GENERATION_ATTEMPT_TIMEOUT_MS env)
    (if longForm then 40000 else if isNewsMode p then 30000 else 35000).

Definition maxAttempts (P : Platform) (env : Env) : JsNumber :=
  let len := Z.of_nat (List.length (candidates env)) in
  Math_min (envNumber P (GENERATION_MAX_ATTEMPTS env) (Z.min 2 len)) (ofZ len).

(** The loop over the candidate models: the body kept and the last error. *)
Fixpoint generationLoop (system user : string) (timeoutMs : JsNumber)
    (models : list string) (lastError : string) : Prog (string * string) :=
  match models with
  | [] => Ret (EmptyString, lastError)
  | model :: rest =>
      gen <- callOpenRouterText model system user timeoutMs "generate" ;;
      match gen with
      | TextFail reason => generationLoop system user timeoutMs rest reason
      | TextOk text =>
          if isEmpty text then generationLoop system user timeoutMs rest lastError
          else Ret (text, lastError)
      end
  end.

(** [contentSourceNotice] *)
Definition contentSourceNotice (internetFallbackUsed : bool) (citations : list Citation)
  : string :=
  if internetFallbackUsed
  then match citations with
       | [] => "Sources could not be retrieved; this draft was generated without verified sources and is not from the approved universe."
       | _ => "This content was generated from internet sources, not from the approved universe of public domains."
       end
  else EmptyString.

(** What the handler holds once retrieval is settled and the
    [citations.length === 0] gate has been passed. *)
Record Evidence : Type := {
  ev_context : string;
  ev_citations : list Citation;
  ev_warnings : list string;
  ev_internetFallbackUsed : bool;
  ev_ragChunks : list RagChunk
}.

Definition noticeOf (ev : Evidence) : string :=
  contentSourceNotice (ev_internetFallbackUsed ev) (ev_citations ev).

Definition canonical (P : Platform) (ev : Evidence) (text : string) : string :=
  withCanonicalSources P text (ev_citations ev) (ev_internetFallbackUsed ev) (noticeOf ev).

(** *** Rewrite pass *)

(** The first three conjuncts of [shouldRewrite]; the fourth,
    [remainingMs() > 20000], is read from the clock only when these hold. *)
Definition rewriteConfigured (env : Env) (p : Parsed) : bool :=
  negb (isEmpty (humanizeContentModel env))
  && negb (HumanizeLevel_eqb (humanizeLevelOf p) off)
  && negb (isMetaTags (contentTypeOf p)).

Definition shouldRewrite (env : Env) (p : Parsed) (startedAt : Z) : Prog bool :=
  if rewriteConfigured env p
  then left <- remainingMs startedAt ;; Ret (20000 <? left)
  else Ret false.

Definition modeString (P : Platform) (p : Parsed) : string :=
  String_ P (js_or (modeOf p) (JStr EmptyString)).

(** The rewrite block: the body and [humanized] after it. *)
Definition rewritePass (P : Platform) (T : Prompts) (env : Env) (p : Parsed)
    (startedAt : Z) (ev : Evidence) (finalBody : string) : Prog (string * bool) :=
  go <- shouldRewrite env p startedAt ;;
  if go then
    let rewriteUser :=
      "Topic: " ++ topicText p ++ LF ++ "Mode: " ++ modeString P p ++ LF
      ++ "Has sources: " ++ (match ev_citations ev with [] => "no" | _ => "yes" end)
      ++ LF ++ LF ++ "Markdown to rewrite:" ++ LF ++ finalBody in
    rewrite1 <- callOpenRouterText (humanizeContentModel env) (rewriteSystemStandard T)
                  rewriteUser (ofZ 20000) "rewrite_standard" ;;
    let '(body1, humanized1) :=
      match rewrite1 with
      | TextOk text => if isEmpty text then (finalBody, false) else (canonical P ev text, true)
      | TextFail _ => (finalBody, false)
      end in
    again <- (if HumanizeLevel_eqb (humanizeLevelOf p) strong
              then left <- remainingMs startedAt ;; Ret (20000 <? left)
              else Ret false) ;;
    if again then
      rewrite2 <- callOpenRouterText (humanizeContentModel env) (rewriteSystemStrong T)
                    ("Markdown to rewrite:" ++ LF ++ body1) (ofZ 20000) "rewrite_strong" ;;
      Ret match rewrite2 with
          | TextOk text =>
              if isEmpty text then (body1, humanized1) else (canonical P ev text, true)
          | TextFail _ => (body1, humanized1)
          end
    else Ret (body1, humanized1)
  else Ret (finalBody, false).

(** *** Validation gate *)

Definition skippedResult : ValidationAgentResult := failed "validation_skipped_time_budget".

(** The value [swarm] takes when the swarm is not run. *)
Definition skippedSwarm : SwarmOutcome :=
  {| results := {| citation := skippedResult; recency := skippedResult;
                   fact_check := skippedResult; tone := skippedResult |};
     trustScore := ofZ 0;
     warnings := ["This content requires manual review."];
     agentInserts := [] |}.

Definition swarmArgsOf (P : Platform) (env : Env) (p : Parsed) (ev : Evidence)
    (finalBody todayISO : string) : SwarmArgs :=
  {| sw_draft := finalBody;
     sw_mode := modeString P p;
     sw_topic := topicText p;
     sw_keyword := keywordText p;
     sw_citations := ev_citations ev;
     sw_ragChunks := match ev_ragChunks ev with
                     | [] => [ {| chunk_content := ev_context ev; chunk_metadata := JObj [] |} ]
                     | l => l
                     end;
     sw_todayISO := todayISO;
     sw_recencyDays := if truthy (JNum (recencyDays env)) then recencyDays env else ofZ 30;
     sw_internetFallbackUsed := ev_internetFallbackUsed ev |}.

(** [remainingMs() > 15000 ? await validation_swarm({...}) : {...}] *)
Definition validationGate (P : Platform) (T : Prompts) (env : Env) (p : Parsed)
    (startedAt : Z) (ev : Evidence) (finalBody : string) : Prog SwarmOutcome :=
  todayISO <- await TodayISO ;;
  left <- remainingMs startedAt ;;
  if 15000 <? left
  then validation_swarm P T env (swarmArgsOf P env p ev finalBody todayISO)
  else Ret skippedSwarm.

(** *** Workflow Decider and response *)

Record Decision : Type := {
  decidedBlocked : bool;
  requiresReview : bool;
  workflowStatus : string
}.

(** The decision lines of [POST]: [blocked], [requiresReview] and
    [workflowStatus] from [env.trustThreshold], [swarm.trustScore] and
    [swarm.agentInserts]. *)
Definition workflowDecider (threshold score : JsNumber) (inserts : list AgentInsert)
  : Decision :=
  let isBlocked := js_lt score threshold in
  let review := isBlocked || existsb (fun a => Status_eqb (agent_status a) fail) inserts in
  {| decidedBlocked := isBlocked;
     requiresReview := review;
     workflowStatus := if review then "review" else "draft" |}.

Definition outputForDb (base : BaseOutput) (finalBody : string) (isBlocked : bool)
  : OutputForDb :=
  {| db_base := base; db_body := finalBody; db_blocked := isBlocked |}.

Definition outputForClient (base : BaseOutput) (finalBody : string) (isBlocked : bool)
    (insertedDraftId : string) : OutputForClient :=
  {| cl_base := base;
     body := if isBlocked then EmptyString else finalBody;
     review_body := if isBlocked then finalBody else EmptyString;
     blocked := isBlocked;
     draft_id := insertedDraftId |}.

(** ['k' in v] on a record *)
Definition hasKey (k : string) (v : JsVal) : bool :=
  match v with
  | JObj fs => existsb (fun kv => String.eqb k (fst kv)) fs
  | _ => false
  end.

(** The body the handler ends with: the generation notice in front of the
    trimmed draft. *)
Definition noticedBody (p : Parsed) (ev : Evidence) (review : bool) (draft : string)
  : string :=
  buildGenerationNotice
    (if isPrivateMode p then "Private SOP context"
     else if ev_internetFallbackUsed ev then "Internet fallback" else "Universe-based")
    (if review then "Needs manual review" else "Validated")
  ++ trim draft.

(** From the decision to the response: the outputs, the two inserts and
    the JSON answer. *)
Definition respond (P : Platform) (env : Env) (p : Parsed) (ev : Evidence)
    (draft : string) (humanized : bool) (swarm : SwarmOutcome) : Prog Response :=
  let d := workflowDecider (trustThreshold env) (trustScore swarm) (agentInserts swarm) in
  let merged := (ev_warnings ev ++ warnings swarm)%list in
  let mergedWarnings :=
    match merged with
    | [] => if decidedBlocked d then ["This content requires manual review."] else []
    | _ => merged
    end in
  let finalBody := noticedBody p ev (requiresReview d) draft in
  let baseOutput :=
    {| out_citations := ev_citations ev;
       validation_results := results swarm;
       trust_score := trustScore swarm;
       out_warnings := mergedWarnings;
       internet_fallback_used := ev_internetFallbackUsed ev;
       content_source := if isPrivateMode p then "private"
                         else if ev_internetFallbackUsed ev then "internet" else "universe";
       content_source_notice := noticeOf ev;
       out_humanized := humanized;
       out_status := workflowStatus d |} in
  insertDraftRes <-
    await (InsertGeneratedContent
             {| row_user_id := userIdText p; row_topic := topicText p; row_mode := modeOf p;
                output_json := outputForDb baseOutput finalBody (decidedBlocked d);
                row_trust_score := trustScore swarm;
                requires_review := requiresReview d |}) ;;
  let insertedDraftId :=
    match insertDraftRes with
    | TimedOut => EmptyString
    | Resolved value =>
        let dat := prop value "data" in
        if isRecord dat && hasKey "id" dat
        then String_ P (js_or (prop dat "id") (JStr EmptyString))
        else EmptyString
    end in
  _ <- (if isEmpty insertedDraftId then Ret tt
        else
          _ <- await (InsertAgentResults
                        (map (fun a => {| arow_draft_id := insertedDraftId; arow_insert := a |})
                             (agentInserts swarm))) ;;
          Ret tt) ;;
  Ret (Success (outputForClient baseOutput finalBody (decidedBlocked d) insertedDraftId)).

(** The [citations.length === 0] gate: the rejection in private mode, or
    the evidence the rest of the handler works with. *)
Definition sourcesGate (p : Parsed) (st : RetrievalState) : Response + Evidence :=
  let ctx := sliceTo 8000 (context st) in
  match citations st with
  | [] =>
      if isPrivateMode p
      then inl (Failure {| httpStatus := 422; error_code := "no_sources";
                           details := Some "No valid sources found from retrieved RAG documents.";
                           retrieval_error := retrievalError st |})
      else inr {| ev_context := ctx; ev_citations := [];
                  ev_warnings :=
                    (st_warnings st
                     ++ ["No sources could be retrieved; generated a draft without verifiable citations."])%list;
                  ev_internetFallbackUsed := true;
                  ev_ragChunks := ragChunksForValidation st |}
  | cs =>
      inr {| ev_context := ctx; ev_citations := cs; ev_warnings := st_warnings st;
             ev_internetFallbackUsed := internetFallbackUsed st;
             ev_ragChunks := ragChunksForValidation st |}
  end.

Definition promptInputs (p : Parsed) (ev : Evidence) : PromptInputs :=
  {| pi_topic := topicText p; pi_primary := primary p; pi_secondary := secondary p;
     pi_mode := modeOf p; pi_contentType := contentTypeName (contentTypeOf p);
     pi_targetWordsCapped := targetWordsCapped p; pi_inputBody := inputBodyText p;
     pi_citations := ev_citations ev; pi_context := ev_context ev;
     pi_internetFallbackUsed := ev_internetFallbackUsed ev;
     pi_contentSourceNotice := noticeOf ev |}.

(** From the generation loop to the response. *)
Definition generateAndValidate (P : Platform) (T : Prompts) (env : Env) (p : Parsed)
    (startedAt : Z) (ev : Evidence) : Prog Response :=
  let inputs := promptInputs p ev in
  let models :=
    firstn (sliceCount (maxAttempts P env) (List.length (candidates env))) (candidates env) in
  gen <- generationLoop (generationSystem T inputs) (generationUser T inputs)
           (perAttemptMs P env p) models EmptyString ;;
  let '(text, lastError) := gen in
  if isEmpty text
  then Ret (failure 500 "generation_failed"
              (Some (if isEmpty lastError then "No model succeeded" else lastError)))
  else
    rewritten <- rewritePass P T env p startedAt ev (canonical P ev text) ;;
    let '(draft, humanized) := rewritten in
    swarm <- validationGate P T env p startedAt ev draft ;;
    respond P env p ev draft humanized swarm.

(** The handler after retrieval. *)
Definition afterRetrieval (P : Platform) (T : Prompts) (env : Env) (p : Parsed)
    (startedAt : Z) (st : RetrievalState) : Prog Response :=
  match sourcesGate p st with
  | inl rejection => Ret rejection
  | inr ev => generateAndValidate P T env p startedAt ev
  end.

(** The checks made before retrieval: the early response, if any. *)
Definition configurationCheck (env : Env) (p : Parsed) : option Response :=
  if isEmpty (supabaseServiceRoleKey env)
  then Some (failure 500 "Server configuration error" None)
  else if isEmpty (topicText p) || isEmpty (keywordText p) || isEmpty (userIdText p)
  then Some (failure 400 "topic, primaryKeyword, userId required" None)
  else match requireKeys [("openRouterApiKey", openRouterApiKey env)] with
       | Some _ => Some (failure 500 "missing_openrouter_key" None)
       | None => None
       end.

Definition swarmAgentsCheck (env : Env) (p : Parsed) : option Response :=
  let missing e := Some (failure 500 "missing_validation_swarm_agents" (Some (errorMessage e))) in
  match requireKeys [("validationSwarmAgent1", validationSwarmAgent1 env);
                     ("validationSwarmAgent3", validationSwarmAgent3 env);
                     ("validationSwarmAgent4", validationSwarmAgent4 env)] with
  | Some e => missing e
  | None =>
      if isNewsMode p
      then match requireKeys [("validationSwarmAgent2", validationSwarmAgent2 env)] with
           | Some e => missing e
           | None => None
           end
      else None
  end.

(** [POST]: the request body as [req.json()] gives it, or the error thrown
    while it is read. *)
Definition POST (P : Platform) (T : Prompts) (R : PublicRetrieval) (env : Env)
    (req : JsError + RequestBody) : Prog Response :=
  match req with
  | inl err =>
      Ret (failure 500 "server_error"
             (Some (if isEmpty (errorMessage err) then "Unknown error" else errorMessage err)))
  | inr b =>
      let p := parseRequest P b in
      match configurationCheck env p with
      | Some early => Ret early
      | None =>
          startedAt <- await DateNow ;;
          match swarmAgentsCheck env p with
          | Some early => Ret early
          | None =>
              _ <- await (BackgroundCollect (keywordText p)) ;;
              st <- retrieval P R p ;;
              afterRetrieval P T env p startedAt st
          end
      end
  end.

(* ================================================================== *)
(** ** A concrete environment *)

Module Demo.

Definition verdict (st : string) : JsVal :=
  JObj [("status", JStr st); ("issues", JArr []); ("confidence", JNum (ofZ 1))].

(** [String(v)] on the values the examples hold; of the numbers, the
    integers. *)
Fixpoint stringOf (v : JsVal) : string :=
  match v with
  | JUndefined => "undefined"
  | JNull => "null"
  | JBool true => "true"
  | JBool false => "false"
  | JNum NaN => "NaN"
  | JNum PosInf => "Infinity"
  | JNum NegInf => "-Infinity"
  | JNum (Fin q) => ofInt (Qfloor q)
  | JStr s => s
  | JArr l =>
      join ","
           ((fix elements (l : list JsVal) : list string :=
               match l with
               | [] => []
               | x :: r =>
                   match x with
                   | JUndefined | JNull => EmptyString
                   | _ => stringOf x
                   end :: elements r
               end) l)
  | JObj _ => "[object Object]"
  end.

(** The message of V8 for a property read on [null] or [undefined]. *)
Definition cannotRead (v : JsVal) (k : string) : string :=
  "Cannot read properties of "
  ++ match v with JUndefined => "undefined" | _ => "null" end
  ++ " (reading '" ++ k ++ "')".

Definition platform : Platform :=
  {| coerceString := stringOf;
     coerceNumber := fun _ => NaN;
     URL_parse := fun s =>
       if startsWith s "https://"
       then Some {| protocol := "https:"; hostname := "www.fda.gov"; href := s |}
       else if startsWith s "ftp://"
       then Some {| protocol := "ftp:"; hostname := "files.example"; href := s |}
       else None;
     JSON_parse := fun s =>
       if includes s "pass" then Some (verdict "pass")
       else if includes s "fail" then Some (verdict "fail")
       else None;
     nullReadMessage := cannotRead |}.

Definition prompts : Prompts :=
  {| swarmSystem := fun agent _ _ => agent;
     swarmUser := fun payload => bp_draft payload;
     generationSystem := fun _ => "system";
     generationUser := fun inputs => pi_topic inputs;
     rewriteSystemStandard := "standard";
     rewriteSystemStrong := "strong" |}.

Definition env : Env :=
  {| appBaseUrl := "http://localhost:3000";
     supabaseServiceRoleKey := "service-role";
     openRouterApiKey := "key";
     textModel := "model-a";
     textModelFallback := EmptyString;
     humanizeContentModel := EmptyString;
     validationSwarmAgent1 := "agent-1";
     validationSwarmAgent2 := "agent-2";
     validationSwarmAgent3 := "agent-3";
     validationSwarmAgent4 := "agent-4";
     recencyDays := ofZ 30;
     trustThreshold := ofZ 80;
     allowedDomains := ["fda.gov"; "nih.gov"; "cdc.gov"];
     GENERATION_ATTEMPT_TIMEOUT_MS := EmptyString;
     GENERATION_MAX_ATTEMPTS := EmptyString |}.


(** The same configuration with a rewrite model. *)
Definition envWithRewriter : Env :=
  {| appBaseUrl := appBaseUrl env;
     supabaseServiceRoleKey := supabaseServiceRoleKey env;
     openRouterApiKey := openRouterApiKey env;
     textModel := textModel env;
     textModelFallback := textModelFallback env;
     humanizeContentModel := "rewriter";
     validationSwarmAgent1 := validationSwarmAgent1 env;
     validationSwarmAgent2 := validationSwarmAgent2 env;
     validationSwarmAgent3 := validationSwarmAgent3 env;
     validationSwarmAgent4 := validationSwarmAgent4 env;
     recencyDays := recencyDays env;
     trustThreshold := trustThreshold env;
     allowedDomains := allowedDomains env;
     GENERATION_ATTEMPT_TIMEOUT_MS := EmptyString;
     GENERATION_MAX_ATTEMPTS := EmptyString |}.

Definition request (m : string) : RequestBody :=
  {| topic := JStr "Drug X";
     keyword := JUndefined;
     primaryKeyword := JStr "drug X approval";
     secondaryKeyword := JUndefined;
     mode := JStr m;
     userId := JStr "user-1";
     targetWordCount := JUndefined;
     contentType := JUndefined;
     inputBody := JUndefined;
     humanizeLevel := JUndefined |}.

Definition fdaLabel : Citation :=
  {| title := JStr "FDA label"; url := "https://www.fda.gov/label"; source := JStr "fda.gov" |}.

(** A public retrieval that finds the given citations at once. *)
Definition found (cs : list Citation) : PublicRetrieval :=
  {| publicIndexBranch := fun _ =>
       Ret {| context := "Evidence text"; citations := cs; st_warnings := [];
              retrievalError := None; internetFallbackUsed := false; retrievedDocs := [];
              ragChunksForValidation := [] |};
     secondaryBoost := fun _ st => Ret st |}.

Definition evidence (cs : list Citation) (fallback : bool) : Evidence :=
  {| ev_context := "Evidence text"; ev_citations := cs; ev_warnings := [];
     ev_internetFallbackUsed := fallback; ev_ragChunks := [] |}.

(** An environment: the clock reads [clock] of the history, the edge
    function answers [edge], the generation and rewrite models answer
    [model purpose], the validation agents answer [agent purpose]. *)
Definition oracle (clock : list Call -> Z) (edge : Timed (option SupabaseResult))
    (model agent : string -> string) : Oracle :=
  fun h c =>
    match c as c' return Resp c' with
    | DateNow => clock h
    | TodayISO => "2026-01-15"
    | BackgroundCollect _ => tt
    | FunctionsInvoke _ _ _ => edge
    | Sleep _ => tt
    | PrivateTextSearch _ _ _ => {| sb_data := JNull; sb_error := None |}
    | PublicTextSearch _ _ => {| sb_data := JNull; sb_error := None |}
    | CollectDocuments _ _ => None
    | ProbeUrl u _ => ProbeAnswered 200 u
    | CollectInternetDocs _ _ _ _ => inr []
    | ChatCompletion purpose _ _ _ zero _ =>
        ChatOk (if zero then agent purpose else model purpose)
    | InsertGeneratedContent _ =>
        Resolved (JObj [("data", JObj [("id", JStr "draft-1")]); ("error", JNull)])
    | InsertAgentResults _ => Resolved (JObj [("error", JNull)])
    end.

Definition allPass (purpose : string) : string := "pass".

Definition factCheckFails (purpose : string) : string :=
  if String.eqb purpose "validation_fact_check" then "fail" else "pass".

Definition noReply : Timed (option SupabaseResult) := TimedOut.

(** The clock that reads 0 first and [later] afterwards. *)
Definition clockJump (later : Z) (h : list Call) : Z :=
  if existsb (fun c => match c with DateNow => true | _ => false end) h then later else 0.

End Demo.

(* ================================================================== *)
(** ** Reference formulas *)

(** The penalty table as the specification words it. *)
Definition spec_penalty (weight : Z) (applies : bool) (s : Status) : Z :=
  match s with
  | fail => if applies then weight else 0
  | pass => 0
  end.

(** [clamp(100 - sum(applicable penalties), 0, 100)] over the four
    statuses and the recency-applicability flag. *)
Definition spec_trustScore (citationStatus recencyStatus factCheckStatus toneStatus : Status)
    (recencyApplies : bool) : Z :=
  Z.max 0
    (Z.min 100
       (100 - (spec_penalty 25 true citationStatus
               + spec_penalty 20 recencyApplies recencyStatus
               + spec_penalty 40 true factCheckStatus
               + spec_penalty 15 true toneStatus))).






(** *** Strings *)

(** The anchored matcher accepts at some index of the string. *)
Fixpoint anyMatch (m : string -> bool) (s : string) : bool :=
  m s || match s with
         | EmptyString => false
         | String _ r => anyMatch m r
         end.

(** The text before the first index at which the matcher accepts (the
    whole text when there is none). *)
Fixpoint cutAt (m : string -> bool) (s : string) : string :=
  if m s then EmptyString
  else match s with
       | EmptyString => EmptyString
       | String c r => String c (cutAt m r)
       end.

Fixpoint allWhiteSpace (s : string) : bool :=
  match s with
  | EmptyString => true
  | String c r => isWhiteSpace c && allWhiteSpace r
  end.

(** A matcher that keeps accepting when text is added after the string. *)
Definition Extensible (m : string -> bool) : Prop :=
  forall a b, m a = true -> m (a ++ b) = true.

(** The string is empty or ends with a character that is not white space. *)
Fixpoint endsClean (s : string) : bool :=
  match s with
  | EmptyString => true
  | String c EmptyString => negb (isWhiteSpace c)
  | String _ r => endsClean r
  end.

Fixpoint allChars (p : ascii -> bool) (s : string) : bool :=
  match s with
  | EmptyString => true
  | String c r => p c && allChars p r
  end.

(** The section appended when the body has no notice heading. *)
Definition noticeSection (contentSourceNotice : string) : string :=
  LF ++ LF ++ "## Content Source Notice" ++ LF ++ contentSourceNotice ++ LF.

(** *** Runs *)

(** A property of every run of a handler: of its result and of the awaits
    it makes, in the environment and from the history of the run, whatever
    they are. *)
Definition Ensures {A : Type} (m : Prog A)
    (Q : Oracle -> list Call -> A -> list Call -> Prop) : Prop :=
  forall (o : Oracle) (h : list Call), Q o h (fst (exec o h m)) (snd (exec o h m)).

Definition isChatCompletion (c : Call) : bool :=
  match c with ChatCompletion _ _ _ _ _ _ => true | _ => false end.

Definition isInternetCollection (c : Call) : bool :=
  match c with CollectInternetDocs _ _ _ _ => true | _ => false end.

(** A chat completion called for text ([callOpenRouterText]). *)
Definition isTextCompletion (c : Call) : bool :=
  match c with ChatCompletion _ _ _ _ false _ => true | _ => false end.

(** The text that a chat completion called for text hands to the handler:
    its answer trimmed, when it answered and the answer is not blank. *)
Definition textAnswer (c : Call) : Resp c -> option string :=
  match c as c' return Resp c' -> option string with
  | ChatCompletion _ _ _ _ false _ => fun r =>
      match r with
      | ChatOk content => if isEmpty (trim content) then None else Some (trim content)
      | _ => None
      end
  | _ => fun _ => None
  end.

(** The texts the models wrote in a run: the answers of the text
    completions among the awaits [t] made from the history [h], in the
    order of the awaits. *)
Fixpoint textAnswers (o : Oracle) (h t : list Call) : list string :=
  match t with
  | [] => []
  | c :: rest =>
      (match textAnswer c (o h c) with Some s => [s] | None => [] end
       ++ textAnswers o (h ++ [c]) rest)%list
  end.

(** The text of the model that a run ends with: the last text written. *)
Definition modelText (o : Oracle) (h t : list Call) : string :=
  last (textAnswers o h t) EmptyString.

(** The generation notice that opens every body: where the content comes
    from and whether it needs review. *)
Definition generationNotice (isPrivate fallback review : bool) : string :=
  "## Generation Notice" ++ LF
  ++ "Content source: "
  ++ (if isPrivate then "Private SOP context"
      else if fallback then "Internet fallback" else "Universe-based")
  ++ LF
  ++ "Status: " ++ (if review then "Needs manual review" else "Validated") ++ LF ++ LF.

(** The body of a response as the specification words it: the generation
    notice in front of the text of the model closed by the canonical sources
    and, if it comes to that, the content source notice. *)
Definition fullBody (P : Platform) (isPrivate : bool) (base : BaseOutput) (review : bool)
    (text : string) : string :=
  generationNotice isPrivate (internet_fallback_used base) review
  ++ trim (withCanonicalSources P text (out_citations base) (internet_fallback_used base)
             (content_source_notice base)).

(** What a successful response owes to the evidence it was served from and
    to the run: a model wrote a text; the full body is the generation notice
    in front of the last text written, closed by [canonical]; the row sent to
    the store carries that body and the review flag; the payload is
    [outputForClient] of it. *)
Definition served (P : Platform) (p : Parsed) (ev : Evidence) (o : Oracle) (h : list Call)
    (resp : Response) (trace : list Call) : Prop :=
  match resp with
  | Failure _ => True
  | Success payload =>
      let text := modelText o h trace in
      textAnswers o h trace <> []
      /\ exists review row,
        In (InsertGeneratedContent row) trace
        /\ requires_review row = review
        /\ output_json row
           = outputForDb (cl_base payload) (noticedBody p ev review (canonical P ev text))
               (blocked payload)
        /\ payload
           = outputForClient (cl_base payload) (noticedBody p ev review (canonical P ev text))
               (blocked payload) (draft_id payload)
        /\ out_citations (cl_base payload) = ev_citations ev
        /\ internet_fallback_used (cl_base payload) = ev_internetFallbackUsed ev
        /\ content_source_notice (cl_base payload) = noticeOf ev
  end.

(** Every await the handler can make satisfies [S]. *)
Fixpoint AllCalls {A : Type} (S : Call -> Prop) (p : Prog A) : Prop :=
  match p with
  | Ret _ => True
  | Vis c k => S c /\ forall r, AllCalls S (k r)
  end.

(** Every result the handler can return satisfies [R]. *)
Fixpoint Results {A : Type} (R : A -> Prop) (p : Prog A) : Prop :=
  match p with
  | Ret a => R a
  | Vis c k => forall r, Results R (k r)
  end.

(** An await that is neither a chat completion nor the internet
    search-and-scrape. *)
Definition isRetrievalCall (c : Call) : bool :=
  negb (isChatCompletion c) && negb (isInternetCollection c).

(* ================================================================== *)
(** ** Further helpers of the generation route *)

(** *** Hero image seed *)

(** [ToInt32] and [ToUint32] of an integer. *)
Definition toInt32 (z : Z) : Z :=
  let m := z mod 4294967296 in
  if m <? 2147483648 then m else m - 4294967296.

Definition toUint32 (z : Z) : Z := z mod 4294967296.

(** [a ^ b] *)
Definition js_xor (a b : Z) : Z := toInt32 (Z.lxor (toInt32 a) (toInt32 b)).

(** [Math.imul(a, b)] *)
Definition Math_imul (a b : Z) : Z := toInt32 (toInt32 a * toInt32 b).

(** The loop of [stableSeedFromString] over the code units of the string. *)
Fixpoint seedLoop (h : Z) (str : string) : Z :=
  match str with
  | EmptyString => h
  | String c r => seedLoop (Math_imul (js_xor h (Z.of_N (code c))) 16777619) r
  end.

(** [(h >>> 0) % 1000000000] after the loop. *)
Definition stableSeedFromString (input : string) : Z :=
  toUint32 (seedLoop 2166136261 input) mod 1000000000.

(** *** Keyword score *)

(** The class [[a-z0-9]]. *)
Definition isLowerAlnum (c : ascii) : bool :=
  let n := code c in
  ((97 <=? n) && (n <=? 122) || (48 <=? n) && (n <=? 57))%N.

(** [s.split(sep)] for a pattern [sep] that matches the maximal runs of the
    characters of a class: the pieces between the runs, the empty pieces at
    the two ends included. *)
Fixpoint splitRuns (isSep : ascii -> bool) (s : string) : list string :=
  match s with
  | EmptyString => [EmptyString]
  | String c r =>
      let pieces := splitRuns isSep r in
      if isSep c
      then match r with
           | String d _ => if isSep d then pieces else EmptyString :: pieces
           | EmptyString => EmptyString :: pieces
           end
      else match pieces with
           | p :: q => String c p :: q
           | [] => [String c EmptyString]
           end
  end.

(** The tokens of a keyword: [keyword.toLowerCase().split(/[^a-z0-9]+/g)
    .map((t) => t.trim()).filter((t) => t.length >= 4)]. *)
Definition keywordTokens (keyword : string) : list string :=
  filter (fun t => (4 <=? String.length t)%nat)
         (map trim (splitRuns (fun c => negb (isLowerAlnum c)) (toLowerCase keyword))).

Definition scoreKeywordMatch (text keyword : string) : Z :=
  let hay := toLowerCase text in
  let tokens := keywordTokens keyword in
  match tokens with
  | [] => 0
  | _ => fold_left (fun score t => if includes hay t then score + 1 else score) tokens 0
  end.

(* ================================================================== *)
(** ** Retrieval outside private mode *)

(** [v || ''] on a text that may be absent. *)
Definition orEmpty (o : option string) : string :=
  match o with Some s => s | None => EmptyString end.

(** [{ ...d, url }]: the fields the route reads of a row that is not
    [null], with the link set. *)
Definition setRowUrl (d : JsVal) (u : string) : RagDoc :=
  {| rd_title := prop d "title"; rd_url := u;
     rd_content := prop d "content"; rd_source := prop d "source" |}.

(** [{ ...d, url }] on a row that went through it already. *)
Definition setUrl (d : RagDoc) (u : string) : RagDoc :=
  {| rd_title := rd_title d; rd_url := u;
     rd_content := rd_content d; rd_source := rd_source d |}.

(** [Promise.all(items.map(f))], the awaits taken in the order of the
    items. *)
Fixpoint mapM {A B : Type} (f : A -> Prog B) (l : list A) : Prog (list B) :=
  match l with
  | [] => Ret []
  | x :: r => b <- f x ;; bs <- mapM f r ;; Ret (b :: bs)
  end.

(** *** Evidence Verifier: the list *)

(** [String(d.url || '').trim()] on a row that is not [null]. *)
Definition rowUrl (P : Platform) (d : JsVal) : string :=
  trim (String_ P (js_or (prop d "url") (JStr EmptyString))).

(** The callback of [docs.map] at the head of [verifyUrls], on a row that
    is not [null]. *)
Definition normalizedDoc (P : Platform) (d : JsVal) : RagDoc :=
  let raw := rowUrl P d in
  if isEmpty raw then setRowUrl d EmptyString
  else setRowUrl d (normalizeUrlString P raw).

(** [toCheck]: the first eight rows that carry a link, with their
    index. *)
Definition toCheckOf (normalized : list RagDoc) : list (nat * string) :=
  firstn 8
    (filter (fun x => negb (isEmpty (snd x)))
            (mapi (fun idx d => (idx, trim (rd_url d))) 0 normalized)).

(** [normalized[idx] = { ...normalized[idx], url }] *)
Fixpoint setUrlAt (idx : nat) (u : string) (normalized : list RagDoc) {struct normalized}
  : list RagDoc :=
  match normalized, idx with
  | [], _ => []
  | d :: r, O => setUrl d u :: r
  | d :: r, S i => d :: setUrlAt i u r
  end.

(** The [for] loop of [verifyUrls] over the rows and their checks: the
    indices accepted and the list with the links replaced. *)
Fixpoint acceptLoop (rows : list ((nat * string) * UrlCheck)) (okIndex : list nat)
    (normalized : list RagDoc) : list nat * list RagDoc :=
  match rows with
  | [] => (okIndex, normalized)
  | (row, chk) :: rest =>
      if chk_ok chk
      then acceptLoop rest (okIndex ++ [fst row]) (setUrlAt (fst row) (chk_url chk) normalized)
      else acceptLoop rest okIndex normalized
  end.

(** [verifyUrls]: the rows it keeps, or the [TypeError] that [docs.map]
    throws at a row that is [null], before any link is probed. *)
Definition verifyUrls (P : Platform) (docs : list JsVal) : Prog (JsError + list RagDoc) :=
  match readError P "url" docs with
  | Some thrown => Ret (inl thrown)
  | None =>
      let normalized := map (normalizedDoc P) docs in
      let toCheck := toCheckOf normalized in
      checks <- mapM (fun x => checkUrlExists P (snd x) 3000) toCheck ;;
      let '(okIndex, normalized') := acceptLoop (combine toCheck checks) [] normalized in
      Ret (inr (map snd
                  (filter (fun ix => existsb (Nat.eqb (fst ix)) okIndex)
                          (mapi (fun idx d => (idx, d)) 0 normalized'))))
  end.

(** *** Text search over the public documents *)

(** [fallbackPublicTextSearch]: the rows, or the error it throws.  The
    await carries the filter given to [or] and the limit. *)
Definition fallbackPublicTextSearch (query : string) (topK : Z)
  : Prog (JsError + list JsVal) :=
  let q := trim query in
  if isEmpty q then Ret (inr [])
  else
    let qLike := "%" ++ escapeForIlike q ++ "%" in
    res <- await (PublicTextSearch ("title.ilike." ++ qLike ++ ",content.ilike." ++ qLike)
                    (Z.max 1 (if topK =? 0 then 5 else topK))) ;;
    Ret match sb_error res with
        | Some e => inl e
        | None => inr match sb_data res with JArr l => l | _ => [] end
        end.

(** *** The public-index branch *)

(** [{ title: d.title || 'Source', url: d.url || '', source: d.source ||
    'Unknown' }] *)
Definition docCitation (d : RagDoc) : Citation :=
  {| title := js_or (rd_title d) (JStr "Source");
     url := rd_url d;
     source := js_or (rd_source d) (JStr "Unknown") |}.

(** [docs.map((d) => `${d.title || ''}\n${d.content || ''}`).join('\n\n')] *)
Definition docContext (P : Platform) (docs : list RagDoc) : string :=
  join (LF ++ LF)
       (map (fun d => String_ P (js_or (rd_title d) (JStr EmptyString)) ++ LF
                      ++ String_ P (js_or (rd_content d) (JStr EmptyString)))
            docs).

Definition docChunks (P : Platform) (docs : list RagDoc) : list RagChunk :=
  map (fun d => {| chunk_content := String_ P (js_or (rd_content d) (JStr EmptyString));
                   chunk_metadata :=
                     JObj [("title", js_or (rd_title d) (JStr "Source"));
                           ("url", JStr (rd_url d));
                           ("source", js_or (rd_source d) (JStr "Unknown"))] |})
      docs.

(** What the branch reads off a retrieval error besides [errorMessage]:
    the text [msg] of a value that is neither an [Error] nor a string
    (given by its JSON text), and the text [ctxBodyText] of the [context.body]
    of a value that is not a string. *)
Record ErrorDetails : Type := {
  messageOfOther : string -> string;
  contextBodyText : JsError -> string
}.

Definition retrievalErrorWarnings (D : ErrorDetails) (retError : JsError) : list string :=
  let msg := match retError with
             | ErrorObject m => m
             | ErrorString s => s
             | ErrorOther j => messageOfOther D j
             end in
  let ctxBodyText := match retError with
                     | ErrorString _ => EmptyString
                     | _ => contextBodyText D retError
                     end in
  if includes msg "No recent data found" || includes ctxBodyText "No recent data found"
  then ["No recent data found in universe documents; falling back to internet or text search."]
  else if includes (toLowerCase msg) "earlydrop"
  then ["Retrieval service dropped the request early; used internet or text search fallback."]
  else [].

(** The state after the verified documents [validDocs] of the index answer
    [docs]. *)
Definition indexedState (P : Platform) (docs : list JsVal) (validDocs : list RagDoc)
  : RetrievalState :=
  {| context := docContext P validDocs;
     citations := map docCitation validDocs;
     st_warnings :=
       if (0 <? List.length docs)%nat && (List.length validDocs =? 0)%nat
       then ["All retrieved sources failed link validation and were discarded."]
       else [];
     retrievalError := None;
     internetFallbackUsed := false;
     retrievedDocs := docs;
     ragChunksForValidation := docChunks P validDocs |}.

(** What the branch makes of the answer [pub] of the index: the error
    noted, or the verified documents of the rows (and, in general mode, the
    private chunks added to the context).  Beside the state stands what
    was thrown on the way, if anything: the error of [verifyUrls], after
    [retrievedDocs] was set, or the [TypeError] of [chunks2.map] at a chunk
    that is [null], after the verified documents were assigned. *)
Definition indexAnswer (P : Platform) (D : ErrorDetails) (p : Parsed) (pub : EdgeResult)
  : Prog (RetrievalState * option JsError) :=
  let query := topicText p ++ " " ++ keywordText p in
  let timeoutMs := if isNewsMode p then 18000 else 12000 in
  match error pub with
  | Some retError =>
      Ret ({| context := EmptyString; citations := [];
              st_warnings := retrievalErrorWarnings D retError;
              retrievalError := Some (errorMessage retError);
              internetFallbackUsed := false; retrievedDocs := [];
              ragChunksForValidation := [] |}, None)
  | None =>
      match data pub with
      | JArr docs =>
          verified <- verifyUrls P docs ;;
          match verified with
          | inl thrown =>
              Ret ({| context := EmptyString; citations := []; st_warnings := [];
                      retrievalError := None; internetFallbackUsed := false;
                      retrievedDocs := docs; ragChunksForValidation := [] |},
                   Some thrown)
          | inr validDocs =>
              let st := indexedState P docs validDocs in
              if isGeneralMode p
              then
                priv2 <- invokeEdgeFunctionWithRetry "query-docs"
                           {| eb_query := query; eb_mode := "private";
                              eb_user_id := userIdText p; eb_top_k := 3 |}
                           timeoutMs 2 ;;
                Ret match data priv2 with
                    | JArr chunks2 =>
                        match readError P "content" chunks2 with
                        | Some thrown => (st, Some thrown)
                        | None =>
                            ({| context := context st ++ LF ++ LF ++ privateContext P chunks2;
                                citations := citations st;
                                st_warnings := st_warnings st;
                                retrievalError := retrievalError st;
                                internetFallbackUsed := internetFallbackUsed st;
                                retrievedDocs := retrievedDocs st;
                                ragChunksForValidation :=
                                  match ragChunksForValidation st with
                                  | [] => privateRagChunks P chunks2
                                  | chunks => chunks
                                  end |}, None)
                        end
                    | _ => (st, None)
                    end
              else Ret (st, None)
          end
      | _ => Ret (initialState, None)
      end
  end.

(** The body of [if (!context)] in the public branch: the text search over
    the public documents and the verification of what it finds.  What the
    search or [verifyUrls] throws is caught by the inner [try]. *)
Definition universeTextFallback (P : Platform) (p : Parsed) (st1 : RetrievalState)
  : Prog RetrievalState :=
  let failed (st : RetrievalState) (err : JsError) : RetrievalState :=
    {| context := context st; citations := citations st;
       st_warnings :=
         (st_warnings st
          ++ [("Universe text search fallback failed: " ++ errorMessage err)%string])%list;
       retrievalError := retrievalError st;
       internetFallbackUsed := internetFallbackUsed st;
       retrievedDocs := retrievedDocs st;
       ragChunksForValidation := ragChunksForValidation st |} in
  found <- fallbackPublicTextSearch (topicText p ++ " " ++ keywordText p) 5 ;;
  match found with
  | inr [] => Ret st1
  | inr fallbackDocs =>
      let warned :=
        (st_warnings st1 ++ ["Used universe text search fallback for retrieval."])%list in
      verified <- verifyUrls P fallbackDocs ;;
      Ret match verified with
          | inl thrown =>
              failed {| context := context st1; citations := citations st1;
                        st_warnings := warned;
                        retrievalError := retrievalError st1;
                        internetFallbackUsed := internetFallbackUsed st1;
                        retrievedDocs := fallbackDocs;
                        ragChunksForValidation := ragChunksForValidation st1 |}
                     thrown
          | inr docs2 =>
              {| context := docContext P docs2;
                 citations := map docCitation docs2;
                 st_warnings := warned;
                 retrievalError := retrievalError st1;
                 internetFallbackUsed := internetFallbackUsed st1;
                 retrievedDocs := fallbackDocs;
                 ragChunksForValidation := docChunks P docs2 |}
          end
  | inl err => Ret (failed st1 err)
  end.

(** The public branch of the retrieval [try] block (the [else] of
    [if (isPrivateMode)]), with the [catch] of the block: what
    [indexAnswer] throws is noted as the retrieval error, and the text
    search is passed over. *)
Definition publicBranch (P : Platform) (D : ErrorDetails) (p : Parsed) : Prog RetrievalState :=
  pub <- invokeEdgeFunctionWithRetry "query-docs"
           {| eb_query := topicText p ++ " " ++ keywordText p; eb_mode := "public";
              eb_user_id := userIdText p; eb_top_k := 5 |}
           (if isNewsMode p then 18000 else 12000) 2 ;;
  answered <- indexAnswer P D p pub ;;
  let '(st1, thrown) := answered in
  match thrown with
  | Some err =>
      Ret {| context := context st1; citations := citations st1;
             st_warnings := st_warnings st1;
             retrievalError := Some (errorMessage err);
             internetFallbackUsed := internetFallbackUsed st1;
             retrievedDocs := retrievedDocs st1;
             ragChunksForValidation := ragChunksForValidation st1 |}
  | None => if isEmpty (context st1) then universeTextFallback P p st1 else Ret st1
  end.

(** *** The secondary boost *)

(** A document of the boost: [{ title, url, content, source }], each field
    the value the row holds or the default. *)
Record BoostDoc : Type := {
  bd_title : JsVal;
  bd_url : JsVal;
  bd_content : JsVal;
  bd_source : JsVal
}.

(** [{ title: d.title || 'Source', url: d.url || '', content: d.content || '',
    source: d.source || 'Unknown' }] *)
Definition boostDoc (d : JsVal) : BoostDoc :=
  {| bd_title := js_or (prop d "title") (JStr "Source");
     bd_url := js_or (prop d "url") (JStr EmptyString);
     bd_content := js_or (prop d "content") (JStr EmptyString);
     bd_source := js_or (prop d "source") (JStr "Unknown") |}.

(** The loop that fills [byUrl]: a document is kept under its normalised
    link unless the link is empty or already taken. *)
Fixpoint mergeByUrl (P : Platform) (docs : list BoostDoc)
    (byUrl : list (string * BoostDoc)) : list (string * BoostDoc) :=
  match docs with
  | [] => byUrl
  | d :: rest =>
      let url := normalizeUrlString P (String_ P (js_or (bd_url d) (JStr EmptyString))) in
      if isEmpty url then mergeByUrl P rest byUrl
      else if existsb (fun e => String.eqb (fst e) url) byUrl then mergeByUrl P rest byUrl
      else mergeByUrl P rest
             (byUrl ++ [(url, {| bd_title := bd_title d; bd_url := JStr url;
                                 bd_content := bd_content d;
                                 bd_source := bd_source d |})])
  end.

(** [scored.sort((a, b) => b.score - a.score)]: the sort is stable, the
    higher score first. *)
Fixpoint insertByScore (x : BoostDoc * Z) (sorted : list (BoostDoc * Z))
  : list (BoostDoc * Z) :=
  match sorted with
  | [] => [x]
  | y :: r => if snd y <? snd x then x :: y :: r else y :: insertByScore x r
  end.

Definition sortByScore (scored : list (BoostDoc * Z)) : list (BoostDoc * Z) :=
  fold_left (fun sorted x => insertByScore x sorted) scored [].

(** [ranked]: the five best documents for the keyword; those that score
    nothing are left out when some document scores. *)
Definition rankedDocs (P : Platform) (keyword : string) (merged : list BoostDoc)
  : list BoostDoc :=
  let scored :=
    sortByScore
      (map (fun d => (d, scoreKeywordMatch
                           (String_ P (bd_title d) ++ " " ++ String_ P (bd_content d))
                           keyword))
           merged) in
  let maxScore := match scored with x :: _ => snd x | [] => 0 end in
  firstn 5 (map fst (if 0 <? maxScore then filter (fun x => 0 <? snd x) scored else scored)).

(** A document of the boost as the row [verifyUrls] is given. *)
Definition asRow (d : BoostDoc) : JsVal :=
  JObj [("title", bd_title d); ("url", bd_url d);
        ("content", bd_content d); ("source", bd_source d)].

(** The body of [if (!isPrivateMode && citations.length < 3)], with its
    [catch {}].  The await answers nothing when the request fails or is not
    [ok], and the parsed body otherwise ([JNull] when it is not JSON).  The
    rows of [retrievedDocs] are read with [d.title], which throws at a row
    that is [null]; those of the collector with [d?.title], which does
    not. *)
Definition collectBoost (P : Platform) (p : Parsed) (st : RetrievalState)
  : Prog RetrievalState :=
  fr <- await (CollectDocuments (keywordText p) (if isNewsMode p then 20000 else 8000)) ;;
  match fr with
  | None => Ret st
  | Some fJson =>
      let docs := match (if isRecord fJson then prop fJson "documents" else JUndefined) with
                  | JArr l => l
                  | _ => []
                  end in
      match readError P "title" (retrievedDocs st) with
      | Some _ => Ret st
      | None =>
          let edgeDocs := map boostDoc (retrievedDocs st) in
          let collectedDocs := map boostDoc docs in
          let merged := map snd (mergeByUrl P (edgeDocs ++ collectedDocs) []) in
          match merged with
          | [] => Ret st
          | _ =>
              verified <- verifyUrls P (map asRow (rankedDocs P (keywordText p) merged)) ;;
              Ret match verified with
                  | inl _ => st
                  | inr kept =>
                      {| context := docContext P kept;
                         citations := map docCitation kept;
                         st_warnings := st_warnings st;
                         retrievalError := retrievalError st;
                         internetFallbackUsed := internetFallbackUsed st;
                         retrievedDocs := retrievedDocs st;
                         ragChunksForValidation := docChunks P kept |}
                  end
          end
      end
  end.

(** The retrieval of the route outside private mode. *)
Definition routeRetrieval (P : Platform) (D : ErrorDetails) : PublicRetrieval :=
  {| publicIndexBranch := publicBranch P D;
     secondaryBoost := collectBoost P |}.

(* ================================================================== *)
(** ** Reading web pages *)

(** *** Global patterns *)

(** [s.replace(pattern, replacement)] for a global pattern that matches
    at least one character: [matchLen s] is the length of the match that
    begins the string [s], if there is one, and [skip] counts the characters
    of the last match that are still to be passed over. *)
Fixpoint replaceAll (matchLen : string -> option nat) (replacement : string)
    (skip : nat) (s : string) : string :=
  match s with
  | EmptyString => EmptyString
  | String c r =>
      match skip with
      | S k => replaceAll matchLen replacement k r
      | O =>
          match matchLen s with
          | Some (S n) => replacement ++ replaceAll matchLen replacement n r
          | _ => String c (replaceAll matchLen replacement 0 r)
          end
      end
  end.

(** [s.matchAll(pattern)] for such a pattern: what [matchAt] reads in each
    match, [matchAt s] being the value and the length of the match that
    begins [s]. *)
Fixpoint matchAll {A : Type} (matchAt : string -> option (A * nat)) (skip : nat)
    (s : string) : list A :=
  match s with
  | EmptyString => []
  | String c r =>
      match skip with
      | S k => matchAll matchAt k r
      | O =>
          match matchAt s with
          | Some (a, S n) => a :: matchAll matchAt n r
          | _ => matchAll matchAt 0 r
          end
      end
  end.

(** The value read in the first match of a pattern, [matchAt s] being what
    is read in the match that begins [s]: [s.match(pattern)] for a pattern
    that is not global. *)
Fixpoint firstMatch {A : Type} (matchAt : string -> option A) (s : string) : option A :=
  match matchAt s with
  | Some a => Some a
  | None =>
      match s with
      | EmptyString => None
      | String _ r => firstMatch matchAt r
      end
  end.

(** Offset of the first place in [s] where the literal [lit] (given in
    lower case) stands, letter case apart. *)
Fixpoint indexOfCI (lit : string) (s : string) : option nat :=
  match afterLiteralCI lit s with
  | Some _ => Some 0%nat
  | None =>
      match s with
      | EmptyString => None
      | String _ r => option_map S (indexOfCI lit r)
      end
  end.

Definition isGt (c : ascii) : bool := Ascii.eqb c ">"%char.
Definition isLt (c : ascii) : bool := Ascii.eqb c "<"%char.

(** Length of the match of [/<open[\s\S]*?<\/close>/i] that begins [s]:
    from the opening literal to the first closing literal after it. *)
Definition blockLen (opening closing : string) (s : string) : option nat :=
  match afterLiteralCI opening s with
  | Some rest =>
      match indexOfCI closing rest with
      | Some k => Some (String.length opening + k + String.length closing)%nat
      | None => None
      end
  | None => None
  end.

(** Length of the match of [/<[^>]+>/] that begins [s]. *)
Definition tagLen (s : string) : option nat :=
  match s with
  | String c rest =>
      if isLt c
      then
        let run := takeWhile (fun d => negb (isGt d)) rest in
        match run, dropWhile (fun d => negb (isGt d)) rest with
        | String _ _, String _ _ => Some (String.length run + 2)%nat
        | _, _ => None
        end
      else None
  | EmptyString => None
  end.

(** Length of the match of [/\s+/] that begins [s]. *)
Definition spaceLen (s : string) : option nat :=
  match takeWhile isWhiteSpace s with
  | EmptyString => None
  | run => Some (String.length run)
  end.

(** *** Text and title of a page *)

(** [stripHtml] of the generation route and [strip] of the collector. *)
Definition stripHtml (html : string) : string :=
  trim
    (replaceAll spaceLen " " 0
       (replaceAll tagLen " " 0
          (replaceAll (blockLen "<style" "</style>") EmptyString 0
             (replaceAll (blockLen "<script" "</script>") EmptyString 0 html)))).

(** The capture of [/<name[^>]*>([\s\S]*?)<\/name>/i] for a match that
    begins [s]; [opening] is [<name] and [closing] is [</name>]. *)
Definition elementAt (opening closing : string) (s : string) : option string :=
  match afterLiteralCI opening s with
  | Some r =>
      match dropWhile (fun d => negb (isGt d)) r with
      | String _ inner =>
          match indexOfCI closing inner with
          | Some k => Some (sliceTo k inner)
          | None => None
          end
      | EmptyString => None
      end
  | None => None
  end.

(** [titleOfHtml] of the generation route and [titleOf] of the collector. *)
Definition titleOfHtml (html : string) : string :=
  match firstMatch (elementAt "<title" "</title>") html with
  | Some t => trim t
  | None => EmptyString
  end.

(** *** Links that are assets *)

Definition assetExtensions : list string :=
  ["png"; "jpg"; "jpeg"; "gif"; "webp"; "svg"; "ico"; "css"; "js"; "mjs"; "map"; "json";
   "pdf"; "zip"; "rar"; "7z"; "gz"; "mp4"; "mp3"; "wav"; "woff2"; "woff"; "ttf"; "eot"].

(** Anchored matcher of
    [/\.(png|jpg|...|woff2?|ttf|eot)(\?|#|$)/i]. *)
Definition assetSuffixAt (s : string) : bool :=
  match afterLiteral "." s with
  | Some r =>
      existsb (fun ext =>
                 match afterLiteralCI ext r with
                 | Some EmptyString => true
                 | Some (String c _) => Ascii.eqb c "?"%char || Ascii.eqb c "#"%char
                 | None => false
                 end)
              assetExtensions
  | None => false
  end.

(** [looksLikeAssetUrl] of the generation route and [looksLikeAsset] of the
    collector. *)
Definition looksLikeAssetUrl (url : string) : bool :=
  let lower := toLowerCase url in
  if includes lower "/favicon" then true else test assetSuffixAt lower.

(** *** Links of a search page *)

(** What the platform supplies besides [Platform]: the two URI component
    codecs ([decodeURIComponent] gives nothing when it throws), the path,
    the origin and a search parameter of a parsed URL, and the resolution of
    a reference against a base ([new URL(raw, base)], nothing when it
    throws). *)
Record WebPlatform : Type := {
  encodeURIComponent : string -> string;
  decodeURIComponent : string -> option string;
  URL_pathname : URL -> string;
  URL_origin : URL -> string;
  URL_searchParam : URL -> string -> option string;
  URL_resolve : string -> string -> option URL
}.

Definition dquote : ascii := ascii_of_nat 34.
Definition squote : ascii := ascii_of_nat 39.

(** A quoted value that begins [s]: [q([^q]+)q] for the quote [q]; the
    value and the length of the match. *)
Definition quotedAt (q : ascii) (s : string) : option (string * nat) :=
  match s with
  | String c r =>
      if Ascii.eqb c q
      then
        let value := takeWhile (fun d => negb (Ascii.eqb d q)) r in
        match value, dropWhile (fun d => negb (Ascii.eqb d q)) r with
        | String _ _, String _ _ => Some (value, (String.length value + 2)%nat)
        | _, _ => None
        end
      else None
  | EmptyString => None
  end.

(** The match of [/href\s*=\s*(?:...)/i] that begins [s], [valueAt] being
    the matcher of the alternatives: the value captured and the length of
    the match. *)
Definition hrefWith (valueAt : string -> option (string * nat)) (s : string)
  : option (string * nat) :=
  match afterLiteralCI "href" s with
  | Some r =>
      match afterLiteral "=" (dropWhile isWhiteSpace r) with
      | Some r2 =>
          match valueAt (dropWhile isWhiteSpace r2) with
          | Some (value, n) =>
              Some (value,
                    (4 + String.length (takeWhile isWhiteSpace r) + 1
                     + String.length (takeWhile isWhiteSpace r2) + n)%nat)
          | None => None
          end
      | None => None
      end
  | None => None
  end.

(** The two alternatives of the pattern of an [href]: a value between
    double quotes, or else between single quotes. *)
Definition quotedValueAt (s : string) : option (string * nat) :=
  match quotedAt dquote s with
  | Some m => Some m
  | None => quotedAt squote s
  end.

(** [out.add(x)] on a [Set] kept in insertion order. *)
Definition addOnce (x : string) (out : list string) : list string :=
  if existsb (String.eqb x) out then out else (out ++ [x])%list.

(** [extractDuckDuckGoResultUrls] of the generation route. *)
Definition extractDuckDuckGoResultUrls (P : Platform) (W : WebPlatform) (html : string)
  : list string :=
  fold_left
    (fun out raw =>
       let href := trim raw in
       if isEmpty href then out
       else
         let abs :=
           if startsWith href "http://" || startsWith href "https://" then href
           else if startsWith href "//" then "https:" ++ href
           else if startsWith href "/" then "https://duckduckgo.com" ++ href
           else href in
         if negb (includes abs "duckduckgo.com/l/") then out
         else
           match URL_parse P abs with
           | None => out
           | Some u =>
               match URL_searchParam W u "uddg" with
               | None => out
               | Some uddg =>
                   if isEmpty uddg then out
                   else
                     match decodeURIComponent W uddg with
                     | None => out
                     | Some decoded =>
                         if startsWith decoded "http://" || startsWith decoded "https://"
                         then addOnce decoded out
                         else out
                     end
               end
           end)
    (matchAll (hrefWith quotedValueAt) 0 html)
    [].

(** *** The internet search *)

(** What a page request gives: the error thrown, or the answer with its
    [content-type] header (empty when absent) and its text (absent when
    reading it fails). *)
Inductive FetchResult : Type :=
| FetchThrew (e : JsError)
| Fetched (contentType : string) (text : option string).

(** A document of the collector. *)
Record CollectedDoc : Type := {
  cd_source : string;
  cd_url : string;
  cd_title : string;
  cd_content : string
}.

(** The awaits of the internet search and of the collector: a page
    request, and the call of the embedding function, awaited or not. *)
Inductive WebCall : Type :=
| FetchPage (url : string) (timeoutMs : Z)
| EmbedDocs (documents : list CollectedDoc)
| EmbedDocsDetached (documents : list CollectedDoc).

Definition WebResp (c : WebCall) : Type :=
  match c with
  | FetchPage _ _ => FetchResult
  | EmbedDocs _ => option JsError
  | EmbedDocsDetached _ => unit
  end.

Inductive WebProg (A : Type) : Type :=
| WRet (a : A)
| WVis (c : WebCall) (k : WebResp c -> WebProg A).
Arguments WRet {A} a.
Arguments WVis {A} c k.

Fixpoint wbind {A B : Type} (m : WebProg A) (f : A -> WebProg B) : WebProg B :=
  match m with
  | WRet a => f a
  | WVis c k => WVis c (fun r => wbind (k r) f)
  end.

Definition wawait (c : WebCall) : WebProg (WebResp c) := WVis c WRet.

Declare Scope web_scope.
Delimit Scope web_scope with web.
Notation "x <- m ;; k" := (wbind m (fun x => k))
  (at level 61, m at next level, right associativity) : web_scope.

Definition WebOracle : Type := forall (history : list WebCall) (c : WebCall), WebResp c.

Fixpoint wexec {A : Type} (o : WebOracle) (h : list WebCall) (p : WebProg A)
  : A * list WebCall :=
  match p with
  | WRet a => (a, [])
  | WVis c k =>
      let (a, t) := wexec o (h ++ [c]) (k (o h c)) in
      (a, c :: t)
  end.

(** The page is not one to read: it declares a content type that is
    neither HTML nor XHTML. *)
Definition notHtml (contentType : string) : bool :=
  let ct := toLowerCase contentType in
  negb (isEmpty ct) && negb (includes ct "text/html")
  && negb (includes ct "application/xhtml+xml").

(** The loop of [collectInternetDocs] over the result links. *)
Fixpoint internetPages (P : Platform) (maxDocs pageTimeoutMs : Z) (urls : list string)
    (docs : list InternetDoc) : WebProg (list InternetDoc) :=
  match urls with
  | [] => WRet docs
  | u :: rest =>
      (pr <- wawait (FetchPage u pageTimeoutMs) ;;
       match pr with
       | FetchThrew _ => internetPages P maxDocs pageTimeoutMs rest docs
       | Fetched contentType body =>
           if notHtml contentType then internetPages P maxDocs pageTimeoutMs rest docs
           else
             let html := orEmpty body in
             let text := stripHtml html in
             let title := if isEmpty (titleOfHtml html) then u else titleOfHtml html in
             if (String.length text <? 300)%nat
             then internetPages P maxDocs pageTimeoutMs rest docs
             else
               let docs' :=
                 (docs ++ [ {| idoc_title := title; idoc_url := u;
                               idoc_content := sliceTo 12000 text;
                               idoc_source := toHostSource P u |} ])%list in
               if maxDocs <=? Z.of_nat (List.length docs') then WRet docs'
               else internetPages P maxDocs pageTimeoutMs rest docs'
       end)%web
  end.

(** The links [collectInternetDocs] goes through. *)
Definition resultUrls (P : Platform) (W : WebPlatform) (maxDocs : Z) (searchPage : string)
  : list string :=
  let found :=
    filter (fun u => negb (looksLikeAssetUrl u))
      (filter (fun u => negb (isEmpty u))
         (map (normalizeUrlString P) (extractDuckDuckGoResultUrls P W searchPage))) in
  firstn (sliceCount (ofZ (Z.max (maxDocs * 4) maxDocs)) (List.length found)) found.

(** [collectInternetDocs]: the documents, or the error it throws. *)
Definition collectInternetDocs (P : Platform) (W : WebPlatform) (query : string)
    (maxDocs searchTimeoutMs pageTimeoutMs : Z) : WebProg (JsError + list InternetDoc) :=
  let q := trim query in
  if isEmpty q then WRet (inr [])
  else
    (sr <- wawait (FetchPage ("https://duckduckgo.com/html/?q=" ++ encodeURIComponent W q)
                     searchTimeoutMs) ;;
     match sr with
     | FetchThrew e => WRet (inl e)
     | Fetched _ body =>
         docs <- internetPages P maxDocs pageTimeoutMs
                   (resultUrls P W maxDocs (orEmpty body)) [] ;;
         WRet (inr docs)
     end)%web.

(* ================================================================== *)
(** ** The collector of public documents *)

Module Collector.

(** *** Hosts and the allowlist *)

(** [s.replace(/^www\./, '')] *)
Definition stripWww (s : string) : string :=
  match afterLiteral "www." s with
  | Some rest => rest
  | None => s
  end.

(** [s.split('/')[0]] *)
Definition beforeSlash (s : string) : string :=
  takeWhile (fun c => negb (Ascii.eqb c "/"%char)) s.

(** [s.endsWith(suffix)] *)
Fixpoint endsWith (s suffix : string) : bool :=
  String.eqb s suffix
  || match s with
     | EmptyString => false
     | String _ r => endsWith r suffix
     end.

Definition normalizeHost (P : Platform) (input : string) : string :=
  let parsed :=
    if startsWith input "http://" || startsWith input "https://"
    then URL_parse P input
    else None in
  match parsed with
  | Some u => stripWww (hostname u)
  | None => beforeSlash (stripWww input)
  end.

Definition hostMatches (host allowedHost : string) : bool :=
  let h := toLowerCase (stripWww host) in
  let a := toLowerCase (stripWww allowedHost) in
  String.eqb h a || endsWith h ("." ++ a).

Definition isAllowedUrl (P : Platform) (env : Env) (url : string) : bool :=
  match URL_parse P url with
  | Some u => existsb (fun d => hostMatches (hostname u) d) (allowedDomains env)
  | None => false
  end.

Definition strip (html : string) : string := stripHtml html.

Definition titleOf (html : string) : string := titleOfHtml html.

Definition looksLikeAsset (url : string) : bool := looksLikeAssetUrl url.

(** *** Links of a page *)

(** The third alternative of the pattern of an [href] in [extractUrls]:
    [([^\s>]+)]. *)
Definition bareValueAt (s : string) : option (string * nat) :=
  match takeWhile (fun c => negb (isWhiteSpace c || isGt c)) s with
  | EmptyString => None
  | value => Some (value, String.length value)
  end.

Definition anyValueAt (s : string) : option (string * nat) :=
  match quotedValueAt s with
  | Some m => Some m
  | None => bareValueAt s
  end.

(** The class of the characters of a link written in the text: any
    character but the two quotes, [>] and white space. *)
Definition isUrlChar (c : ascii) : bool :=
  negb (Ascii.eqb c dquote || Ascii.eqb c squote || isGt c || isWhiteSpace c).

(** The match that begins [s] of the pattern of a link written in the
    text, [http], an optional [s], [://] and then one or more characters of
    the class above: its text and its length. *)
Definition absoluteAt (s : string) : option (string * nat) :=
  match afterLiteral "http" s with
  | Some r =>
      let schemeAndRest :=
        match afterLiteral "s://" r with
        | Some r2 => Some ("https://", r2)
        | None =>
            match afterLiteral "://" r with
            | Some r2 => Some ("http://", r2)
            | None => None
            end
        end in
      match schemeAndRest with
      | Some (scheme, r2) =>
          match takeWhile isUrlChar r2 with
          | EmptyString => None
          | run => Some (scheme ++ run, (String.length scheme + String.length run)%nat)
          end
      | None => None
      end
  | None => None
  end.

Definition extractUrls (P : Platform) (W : WebPlatform) (html baseUrl : string)
  : list string :=
  let fromHrefs :=
    fold_left
      (fun out m =>
         let raw := trim m in
         if isEmpty raw then out
         else if startsWith raw "#" then out
         else
           let lowered := toLowerCase raw in
           if startsWith lowered "javascript:" || startsWith lowered "mailto:"
              || startsWith lowered "tel:"
           then out
           else
             match URL_resolve W raw baseUrl with
             | Some u => addOnce (href u) out
             | None => out
             end)
      (matchAll (hrefWith anyValueAt) 0 html)
      [] in
  fold_left
    (fun out abs =>
       match URL_parse P abs with
       | Some u => addOnce (href u) out
       | None => out
       end)
    (matchAll absoluteAt 0 html)
    fromHrefs.

Definition extractDuckDuckGoResultUrls (P : Platform) (W : WebPlatform) (html : string)
  : list string :=
  fold_left
    (fun out raw =>
       let href := trim raw in
       if isEmpty href then out
       else if negb (startsWith href "https://duckduckgo.com/l/") then out
       else
         match URL_parse P href with
         | None => out
         | Some u =>
             match URL_searchParam W u "uddg" with
             | None => out
             | Some uddg =>
                 if isEmpty uddg then out
                 else
                   match decodeURIComponent W uddg with
                   | None => out
                   | Some decoded =>
                       if startsWith decoded "http://" || startsWith decoded "https://"
                       then addOnce decoded out
                       else out
                   end
             end
         end)
    (matchAll (hrefWith quotedValueAt) 0 html)
    [].

(** *** The feed *)

(** Length of the match of a literal pattern that begins [s]. *)
Definition literalLen (lit : string) (s : string) : option nat :=
  match afterLiteral lit s with
  | Some _ => Some (String.length lit)
  | None => None
  end.

Definition decodeXmlEntities (input : string) : string :=
  replaceAll (literalLen "&#39;") (String squote EmptyString) 0
    (replaceAll (literalLen "&quot;") (String dquote EmptyString) 0
       (replaceAll (literalLen "&gt;") ">" 0
          (replaceAll (literalLen "&lt;") "<" 0
             (replaceAll (literalLen "&amp;") "&" 0 input)))).

Record RssItem : Type := {
  rss_title : string;
  rss_link : string;
  rss_description : string
}.

(** The match of [/<item\b[\s\S]*?<\/item>/i] that begins [s]: its text
    and its length. *)
Definition itemAt (s : string) : option (string * nat) :=
  match afterLiteralCI "<item" s with
  | Some (String c rest) =>
      if isWordChar c then None
      else
        match indexOfCI "</item>" (String c rest) with
        | Some k => Some (sliceTo (5 + k + 7) s, (5 + k + 7)%nat)
        | None => None
        end
  | _ => None
  end.

(** [(block.match(pattern)?.[1] || '').trim()], decoded. *)
Definition fieldOf (opening closing block : string) : string :=
  decodeXmlEntities
    (trim match firstMatch (elementAt opening closing) block with
          | Some inner => inner
          | None => EmptyString
          end).

Definition extractRssItems (xml : string) : list RssItem :=
  flat_map
    (fun block =>
       let title := fieldOf "<title" "</title>" block in
       let link := fieldOf "<link" "</link>" block in
       let description := fieldOf "<description" "</description>" block in
       if isEmpty link then []
       else [ {| rss_title := title; rss_link := link; rss_description := description |} ])
    (matchAll itemAt 0 xml).

(** *** Links worth reading *)

(** [s.split(sep)] for a separator of one character. *)
Fixpoint splitOn (sep : ascii) (s : string) : list string :=
  match s with
  | EmptyString => [EmptyString]
  | String c r =>
      if Ascii.eqb c sep then EmptyString :: splitOn sep r
      else
        match splitOn sep r with
        | p :: q => String c p :: q
        | [] => [String c EmptyString]
        end
  end.

Definition servicePages : list string :=
  ["about"; "about-us"; "contact"; "contact-us"; "media"; "phone"; "chat"; "cdc-info";
   "cdcinfo"].

Definition isLikelyContentUrl (P : Platform) (W : WebPlatform)
    (url searchUrl sourceHost : string) : bool :=
  match URL_parse P url with
  | None => false
  | Some u =>
      if String.eqb (href u) searchUrl then false
      else if looksLikeAsset (href u) then false
      else
        let path := toLowerCase (URL_pathname W u) in
        if String.eqb path "/" || isEmpty path then false
        else if startsWith path "/search" then false
        else if startsWith path "/user" then false
        else
          let segments := filter (fun p => negb (isEmpty p)) (splitOn "/"%char path) in
          if match segments with
             | [s0] => existsb (String.eqb s0) servicePages
             | _ => false
             end
          then false
          else if String.eqb sourceHost "fiercebiotech.com"
                  && includes (href u) "/search/node"
          then false
          else true
  end.

Definition ddgSearchUrl (W : WebPlatform) (host keyword : string) : string :=
  let q := "site:" ++ host ++ " " ++ keyword in
  "https://duckduckgo.com/html/?q=" ++ encodeURIComponent W q.

(** *** Sources *)

Record Source : Type := {
  src_name : string;
  src_host : string;
  src_search : string -> string
}.

Definition knownSources (W : WebPlatform) : list Source :=
  [ {| src_name := "FDA"; src_host := "fda.gov";
       src_search := fun q => "https://www.fda.gov/search?s=" ++ encodeURIComponent W q |};
    {| src_name := "NIH"; src_host := "nih.gov";
       src_search := fun q => "https://search.nih.gov/search?query=" ++ encodeURIComponent W q |};
    {| src_name := "CDC"; src_host := "cdc.gov";
       src_search := fun q => "https://www.cdc.gov/search/?query=" ++ encodeURIComponent W q |};
    {| src_name := "ResearchGate"; src_host := "researchgate.net";
       src_search := fun q => "https://www.researchgate.net/search/publication?q="
                              ++ encodeURIComponent W q |};
    {| src_name := "Science"; src_host := "science.org";
       src_search := fun q => "https://www.science.org/search?query=" ++ encodeURIComponent W q |};
    {| src_name := "FierceBiotech"; src_host := "fiercebiotech.com";
       src_search := fun q => "https://www.fiercebiotech.com/search/node/"
                              ++ encodeURIComponent W q |} ].

(** [[...new Set(l)]] *)
Definition distinct (l : list string) : list string :=
  fold_left (fun out x => addOnce x out) l [].

(** [allowedList]: the hosts of the configured domains. *)
Definition allowedList (P : Platform) (env : Env) : list string :=
  distinct (filter (fun h => negb (isEmpty h)) (map (normalizeHost P) (allowedDomains env))).

(** [sources]: the known sources that an allowed host covers, then a
    source that searches through DuckDuckGo for every allowed host that no
    known one covers or is covered by. *)
Definition sourcesOf (P : Platform) (W : WebPlatform) (env : Env) : list Source :=
  let baseSources :=
    filter (fun s => existsb (fun h => hostMatches (src_host s) h) (allowedList P env))
           (knownSources W) in
  let knownHosts := distinct (map (fun s => normalizeHost P (src_host s)) baseSources) in
  let extraHosts :=
    filter (fun h => negb (existsb (fun k => hostMatches h k || hostMatches k h) knownHosts))
           (allowedList P env) in
  let extraSources :=
    map (fun h => {| src_name := h; src_host := h; src_search := fun q => ddgSearchUrl W h q |})
        extraHosts in
  (baseSources ++ extraSources)%list.

(** *** Reading a source *)

Definition rssUrl : string := "https://www.fiercebiotech.com/rss.xml".

(** [ranked]: the sort is stable, the higher score first. *)
Fixpoint insertRanked (x : RssItem * Z) (sorted : list (RssItem * Z)) : list (RssItem * Z) :=
  match sorted with
  | [] => [x]
  | y :: r => if snd y <? snd x then x :: y :: r else y :: insertRanked x r
  end.

Definition itemsToUse (keyword : string) (items : list RssItem) : list RssItem :=
  let ranked :=
    fold_left (fun sorted x => insertRanked x sorted)
      (map (fun it =>
              (it, scoreKeywordMatch (rss_title it ++ " " ++ rss_description it) keyword))
           items)
      [] in
  firstn 5 (map fst ranked).

(** [a || b] on strings. *)
Definition orElse (a b : string) : string := if isEmpty a then b else a.

(** The body of the loop over the items of the feed: the document pushed,
    if one is. *)
Definition itemDoc (P : Platform) (W : WebPlatform) (env : Env) (s : Source) (it : RssItem)
  : option CollectedDoc :=
  let url := rss_link it in
  if isEmpty url then None
  else if negb (isAllowedUrl P env url) then None
  else
    match URL_parse P url with
    | None => None
    | Some u =>
        if negb (hostMatches (hostname u) (src_host s)) then None
        else if negb (isLikelyContentUrl P W url rssUrl (src_host s)) then None
        else
          let raw := decodeXmlEntities (rss_description it) in
          let text := strip raw in
          let content := sliceTo 10000 (orElse text (orElse (rss_title it) url)) in
          if (50 <? String.length content)%nat
          then Some {| cd_source := src_name s; cd_url := url;
                       cd_title := orElse (rss_title it) url; cd_content := content |}
          else None
    end.

Definition pushAll (collected : list CollectedDoc) (pushed : list (option CollectedDoc))
  : list CollectedDoc :=
  fold_left (fun acc d => match d with Some doc => (acc ++ [doc])%list | None => acc end)
            pushed collected.

(** The three filters of the candidate links. *)
Definition keepLinks (P : Platform) (W : WebPlatform) (env : Env) (s : Source)
    (searchUrl : string) (links : list string) : list string :=
  filter (fun u => isLikelyContentUrl P W u searchUrl (src_host s))
    (filter (fun u =>
               match URL_parse P u with
               | Some p => hostMatches (hostname p) (src_host s)
               | None => false
               end)
       (filter (isAllowedUrl P env) links)).

(** The loop over the links of a source. *)
Fixpoint readLinks (s : Source) (links : list string) (collected : list CollectedDoc)
  : WebProg (list CollectedDoc) :=
  match links with
  | [] => WRet collected
  | url :: rest =>
      (r <- wawait (FetchPage url 15000) ;;
       match r with
       | Fetched contentType (Some html) =>
           if notHtml contentType then readLinks s rest collected
           else
             let text := strip html in
             let title := orElse (titleOf html) url in
             if (100 <? String.length text)%nat
             then readLinks s rest
                    (collected ++ [ {| cd_source := src_name s; cd_url := url;
                                       cd_title := title;
                                       cd_content := sliceTo 10000 text |} ])%list
             else readLinks s rest collected
       | _ => readLinks s rest collected
       end)%web
  end.

(** The text of a page that was requested and read. *)
Definition textOf (r : FetchResult) : option string :=
  match r with
  | Fetched _ text => text
  | FetchThrew _ => None
  end.

(** The body of the loop over the sources.  A keyword that is not a
    string makes [scoreKeywordMatch] throw as soon as the feed has an
    item. *)
Definition collectFrom (P : Platform) (W : WebPlatform) (env : Env) (keyword : JsVal)
    (s : Source) (collected : list CollectedDoc) : WebProg (list CollectedDoc) :=
  if String.eqb (src_host s) "fiercebiotech.com"
  then
    (rr <- wawait (FetchPage rssUrl 20000) ;;
     WRet match textOf rr, keyword with
          | Some xml, JStr k =>
              pushAll collected (map (itemDoc P W env s) (itemsToUse k (extractRssItems xml)))
          | _, _ => collected
          end)%web
  else
    let directSearchUrl := src_search s (String_ P keyword) in
    match URL_parse P directSearchUrl with
    | None => WRet collected
    | Some su =>
        let baseUrl := URL_origin W su in
        (sr <- wawait (FetchPage directSearchUrl 12000) ;;
         let linksFromSearchPage :=
           match textOf sr with
           | Some sh => keepLinks P W env s directSearchUrl (extractUrls P W sh baseUrl)
           | None => []
           end in
         candidateLinks <-
           match distinct linksFromSearchPage with
           | [] =>
               let ddgUrl := ddgSearchUrl W (src_host s) (String_ P keyword) in
               dr <- wawait (FetchPage ddgUrl 12000) ;;
               WRet match textOf dr with
                    | Some dh =>
                        keepLinks P W env s ddgUrl (extractDuckDuckGoResultUrls P W dh)
                    | None => []
                    end
           | links => WRet links
           end ;;
         readLinks s (firstn 5 candidateLinks) collected)%web
    end.

Fixpoint collectAll (P : Platform) (W : WebPlatform) (env : Env) (keyword : JsVal)
    (sources : list Source) (collected : list CollectedDoc) : WebProg (list CollectedDoc) :=
  match sources with
  | [] => WRet collected
  | s :: rest =>
      (collected' <- collectFrom P W env keyword s collected ;;
       collectAll P W env keyword rest collected')%web
  end.

(** *** The handler *)

Inductive Response : Type :=
| KeywordRequired
| ServerError
| Inserted (inserted : nat) (embed_error : option string)
           (documents : option (list CollectedDoc)).

Definition statusOf (r : Response) : Z :=
  match r with
  | KeywordRequired => 400
  | ServerError => 500
  | Inserted _ _ _ => 200
  end.

(** [details] of an error of the embedding function; [describe] is
    [String(error)] on a value that is not a string. *)
Definition detailsOf (describe : JsError -> string) (error : JsError) : string :=
  match error with
  | ErrorObject m => if isEmpty m then describe error else m
  | ErrorString s => s
  | ErrorOther _ => describe error
  end.

(** [POST] of [/api/rag/collect].  [body] is what [req.json()] gives,
    nothing when it rejects; the embedding function answers with its
    [error], if any. *)
Definition POST (P : Platform) (W : WebPlatform) (describe : JsError -> string) (env : Env)
    (body : option JsVal) : WebProg Response :=
  if isEmpty (supabaseServiceRoleKey env) then WRet ServerError
  else
    match body with
    | None | Some JUndefined | Some JNull => WRet ServerError
    | Some b =>
        let keyword := prop b "keyword" in
        let returnDocuments := prop b "returnDocuments" in
        let waitForCompletion := prop b "waitForCompletion" in
        if negb (truthy keyword) then WRet KeywordRequired
        else
          (collected <- collectAll P W env keyword (sourcesOf P W env) [] ;;
           let answer :=
             if truthy returnDocuments
             then Inserted (List.length collected) None (Some collected)
             else Inserted (List.length collected) None None in
           if (0 <? List.length collected)%nat && negb (truthy returnDocuments)
           then
             let shouldWait :=
               match waitForCompletion with JBool false => false | _ => true end in
             if shouldWait
             then
               failed <- wawait (EmbedDocs collected) ;;
               WRet match failed with
                    | Some error =>
                        Inserted (List.length collected) (Some (detailsOf describe error)) None
                    | None => answer
                    end
             else
               (_ <- wawait (EmbedDocsDetached collected) ;; WRet answer)
           else WRet answer)%web
    end.

End Collector.

(* ================================================================== *)
(** ** A concrete retrieval *)

Module DemoRetrieval.

Definition details : ErrorDetails :=
  {| messageOfOther := fun j => j; contextBodyText := fun _ => EmptyString |}.

Definition labelRow : JsVal :=
  JObj [("title", JStr "FDA label"); ("url", JStr "https://www.fda.gov/label");
        ("content", JStr "Label text."); ("source", JStr "fda.gov")].

(** The answer of the index when it finds the rows. *)
Definition indexFinds (rows : list JsVal) : Timed (option SupabaseResult) :=
  Resolved (Some {| sb_data := JArr rows; sb_error := None |}).

(** A platform whose JSON parser reads one text only. *)
Definition strictPlatform : Platform :=
  {| coerceString := coerceString Demo.platform;
     coerceNumber := coerceNumber Demo.platform;
     URL_parse := URL_parse Demo.platform;
     JSON_parse := fun s => if String.eqb s "{pass}" then Some (Demo.verdict "pass") else None;
     nullReadMessage := nullReadMessage Demo.platform |}.

(** The configuration of [Demo.env] with [GENERATION_MAX_ATTEMPTS] set. *)
Definition envWithAttempts (attempts : string) : Env :=
  {| appBaseUrl := appBaseUrl Demo.env;
     supabaseServiceRoleKey := supabaseServiceRoleKey Demo.env;
     openRouterApiKey := openRouterApiKey Demo.env;
     textModel := textModel Demo.env;
     textModelFallback := textModelFallback Demo.env;
     humanizeContentModel := humanizeContentModel Demo.env;
     validationSwarmAgent1 := validationSwarmAgent1 Demo.env;
     validationSwarmAgent2 := validationSwarmAgent2 Demo.env;
     validationSwarmAgent3 := validationSwarmAgent3 Demo.env;
     validationSwarmAgent4 := validationSwarmAgent4 Demo.env;
     recencyDays := recencyDays Demo.env;
     trustThreshold := trustThreshold Demo.env;
     allowedDomains := allowedDomains Demo.env;
     GENERATION_ATTEMPT_TIMEOUT_MS := EmptyString;
     GENERATION_MAX_ATTEMPTS := attempts |}.

(** A web platform that leaves URI components as they are and reads the
    whole of what follows [?name=] as the parameter [name]. *)
Definition web : WebPlatform :=
  {| encodeURIComponent := fun s => s;
     decodeURIComponent := fun s => Some s;
     URL_pathname := fun u =>
       match indexOfCI "/" (String.substring 8 (String.length (href u)) (href u)) with
       | Some k => String.substring (8 + k) (String.length (href u)) (href u)
       | None => "/"
       end;
     URL_origin := fun u => protocol u ++ "//" ++ hostname u;
     URL_searchParam := fun u name =>
       match indexOfCI ("?" ++ name ++ "=") (href u) with
       | Some k =>
           Some (String.substring (k + String.length name + 2) (String.length (href u))
                   (href u))
       | None => None
       end;
     URL_resolve := fun raw _ => URL_parse Demo.platform raw |}.

(** A network on which no page answers. *)
Definition offline : WebOracle :=
  fun _ c =>
    match c with
    | FetchPage _ _ => FetchThrew (ErrorString "offline")
    | EmbedDocs _ => None
    | EmbedDocsDetached _ => tt
    end.

(** A network that holds the given pages, under their links, and nothing
    else; the embedding function succeeds. *)
Fixpoint pageAt (pages : list (string * string)) (url : string) : option string :=
  match pages with
  | [] => None
  | (u, html) :: r => if String.eqb u url then Some html else pageAt r url
  end.

Definition webOf (pages : list (string * string)) : WebOracle :=
  fun _ c =>
    match c with
    | FetchPage url _ =>
        match pageAt pages url with
        | Some html => Fetched "text/html" (Some html)
        | None => FetchThrew (ErrorString "offline")
        end
    | EmbedDocs _ => None
    | EmbedDocsDetached _ => tt
    end.

Definition aspirinText : string :=
  "Aspirin is used to reduce fever and to relieve mild to moderate pain from "
  ++ "conditions such as muscle aches, toothaches, common cold, and headaches.".

(** The search page of the FDA for the keyword [aspirin] with one result,
    and the page of that result. *)
Definition fdaWeb : WebOracle :=
  webOf
    [("https://www.fda.gov/search?s=aspirin",
      "<html><a href='https://www.fda.gov/drugs/aspirin'>Aspirin</a></html>");
     ("https://www.fda.gov/drugs/aspirin",
      "<html><title>Aspirin</title><p>" ++ aspirinText ++ "</p></html>")].

Definition aspirinDoc : CollectedDoc :=
  {| cd_source := "FDA"; cd_url := "https://www.fda.gov/drugs/aspirin";
     cd_title := "Aspirin"; cd_content := "Aspirin " ++ aspirinText |}.

End DemoRetrieval.

(* ================================================================== *)
(** ** Reference formulas for the further helpers *)

(** The 32-bit FNV-1a hash over unsigned arithmetic, from the state [h]. *)
Fixpoint fnv1a32 (h : Z) (s : string) : Z :=
  match s with
  | EmptyString => h
  | String c r => fnv1a32 ((Z.lxor h (Z.of_N (code c)) * 16777619) mod 4294967296) r
  end.

(** The link [checkUrlExists] returns for the link [asked] when the probe
    answers with the final link [finalUrl]. *)
Definition resolvedUrl (P : Platform) (asked finalUrl : string) : string :=
  let n := normalizeUrlString P (if isEmpty finalUrl then asked else finalUrl) in
  if isEmpty n then asked else n.

(** In the run that starts from the history [h] and makes the awaits [t],
    the link [u] is what a probe answered with an accepted status gave. *)
Definition probedOk (P : Platform) (o : Oracle) (h t : list Call) (u : string) : Prop :=
  exists pre post asked st finalUrl,
    t = (pre ++ ProbeUrl asked 3000 :: post)%list
    /\ o (h ++ pre)%list (ProbeUrl asked 3000) = ProbeAnswered st finalUrl
    /\ statusCountsAsExisting st = true
    /\ u = resolvedUrl P asked finalUrl
    /\ u <> EmptyString.

Definition isProbe (c : Call) : bool :=
  match c with ProbeUrl _ timeoutMs => timeoutMs =? 3000 | _ => false end.

(** The row kept holds the title, the content and the source of the row
    it was made of: it differs at most by its link. *)
Definition sameButUrl (a : RagDoc) (row : JsVal) : Prop :=
  rd_title a = prop row "title" /\ rd_content a = prop row "content"
  /\ rd_source a = prop row "source".

(** [out] keeps some rows of [docs], in their order, each with a link of its
    own. *)
Inductive KeptFrom : list RagDoc -> list JsVal -> Prop :=
| KeptFrom_nil : KeptFrom [] []
| KeptFrom_skip (d : JsVal) (out : list RagDoc) (docs : list JsVal) :
    KeptFrom out docs -> KeptFrom out (d :: docs)
| KeptFrom_take (d' : RagDoc) (d : JsVal) (out : list RagDoc) (docs : list JsVal) :
    sameButUrl d' d -> KeptFrom out docs -> KeptFrom (d' :: out) (d :: docs).

(** What retrieval outside private mode keeps: no more than [n] citations,
    each with a link that a probe of this run accepted, and no internet
    fallback so far. *)
Definition VerifiedState (P : Platform) (o : Oracle) (h t : list Call) (n : nat)
    (st : RetrievalState) : Prop :=
  internetFallbackUsed st = false
  /\ (List.length (citations st) <= n)%nat
  /\ Forall (fun c => probedOk P o h t (url c)) (citations st).

(** The wildcards of [ilike]. *)
Definition isWildcard (c : ascii) : bool :=
  Ascii.eqb c "%"%char || Ascii.eqb c "_"%char.

(** Every [%] and [_] of the string stands right behind a backslash;
    [behind] tells whether the string itself stands right behind one. *)
Fixpoint wildcardsEscaped (behind : bool) (s : string) : bool :=
  match s with
  | EmptyString => true
  | String c r =>
      (negb (isWildcard c) || behind) && wildcardsEscaped (Ascii.eqb c "\"%char) r
  end.

(** Deleting the backslash in front of each [%] and [_]. *)
Fixpoint unescapeIlike (s : string) : string :=
  match s with
  | EmptyString => EmptyString
  | String c r =>
      match r with
      | String d r' =>
          if Ascii.eqb c "\"%char && (Ascii.eqb d "%"%char || Ascii.eqb d "_"%char)
          then String d (unescapeIlike r')
          else String c (unescapeIlike r)
      | EmptyString => String c EmptyString
      end
  end.

(** In the run that starts from the history [h] and makes the awaits [t],
    the validation agent called for [purpose] answered with a text in which
    a JSON value with the status [pass] was found. *)
Definition agentPassed (P : Platform) (o : Oracle) (h t : list Call) (purpose : string) : Prop :=
  exists pre post model system user timeoutMs content,
    t = (pre ++ ChatCompletion purpose model system user true timeoutMs :: post)%list
    /\ o (h ++ pre)%list (ChatCompletion purpose model system user true timeoutMs)
       = ChatOk content
    /\ prop (safeJsonParse P (trim content)) "status" = JStr "pass".

(** The error responses of the generation route: status and code. *)
Definition errorCatalogue : list (Z * string) :=
  [ (500, "server_error");
    (500, "Server configuration error");
    (400, "topic, primaryKeyword, userId required");
    (500, "missing_openrouter_key");
    (500, "missing_validation_swarm_agents");
    (422, "no_sources");
    (500, "generation_failed") ].


(** The models the generation loop goes through:
    [candidates.slice(0, maxAttempts)]. *)
Definition attemptModels (P : Platform) (env : Env) : list string :=
  firstn (sliceCount (maxAttempts P env) (List.length (candidates env))) (candidates env).

(** *** Counting awaits *)

Inductive CallKind : Type :=
| KClock | KDate | KBackground | KInvoke | KSleep | KPrivateSearch | KPublicSearch
| KCollect | KProbe | KInternet | KChat | KInsertDraft | KInsertAgents.

Definition kindOf (c : Call) : CallKind :=
  match c with
  | DateNow => KClock
  | TodayISO => KDate
  | BackgroundCollect _ => KBackground
  | FunctionsInvoke _ _ _ => KInvoke
  | Sleep _ => KSleep
  | PrivateTextSearch _ _ _ => KPrivateSearch
  | PublicTextSearch _ _ => KPublicSearch
  | CollectDocuments _ _ => KCollect
  | ProbeUrl _ _ => KProbe
  | CollectInternetDocs _ _ _ _ => KInternet
  | ChatCompletion _ _ _ _ _ _ => KChat
  | InsertGeneratedContent _ => KInsertDraft
  | InsertAgentResults _ => KInsertAgents
  end.

Definition CallKind_eqb (a b : CallKind) : bool :=
  match a, b with
  | KClock, KClock | KDate, KDate | KBackground, KBackground | KInvoke, KInvoke
  | KSleep, KSleep | KPrivateSearch, KPrivateSearch | KPublicSearch, KPublicSearch
  | KCollect, KCollect | KProbe, KProbe | KInternet, KInternet | KChat, KChat
  | KInsertDraft, KInsertDraft | KInsertAgents, KInsertAgents => true
  | _, _ => false
  end.

(** How many awaits of the kind [K] a run made. *)
Definition countKind (K : CallKind) (t : list Call) : nat :=
  List.length (filter (fun c => CallKind_eqb (kindOf c) K) t).

(** The most awaits of each kind that one request makes. *)
Definition callBudget (K : CallKind) : nat :=
  match K with
  | KClock => 4
  | KDate => 1
  | KBackground => 1
  | KInvoke => 4
  | KSleep => 2
  | KPrivateSearch => 1
  | KPublicSearch => 1
  | KCollect => 1
  | KProbe => 21
  | KInternet => 1
  | KChat => 9
  | KInsertDraft => 1
  | KInsertAgents => 1
  end.

(** The awaits of a handler, each weighed by its kind, weigh no more than
    [n] in any run. *)
Fixpoint Costs {A : Type} (w : CallKind -> nat) (p : Prog A) (n : nat) : Prop :=
  match p with
  | Ret _ => True
  | Vis c k => (w (kindOf c) <= n)%nat /\ forall r, Costs w (k r) (n - w (kindOf c))
  end.

(** *** Plain text *)

(** A tag [<...>] begins the string. *)
Definition tagAt (s : string) : bool :=
  match tagLen s with Some _ => true | None => false end.

(** Every white space character of the string is a space, and no two
    stand side by side. *)
Fixpoint singleSpaced (s : string) : bool :=
  match s with
  | EmptyString => true
  | String c r =>
      (negb (isWhiteSpace c)
       || (Ascii.eqb c " "%char
           && match r with
              | String d _ => negb (isWhiteSpace d)
              | EmptyString => true
              end))
      && singleSpaced r
  end.

(** The string is empty or begins with a character that is not white
    space. *)
Definition startsClean (s : string) : bool :=
  match s with
  | String c _ => negb (isWhiteSpace c)
  | EmptyString => true
  end.

(** Runs of white space brought to one space each; [inRun] tells that the
    space of the current run has been written. *)
Fixpoint squeeze (inRun : bool) (s : string) : string :=
  match s with
  | EmptyString => EmptyString
  | String c r =>
      if isWhiteSpace c
      then if inRun then squeeze true r else String " "%char (squeeze true r)
      else String c (squeeze false r)
  end.

(** *** Documents of the internet search *)

(** The document [d] was read from a page of the run: the trace [t], which
    follows the history [h], holds a request of its link, the answer to
    that request was a page of at least 300 characters of plain text, and
    the document keeps the first 12000 of them under the title of the page,
    or under the link when the page has none. *)
Definition readFrom (o : WebOracle) (h t : list WebCall) (pageTimeoutMs : Z)
    (d : InternetDoc) : Prop :=
  exists (pre post : list WebCall) (contentType : string) (body : option string),
    t = (pre ++ FetchPage (idoc_url d) pageTimeoutMs :: post)%list
    /\ o (h ++ pre)%list (FetchPage (idoc_url d) pageTimeoutMs) = Fetched contentType body
    /\ notHtml contentType = false
    /\ (300 <= String.length (stripHtml (orEmpty body)))%nat
    /\ idoc_content d = sliceTo 12000 (stripHtml (orEmpty body))
    /\ idoc_title d
       = (if isEmpty (titleOfHtml (orEmpty body)) then idoc_url d
          else titleOfHtml (orEmpty body)).

(** The call is a page request. *)
Definition isPageRequest (c : WebCall) : bool :=
  match c with FetchPage _ _ => true | _ => false end.

(** *** Documents of the collector *)

(** The document is one the collector keeps for the source [s]: it is
    filed under the name of the source, its link passes the allowlist, the
    host of the link is the host of the source or below it, the link is
    likely content, and the text kept has more than 50 and at most 10000
    characters. *)
Definition allowedDoc (P : Platform) (W : WebPlatform) (env : Env) (s : Collector.Source)
    (d : CollectedDoc) : Prop :=
  cd_source d = Collector.src_name s
  /\ Collector.isAllowedUrl P env (cd_url d) = true
  /\ (exists u : URL,
        URL_parse P (cd_url d) = Some u
        /\ Collector.hostMatches (hostname u) (Collector.src_host s) = true)
  /\ (exists searchUrl : string,
        Collector.isLikelyContentUrl P W (cd_url d) searchUrl (Collector.src_host s) = true)
  /\ (50 < String.length (cd_content d) <= 10000)%nat.

(** The call hands documents to the embedding function. *)
Definition embedded (c : WebCall) : option (list CollectedDoc) :=
  match c with
  | EmbedDocs docs | EmbedDocsDetached docs => Some docs
  | FetchPage _ _ => None
  end.

(** The link is written with the scheme [http] or [https]. *)
Definition isWebLink (u : string) : bool :=
  startsWith u "http://" || startsWith u "https://".

(** What may follow the extension of an asset: nothing, a query or a
    fragment. *)
Definition endsPath (rest : string) : bool :=
  match rest with
  | EmptyString => true
  | String c _ => Ascii.eqb c "?"%char || Ascii.eqb c "#"%char
  end.

Definition isDot (c : ascii) : bool := Ascii.eqb c "."%char.

(* ================================================================== *)
(** ** Running handlers *)

Lemma exec_bind {A B : Type} (o : Oracle) (m : Prog A) (f : A -> Prog B) :
  forall h,
    exec o h (bind m f) =
    let (a, t1) := exec o h m in
    let (b, t2) := exec o (h ++ t1) (f a) in
    (b, (t1 ++ t2)%list).
Proof.
  induction m as [a | c k IH]; intros h; simpl.
  - rewrite app_nil_r. destruct (exec o h (f a)); reflexivity.
  - rewrite IH. destruct (exec o (h ++ [c]) (k (o h c))) as [a t1].
    rewrite <- app_assoc. simpl.
    destruct (exec o (h ++ c :: t1) (f a)); reflexivity.
Qed.

Lemma AllCalls_bind {A B : Type} (S : Call -> Prop) (m : Prog A) (f : A -> Prog B) :
  AllCalls S m -> (forall a, AllCalls S (f a)) -> AllCalls S (bind m f).
Proof.
  induction m as [a | c k IH]; simpl; intros Hm Hf.
  - apply Hf.
  - destruct Hm as [Hc Hk]. split; [exact Hc |]. intros r. apply IH; [apply Hk | exact Hf].
Qed.

Lemma AllCalls_exec {A : Type} (S : Call -> Prop) (p : Prog A) :
  AllCalls S p -> forall o h, Forall S (snd (exec o h p)).
Proof.
  induction p as [a | c k IH]; simpl; intros Hp o h.
  - constructor.
  - destruct Hp as [Hc Hk]. specialize (IH (o h c) (Hk _) o (h ++ [c])%list).
    destruct (exec o (h ++ [c]) (k (o h c))) as [a t]. simpl in *. constructor; assumption.
Qed.

Lemma Results_bind {A B : Type} (R1 : A -> Prop) (R : B -> Prop) (m : Prog A) (f : A -> Prog B) :
  Results R1 m -> (forall a, R1 a -> Results R (f a)) -> Results R (bind m f).
Proof.
  induction m as [a | c k IH]; simpl; intros Hm Hf.
  - apply Hf, Hm.
  - intros r. apply IH; [apply Hm | exact Hf].
Qed.

Lemma Results_true {A : Type} (p : Prog A) : Results (fun _ => True) p.
Proof. induction p as [a | c k IH]; simpl; auto. Qed.

Lemma Results_exec {A : Type} (R : A -> Prop) (p : Prog A) :
  Results R p -> forall o h, R (fst (exec o h p)).
Proof.
  induction p as [a | c k IH]; simpl; intros Hp o h.
  - exact Hp.
  - specialize (IH (o h c) (Hp _) o (h ++ [c])%list).
    destruct (exec o (h ++ [c]) (k (o h c))) as [a t]. exact IH.
Qed.

Lemma Ensures_bind_mono {A B : Type} (m : Prog A) (f : A -> Prog B)
    (R1 : A -> Prop) (Q : Oracle -> list Call -> B -> list Call -> Prop) :
  Results R1 m ->
  (forall a, R1 a -> Ensures (f a) Q) ->
  (forall o h b t1 t2, Q o (h ++ t1)%list b t2 -> Q o h b (t1 ++ t2)%list) ->
  Ensures (bind m f) Q.
Proof.
  intros Hm Hf Hmono o h. rewrite exec_bind.
  pose proof (Results_exec R1 m Hm o h) as Ha.
  destruct (exec o h m) as [a t1]. simpl in Ha.
  specialize (Hf a Ha o (h ++ t1)%list).
  destruct (exec o (h ++ t1) (f a)) as [b t2]. simpl in *. apply Hmono, Hf.
Qed.

Lemma AllCalls_await (S : Call -> Prop) (c : Call) : S c -> AllCalls S (await c).
Proof. intros H. split; [exact H | intros r; exact I]. Qed.

Lemma AllCalls_ret {A : Type} (S : Call -> Prop) (a : A) : AllCalls S (Ret a).
Proof. exact I. Qed.

Lemma AllCalls_if {A : Type} (S : Call -> Prop) (b : bool) (m1 m2 : Prog A) :
  AllCalls S m1 -> AllCalls S m2 -> AllCalls S (if b then m1 else m2).
Proof. destruct b; auto. Qed.

Create HintDb calls.

Ltac calls :=
  repeat first
    [ apply AllCalls_ret
    | apply AllCalls_await; reflexivity
    | solve [auto with calls]
    | apply AllCalls_bind; [| intros]
    | apply AllCalls_if
    | match goal with
      | |- AllCalls _ (let (_, _) := ?e in _) => destruct e
      end ].

(** *** The texts written in a run *)

Lemma textAnswers_app (o : Oracle) (t1 t2 : list Call) :
  forall h,
    textAnswers o h (t1 ++ t2)
    = (textAnswers o h t1 ++ textAnswers o (h ++ t1)%list t2)%list.
Proof.
  induction t1 as [| c t1 IH]; intros h.
  - rewrite app_nil_r. reflexivity.
  - cbn [app textAnswers]. rewrite IH, <- !app_assoc. reflexivity.
Qed.

Lemma textAnswers_none (o : Oracle) (t : list Call) :
  Forall (fun c => isTextCompletion c = false) t ->
  forall h, textAnswers o h t = [].
Proof.
  induction 1 as [| c t Hc Ht IH]; intros h; [reflexivity |].
  cbn [textAnswers]. rewrite IH, app_nil_r.
  destruct c; try reflexivity.
  destruct temperatureZero; [reflexivity | discriminate].
Qed.

Lemma last_cons_default {A : Type} (x : A) (l : list A) (d : A) :
  last (x :: l) d = last l x.
Proof.
  revert x d. induction l as [| y l IH]; intros x d; [reflexivity |].
  change (last (x :: y :: l) d) with (last (y :: l) d).
  rewrite (IH y d), (IH y x). reflexivity.
Qed.

Lemma last_app_default {A : Type} (l1 l2 : list A) (d : A) :
  l2 <> [] -> last (l1 ++ l2) d = last l2 d.
Proof.
  intros Hne. induction l1 as [| x l1 IH]; [reflexivity |].
  cbn [app]. destruct (l1 ++ l2)%list eqn:E.
  - destruct l1; [contradiction | discriminate].
  - rewrite <- IH. reflexivity.
Qed.

(** Rewrites one [bind] under [exec] and names the result and the trace of
    its first part. *)
Ltac exec_step :=
  rewrite exec_bind;
  match goal with
  | |- context [exec ?o ?h ?m] =>
      let a := fresh "a" in
      let t := fresh "t" in
      let E := fresh "E" in
      destruct (exec o h m) as [a t] eqn:E
  end.

(* ================================================================== *)
(** ** Trust score *)

Lemma scoreOf_spec (applicable : bool) (c r f t : ValidationAgentResult) :
  scoreOf applicable c r f t
  = ofZ (spec_trustScore (status c) (status r) (status f) (status t) applicable).
Proof.
  unfold scoreOf, penalty, spec_trustScore, spec_penalty.
  destruct (status c), (status r), (status f), (status t), applicable; reflexivity.
Qed.

Lemma spec_trustScore_range (c r f t : Status) (applicable : bool) :
  0 <= spec_trustScore c r f t applicable <= 100.
Proof. unfold spec_trustScore. lia. Qed.

Lemma validation_swarm_score (P : Platform) (T : Prompts) (env : Env) (args : SwarmArgs)
    (o : Oracle) (h : list Call) :
  let out := fst (exec o h (validation_swarm P T env args)) in
  trustScore out
  = scoreOf (recencyApplicable args) (citation (results out)) (recency (results out))
      (fact_check (results out)) (tone (results out)).
Proof.
  unfold validation_swarm. cbv zeta.
  repeat exec_step. reflexivity.
Qed.

(** C1. In every run of the validation swarm the trust score is
    clamp(100 - penalties, 0, 100), the penalties being 25 for a failed
    citation agent, 20 for a failed recency agent when recency is applicable
    (news mode or internet fallback), 40 for a failed fact-check agent and 15
    for a failed tone agent; so it is an integer between 0 and 100 and a
    function of the four statuses and the applicability flag alone. *)
Theorem trustScore_is_clamped_penalty_sum :
  forall (P : Platform) (T : Prompts) (env : Env) (args : SwarmArgs)
         (o : Oracle) (h : list Call),
    let out := fst (exec o h (validation_swarm P T env args)) in
    let applicable := String.eqb (sw_mode args) "news" || sw_internetFallbackUsed args in
    let expected :=
      spec_trustScore (status (citation (results out))) (status (recency (results out)))
        (status (fact_check (results out))) (status (tone (results out))) applicable in
    trustScore out = ofZ expected /\ 0 <= expected <= 100.
Proof.
  intros P T env args o h out applicable expected. split.
  - subst out expected applicable.
    rewrite validation_swarm_score. apply scoreOf_spec.
  - apply spec_trustScore_range.
Qed.

(* ================================================================== *)
(** ** Workflow Decider and the two outputs *)

Lemma respond_run (P : Platform) (env : Env) (p : Parsed) (ev : Evidence)
    (draft : string) (humanized : bool) (swarm : SwarmOutcome) (o : Oracle) (h : list Call) :
  let d := workflowDecider (trustThreshold env) (trustScore swarm) (agentInserts swarm) in
  let full := noticedBody p ev (requiresReview d) draft in
  exists base id row rest,
    exec o h (respond P env p ev draft humanized swarm)
    = (Success (outputForClient base full (decidedBlocked d) id),
       InsertGeneratedContent row :: rest)
    /\ output_json row = outputForDb base full (decidedBlocked d)
    /\ requires_review row = requiresReview d
    /\ row_trust_score row = trustScore swarm
    /\ out_status base = workflowStatus d
    /\ trust_score base = trustScore swarm
    /\ validation_results base = results swarm
    /\ out_citations base = ev_citations ev
    /\ internet_fallback_used base = ev_internetFallbackUsed ev
    /\ Forall (fun c => isChatCompletion c = false /\ isInternetCollection c = false) rest.
Proof.
  intros d full. unfold respond. fold d. fold full. cbv zeta.
  simpl exec.
  match goal with
  | |- context [isEmpty ?id] => destruct (isEmpty id) eqn:Eid
  end; simpl; do 4 eexists; (split; [reflexivity |]);
    repeat (split; [reflexivity |]); repeat constructor.
Qed.


Lemma validation_swarm_first_call (P : Platform) (T : Prompts) (env : Env) (args : SwarmArgs)
    (o : Oracle) (h : list Call) :
  exists system user rest,
    snd (exec o h (validation_swarm P T env args))
    = ChatCompletion "validation_citation" (validationSwarmAgent1 env) system user true
        (ofZ 7000) :: rest.
Proof.
  unfold validation_swarm, callOpenRouterJson. cbv zeta. cbn [bind await exec].
  match goal with
  | |- context [exec ?o' ?h' ?m] => destruct (exec o' h' m) as [a t]
  end.
  do 3 eexists. reflexivity.
Qed.

Lemma validationGate_run (P : Platform) (T : Prompts) (env : Env) (p : Parsed)
    (startedAt : Z) (ev : Evidence) (finalBody : string) (o : Oracle) (h : list Call) :
  let elapsed := o (h ++ [TodayISO])%list DateNow - startedAt in
  let args := swarmArgsOf P env p ev finalBody (o h TodayISO) in
  let swarm := exec o (h ++ [TodayISO; DateNow])%list (validation_swarm P T env args) in
  exec o h (validationGate P T env p startedAt ev finalBody)
  = if 15000 <? 85000 - elapsed
    then (fst swarm, TodayISO :: DateNow :: snd swarm)
    else (skippedSwarm, [TodayISO; DateNow]).
Proof.
  intros elapsed args swarm.
  unfold validationGate, remainingMs. cbn [bind await exec].
  rewrite <- app_assoc. cbn [app].
  fold elapsed. fold args.
  destruct (15000 <? 85000 - elapsed).
  - fold swarm. destruct swarm; reflexivity.
  - reflexivity.
Qed.





(* ================================================================== *)
(** ** Every successful response *)

Ltac prog := cbn [Results AllCalls bind await fst snd].

Lemma textAnswers_nonblank (o : Oracle) (t : list Call) :
  forall h, Forall (fun s => isEmpty s = false) (textAnswers o h t).
Proof.
  induction t as [| c t IH]; intros h; [constructor |].
  cbn [textAnswers]. apply Forall_app. split; [| apply IH].
  destruct c; try constructor.
  destruct temperatureZero; [constructor |].
  cbn [textAnswer]. destruct (o h _) as [| | |content]; try constructor.
  destruct (isEmpty (trim content)) eqn:E; constructor; [exact E | constructor].
Qed.

Lemma modelText_nonblank (o : Oracle) (h t : list Call) :
  textAnswers o h t <> [] -> isEmpty (modelText o h t) = false.
Proof.
  intros Hne. unfold modelText.
  pose proof (textAnswers_nonblank o t h) as Hall.
  destruct (textAnswers o h t) as [| s l]; [contradiction |].
  rewrite Forall_forall in Hall. apply Hall.
  destruct (exists_last (l := s :: l) ltac:(discriminate)) as (l' & a & E).
  rewrite E, last_last. apply in_or_app. right. left. reflexivity.
Qed.

(** The generation loop ends with the one text it was given, or with
    none. *)
Lemma generationLoop_texts (system user : string) (timeoutMs : JsNumber) (models : list string) :
  forall (lastError : string) (o : Oracle) (h : list Call),
    let r := exec o h (generationLoop system user timeoutMs models lastError) in
    textAnswers o h (snd r)
    = if isEmpty (fst (fst r)) then [] else [fst (fst r)].
Proof.
  induction models as [| m l IH]; intros lastError o h; [reflexivity |].
  cbv zeta. cbn [generationLoop]. unfold callOpenRouterText. cbn [bind await exec].
  set (c := ChatCompletion "generate" m system user false timeoutMs).
  assert (Hstep : forall k : Resp c -> Prog (string * string),
             textAnswers o h (snd (let (a, t) := exec o (h ++ [c]) (k (o h c)) in (a, c :: t)))
             = (match textAnswer c (o h c) with Some s => [s] | None => [] end
                ++ textAnswers o (h ++ [c]) (snd (exec o (h ++ [c]) (k (o h c)))))%list
             /\ fst (let (a, t) := exec o (h ++ [c]) (k (o h c)) in (a, c :: t))
                = fst (exec o (h ++ [c]) (k (o h c)))).
  { intros k. destruct (exec o (h ++ [c]) (k (o h c))). split; reflexivity. }
  match goal with
  | |- context [exec o (h ++ [c])%list ?body] =>
      match body with
      | context [o h c] =>
          pattern (o h c) in |- * ;
          match goal with
          | |- (fun r : Resp c => _) (o h c) => idtac
          end
      end
  end.
  cbv beta.
  destruct (Hstep (fun r =>
              match
                match r with
                | ChatAborted => TextFail "timeout"
                | ChatThrew e => TextFail (errorMessage e)
                | ChatHttpError st errText =>
                    TextFail (if isEmpty errText then "openrouter_http_" ++ ofInt st
                              else errText)
                | ChatOk content => TextOk (trim content)
                end
              with
              | TextFail reason => generationLoop system user timeoutMs l reason
              | TextOk text =>
                  if isEmpty text then generationLoop system user timeoutMs l lastError
                  else Ret (text, lastError)
              end)) as [Ht Hf].
  cbv beta in Ht, Hf. rewrite Ht, Hf. clear Ht Hf Hstep.
  unfold c at 1. cbn [textAnswer].
  destruct (o h c) as [| e | st errText | content]; cbn [app]; try apply IH.
  destruct (isEmpty (trim content)) eqn:E; cbn [app]; [apply IH |].
  cbn [exec fst snd textAnswers]. rewrite E. reflexivity.
Qed.

Lemma callOpenRouterText_run (model system user : string) (timeoutMs : JsNumber)
    (purpose : string) (o : Oracle) (h : list Call) :
  let c := ChatCompletion purpose model system user false timeoutMs in
  exists r,
    exec o h (callOpenRouterText model system user timeoutMs purpose) = (r, [c])
    /\ textAnswers o h [c]
       = match r with
         | TextOk text => if isEmpty text then [] else [text]
         | TextFail _ => []
         end.
Proof.
  cbv zeta. unfold callOpenRouterText. cbn [bind await exec textAnswers textAnswer].
  eexists. split; [reflexivity |].
  destruct (o h _) as [| e | st errText | content]; try reflexivity.
  destruct (isEmpty (trim content)); reflexivity.
Qed.

Lemma shouldRewrite_calls (env : Env) (p : Parsed) (startedAt : Z) :
  AllCalls (fun c => isTextCompletion c = false) (shouldRewrite env p startedAt).
Proof. unfold shouldRewrite, remainingMs. calls. Qed.

(** The rewrite block ends with the last text it was given, closed by
    [canonical], or with the body it started from. *)
Lemma rewritePass_texts (P : Platform) (T : Prompts) (env : Env) (p : Parsed)
    (startedAt : Z) (ev : Evidence) (text0 : string) (o : Oracle) (h : list Call) :
  let r := exec o h (rewritePass P T env p startedAt ev (canonical P ev text0)) in
  fst (fst r) = canonical P ev (last (textAnswers o h (snd r)) text0).
Proof.
  cbv zeta. unfold rewritePass. rewrite exec_bind.
  pose proof (AllCalls_exec _ _ (shouldRewrite_calls env p startedAt) o h) as H0.
  destruct (exec o h (shouldRewrite env p startedAt)) as [go t0]. cbn [snd] in H0.
  destruct go.
  2:{ cbn [exec fst snd]. rewrite app_nil_r, (textAnswers_none o t0 H0). reflexivity. }
  rewrite exec_bind.
  match goal with
  | |- context [exec o (h ++ t0)%list (callOpenRouterText ?m ?s ?u ?tm ?pp)] =>
      destruct (callOpenRouterText_run m s u tm pp o (h ++ t0)%list) as (r1 & E1 & A1)
  end.
  rewrite E1. clear E1.
  match goal with
  | |- context [exec o ((h ++ t0) ++ [?c])%list _] => set (c1 := c) in *
  end.
  assert (Hb : exists body1 humanized1,
             match r1 with
             | TextOk text =>
                 if isEmpty text then (canonical P ev text0, false)
                 else (canonical P ev text, true)
             | TextFail _ => (canonical P ev text0, false)
             end = (body1, humanized1)
             /\ body1 = canonical P ev (last (textAnswers o (h ++ t0)%list [c1]) text0)).
  { rewrite A1. destruct r1 as [text | reason]; [destruct (isEmpty text) |];
      do 2 eexists; split; reflexivity. }
  destruct Hb as (body1 & humanized1 & Eb & Hbody). rewrite Eb. clear Eb.
  rewrite exec_bind.
  match goal with
  | |- context [exec o ((h ++ t0) ++ [c1])%list ?m] =>
      assert (H2 : AllCalls (fun c => isTextCompletion c = false) m)
        by (unfold remainingMs; calls);
      pose proof (AllCalls_exec _ _ H2 o ((h ++ t0) ++ [c1])%list) as H2';
      clear H2;
      destruct (exec o ((h ++ t0) ++ [c1])%list m) as [again t2]
  end.
  cbn [snd] in H2'.
  destruct again.
  - rewrite exec_bind.
    match goal with
    | |- context [exec o ?h2 (callOpenRouterText ?m ?s ?u ?tm ?pp)] =>
        destruct (callOpenRouterText_run m s u tm pp o h2) as (r2 & E2 & A2)
    end.
    rewrite E2. clear E2. cbn [exec fst snd]. rewrite app_nil_r.
    rewrite (textAnswers_app o t0), (textAnswers_none o t0 H0). cbn [app].
    change (c1 :: (t2 ++ ?l)%list) with ([c1] ++ t2 ++ l)%list.
    rewrite (textAnswers_app o [c1]), (textAnswers_app o t2),
      (textAnswers_none o t2 H2'). cbn [app].
    rewrite A2. subst body1.
    destruct r2 as [text | reason]; [destruct (isEmpty text) eqn:Et |];
      rewrite ?app_nil_r; try reflexivity.
    rewrite last_last. reflexivity.
  - cbn [exec fst snd]. rewrite app_nil_r.
    rewrite (textAnswers_app o t0), (textAnswers_none o t0 H0). cbn [app].
    change (c1 :: t2) with ([c1] ++ t2)%list.
    rewrite (textAnswers_app o [c1]), (textAnswers_none o t2 H2'), app_nil_r.
    exact Hbody.
Qed.

Lemma validationGate_texts (P : Platform) (T : Prompts) (env : Env) (p : Parsed)
    (startedAt : Z) (ev : Evidence) (finalBody : string) :
  AllCalls (fun c => isTextCompletion c = false)
    (validationGate P T env p startedAt ev finalBody).
Proof.
  unfold validationGate, remainingMs, validation_swarm, callOpenRouterJson. cbv zeta. calls.
Qed.

Lemma respond_texts (P : Platform) (env : Env) (p : Parsed) (ev : Evidence)
    (draft : string) (humanized : bool) (swarm : SwarmOutcome) :
  AllCalls (fun c => isTextCompletion c = false) (respond P env p ev draft humanized swarm).
Proof. unfold respond. cbv zeta. calls. Qed.

Lemma respond_notice (P : Platform) (env : Env) (p : Parsed) (ev : Evidence)
    (draft : string) (humanized : bool) (swarm : SwarmOutcome) (o : Oracle) (h : list Call)
    (payload : OutputForClient) :
  fst (exec o h (respond P env p ev draft humanized swarm)) = Success payload ->
  content_source_notice (cl_base payload) = noticeOf ev.
Proof.
  unfold respond. cbv zeta. simpl exec.
  match goal with
  | |- context [isEmpty ?id] => destruct (isEmpty id)
  end; simpl; intros E; inversion E; reflexivity.
Qed.

Lemma generateAndValidate_served (P : Platform) (T : Prompts) (env : Env) (p : Parsed)
    (startedAt : Z) (ev : Evidence) :
  Ensures (generateAndValidate P T env p startedAt ev) (served P p ev).
Proof.
  intros o h. unfold generateAndValidate. cbv zeta.
  rewrite exec_bind.
  pose proof (generationLoop_texts (generationSystem T (promptInputs p ev))
                (generationUser T (promptInputs p ev)) (perAttemptMs P env p)
                (firstn (sliceCount (maxAttempts P env) (List.length (candidates env)))
                        (candidates env))
                EmptyString o h) as H1.
  cbv zeta in H1.
  destruct (exec o h (generationLoop _ _ _ _ _)) as [[text lastError] t1].
  cbn [fst snd] in H1.
  destruct (isEmpty text) eqn:Etext; [exact I |].
  rewrite exec_bind.
  pose proof (rewritePass_texts P T env p startedAt ev text o (h ++ t1)%list) as H2.
  cbv zeta in H2.
  destruct (exec o (h ++ t1) (rewritePass _ _ _ _ _ _ _)) as [[draft humanized] t2].
  cbn [fst snd] in H2.
  rewrite exec_bind.
  pose proof (AllCalls_exec _ _ (validationGate_texts P T env p startedAt ev draft) o
                ((h ++ t1) ++ t2)%list) as H3.
  destruct (exec o ((h ++ t1) ++ t2) (validationGate _ _ _ _ _ _ _)) as [swarm t3].
  cbn [snd] in H3.
  pose proof (AllCalls_exec _ _ (respond_texts P env p ev draft humanized swarm) o
                (((h ++ t1) ++ t2) ++ t3)%list) as H4.
  pose proof (respond_notice P env p ev draft humanized swarm o (((h ++ t1) ++ t2) ++ t3)%list)
    as Hn.
  destruct (respond_run P env p ev draft humanized swarm o (((h ++ t1) ++ t2) ++ t3)%list)
    as (base & id & row & rest & E & Hj & Hr & _ & Hs & _ & _ & Hc & Hi & _).
  rewrite E in H4, Hn |- *. cbn [fst snd] in *.
  assert (Et : textAnswers o h (t1 ++ t2 ++ t3 ++ InsertGeneratedContent row :: rest)
               = (text :: textAnswers o (h ++ t1)%list t2)%list).
  { rewrite (textAnswers_app o t1), H1. cbn [app]. f_equal.
    rewrite (textAnswers_app o t2), (textAnswers_app o t3).
    rewrite (textAnswers_none o t3 H3), (textAnswers_none o _ H4), !app_nil_r.
    reflexivity. }
  unfold served. cbv zeta. unfold modelText. rewrite Et, last_cons_default, <- H2.
  split; [discriminate |].
  exists (requiresReview
            (workflowDecider (trustThreshold env) (trustScore swarm) (agentInserts swarm))), row.
  split; [do 3 (apply in_or_app; right); left; reflexivity |].
  split; [exact Hr |]. split; [exact Hj |]. split; [reflexivity |].
  split; [exact Hc |]. split; [exact Hi |].
  apply (Hn _ eq_refl).
Qed.

Lemma served_shift (P : Platform) (p : Parsed) (ev : Evidence) (o : Oracle) (h : list Call)
    (resp : Response) (t1 t2 : list Call) :
  served P p ev o (h ++ t1)%list resp t2 -> served P p ev o h resp (t1 ++ t2)%list.
Proof.
  destruct resp as [e | payload]; [trivial |].
  unfold served, modelText. cbv zeta.
  intros (Hne & review & row & Hin & H).
  rewrite (textAnswers_app o t1), (last_app_default _ _ _ Hne).
  split.
  - intros E. apply app_eq_nil in E. destruct E as [_ E]. contradiction.
  - exists review, row. split; [apply in_or_app; right; exact Hin | exact H].
Qed.

(** Every response of [POST] that succeeds was served from some evidence. *)
Lemma POST_served (P : Platform) (T : Prompts) (R : PublicRetrieval) (env : Env)
    (req : JsError + RequestBody) :
  Ensures (POST P T R env req)
    (fun o h resp trace =>
       match req with
       | inl _ => exists e, resp = Failure e
       | inr b => exists ev, served P (parseRequest P b) ev o h resp trace
       end).
Proof.
  unfold POST. destruct req as [err | b].
  - intros o h. simpl. eexists; reflexivity.
  - cbv zeta. set (p := parseRequest P b).
    assert (Hfail : forall o h e t, exists ev : Evidence, served P p ev o h (Failure e) t).
    { intros o h e t. exists {| ev_context := EmptyString; ev_citations := []; ev_warnings := [];
                                ev_internetFallbackUsed := false; ev_ragChunks := [] |}.
      exact I. }
    destruct (configurationCheck env p) as [early |] eqn:Ec.
    { intros o h. simpl. unfold configurationCheck in Ec.
      repeat match type of Ec with
             | (if ?c then _ else _) = _ => destruct c
             | match ?c with _ => _ end = _ => destruct c
             end; inversion Ec; apply Hfail. }
    apply Ensures_bind_mono with (R1 := fun _ => True); [apply Results_true | |].
    2:{ intros o h resp t1 t2 [ev H]. exists ev. apply served_shift, H. }
    intros startedAt _.
    destruct (swarmAgentsCheck env p) as [early |] eqn:Es.
    { intros o h. simpl. unfold swarmAgentsCheck in Es.
      repeat match type of Es with
             | (if ?c then _ else _) = _ => destruct c
             | match ?c with _ => _ end = _ => destruct c
             end; inversion Es; apply Hfail. }
    apply Ensures_bind_mono with (R1 := fun _ => True); [apply Results_true | |].
    2:{ intros o h resp t1 t2 [ev H]. exists ev. apply served_shift, H. }
    intros _ _.
    apply Ensures_bind_mono with (R1 := fun _ => True); [apply Results_true | |].
    2:{ intros o h resp t1 t2 [ev H]. exists ev. apply served_shift, H. }
    intros st _. unfold afterRetrieval.
    destruct (sourcesGate p st) as [rejection | ev] eqn:Eg.
    + intros o h. simpl. unfold sourcesGate in Eg.
      destruct (citations st); [destruct (isPrivateMode p) |]; inversion Eg. apply Hfail.
    + intros o h. exists ev. apply generateAndValidate_served.
Qed.

(** The body the handler ends with is the body as the specification words
    it, on the fields of the response. *)
Lemma noticedBody_fullBody (P : Platform) (p : Parsed) (ev : Evidence) (base : BaseOutput)
    (review : bool) (text : string) :
  out_citations base = ev_citations ev ->
  internet_fallback_used base = ev_internetFallbackUsed ev ->
  content_source_notice base = noticeOf ev ->
  noticedBody p ev review (canonical P ev text)
  = fullBody P (isPrivateMode p) base review text.
Proof.
  intros Hc Hi Hn.
  unfold noticedBody, fullBody, canonical, buildGenerationNotice, generationNotice.
  rewrite Hc, Hi, Hn.
  destruct (isPrivateMode p), (ev_internetFallbackUsed ev), review; reflexivity.
Qed.

(** A success of [POST] carries the body made of the last text written in
    the run, in the row sent to the store and in the payload. *)
Lemma POST_full_body (P : Platform) (T : Prompts) (R : PublicRetrieval) (env : Env)
    (req : JsError + RequestBody) (o : Oracle) (h : list Call) (payload : OutputForClient) :
  fst (exec o h (POST P T R env req)) = Success payload ->
  exists (b : RequestBody) (row : GeneratedContentRow),
    req = inr b
    /\ In (InsertGeneratedContent row) (snd (exec o h (POST P T R env req)))
    /\ let text := modelText o h (snd (exec o h (POST P T R env req))) in
       let full :=
         fullBody P (isPrivateMode (parseRequest P b)) (cl_base payload)
           (requires_review row) text in
       isEmpty text = false
       /\ output_json row = outputForDb (cl_base payload) full (blocked payload)
       /\ payload = outputForClient (cl_base payload) full (blocked payload) (draft_id payload)
       /\ content_source_notice (cl_base payload)
          = contentSourceNotice (internet_fallback_used (cl_base payload))
              (out_citations (cl_base payload)).
Proof.
  intros Hs.
  pose proof (POST_served P T R env req o h) as H. cbv beta in H. rewrite Hs in H.
  destruct req as [err | b]; [destruct H as [e He]; discriminate |].
  destruct H as (ev & Hne & review & row & Hin & Hr & Hj & Hp & Hc & Hi & Hn).
  exists b, row. split; [reflexivity |]. split; [exact Hin |]. cbv zeta.
  split; [apply modelText_nonblank, Hne |].
  rewrite Hr.
  rewrite <- (noticedBody_fullBody P (parseRequest P b) ev (cl_base payload) review _ Hc Hi Hn).
  split; [exact Hj |]. split; [exact Hp |].
  rewrite Hn, Hc, Hi. reflexivity.
Qed.

(** C5. A successful response comes with a text that a model wrote in
    this run, and its full body is the generation notice in front of the
    last such text closed by the canonical sources.  The record sent to the
    store always carries the full body.  When the result is blocked the
    client payload has an empty body and carries the full body in
    review_body; when it is not blocked the payload body is the full body and
    review_body is empty. *)
Theorem blocked_body_is_withheld :
  forall (P : Platform) (T : Prompts) (R : PublicRetrieval) (env : Env)
         (req : JsError + RequestBody) (o : Oracle) (h : list Call) (payload : OutputForClient),
    fst (exec o h (POST P T R env req)) = Success payload ->
    exists (b : RequestBody) (row : GeneratedContentRow),
      req = inr b
      /\ In (InsertGeneratedContent row) (snd (exec o h (POST P T R env req)))
      /\ let text := modelText o h (snd (exec o h (POST P T R env req))) in
         let full :=
           fullBody P (isPrivateMode (parseRequest P b)) (cl_base payload)
             (requires_review row) text in
         isEmpty text = false
         /\ db_body (output_json row) = full
         /\ db_blocked (output_json row) = blocked payload
         /\ (blocked payload = true ->
             body payload = EmptyString /\ review_body payload = full)
         /\ (blocked payload = false ->
             body payload = full /\ review_body payload = EmptyString).
Proof.
  intros P T R env req o h payload Hs.
  destruct (POST_full_body P T R env req o h payload Hs)
    as (b & row & Eb & Hin & Htext & Hj & Hp & _).
  exists b, row. split; [exact Eb |]. split; [exact Hin |]. cbv zeta.
  split; [exact Htext |].
  rewrite Hj. cbn [db_body db_blocked outputForDb].
  split; [reflexivity |]. split; [reflexivity |].
  rewrite Hp. cbn [body review_body blocked outputForClient].
  split; intros Hb; rewrite Hb; split; reflexivity.
Qed.

Lemma blocked_body_is_withheld_witness :
  let o := Demo.oracle (fun _ => 0) Demo.noReply (fun _ => " The draft. ")
             Demo.factCheckFails in
  let run := exec o [] (POST Demo.platform Demo.prompts (Demo.found [Demo.fdaLabel]) Demo.env
                          (inr (Demo.request "news"))) in
  let full :=
    "## Generation Notice" ++ LF ++ "Content source: Universe-based" ++ LF
    ++ "Status: Needs manual review" ++ LF ++ LF
    ++ "The draft." ++ LF ++ LF ++ "## Sources / References" ++ LF
    ++ "[1] FDA label - https://www.fda.gov/label" in
  exists payload row,
    fst run = Success payload
    /\ In (InsertGeneratedContent row) (snd run)
    /\ modelText o [] (snd run) = "The draft."
    /\ blocked payload = true
    /\ db_body (output_json row) = full
    /\ body payload = EmptyString
    /\ review_body payload = full.
Proof.
  intros o run full.
  assert (E : exists payload,
             fst run = Success payload /\ blocked payload = true).
  { vm_compute. eexists. repeat split. }
  destruct E as (payload & E & Hb).
  destruct (blocked_body_is_withheld _ _ _ _ _ _ _ payload E)
    as (b & row & Eb & Hin & _ & Hdb & _ & Hblocked & _).
  exists payload, row.
  split; [exact E |]. split; [exact Hin |].
  split; [vm_compute; reflexivity |].
  split; [exact Hb |].
  destruct (Hblocked Hb) as [Hbody Hreview].
  inversion Eb; subst b.
  assert (Hfull : review_body payload = full).
  { revert E. vm_compute. intros E. inversion E. reflexivity. }
  split; [rewrite Hdb, <- Hreview; exact Hfull |].
  split; [exact Hbody | exact Hfull].
Defined.

(* ================================================================== *)
(** ** Validation gate *)

(** C3 (amended). In every successful run the validation gate reads the
    clock once, right after the date: when less than 70 s have elapsed since
    the request started (more than 15 s of the 85 s budget remain) the swarm
    is run, starting with the citation agent; from 70 s on, and so in
    particular past the 85 s budget, it is skipped: no further chat
    completion is called, the result carries trust score 0 and the four
    agents are reported failed with the issue validation_skipped_time_budget. *)
Theorem validation_gate_threshold :
  forall (P : Platform) (T : Prompts) (env : Env) (p : Parsed) (startedAt : Z)
         (ev : Evidence) (o : Oracle) (h : list Call) (payload : OutputForClient),
    fst (exec o h (generateAndValidate P T env p startedAt ev)) = Success payload ->
    exists (before after : list Call),
      snd (exec o h (generateAndValidate P T env p startedAt ev))
      = (before ++ TodayISO :: DateNow :: after)%list
      /\ let elapsed := o (h ++ before ++ [TodayISO])%list DateNow - startedAt in
         let skipped :=
           trust_score (cl_base payload) = ofZ 0
           /\ Forall (fun r => r = {| status := fail;
                                      issues := ["validation_skipped_time_budget"];
                                      confidence := ofZ 0 |})
                [citation (validation_results (cl_base payload));
                 recency (validation_results (cl_base payload));
                 fact_check (validation_results (cl_base payload));
                 tone (validation_results (cl_base payload))]
           /\ Forall (fun c => isChatCompletion c = false) after in
         (elapsed < 70000 ->
          exists system user rest,
            after = ChatCompletion "validation_citation" (validationSwarmAgent1 env)
                      system user true (ofZ 7000) :: rest)
         /\ (70000 <= elapsed -> skipped)
         /\ (85000 < elapsed -> skipped).
Proof.
  intros P T env p startedAt ev o h payload.
  unfold generateAndValidate. cbv zeta.
  rewrite exec_bind.
  destruct (exec o h (generationLoop _ _ _ _ _)) as [[text lastError] t1].
  destruct (isEmpty text); [cbn [exec fst]; discriminate |].
  rewrite exec_bind.
  destruct (exec o (h ++ t1) (rewritePass _ _ _ _ _ _ _)) as [[draft humanized] t2].
  rewrite exec_bind.
  rewrite validationGate_run. cbv zeta.
  set (elapsed := o (((h ++ t1) ++ t2) ++ [TodayISO])%list DateNow - startedAt).
  assert (Eh : (((h ++ t1) ++ t2) ++ [TodayISO])%list = (h ++ (t1 ++ t2) ++ [TodayISO])%list).
  { rewrite <- !app_assoc. reflexivity. }
  destruct (15000 <? 85000 - elapsed) eqn:Eg.
  - (* the swarm is run *)
    destruct (validation_swarm_first_call P T env
                (swarmArgsOf P env p ev draft (o ((h ++ t1) ++ t2)%list TodayISO))
                o (((h ++ t1) ++ t2) ++ [TodayISO; DateNow])%list)
      as (system & user & rest & Hfirst).
    destruct (exec o (((h ++ t1) ++ t2) ++ [TodayISO; DateNow]) (validation_swarm _ _ _ _))
      as [swarm t3].
    cbn [fst snd] in *.
    match goal with
    | |- context [exec ?o' ?h' (respond P env p ev draft humanized swarm)] =>
        destruct (respond_run P env p ev draft humanized swarm o' h')
          as (base & id & row & rest' & E & _)
    end.
    rewrite E. cbn [fst snd]. intros Hpay.
    exists (t1 ++ t2)%list. eexists. split.
    { repeat rewrite <- app_assoc. cbn [app]. reflexivity. }
    cbv zeta. rewrite <- Eh. fold elapsed. apply Z.ltb_lt in Eg.
    split; [| split; intros Hge; lia].
    intros _. rewrite Hfirst. do 3 eexists. cbn [app]. reflexivity.
  - (* the swarm is skipped *)
    cbn [fst snd].
    match goal with
    | |- context [exec ?o' ?h' (respond P env p ev draft humanized skippedSwarm)] =>
        destruct (respond_run P env p ev draft humanized skippedSwarm o' h')
          as (base & id & row & rest' & E & _ & _ & _ & _ & Hts & Hvr & _ & _ & Hrest)
    end.
    rewrite E. cbn [fst snd]. intros Hpay. inversion Hpay as [Hp]. clear Hpay.
    exists (t1 ++ t2)%list. eexists. split.
    { repeat rewrite <- app_assoc. cbn [app]. reflexivity. }
    cbv zeta. rewrite <- Eh. fold elapsed. apply Z.ltb_ge in Eg.
    assert (Hskipped :
              trust_score (cl_base (outputForClient base
                 (noticedBody p ev
                    (requiresReview
                       (workflowDecider (trustThreshold env) (trustScore skippedSwarm)
                          (agentInserts skippedSwarm))) draft)
                 (decidedBlocked
                    (workflowDecider (trustThreshold env) (trustScore skippedSwarm)
                       (agentInserts skippedSwarm))) id)) = ofZ 0
              /\ Forall (fun r => r = {| status := fail;
                                         issues := ["validation_skipped_time_budget"];
                                         confidence := ofZ 0 |})
                   [citation (validation_results base); recency (validation_results base);
                    fact_check (validation_results base); tone (validation_results base)]
              /\ Forall (fun c => isChatCompletion c = false)
                   (InsertGeneratedContent row :: rest')).
    { cbn [cl_base outputForClient]. rewrite Hts, Hvr.
      split; [reflexivity |]. split; [repeat constructor |].
      constructor; [reflexivity |].
      eapply Forall_impl; [| exact Hrest]. intros c [Hc _]. exact Hc. }
    split; [intros Hlt; lia |]. split; intros _; exact Hskipped.
Qed.

Lemma validation_gate_threshold_witness :
  exists payload,
    fst (exec (Demo.oracle (fun _ => 90000) Demo.noReply (fun _ => "The draft.") Demo.allPass) []
           (generateAndValidate Demo.platform Demo.prompts Demo.env
              (parseRequest Demo.platform (Demo.request "news")) 0
              (Demo.evidence [Demo.fdaLabel] false)))
    = Success payload
    /\ trust_score (cl_base payload) = ofZ 0
    /\ status (fact_check (validation_results (cl_base payload))) = fail.
Proof.
  assert (E : exists payload,
             fst (exec (Demo.oracle (fun _ => 90000) Demo.noReply (fun _ => "The draft.")
                          Demo.allPass) []
                    (generateAndValidate Demo.platform Demo.prompts Demo.env
                       (parseRequest Demo.platform (Demo.request "news")) 0
                       (Demo.evidence [Demo.fdaLabel] false)))
             = Success payload).
  { vm_compute. eexists. reflexivity. }
  destruct E as [payload E]. exists payload. split; [exact E |].
  destruct (validation_gate_threshold _ _ _ _ _ _ _ _ payload E)
    as (before & after & _ & _ & _ & Hlate).
  destruct (Hlate ltac:(vm_compute; reflexivity)) as (Hscore & Hagents & _).
  split; [exact Hscore |].
  inversion Hagents as [| r1 l1 _ H1]. inversion H1 as [| r2 l2 _ H2].
  inversion H2 as [| r3 l3 Hfact _].
  rewrite Hfact. reflexivity.
Defined.

(** C3 as stated fails: 75 s after the start the 85 s budget is not
    exceeded, yet the swarm is skipped and the result is scored 0. *)
Lemma swarm_skipped_within_budget :
  let o := Demo.oracle (fun _ => 75000) Demo.noReply (fun _ => "The draft.") Demo.allPass in
  let startedAt := 0 in
  let elapsed := o [TodayISO] DateNow - startedAt in
  elapsed <= 85000
  /\ exec o [] (validationGate Demo.platform Demo.prompts Demo.env
                  (parseRequest Demo.platform (Demo.request "news")) startedAt
                  (Demo.evidence [Demo.fdaLabel] false) "The draft.")
     = (skippedSwarm, [TodayISO; DateNow])
  /\ let jump := Demo.oracle (Demo.clockJump 75000) Demo.noReply (fun _ => "The draft.")
                   Demo.allPass in
     let run := exec jump [] (POST Demo.platform Demo.prompts (Demo.found [Demo.fdaLabel])
                                Demo.env (inr (Demo.request "news"))) in
     jump [] DateNow = 0
     /\ jump (firstn 4 (snd run)) DateNow = 75000
     /\ nth_error (snd run) 4 = Some DateNow
     /\ List.length (filter isChatCompletion (snd run)) = 1%nat
     /\ exists payload,
         fst run = Success payload /\ trust_score (cl_base payload) = ofZ 0.
Proof.
  vm_compute. split; [discriminate |]. split; [reflexivity |].
  repeat (split; [reflexivity |]). eexists. split; reflexivity.
Qed.

(* ================================================================== *)
(** ** Humanize level and rewrite gate *)

Lemma humanizeLevelText_off (v : JsVal) : humanizeLevelText v = off <-> v = JStr "off".
Proof.
  split.
  - destruct v; simpl; try discriminate.
    destruct (String.eqb_spec s "off") as [-> | _]; [reflexivity |].
    destruct (String.eqb s "standard"); [discriminate |].
    destruct (String.eqb s "strong"); discriminate.
  - intros ->. reflexivity.
Qed.

Lemma humanizeLevelText_strong (v : JsVal) : humanizeLevelText v = strong <-> v = JStr "strong".
Proof.
  split.
  - destruct v; simpl; try discriminate.
    destruct (String.eqb s "off"); [discriminate |].
    destruct (String.eqb s "standard"); [discriminate |].
    destruct (String.eqb_spec s "strong") as [-> | _]; [reflexivity | discriminate].
  - intros ->. reflexivity.
Qed.

Lemma isEmpty_true (s : string) : isEmpty s = true <-> s = EmptyString.
Proof. destruct s; simpl; split; intros H; congruence. Qed.

Lemma rewriteConfigured_spec (env : Env) (P : Platform) (b : RequestBody) :
  rewriteConfigured env (parseRequest P b) = true
  <-> humanizeContentModel env <> EmptyString
      /\ humanizeLevel b <> JStr "off"
      /\ contentTypeOf (parseRequest P b) <> meta_tags.
Proof.
  unfold rewriteConfigured. rewrite !andb_true_iff, !negb_true_iff.
  cbn [humanizeLevelOf parseRequest].
  split.
  - intros [[Hm Hl] Hc]. split; [| split].
    + intros E. apply isEmpty_true in E. congruence.
    + intros E. apply humanizeLevelText_off in E. rewrite E in Hl. discriminate.
    + intros E. cbn [contentTypeOf parseRequest] in *. rewrite E in Hc. discriminate.
  - intros (Hm & Hl & Hc). split; [split |].
    + destruct (isEmpty (humanizeContentModel env)) eqn:E; [| reflexivity].
      apply isEmpty_true in E. contradiction.
    + destruct (humanizeLevelText (humanizeLevel b)) eqn:E; try reflexivity.
      apply humanizeLevelText_off in E. contradiction.
    + destruct (contentTypeOf (parseRequest P b)); try reflexivity. contradiction.
Qed.

(** C10. A humanizeLevel that is absent, not a string, or not one of off,
    standard, strong is read as standard; the rewrite gate holds exactly when
    a rewrite model is configured, the client did not send off, the content
    type is not meta_tags and more than 20 s of budget remain; when it fails
    no rewrite call is made, when it holds the standard rewrite is called. *)
Theorem humanize_level_defaults_to_standard :
  forall (P : Platform) (T : Prompts) (env : Env) (b : RequestBody) (startedAt : Z)
         (ev : Evidence) (draft : string) (o : Oracle) (h : list Call),
    let p := parseRequest P b in
    let left := 85000 - (o h DateNow - startedAt) in
    let gate := fst (exec o h (shouldRewrite env p startedAt)) in
    let pass := exec o h (rewritePass P T env p startedAt ev draft) in
    (humanizeLevelOf p = off <-> humanizeLevel b = JStr "off")
    /\ (humanizeLevelOf p = strong <-> humanizeLevel b = JStr "strong")
    /\ (humanizeLevel b <> JStr "off" -> humanizeLevel b <> JStr "strong" ->
        humanizeLevelOf p = standard)
    /\ (gate = true <->
        humanizeContentModel env <> EmptyString
        /\ humanizeLevel b <> JStr "off"
        /\ contentTypeOf p <> meta_tags
        /\ 20000 < left)
    /\ (gate = false ->
        fst pass = (draft, false) /\ Forall (fun c => isChatCompletion c = false) (snd pass))
    /\ (gate = true ->
        exists user rest,
          snd pass = DateNow
                     :: ChatCompletion "rewrite_standard" (humanizeContentModel env)
                          (rewriteSystemStandard T) user false (ofZ 20000)
                     :: rest).
Proof.
  intros P T env b startedAt ev draft o h p left gate pass.
  split; [apply humanizeLevelText_off |].
  split; [apply humanizeLevelText_strong |].
  split.
  { intros Hoff Hstrong. cbn [p humanizeLevelOf parseRequest].
    destruct (humanizeLevelText (humanizeLevel b)) eqn:E; [| reflexivity |].
    - apply humanizeLevelText_off in E. contradiction.
    - apply humanizeLevelText_strong in E. contradiction. }
  assert (G : gate = rewriteConfigured env p && (20000 <? left)).
  { subst gate. unfold shouldRewrite, remainingMs.
    destruct (rewriteConfigured env p); reflexivity. }
  split.
  { rewrite G, andb_true_iff, Z.ltb_lt. subst p. rewrite rewriteConfigured_spec. tauto. }
  split.
  - intros Hg. subst pass. unfold rewritePass. rewrite exec_bind.
    fold gate. unfold shouldRewrite, remainingMs in *.
    subst gate. destruct (rewriteConfigured env p); cbn [bind await exec fst snd] in *.
    + fold left in Hg |- *. rewrite Hg. cbn [exec app fst snd]. split; [reflexivity |].
      repeat constructor.
    + split; [reflexivity | constructor].
  - intros Hg. subst pass. unfold rewritePass. rewrite exec_bind.
    unfold shouldRewrite, remainingMs in *.
    subst gate. destruct (rewriteConfigured env p); cbn [bind await exec fst snd] in *;
      [| discriminate].
    fold left in Hg |- *. rewrite Hg. unfold callOpenRouterText. cbn [bind await exec].
    match goal with
    | |- context [exec ?o' ?h' ?m] => destruct (exec o' h' m) as [a t]
    end.
    cbn [app snd]. do 2 eexists. reflexivity.
Qed.

Lemma humanize_level_defaults_to_standard_witness :
  let o := Demo.oracle (fun _ => 1000) Demo.noReply (fun _ => "Rewritten.") Demo.allPass in
  let p := parseRequest Demo.platform (Demo.request "news") in
  humanizeLevelOf p = standard
  /\ exists user rest,
      snd (exec o [] (rewritePass Demo.platform Demo.prompts Demo.envWithRewriter p 0
                        (Demo.evidence [Demo.fdaLabel] false) "The draft."))
      = DateNow
        :: ChatCompletion "rewrite_standard" (humanizeContentModel Demo.envWithRewriter)
             (rewriteSystemStandard Demo.prompts) user false (ofZ 20000)
        :: rest.
Proof.
  intros o p.
  destruct (humanize_level_defaults_to_standard Demo.platform Demo.prompts
              Demo.envWithRewriter (Demo.request "news") 0
              (Demo.evidence [Demo.fdaLabel] false) "The draft." o [])
    as (_ & _ & Hstd & _ & _ & Hcall).
  split.
  - apply Hstd; discriminate.
  - apply Hcall. vm_compute. reflexivity.
Defined.

(* ================================================================== *)
(** ** Retry Gateway *)










(* ================================================================== *)
(** ** Evidence Verifier *)

Lemma isEmpty_false (s : string) : isEmpty s = false <-> s <> EmptyString.
Proof. destruct s; simpl; split; intros H; congruence. Qed.

Lemma normalizeUrlString_http (P : Platform) (input : string) :
  normalizeUrlString P input <> EmptyString ->
  exists candidate parsed,
    URL_parse P candidate = Some parsed
    /\ (protocol parsed = "http:" \/ protocol parsed = "https:")
    /\ normalizeUrlString P input = href parsed.
Proof.
  unfold normalizeUrlString.
  destruct (isEmpty (trim input)); [congruence |].
  match goal with
  | |- context [URL_parse P ?c] => generalize c; intros candidate
  end.
  destruct (URL_parse P candidate) as [u |] eqn:E; [| congruence].
  destruct (String.eqb_spec (protocol u) "http:") as [Hp | _];
    destruct (String.eqb_spec (protocol u) "https:") as [Hs | _]; cbn [negb andb];
    try congruence; intros _; exists candidate, u; auto.
Qed.

Lemma statusCountsAsExisting_spec (st : Z) :
  statusCountsAsExisting st = true
  <-> (200 <= st <= 399 \/ st = 401 \/ st = 403 \/ st = 405 \/ st = 429).
Proof.
  unfold statusCountsAsExisting.
  rewrite !orb_true_iff, andb_true_iff, Z.leb_le, Z.ltb_lt, !Z.eqb_eq. lia.
Qed.

(** C7. The probe reports a URL as existing exactly when the answer's
    status is in 200..399 or is 401, 403, 405 or 429; a fetch that throws
    (network failure, timeout) and a URL that does not normalise (which
    includes every URL whose protocol is not http or https) are reported
    invalid, the latter without any fetch; the URL returned with an answer
    is the final URL of the response when that is a normalised URL. *)
Theorem probe_accepts_listed_statuses :
  forall (P : Platform) (url : string) (timeoutMs : Z) (o : Oracle) (h : list Call),
    let u := normalizeUrlString P url in
    let run := exec o h (checkUrlExists P url timeoutMs) in
    (u = EmptyString ->
     run = ({| chk_ok := false; chk_url := EmptyString; chk_status := None |}, []))
    /\ (u <> EmptyString ->
        snd run = [ProbeUrl u timeoutMs]
        /\ (exists candidate parsed,
               URL_parse P candidate = Some parsed
               /\ (protocol parsed = "http:" \/ protocol parsed = "https:")
               /\ u = href parsed)
        /\ match o h (ProbeUrl u timeoutMs) with
           | ProbeThrew =>
               fst run = {| chk_ok := false; chk_url := u; chk_status := None |}
           | ProbeAnswered st finalUrl =>
               (chk_ok (fst run) = true
                <-> (200 <= st <= 399 \/ st = 401 \/ st = 403 \/ st = 405 \/ st = 429))
               /\ chk_status (fst run) = Some st
               /\ (finalUrl <> EmptyString -> normalizeUrlString P finalUrl = finalUrl ->
                   chk_url (fst run) = finalUrl)
               /\ (chk_url (fst run) = normalizeUrlString P finalUrl
                   \/ chk_url (fst run) = normalizeUrlString P u
                   \/ chk_url (fst run) = u)
               /\ chk_url (fst run) <> EmptyString
           end).
Proof.
  intros P url timeoutMs o h u run. split.
  - intros Hu. subst run. unfold checkUrlExists. fold u. rewrite Hu. reflexivity.
  - intros Hu. subst run. unfold checkUrlExists. fold u.
    destruct (isEmpty u) eqn:Eu; [apply isEmpty_true in Eu; contradiction |].
    cbn [bind await exec].
    split; [destruct (o h (ProbeUrl u timeoutMs)); reflexivity |].
    split; [apply normalizeUrlString_http; exact Hu |].
    destruct (o h (ProbeUrl u timeoutMs)) as [| st finalUrl]; cbn [exec fst]; [reflexivity |].
    cbn [chk_ok chk_status chk_url].
    split; [apply statusCountsAsExisting_spec |]. split; [reflexivity |]. split.
    + intros Hf Hn. destruct (isEmpty finalUrl) eqn:Ef;
        [apply isEmpty_true in Ef; contradiction |].
      rewrite Hn, Ef. reflexivity.
    + split.
      * destruct (isEmpty finalUrl) eqn:Ef.
        -- right. destruct (isEmpty (normalizeUrlString P u)); [right | left]; reflexivity.
        -- destruct (isEmpty (normalizeUrlString P finalUrl)); [right; right | left];
             reflexivity.
      * match goal with
        | |- (if isEmpty ?n then _ else _) <> _ =>
            destruct (isEmpty n) eqn:En; [exact Hu | apply isEmpty_false; exact En]
        end.
Qed.

Lemma probe_accepts_listed_statuses_witness :
  let o := Demo.oracle (fun _ => 0) Demo.noReply Demo.allPass Demo.allPass in
  let run := exec o [] (checkUrlExists Demo.platform "  https://www.fda.gov/label " 3000) in
  snd run = [ProbeUrl "https://www.fda.gov/label" 3000]
  /\ chk_ok (fst run) = true
  /\ chk_url (fst run) = "https://www.fda.gov/label"
  /\ exec o [] (checkUrlExists Demo.platform "ftp://files.example/label" 3000)
     = ({| chk_ok := false; chk_url := EmptyString; chk_status := None |}, []).
Proof.
  intros o run.
  destruct (probe_accepts_listed_statuses Demo.platform "  https://www.fda.gov/label " 3000 o [])
    as [_ H].
  destruct (H ltac:(vm_compute; discriminate)) as (Ht & _ & Hm).
  destruct (probe_accepts_listed_statuses Demo.platform "ftp://files.example/label" 3000 o [])
    as [H0 _].
  split; [exact Ht |]. split; [| split].
  - apply (proj1 Hm). left. lia.
  - apply (proj1 (proj2 (proj2 Hm))); [vm_compute; discriminate | reflexivity].
  - apply H0. reflexivity.
Defined.

(* ================================================================== *)
(** ** Private mode *)

Lemma retryLoop_calls (fn : string) (body : EdgeBody) (timeoutMs max : Z) (fuel : nat) :
  forall attempt,
    AllCalls (fun c => isRetrievalCall c = true) (retryLoop fn body timeoutMs max fuel attempt).
Proof.
  induction fuel as [| fuel IH]; intros attempt; [exact I |].
  cbn [retryLoop]. calls.
  destruct a as [| val]; [calls |].
  destruct (match val with Some v => sb_error v | None => None end); calls.
Qed.

Lemma invokeEdgeFunctionWithRetry_calls (fn : string) (body : EdgeBody)
    (timeoutMs maxAttempts : Z) :
  AllCalls (fun c => isRetrievalCall c = true)
    (invokeEdgeFunctionWithRetry fn body timeoutMs maxAttempts).
Proof. apply retryLoop_calls. Qed.
#[local] Hint Resolve invokeEdgeFunctionWithRetry_calls : calls.







Lemma POST_run (P : Platform) (T : Prompts) (R : PublicRetrieval) (env : Env)
    (b : RequestBody) (o : Oracle) (h : list Call) :
  let p := parseRequest P b in
  configurationCheck env p = None ->
  swarmAgentsCheck env p = None ->
  exec o h (POST P T R env (inr b))
  = let h0 := (h ++ [DateNow; BackgroundCollect (keywordText p)])%list in
    let (st, t1) := exec o h0 (retrieval P R p) in
    let (resp, t2) := exec o (h0 ++ t1) (afterRetrieval P T env p (o h DateNow) st) in
    (resp, DateNow :: BackgroundCollect (keywordText p) :: (t1 ++ t2)%list).
Proof.
  intros p Hc Hs. unfold POST. fold p. rewrite Hc. cbn [bind await exec].
  rewrite Hs. cbn [bind await exec]. rewrite <- app_assoc. cbn [app].
  rewrite exec_bind.
  destruct (exec _ _ (retrieval P R p)) as [st t1].
  destruct (exec _ _ (afterRetrieval P T env p (o h DateNow) st)) as [resp t2].
  reflexivity.
Qed.




(** What the private branch makes of the chunks it is given.  A chunk
    that is [null] ends the retrieval block: the error is noted, the text
    search is not made and the request is rejected.  A chunk whose content
    is the number 5 gives the context [5], for which a draft is generated
    under the default citation.  No chunk at all leads to the text search. *)
Example private_chunks_are_read_as_the_route_reads_them :
  let answer rows := Resolved (Some {| sb_data := JArr rows; sb_error := None |}) in
  let o rows := Demo.oracle (fun _ => 0) (answer rows) (fun _ => "The draft.") Demo.allPass in
  let run rows := exec (o rows) [] (POST Demo.platform Demo.prompts (Demo.found []) Demo.env
                                      (inr (Demo.request "private"))) in
  let searched t :=
    existsb (fun c => match c with PrivateTextSearch _ _ _ => true | _ => false end) t in
  searched (snd (run [JNull])) = false
  /\ searched (snd (run [])) = true
  /\ context (fst (exec (o [JObj [("content", JNum (ofZ 5))]]) []
                     (privateBranch Demo.platform
                        (parseRequest Demo.platform (Demo.request "private")))))
     = "5"
  /\ searched (snd (run [JObj [("content", JNum (ofZ 5))]])) = false
  /\ exists payload,
      fst (run [JObj [("content", JNum (ofZ 5))]]) = Success payload
      /\ out_citations (cl_base payload)
         = [ {| title := JStr "SOP"; url := EmptyString; source := JStr "SOP" |} ].
Proof.
  vm_compute. repeat (split; [reflexivity |]). eexists. split; reflexivity.
Qed.

(* ================================================================== *)
(** ** Strings, headings and the canonical sources section *)

Lemma append_assoc (a b c : string) : (a ++ b) ++ c = a ++ (b ++ c).
Proof. induction a as [| x a IH]; simpl; [reflexivity | rewrite IH; reflexivity]. Qed.

Lemma append_nil_r (a : string) : a ++ EmptyString = a.
Proof. induction a as [| x a IH]; simpl; [reflexivity | rewrite IH; reflexivity]. Qed.

Lemma searchFrom_cut (m : string -> bool) (s : string) :
  forall i,
    match searchFrom m i s with
    | Some n => (i <= n)%nat /\ String.substring 0 (n - i) s = cutAt m s
    | None => cutAt m s = s /\ anyMatch m s = false
    end.
Proof.
  induction s as [| c r IH]; intros i; simpl.
  - destruct (m EmptyString); [split; [lia | rewrite Nat.sub_diag; reflexivity] | auto].
  - destruct (m (String c r)) eqn:E.
    + split; [lia | rewrite Nat.sub_diag; reflexivity].
    + specialize (IH (S i)). destruct (searchFrom m (S i) r) as [n |].
      * destruct IH as [Hle Hs]. split; [lia |].
        replace (n - i)%nat with (S (n - S i)) by lia. simpl. rewrite Hs. reflexivity.
      * destruct IH as [Hc Ha]. rewrite Hc, Ha. auto.
Qed.

Lemma searchFrom_anyMatch (m : string -> bool) (s : string) :
  forall i, (exists n, searchFrom m i s = Some n) <-> anyMatch m s = true.
Proof.
  induction s as [| c r IH]; intros i; simpl.
  - destruct (m EmptyString); split; intros H; try discriminate; eauto.
    destruct H; discriminate.
  - destruct (m (String c r)); simpl; [split; eauto |]. apply IH.
Qed.

Lemma test_anyMatch (m : string -> bool) (s : string) : test m s = anyMatch m s.
Proof.
  unfold test, search. pose proof (searchFrom_anyMatch m s 0) as H.
  destruct (searchFrom m 0 s) as [n |].
  - symmetry. apply H. eauto.
  - destruct (anyMatch m s); [| reflexivity].
    destruct (proj2 H eq_refl). discriminate.
Qed.

Lemma strip_is_cut (text : string) :
  stripTrailingSourcesSection text = trim (cutAt sourcesHeadingAt text).
Proof.
  unfold stripTrailingSourcesSection, search, sliceTo.
  pose proof (searchFrom_cut sourcesHeadingAt text 0) as H.
  destruct (searchFrom sourcesHeadingAt 0 text) as [n |].
  - destruct H as [_ H]. rewrite Nat.sub_0_r in H. rewrite H. reflexivity.
  - destruct H as [H _]. rewrite H. reflexivity.
Qed.

Lemma cutAt_prefix (m : string -> bool) (s : string) : exists rest, s = cutAt m s ++ rest.
Proof.
  induction s as [| c r [rest IH]]; simpl.
  - destruct (m EmptyString); exists EmptyString; reflexivity.
  - destruct (m (String c r)); [exists (String c r); reflexivity |].
    exists rest. simpl. rewrite <- IH. reflexivity.
Qed.

Lemma anyMatch_cutAt (m : string -> bool) :
  Extensible m -> m EmptyString = false ->
  forall s, anyMatch m (cutAt m s) = false.
Proof.
  intros Hext Hnil. induction s as [| c r IH]; simpl.
  - rewrite Hnil. simpl. rewrite Hnil. reflexivity.
  - destruct (m (String c r)) eqn:E; simpl; [rewrite Hnil; reflexivity |].
    rewrite IH, orb_false_r.
    destruct (m (String c (cutAt m r))) eqn:E'; [| reflexivity].
    destruct (cutAt_prefix m r) as [rest Hr].
    apply (Hext _ rest) in E'. simpl in E'. rewrite <- Hr in E'. congruence.
Qed.

Lemma anyMatch_app_l (m : string -> bool) :
  Extensible m -> forall a b, anyMatch m a = true -> anyMatch m (a ++ b) = true.
Proof.
  intros Hext a b. induction a as [| c a IH]; simpl; intros H.
  - rewrite orb_false_r in H. apply (Hext _ b) in H. simpl in H.
    destruct b; simpl; rewrite H; reflexivity.
  - apply orb_true_iff in H. destruct H as [H | H].
    + apply (Hext _ b) in H. simpl in H. rewrite H. reflexivity.
    + rewrite (IH H). apply orb_true_r.
Qed.

Lemma anyMatch_app_r (m : string -> bool) (a b : string) :
  anyMatch m b = true -> anyMatch m (a ++ b) = true.
Proof.
  intros H. induction a as [| c a IH]; simpl; [exact H |].
  rewrite IH. apply orb_true_r.
Qed.

Lemma trimStart_suffix (s : string) :
  exists w, s = w ++ trimStart s /\ allWhiteSpace w = true.
Proof.
  induction s as [| c r (w & Hw & Ha)]; simpl.
  - exists EmptyString. auto.
  - destruct (isWhiteSpace c) eqn:E.
    + exists (String c w). simpl. rewrite <- Hw, E, Ha. auto.
    + exists EmptyString. auto.
Qed.

Lemma trimEnd_prefix (s : string) :
  exists w, s = trimEnd s ++ w /\ allWhiteSpace w = true.
Proof.
  induction s as [| c r (w & Hw & Ha)]; simpl.
  - exists EmptyString. auto.
  - destruct (trimEnd r) as [| d r'] eqn:E.
    + simpl in Hw. subst r. destruct (isWhiteSpace c) eqn:Ec.
      * exists (String c w). simpl. rewrite Ec, Ha. auto.
      * exists w. auto.
    + exists w. simpl in *. rewrite <- Hw. auto.
Qed.

Lemma anyMatch_trim_none (m : string -> bool) (s : string) :
  Extensible m -> anyMatch m s = false -> anyMatch m (trim s) = false.
Proof.
  intros Hext H. unfold trim.
  destruct (trimStart_suffix s) as (w1 & H1 & _).
  destruct (trimEnd_prefix (trimStart s)) as (w2 & H2 & _).
  destruct (anyMatch m (trimEnd (trimStart s))) eqn:E; [| reflexivity].
  apply (anyMatch_app_l m Hext _ w2) in E. rewrite <- H2 in E.
  apply (anyMatch_app_r m w1) in E. rewrite <- H1 in E. congruence.
Qed.

(* extensibility of the sources heading pattern *)
Lemma afterLiteral_app (lit s x r : string) :
  afterLiteral lit s = Some r -> afterLiteral lit (s ++ x) = Some (r ++ x).
Proof.
  revert s. induction lit as [| l lit IH]; intros s; simpl.
  - intros H. inversion H. reflexivity.
  - destruct s as [| c s]; [discriminate |]. simpl.
    destruct (Ascii.eqb c l); [apply IH | discriminate].
Qed.

Lemma afterLiteralCI_app (lit s x r : string) :
  afterLiteralCI lit s = Some r -> afterLiteralCI lit (s ++ x) = Some (r ++ x).
Proof.
  revert s. induction lit as [| l lit IH]; intros s; simpl.
  - intros H. inversion H. reflexivity.
  - destruct s as [| c s]; [discriminate |]. simpl.
    destruct (Ascii.eqb (foldChar c) l); [apply IH | discriminate].
Qed.

Lemma dropWhile_app (p : ascii -> bool) (s x : string) :
  dropWhile p s <> EmptyString -> dropWhile p (s ++ x) = dropWhile p s ++ x.
Proof.
  induction s as [| c s IH]; simpl; [congruence |].
  destruct (p c); [exact IH | reflexivity].
Qed.

Lemma headingTail_app (s x : string) : headingTail s = true -> headingTail (s ++ x) = true.
Proof.
  unfold headingTail. induction s as [| c s IH]; simpl; [discriminate |].
  destruct (isWhiteSpace c); simpl; [| discriminate].
  intros H. apply orb_true_iff in H. apply orb_true_iff.
  destruct H as [H | H]; [left; exact H | right; apply IH, H].
Qed.

Lemma afterLiteralCI_nonempty (lit s r : string) :
  lit <> EmptyString -> afterLiteralCI lit s = Some r -> s <> EmptyString.
Proof. destruct lit; [congruence |]. destruct s; simpl; [discriminate | congruence]. Qed.

Lemma afterLiteral_nonempty (lit s r : string) :
  lit <> EmptyString -> afterLiteral lit s = Some r -> s <> EmptyString.
Proof. destruct lit; [congruence |]. destruct s; simpl; [discriminate | congruence]. Qed.

Lemma sourcesHeadingAt_extensible : Extensible sourcesHeadingAt.
Proof.
  intros a b. unfold sourcesHeadingAt.
  destruct (afterLiteral (LF ++ "##") a) as [r |] eqn:E; [| discriminate].
  rewrite (afterLiteral_app _ _ b _ E).
  set (r1 := dropWhile isWhiteSpace r).
  assert (Hcase : forall lit r2, lit <> EmptyString -> afterLiteralCI lit r1 = Some r2 ->
                    afterLiteralCI lit (dropWhile isWhiteSpace (r ++ b)) = Some (r2 ++ b)).
  { intros lit r2 Hl H. rewrite dropWhile_app.
    - apply afterLiteralCI_app, H.
    - apply (afterLiteralCI_nonempty lit _ r2 Hl H). }
  intros H. apply orb_true_iff in H. destruct H as [H | H];
    [apply orb_true_iff in H; destruct H as [H | H] |].
  - destruct (afterLiteralCI "sources" r1) as [r2 |] eqn:E2; [| discriminate].
    rewrite (Hcase "sources" r2 ltac:(discriminate) E2).
    destruct (afterLiteral "/" (dropWhile isWhiteSpace r2)) as [r3 |] eqn:E3; [| discriminate].
    rewrite dropWhile_app by (apply (afterLiteral_nonempty "/" _ r3); [discriminate | exact E3]).
    rewrite (afterLiteral_app _ _ b _ E3).
    destruct (afterLiteralCI "references" (dropWhile isWhiteSpace r3)) as [r4 |] eqn:E4;
      [| discriminate].
    rewrite dropWhile_app
      by (apply (afterLiteralCI_nonempty "references" _ r4); [discriminate | exact E4]).
    rewrite (afterLiteralCI_app _ _ b _ E4). rewrite (headingTail_app _ b H). reflexivity.
  - destruct (afterLiteralCI "sources" r1) as [r2 |] eqn:E2; [| discriminate].
    rewrite (Hcase "sources" r2 ltac:(discriminate) E2).
    rewrite (headingTail_app _ b H). rewrite orb_true_r. reflexivity.
  - destruct (afterLiteralCI "references" r1) as [r2 |] eqn:E2; [| discriminate].
    rewrite (Hcase "references" r2 ltac:(discriminate) E2).
    rewrite (headingTail_app _ b H). apply orb_true_r.
Qed.

Lemma stripped_has_no_heading (text : string) :
  search sourcesHeadingAt (stripTrailingSourcesSection text) = None.
Proof.
  rewrite strip_is_cut.
  assert (H : anyMatch sourcesHeadingAt (trim (cutAt sourcesHeadingAt text)) = false).
  { apply anyMatch_trim_none; [apply sourcesHeadingAt_extensible |].
    apply anyMatch_cutAt; [apply sourcesHeadingAt_extensible | reflexivity]. }
  rewrite <- test_anyMatch in H. unfold test in H.
  destruct (search sourcesHeadingAt _); [discriminate | reflexivity].
Qed.

Lemma anyMatch_head (m : string -> bool) (s : string) : m s = true -> anyMatch m s = true.
Proof. intros H. destruct s; simpl; rewrite H; reflexivity. Qed.

Lemma trimEnd_endsClean (s : string) : endsClean (trimEnd s) = true.
Proof.
  induction s as [| c r IH]; simpl; [reflexivity |].
  destruct (trimEnd r) as [| d r'] eqn:E.
  - destruct (isWhiteSpace c) eqn:Ec; simpl; [reflexivity | rewrite Ec; reflexivity].
  - simpl in *. exact IH.
Qed.

Lemma foldChar_whiteSpace (c : ascii) : isWhiteSpace c = true -> foldChar c = c.
Proof.
  unfold foldChar, isWhiteSpace. cbv zeta.
  destruct ((65 <=? code c) && (code c <=? 90))%N eqn:E; [| reflexivity].
  apply andb_true_iff in E. destruct E as [E1 E2].
  apply N.leb_le in E1. apply N.leb_le in E2.
  intros H. exfalso.
  apply orb_true_iff in H. destruct H as [H | H];
    [apply orb_true_iff in H; destruct H as [H | H] |].
  - apply andb_true_iff in H. destruct H as [_ H]. apply N.leb_le in H. lia.
  - apply N.eqb_eq in H. lia.
  - apply N.eqb_eq in H. lia.
Qed.

(** A literal matched inside white space is white space. *)
Lemma afterLiteralCI_whiteSpace (lit w r : string) :
  allWhiteSpace w = true -> afterLiteralCI lit w = Some r ->
  allChars isWhiteSpace lit = true.
Proof.
  revert w. induction lit as [| l lit IH]; intros w Hw H; [reflexivity |].
  destruct w as [| c w]; [discriminate |]. simpl in *.
  apply andb_true_iff in Hw. destruct Hw as [Hc Hw].
  destruct (Ascii.eqb_spec (foldChar c) l) as [E | _]; [| discriminate].
  rewrite (foldChar_whiteSpace c Hc) in E. subst l. rewrite Hc. simpl. exact (IH w Hw H).
Qed.

Lemma afterLiteralCI_split (lit y w r : string) :
  allWhiteSpace w = true -> endsClean lit = true -> lit <> EmptyString ->
  afterLiteralCI lit (y ++ w) = Some r ->
  exists r', afterLiteralCI lit y = Some r' /\ r = r' ++ w.
Proof.
  intros Hw. revert y. induction lit as [| l lit IH]; intros y Hl Hne H; [congruence |].
  destruct y as [| c y].
  - exfalso. simpl in H.
    pose proof (afterLiteralCI_whiteSpace (String l lit) w r Hw H) as Hall.
    clear - Hl Hall. revert l Hl Hall. induction lit as [| l' lit IH]; intros l Hl Hall.
    + simpl in *. rewrite andb_true_r in Hall. rewrite Hall in Hl. discriminate.
    + simpl in Hall. apply andb_true_iff in Hall. destruct Hall as [_ Hall].
      apply (IH l'); [exact Hl | exact Hall].
  - simpl in H |- *. destruct (Ascii.eqb (foldChar c) l); [| discriminate].
    destruct lit as [| l' lit].
    + simpl in *. inversion H. exists y. auto.
    + apply IH; [exact Hl | discriminate | exact H].
Qed.

Lemma afterLiteral_split (lit y w r : string) :
  allWhiteSpace w = true -> allChars (fun c => negb (isWhiteSpace c)) lit = true ->
  afterLiteral lit (y ++ w) = Some r ->
  exists r', afterLiteral lit y = Some r' /\ r = r' ++ w.
Proof.
  intros Hw. revert y. induction lit as [| l lit IH]; intros y Hl H.
  - simpl in *. inversion H. exists y. auto.
  - simpl in Hl. apply andb_true_iff in Hl. destruct Hl as [Hl1 Hl2].
    destruct y as [| c y].
    + exfalso. simpl in H. destruct w as [| c w]; [discriminate |].
      simpl in Hw. apply andb_true_iff in Hw. destruct Hw as [Hc _].
      destruct (Ascii.eqb_spec c l) as [E | _]; [| discriminate].
      subst l. rewrite Hc in Hl1. discriminate.
    + simpl in H |- *. destruct (Ascii.eqb c l); [| discriminate]. apply IH; assumption.
Qed.

Lemma dropWhile_allWhiteSpace (w : string) :
  allWhiteSpace w = true -> dropWhile isWhiteSpace w = EmptyString.
Proof.
  induction w as [| c w IH]; simpl; [reflexivity |].
  intros H. apply andb_true_iff in H. destruct H as [Hc Hw]. rewrite Hc. apply IH, Hw.
Qed.

Lemma dropWhile_empty_clean (r : string) :
  dropWhile isWhiteSpace r = EmptyString -> endsClean r = true -> r = EmptyString.
Proof.
  induction r as [| c r IH]; [reflexivity |]. simpl.
  destruct (isWhiteSpace c) eqn:Ec; [| discriminate].
  intros Hd He. destruct r as [| d r]; [simpl in He; discriminate |].
  specialize (IH Hd He). discriminate.
Qed.

Lemma endsClean_tail (c : ascii) (r : string) :
  r <> EmptyString -> endsClean (String c r) = endsClean r.
Proof. destruct r; [congruence | reflexivity]. Qed.

(** The notice heading found before trailing white space is found without
    it. *)
Lemma noticeHeadingAt_trimmed (y w : string) :
  allWhiteSpace w = true -> endsClean y = true ->
  noticeHeadingAt (y ++ w) = true -> noticeHeadingAt y = true.
Proof.
  intros Hw Hy. unfold noticeHeadingAt.
  destruct (afterLiteral "##" (y ++ w)) as [r |] eqn:E; [| discriminate].
  destruct (afterLiteral_split "##" y w r Hw eq_refl E) as (r' & E' & ->).
  rewrite E'.
  assert (Hr' : endsClean r' = true).
  { destruct y as [| a [| b y]]; simpl in E'; [discriminate | |].
    { destruct (Ascii.eqb a "#"); discriminate. }
    destruct (Ascii.eqb a "#"); [| discriminate].
    destruct (Ascii.eqb b "#"); [| discriminate].
    inversion E'. subst y.
    destruct r' as [| c r']; [reflexivity |].
    rewrite endsClean_tail in Hy by discriminate.
    rewrite endsClean_tail in Hy by discriminate. exact Hy. }
  destruct (dropWhile isWhiteSpace r') as [| c1 r1] eqn:Ed.
  - rewrite (dropWhile_empty_clean r' Ed Hr'). simpl.
    rewrite (dropWhile_allWhiteSpace w Hw). discriminate.
  - rewrite dropWhile_app by (rewrite Ed; discriminate). rewrite Ed.
    destruct (afterLiteralCI "content source notice" (String c1 r1 ++ w)) as [r2 |] eqn:E2;
      [| discriminate].
    destruct (afterLiteralCI_split "content source notice" (String c1 r1) w r2 Hw eq_refl
                ltac:(discriminate) E2) as (r2' & E2' & ->).
    rewrite E2'. destruct r2' as [| c r2']; [reflexivity |]. simpl. trivial.
Qed.

Lemma noticeHeadingAt_trimEnd (x : string) :
  noticeHeadingAt x = true -> noticeHeadingAt (trimEnd x) = true.
Proof.
  intros H. destruct (trimEnd_prefix x) as (w & Hx & Hw).
  apply (noticeHeadingAt_trimmed (trimEnd x) w Hw (trimEnd_endsClean x)).
  rewrite <- Hx. exact H.
Qed.

Lemma noticeHeadingAt_not_whiteSpace (c : ascii) (r : string) :
  isWhiteSpace c = true -> noticeHeadingAt (String c r) = false.
Proof.
  intros Hc. unfold noticeHeadingAt. simpl.
  destruct (Ascii.eqb_spec c "#") as [-> | _]; [discriminate | reflexivity].
Qed.

Lemma anyNotice_trimStart (s : string) :
  anyMatch noticeHeadingAt s = true -> anyMatch noticeHeadingAt (trimStart s) = true.
Proof.
  induction s as [| c r IH]; [trivial |]. cbn [trimStart].
  destruct (isWhiteSpace c) eqn:Ec; [| trivial].
  cbn [anyMatch]. rewrite (noticeHeadingAt_not_whiteSpace c r Ec). exact IH.
Qed.

Lemma anyNotice_trimEnd (s : string) :
  anyMatch noticeHeadingAt s = true -> anyMatch noticeHeadingAt (trimEnd s) = true.
Proof.
  induction s as [| c r IH]; [trivial |]. intros H.
  cbn [anyMatch] in H. apply orb_true_iff in H. destruct H as [H | H].
  - apply anyMatch_head, noticeHeadingAt_trimEnd, H.
  - specialize (IH H). cbn [trimEnd].
    destruct (trimEnd r) as [| d r'] eqn:E; [discriminate |].
    cbn [anyMatch] in IH |- *. rewrite IH. apply orb_true_r.
Qed.

Lemma hasSourceNotice_trim (s : string) :
  hasSourceNotice s = true -> hasSourceNotice (trim s) = true.
Proof.
  unfold hasSourceNotice. rewrite !test_anyMatch. intros H.
  apply anyNotice_trimEnd, anyNotice_trimStart, H.
Qed.

Lemma hasSourceNotice_app_r (a b : string) :
  hasSourceNotice b = true -> hasSourceNotice (a ++ b) = true.
Proof. unfold hasSourceNotice. rewrite !test_anyMatch. apply anyMatch_app_r. Qed.

Lemma noticeSection_has_heading (notice : string) :
  hasSourceNotice (noticeSection notice) = true.
Proof. reflexivity. Qed.


Lemma afterLiteralCI_blocked (lit r : string) (c0 : ascii) (y : string) :
  afterLiteralCI lit r = None ->
  allChars (fun l => negb (Ascii.eqb (foldChar c0) l)) lit = true ->
  afterLiteralCI lit (r ++ String c0 y) = None.
Proof.
  revert r. induction lit as [| l lit IH]; intros r H Hl; [discriminate |].
  simpl in Hl. apply andb_true_iff in Hl. destruct Hl as [Hl1 Hl2].
  destruct r as [| c r]; simpl in *.
  - apply negb_true_iff in Hl1. rewrite Hl1. reflexivity.
  - destruct (Ascii.eqb (foldChar c) l); [apply IH; assumption | reflexivity].
Qed.

Lemma afterLiteral_blocked (lit r : string) (c0 : ascii) (y : string) :
  afterLiteral lit r = None ->
  allChars (fun l => negb (Ascii.eqb c0 l)) lit = true ->
  afterLiteral lit (r ++ String c0 y) = None.
Proof.
  revert r. induction lit as [| l lit IH]; intros r H Hl; [discriminate |].
  simpl in Hl. apply andb_true_iff in Hl. destruct Hl as [Hl1 Hl2].
  destruct r as [| c r]; simpl in *.
  - apply negb_true_iff in Hl1. rewrite Hl1. reflexivity.
  - destruct (Ascii.eqb c l); [apply IH; assumption | reflexivity].
Qed.

Lemma dropWhile_app_all (p : ascii -> bool) (r z : string) :
  dropWhile p r = EmptyString -> dropWhile p (r ++ z) = dropWhile p z.
Proof.
  induction r as [| c r IH]; simpl; [reflexivity |].
  destruct (p c); [exact IH | discriminate].
Qed.

(** No notice heading starts in the body and ends in the appended section. *)
Lemma noticeHeadingAt_no_straddle (x notice : string) :
  noticeHeadingAt x = false -> noticeHeadingAt (x ++ noticeSection notice) = false.
Proof.
  unfold noticeHeadingAt.
  destruct (afterLiteral "##" x) as [r |] eqn:E.
  - rewrite (afterLiteral_app _ _ (noticeSection notice) _ E).
    destruct (dropWhile isWhiteSpace r) as [| c1 r1] eqn:Ed.
    + intros _. rewrite (dropWhile_app_all _ r _ Ed). reflexivity.
    + rewrite dropWhile_app by (rewrite Ed; discriminate). rewrite Ed.
      destruct (afterLiteralCI "content source notice" (String c1 r1)) as [r2 |] eqn:E2.
      * rewrite (afterLiteralCI_app _ _ (noticeSection notice) _ E2).
        destruct r2 as [| c r2]; [discriminate | trivial].
      * intros _.
        change (noticeSection notice)
          with (String (ascii_of_nat 10)
                  (LF ++ "## Content Source Notice" ++ LF ++ notice ++ LF)).
        rewrite (afterLiteralCI_blocked _ _ (ascii_of_nat 10) _ E2 eq_refl). reflexivity.
  - intros _.
    change (noticeSection notice)
      with (String (ascii_of_nat 10)
              (LF ++ "## Content Source Notice" ++ LF ++ notice ++ LF)).
    rewrite (afterLiteral_blocked _ _ (ascii_of_nat 10) _ E eq_refl). reflexivity.
Qed.

Lemma countNotice_app (body notice : string) :
  anyMatch noticeHeadingAt body = false ->
  countMatches noticeHeadingAt (body ++ noticeSection notice)
  = countMatches noticeHeadingAt (noticeSection notice).
Proof.
  induction body as [| c b IH]; [reflexivity |]. intros H.
  cbn [anyMatch] in H. apply orb_false_iff in H. destruct H as [H1 H2].
  change (String c b ++ noticeSection notice) with (String c (b ++ noticeSection notice)).
  cbn [countMatches].
  change (String c (b ++ noticeSection notice)) with (String c b ++ noticeSection notice).
  rewrite (noticeHeadingAt_no_straddle _ notice H1), (IH H2). reflexivity.
Qed.

Lemma countNotice_section (cs : list Citation) :
  countMatches noticeHeadingAt (noticeSection (contentSourceNotice true cs)) = 1%nat.
Proof. destruct cs; vm_compute; reflexivity. Qed.

Lemma mapi_length {A B : Type} (f : nat -> A -> B) (l : list A) :
  forall k, List.length (mapi f k l) = List.length l.
Proof. induction l as [| x l IH]; intros k; simpl; [reflexivity | rewrite IH; reflexivity]. Qed.




Lemma full_body_of_payload (base : BaseOutput) (full : string) (b : bool) (id : string)
    (payload : OutputForClient) :
  payload = outputForClient base full b id ->
  (if blocked payload then review_body payload else body payload) = full.
Proof. intros ->. simpl. destruct b; reflexivity. Qed.

(** *** Counting the matches of the notice pattern *)

Lemma anyMatch_count (m : string -> bool) (s : string) :
  anyMatch m s = negb (countMatches m s =? 0)%nat.
Proof.
  induction s as [| c r IH]; cbn [anyMatch countMatches].
  - destruct (m EmptyString); reflexivity.
  - rewrite IH. destruct (m (String c r)); [reflexivity |]. reflexivity.
Qed.

Lemma noticeHeadingAt_empty : noticeHeadingAt EmptyString = false.
Proof. reflexivity. Qed.

Lemma countNotice_trimStart (s : string) :
  countMatches noticeHeadingAt (trimStart s) = countMatches noticeHeadingAt s.
Proof.
  induction s as [| c r IH]; [reflexivity |]. cbn [trimStart].
  destruct (isWhiteSpace c) eqn:Ec; [| reflexivity].
  cbn [countMatches]. rewrite (noticeHeadingAt_not_whiteSpace c r Ec). exact IH.
Qed.

Lemma afterLiteral_some_app (lit s r w : string) :
  afterLiteral lit s = Some r -> afterLiteral lit (s ++ w) = Some (r ++ w).
Proof. intros H. apply afterLiteral_app, H. Qed.

Lemma allWhiteSpace_head (w : string) :
  allWhiteSpace w = true ->
  match w with
  | EmptyString => True
  | String c _ => isWhiteSpace c = true
  end.
Proof.
  destruct w as [| c w]; [trivial |]. cbn [allWhiteSpace]. intros H.
  apply andb_true_iff in H. apply H.
Qed.

Lemma isWordChar_whiteSpace (c : ascii) : isWhiteSpace c = true -> isWordChar c = false.
Proof.
  unfold isWhiteSpace, isWordChar. cbv zeta.
  generalize (code c). intros n H.
  destruct ((9 <=? n) && (n <=? 13))%N eqn:E1.
  - apply andb_true_iff in E1. destruct E1 as [Ha Hb].
    apply N.leb_le in Ha, Hb.
    assert (H48 : (48 <=? n)%N = false) by (apply N.leb_gt; lia).
    assert (H65 : (65 <=? n)%N = false) by (apply N.leb_gt; lia).
    assert (H97 : (97 <=? n)%N = false) by (apply N.leb_gt; lia).
    assert (H95 : (n =? 95)%N = false) by (apply N.eqb_neq; lia).
    rewrite H48, H65, H97, H95. reflexivity.
  - cbn [orb] in H. apply orb_true_iff in H.
    destruct H as [H | H]; apply N.eqb_eq in H; subst n; reflexivity.
Qed.

(** White space added after a match of the notice pattern leaves the
    match. *)
Lemma noticeHeadingAt_spaced (y w : string) :
  allWhiteSpace w = true -> noticeHeadingAt y = true -> noticeHeadingAt (y ++ w) = true.
Proof.
  intros Hw. unfold noticeHeadingAt.
  destruct (afterLiteral "##" y) as [r |] eqn:E; [| discriminate].
  rewrite (afterLiteral_app _ _ w _ E).
  destruct (dropWhile isWhiteSpace r) as [| c1 r1] eqn:Ed; [discriminate |].
  rewrite dropWhile_app by (rewrite Ed; discriminate). rewrite Ed.
  destruct (afterLiteralCI "content source notice" (String c1 r1)) as [r2 |] eqn:E2;
    [| discriminate].
  rewrite (afterLiteralCI_app _ _ w _ E2).
  destruct r2 as [| c r2]; [| trivial].
  intros _. cbn [append].
  pose proof (allWhiteSpace_head w Hw) as Hh.
  destruct w as [| c w]; [reflexivity |].
  rewrite (isWordChar_whiteSpace c Hh). reflexivity.
Qed.

Lemma noticeHeadingAt_spaced_iff (y w : string) :
  allWhiteSpace w = true -> endsClean y = true ->
  noticeHeadingAt (y ++ w) = noticeHeadingAt y.
Proof.
  intros Hw Hy.
  destruct (noticeHeadingAt y) eqn:E.
  - apply noticeHeadingAt_spaced; assumption.
  - destruct (noticeHeadingAt (y ++ w)) eqn:E'; [| reflexivity].
    rewrite (noticeHeadingAt_trimmed y w Hw Hy E') in E. discriminate.
Qed.

Lemma countNotice_allWhiteSpace (w : string) :
  allWhiteSpace w = true -> countMatches noticeHeadingAt w = 0%nat.
Proof.
  induction w as [| c w IH]; [reflexivity |]. cbn [allWhiteSpace countMatches]. intros H.
  apply andb_true_iff in H. destruct H as [Hc Hw].
  rewrite (noticeHeadingAt_not_whiteSpace c w Hc), (IH Hw). reflexivity.
Qed.

Lemma trimEnd_allWhiteSpace (r : string) :
  trimEnd r = EmptyString -> allWhiteSpace r = true.
Proof.
  intros E. destruct (trimEnd_prefix r) as (w & Hr & Hw). rewrite E in Hr.
  cbn [append] in Hr. subst r. exact Hw.
Qed.

Lemma countNotice_trimEnd (s : string) :
  countMatches noticeHeadingAt (trimEnd s) = countMatches noticeHeadingAt s.
Proof.
  induction s as [| c r IH]; [reflexivity |].
  pose proof (trimEnd_endsClean (String c r)) as Hclean.
  destruct (trimEnd_prefix (String c r)) as (w & Hs & Hw).
  cbn [trimEnd] in *.
  destruct (trimEnd r) as [| d r'] eqn:E.
  - pose proof (trimEnd_allWhiteSpace r E) as Hr.
    cbn [countMatches] in IH |- *. rewrite <- IH.
    destruct (isWhiteSpace c) eqn:Ec.
    + cbn [countMatches]. rewrite (noticeHeadingAt_not_whiteSpace c r Ec). reflexivity.
    + cbn [countMatches]. f_equal.
      change (String c r) with (String c EmptyString ++ r).
      rewrite (noticeHeadingAt_spaced_iff (String c EmptyString) r Hr Hclean). reflexivity.
  - cbn [countMatches]. cbn [countMatches] in IH. rewrite IH. f_equal.
    rewrite Hs.
    rewrite (noticeHeadingAt_spaced_iff (String c (String d r')) w Hw Hclean). reflexivity.
Qed.

Lemma countNotice_trim (s : string) :
  countMatches noticeHeadingAt (trim s) = countMatches noticeHeadingAt s.
Proof. unfold trim. rewrite countNotice_trimEnd. apply countNotice_trimStart. Qed.

(** The generation notice brings no match of the notice pattern. *)
Lemma countNotice_generationNotice (isPrivate fallback review : bool) (x : string) :
  countMatches noticeHeadingAt (generationNotice isPrivate fallback review ++ x)
  = countMatches noticeHeadingAt x.
Proof.
  unfold generationNotice.
  destruct isPrivate, fallback, review; cbn; reflexivity.
Qed.

(** *** The body of a response *)

(** The body of a success of [POST], piece by piece: the generation
    notice; the last text written in the run, cut at the first match of the
    sources pattern and trimmed; the canonical section; and the notice
    section, appended when internet fallback was used and what stands before
    it has no match of the notice pattern. *)
Lemma POST_body_parts (P : Platform) (T : Prompts) (R : PublicRetrieval) (env : Env)
    (req : JsError + RequestBody) (o : Oracle) (h : list Call) (payload : OutputForClient) :
  fst (exec o h (POST P T R env req)) = Success payload ->
  let text := modelText o h (snd (exec o h (POST P T R env req))) in
  let base := cl_base payload in
  let plain := trim (cutAt sourcesHeadingAt text) ++ formatSourcesSection P (out_citations base) in
  let full := if blocked payload then review_body payload else body payload in
  exists (b : RequestBody) (row : GeneratedContentRow),
    req = inr b
    /\ In (InsertGeneratedContent row) (snd (exec o h (POST P T R env req)))
    /\ isEmpty text = false
    /\ content_source_notice base
       = contentSourceNotice (internet_fallback_used base) (out_citations base)
    /\ full
       = generationNotice (isPrivateMode (parseRequest P b)) (internet_fallback_used base)
           (requires_review row)
         ++ trim (plain
                  ++ if internet_fallback_used base
                        && (countMatches noticeHeadingAt plain =? 0)%nat
                     then noticeSection (content_source_notice base)
                     else EmptyString).
Proof.
  intros Hs text base plain full.
  destruct (POST_full_body P T R env req o h payload Hs)
    as (b & row & Eb & Hin & Htext & _ & Hp & Hn).
  exists b, row. split; [exact Eb |]. split; [exact Hin |]. split; [exact Htext |].
  split; [exact Hn |].
  unfold full. rewrite (full_body_of_payload _ _ _ _ _ Hp).
  unfold fullBody, withCanonicalSources. cbv zeta.
  rewrite strip_is_cut. fold text. fold base. fold plain.
  unfold hasSourceNotice. rewrite test_anyMatch, anyMatch_count, negb_involutive.
  destruct (internet_fallback_used base && (countMatches noticeHeadingAt plain =? 0)%nat).
  - reflexivity.
  - rewrite append_nil_r. reflexivity.
Qed.

(** C9 (amended). When internet fallback was used, the final body holds at
    least one match of the pattern ##, white space if any, Content Source
    Notice (in any case) and a word boundary.  What the handler closes the
    draft with is the last text written by a model, cut at its sources
    heading, and the canonical sources.  When that has no match of the
    pattern, the notice section, with the notice of the response, is appended
    and the body holds exactly one match, that of the section.  When it has
    a match already, wherever it stands, nothing is appended: the body holds
    the matches the draft had, one or more, and no notice section but what
    the draft brought. *)
Theorem source_notice_present_when_fallback_used :
  forall (P : Platform) (T : Prompts) (R : PublicRetrieval) (env : Env)
         (req : JsError + RequestBody) (o : Oracle) (h : list Call) (payload : OutputForClient),
    fst (exec o h (POST P T R env req)) = Success payload ->
    internet_fallback_used (cl_base payload) = true ->
    let text := modelText o h (snd (exec o h (POST P T R env req))) in
    let cs := out_citations (cl_base payload) in
    let notice := contentSourceNotice true cs in
    let plain := trim (cutAt sourcesHeadingAt text) ++ formatSourcesSection P cs in
    let full := if blocked payload then review_body payload else body payload in
    exists (b : RequestBody) (row : GeneratedContentRow),
      req = inr b
      /\ In (InsertGeneratedContent row) (snd (exec o h (POST P T R env req)))
      /\ isEmpty text = false
      /\ content_source_notice (cl_base payload) = notice
      /\ (1 <= countMatches noticeHeadingAt full)%nat
      /\ (countMatches noticeHeadingAt plain = 0%nat ->
          full = generationNotice (isPrivateMode (parseRequest P b)) true (requires_review row)
                 ++ trim (plain ++ noticeSection notice)
          /\ countMatches noticeHeadingAt full = 1%nat)
      /\ ((1 <= countMatches noticeHeadingAt plain)%nat ->
          full = generationNotice (isPrivateMode (parseRequest P b)) true (requires_review row)
                 ++ trim plain
          /\ countMatches noticeHeadingAt full = countMatches noticeHeadingAt plain).
Proof.
  intros P T R env req o h payload Hs Hifu text cs notice plain full.
  destruct (POST_body_parts P T R env req o h payload Hs)
    as (b & row & Eb & Hin & Htext & Hn & Hfull).
  fold text in Htext, Hfull. rewrite Hifu in Hn, Hfull. fold cs in Hn, Hfull.
  fold notice in Hn. rewrite Hn in Hfull. fold plain in Hfull. fold full in Hfull.
  cbn [andb] in Hfull.
  exists b, row. split; [exact Eb |]. split; [exact Hin |]. split; [exact Htext |].
  split; [exact Hn |].
  assert (Hnone : countMatches noticeHeadingAt plain = 0%nat ->
                  full = generationNotice (isPrivateMode (parseRequest P b)) true
                           (requires_review row)
                         ++ trim (plain ++ noticeSection notice)
                  /\ countMatches noticeHeadingAt full = 1%nat).
  { intros H0. rewrite H0 in Hfull. cbn [Nat.eqb] in Hfull. split; [exact Hfull |].
    rewrite Hfull, countNotice_generationNotice, countNotice_trim, countNotice_app.
    - apply countNotice_section.
    - rewrite anyMatch_count, H0. reflexivity. }
  assert (Hsome : (1 <= countMatches noticeHeadingAt plain)%nat ->
                  full = generationNotice (isPrivateMode (parseRequest P b)) true
                           (requires_review row)
                         ++ trim plain
                  /\ countMatches noticeHeadingAt full = countMatches noticeHeadingAt plain).
  { intros H1. destruct (countMatches noticeHeadingAt plain =? 0)%nat eqn:E.
    - apply Nat.eqb_eq in E. lia.
    - rewrite append_nil_r in Hfull. split; [exact Hfull |].
      rewrite Hfull, countNotice_generationNotice, countNotice_trim. reflexivity. }
  split; [| split; assumption].
  destruct (countMatches noticeHeadingAt plain) as [| n] eqn:E.
  - destruct (Hnone eq_refl) as [_ H1]. lia.
  - destruct (Hsome ltac:(lia)) as [_ H1]. lia.
Qed.

Lemma source_notice_present_when_fallback_used_witness :
  let o := Demo.oracle (fun _ => 0) Demo.noReply (fun _ => "The draft.") Demo.allPass in
  let run := exec o [] (POST Demo.platform Demo.prompts (Demo.found []) Demo.env
                          (inr (Demo.request "general"))) in
  exists payload,
    fst run = Success payload
    /\ internet_fallback_used (cl_base payload) = true
    /\ blocked payload = false
    /\ modelText o [] (snd run) = "The draft."
    /\ countMatches noticeHeadingAt (body payload) = 1%nat.
Proof.
  intros o run.
  assert (E : exists payload,
             fst run = Success payload
             /\ internet_fallback_used (cl_base payload) = true
             /\ blocked payload = false
             /\ out_citations (cl_base payload) = []).
  { vm_compute. eexists. repeat split; reflexivity. }
  destruct E as (payload & E & Hi & Hb & Hc). exists payload.
  split; [exact E |]. split; [exact Hi |]. split; [exact Hb |].
  split; [vm_compute; reflexivity |].
  destruct (source_notice_present_when_fallback_used _ _ _ _ _ _ _ payload E Hi)
    as (b & row & _ & _ & _ & _ & _ & Hnone & _).
  rewrite Hb, Hc in Hnone.
  exact (proj2 (Hnone ltac:(vm_compute; reflexivity))).
Defined.

(** C9 as stated fails, in two ways.  A model that writes the notice
    heading twice gets a final body with two of them.  A model that only
    mentions the heading in a sentence gets a final body with no notice
    section at all: no line is the heading, and the notice of the response is
    not in the body. *)
Lemma source_notice_may_be_doubled_or_missing :
  let twice := "# Drug X" ++ LF ++ "## Content Source Notice" ++ LF ++ "From the web."
               ++ LF ++ "## Content Source Notice" ++ LF ++ "From the web." in
  let mention := "Drug X was approved (see ##content source notice- below)." in
  let run emitted :=
    exec (Demo.oracle (fun _ => 0) Demo.noReply (fun _ => emitted) Demo.allPass) []
      (POST Demo.platform Demo.prompts (Demo.found []) Demo.env
         (inr (Demo.request "general"))) in
  (exists payload,
      fst (run twice) = Success payload
      /\ internet_fallback_used (cl_base payload) = true
      /\ blocked payload = false
      /\ countMatches noticeHeadingAt (body payload) = 2%nat)
  /\ (exists payload,
         fst (run mention) = Success payload
         /\ internet_fallback_used (cl_base payload) = true
         /\ blocked payload = false
         /\ countMatches noticeHeadingAt (body payload) = 1%nat
         /\ includes (body payload) "## Content Source Notice" = false
         /\ isEmpty (content_source_notice (cl_base payload)) = false
         /\ includes (body payload) (content_source_notice (cl_base payload)) = false).
Proof.
  intros twice mention run. split.
  - let r := eval vm_compute in (fst (run twice)) in
    match r with Success ?p => exists p end.
    repeat split; vm_compute; reflexivity.
  - let r := eval vm_compute in (fst (run mention)) in
    match r with Success ?p => exists p end.
    repeat split; vm_compute; reflexivity.
Qed.




(* ================================================================== *)
(** ** Hero image seed *)

Lemma toUint32_toInt32 (z : Z) : toUint32 (toInt32 z) = toUint32 z.
Proof.
  unfold toUint32, toInt32. cbv zeta.
  destruct (z mod 4294967296 <? 2147483648).
  - apply Z.mod_mod. lia.
  - replace (z mod 4294967296 - 4294967296) with (z mod 4294967296 + (-1) * 4294967296) by lia.
    rewrite Z.mod_add by lia. apply Z.mod_mod. lia.
Qed.

Lemma lxor_mod_pow2 (a b n : Z) :
  0 <= n -> Z.lxor a b mod 2 ^ n = Z.lxor (a mod 2 ^ n) (b mod 2 ^ n).
Proof.
  intros Hn. rewrite <- !Z.land_ones by exact Hn.
  apply Z.bits_inj'. intros k Hk.
  rewrite Z.land_spec, !Z.lxor_spec, !Z.land_spec.
  destruct (Z.testbit a k), (Z.testbit b k), (Z.testbit (Z.ones n) k); reflexivity.
Qed.

Lemma code_small (c : ascii) : 0 <= Z.of_N (code c) < 256.
Proof.
  unfold code. pose proof (N_ascii_bounded c) as H. lia.
Qed.

Lemma toInt32_mod (z : Z) : toInt32 z mod 4294967296 = z mod 4294967296.
Proof. exact (toUint32_toInt32 z). Qed.

Lemma seed_step (h : Z) (c : ascii) :
  toUint32 (Math_imul (js_xor h (Z.of_N (code c))) 16777619)
  = (Z.lxor (toUint32 h) (Z.of_N (code c)) * 16777619) mod 4294967296.
Proof.
  pose proof (code_small c) as Hc.
  assert (Hx : toInt32 (js_xor h (Z.of_N (code c))) mod 4294967296
               = Z.lxor (toUint32 h) (Z.of_N (code c))).
  { rewrite toInt32_mod. unfold js_xor. rewrite toInt32_mod.
    change 4294967296 with (2 ^ 32).
    rewrite lxor_mod_pow2 by lia.
    change (2 ^ 32) with 4294967296.
    rewrite !toInt32_mod.
    rewrite (Z.mod_small (Z.of_N (code c))) by lia. reflexivity. }
  unfold Math_imul, toUint32 at 1. rewrite toInt32_mod.
  change (toInt32 16777619) with 16777619.
  rewrite <- Z.mul_mod_idemp_l by lia. rewrite Hx. reflexivity.
Qed.

Lemma seedLoop_unsigned (s : string) :
  forall h, toUint32 (seedLoop h s) = fnv1a32 (toUint32 h) s.
Proof.
  induction s as [| c r IH]; intros h; simpl.
  - reflexivity.
  - rewrite IH, seed_step. reflexivity.
Qed.

(** X1. The seed of the hero image is the 32-bit FNV-1a hash of the
    prompt, computed over unsigned arithmetic, reduced modulo 10^9; it is a
    whole number from 0 to 999999999. *)
Theorem hero_seed_is_fnv1a_below_one_billion :
  forall prompt : string,
    stableSeedFromString prompt = fnv1a32 2166136261 prompt mod 1000000000
    /\ 0 <= stableSeedFromString prompt < 1000000000.
Proof.
  intros prompt. unfold stableSeedFromString. split.
  - rewrite seedLoop_unsigned. reflexivity.
  - apply Z.mod_pos_bound. lia.
Qed.

(* ================================================================== *)
(** ** Keyword score *)

Lemma count_fold (p : string -> bool) (l : list string) :
  forall z,
    fold_left (fun score t => if p t then score + 1 else score) l z
    = z + Z.of_nat (List.length (filter p l)).
Proof.
  induction l as [| t l IH]; intros z; simpl.
  - lia.
  - rewrite IH. destruct (p t); simpl List.length; lia.
Qed.

Lemma scoreKeywordMatch_count (text keyword : string) :
  scoreKeywordMatch text keyword
  = Z.of_nat (List.length (filter (includes (toLowerCase text)) (keywordTokens keyword))).
Proof.
  unfold scoreKeywordMatch. cbv zeta.
  destruct (keywordTokens keyword) as [| t l] eqn:E.
  - reflexivity.
  - rewrite count_fold. lia.
Qed.

Lemma filter_length_le {A : Type} (p : A -> bool) (l : list A) :
  (List.length (filter p l) <= List.length l)%nat.
Proof.
  induction l as [| x l IH]; simpl; [lia |]. destruct (p x); simpl; lia.
Qed.

Lemma filter_length_mono {A : Type} (p q : A -> bool) (l : list A) :
  (forall x, p x = true -> q x = true) ->
  (List.length (filter p l) <= List.length (filter q l))%nat.
Proof.
  intros H. induction l as [| x l IH]; simpl; [lia |].
  destruct (p x) eqn:Ep.
  - rewrite (H x Ep). simpl. lia.
  - destruct (q x); simpl; lia.
Qed.

Lemma allChars_trimStart (p : ascii -> bool) (s : string) :
  allChars p s = true -> allChars p (trimStart s) = true.
Proof.
  induction s as [| c r IH]; simpl; intros H; [reflexivity |].
  apply andb_true_iff in H. destruct H as [Hc Hr].
  destruct (isWhiteSpace c); [apply IH, Hr |]. simpl. rewrite Hc, Hr. reflexivity.
Qed.

Lemma allChars_trimEnd (p : ascii -> bool) (s : string) :
  allChars p s = true -> allChars p (trimEnd s) = true.
Proof.
  induction s as [| c r IH]; simpl; intros H; [reflexivity |].
  apply andb_true_iff in H. destruct H as [Hc Hr]. specialize (IH Hr).
  destruct (trimEnd r) as [| d r'].
  - destruct (isWhiteSpace c); simpl; [reflexivity | rewrite Hc; reflexivity].
  - simpl in *. rewrite Hc. exact IH.
Qed.

Lemma allChars_trim (p : ascii -> bool) (s : string) :
  allChars p s = true -> allChars p (trim s) = true.
Proof. intros H. apply allChars_trimEnd, allChars_trimStart, H. Qed.

Lemma trimStart_length (s : string) : (String.length (trimStart s) <= String.length s)%nat.
Proof.
  induction s as [| c r IH]; simpl; [lia |]. destruct (isWhiteSpace c); simpl; lia.
Qed.

Lemma trimEnd_length (s : string) : (String.length (trimEnd s) <= String.length s)%nat.
Proof.
  induction s as [| c r IH]; simpl; [lia |].
  destruct (trimEnd r) as [| d r'].
  - destruct (isWhiteSpace c); simpl; lia.
  - simpl in *. lia.
Qed.

Lemma trim_length (s : string) : (String.length (trim s) <= String.length s)%nat.
Proof.
  unfold trim. pose proof (trimEnd_length (trimStart s)). pose proof (trimStart_length s). lia.
Qed.

Lemma toLowerCase_length (s : string) : String.length (toLowerCase s) = String.length s.
Proof. induction s as [| c r IH]; simpl; congruence. Qed.

(** The pieces of a split hold no separator and are no longer than the
    string. *)
Lemma splitRuns_pieces (isSep : ascii -> bool) (s : string) :
  Forall (fun piece => allChars (fun c => negb (isSep c)) piece = true
                       /\ (String.length piece <= String.length s)%nat)
         (splitRuns isSep s).
Proof.
  induction s as [| c r IH].
  - simpl. constructor; [split; [reflexivity | simpl; lia] | constructor].
  - cbn [splitRuns].
    assert (IH' : Forall (fun piece => allChars (fun c => negb (isSep c)) piece = true
                                       /\ (String.length piece <= String.length (String c r))%nat)
                         (splitRuns isSep r)).
    { eapply Forall_impl; [| exact IH]. cbn beta. intros p [Hp Hl]. split; [exact Hp |].
      simpl. lia. }
    destruct (isSep c) eqn:Ec.
    + assert (Hnew : Forall (fun piece => allChars (fun c => negb (isSep c)) piece = true
                                          /\ (String.length piece <= String.length (String c r))%nat)
                            (EmptyString :: splitRuns isSep r)).
      { constructor; [split; [reflexivity | simpl; lia] | exact IH']. }
      destruct r as [| d r']; [exact Hnew |]. destruct (isSep d); [exact IH' | exact Hnew].
    + destruct (splitRuns isSep r) as [| p q] eqn:Es.
      * constructor; [| constructor]. split; [simpl; rewrite Ec; reflexivity | simpl; lia].
      * inversion IH as [| ? ? [Hp Hl] Hq]; subst.
        inversion IH' as [| ? ? _ Hq']; subst.
        constructor; [| exact Hq'].
        split; [simpl; rewrite Ec; exact Hp | simpl; lia].
Qed.

Lemma keywordTokens_spec (keyword : string) :
  Forall (fun t => allChars isLowerAlnum t = true
                   /\ (4 <= String.length t <= String.length keyword)%nat)
         (keywordTokens keyword).
Proof.
  unfold keywordTokens. apply Forall_forall. intros t Ht.
  apply filter_In in Ht. destruct Ht as [Ht Hlen].
  apply in_map_iff in Ht. destruct Ht as [piece [Et Hpiece]]. subst t.
  pose proof (splitRuns_pieces (fun c => negb (isLowerAlnum c)) (toLowerCase keyword)) as Hall.
  rewrite Forall_forall in Hall. destruct (Hall piece Hpiece) as [Hchars Hl].
  rewrite toLowerCase_length in Hl.
  split.
  - apply allChars_trim.
    erewrite <- Hchars. clear. induction piece as [| c r IH]; simpl; [reflexivity |].
    rewrite negb_involutive, IH. reflexivity.
  - apply Nat.leb_le in Hlen. pose proof (trim_length piece). lia.
Qed.

Lemma prefix_app_r (t s b : string) :
  String.prefix t s = true -> String.prefix t (s ++ b) = true.
Proof.
  revert s. induction t as [| c t IH]; intros s H; [destruct (s ++ b); reflexivity |].
  destruct s as [| d s]; simpl in *; [discriminate |].
  destruct (ascii_dec c d); [apply IH, H | discriminate].
Qed.

Lemma includes_app_r (s b t : string) :
  includes s t = true -> includes (s ++ b) t = true.
Proof.
  induction s as [| c s IH]; intros H.
  - simpl in H. rewrite orb_false_r in H.
    destruct t; [| simpl in H; discriminate].
    destruct b; reflexivity.
  - cbn [includes] in H. apply orb_true_iff in H. destruct H as [H | H].
    + change (String c s ++ b) with (String c (s ++ b)). cbn [includes].
      change (String c (s ++ b)) with (String c s ++ b).
      rewrite (prefix_app_r _ _ _ H). reflexivity.
    + change (String c s ++ b) with (String c (s ++ b)). cbn [includes].
      rewrite (IH H). apply orb_true_r.
Qed.

Lemma includes_app_l (a s t : string) :
  includes s t = true -> includes (a ++ s) t = true.
Proof.
  intros H. induction a as [| c a IH]; [exact H |].
  change (String c a ++ s) with (String c (a ++ s)). cbn [includes].
  rewrite IH. apply orb_true_r.
Qed.

Lemma toLowerCase_app (a b : string) :
  toLowerCase (a ++ b) = toLowerCase a ++ toLowerCase b.
Proof. induction a as [| c a IH]; simpl; congruence. Qed.

(** X2. The tokens of a keyword are its runs of four or more lower-case
    letters and digits, taken after lower-casing; the score counts the
    tokens found in the text, so it lies between 0 and the number of
    tokens, and a keyword shorter than four characters scores 0 on every
    text. *)
Theorem keyword_score_counts_long_tokens :
  forall text keyword : string,
    Forall (fun t => allChars isLowerAlnum t = true /\ (4 <= String.length t)%nat)
           (keywordTokens keyword)
    /\ 0 <= scoreKeywordMatch text keyword <= Z.of_nat (List.length (keywordTokens keyword))
    /\ ((String.length keyword < 4)%nat -> scoreKeywordMatch text keyword = 0).
Proof.
  intros text keyword. pose proof (keywordTokens_spec keyword) as Htok.
  rewrite scoreKeywordMatch_count. split; [| split].
  - eapply Forall_impl; [| exact Htok]. cbn beta. intros t [Hc Hl]. split; [exact Hc | lia].
  - pose proof (filter_length_le (includes (toLowerCase text)) (keywordTokens keyword)). lia.
  - intros Hshort. destruct (keywordTokens keyword) as [| t l]; [reflexivity |].
    inversion Htok as [| ? ? [_ Hl] _]; subst. lia.
Qed.

Lemma keyword_score_counts_long_tokens_witness :
  (String.length "FDA" < 4)%nat /\ scoreKeywordMatch "FDA approves drug" "FDA" = 0.
Proof.
  split; [simpl; lia |].
  apply (proj2 (proj2 (keyword_score_counts_long_tokens "FDA approves drug" "FDA"))).
  simpl; lia.
Defined.

(** X3. Text added before or after a document never lowers its keyword
    score. *)
Theorem keyword_score_grows_with_text :
  forall before text after keyword : string,
    scoreKeywordMatch text keyword <= scoreKeywordMatch (before ++ text ++ after) keyword.
Proof.
  intros before text after keyword. rewrite !scoreKeywordMatch_count.
  apply inj_le. apply filter_length_mono. intros t Ht.
  rewrite !toLowerCase_app. apply includes_app_l, includes_app_r, Ht.
Qed.

(* ================================================================== *)
(** ** Evidence Verifier: the list *)

Lemma probedOk_app_r (P : Platform) (o : Oracle) (h t1 t2 : list Call) (u : string) :
  probedOk P o h t1 u -> probedOk P o h (t1 ++ t2)%list u.
Proof.
  intros (pre & post & asked & st & final & Et & Ho & Hs & Hu & Hn).
  exists pre, (post ++ t2)%list, asked, st, final. subst t1.
  rewrite <- app_assoc. repeat split; assumption.
Qed.

Lemma probedOk_app_l (P : Platform) (o : Oracle) (h t1 t2 : list Call) (u : string) :
  probedOk P o (h ++ t1)%list t2 u -> probedOk P o h (t1 ++ t2)%list u.
Proof.
  intros (pre & post & asked & st & final & Et & Ho & Hs & Hu & Hn).
  exists (t1 ++ pre)%list, post, asked, st, final. subst t2.
  split; [rewrite <- app_assoc; reflexivity |].
  split; [rewrite app_assoc; exact Ho |].
  repeat split; assumption.
Qed.

Lemma checkUrlExists_run (P : Platform) (x : string) (o : Oracle) (h : list Call) :
  let r := exec o h (checkUrlExists P x 3000) in
  (List.length (snd r) <= 1)%nat
  /\ Forall (fun c => isProbe c = true) (snd r)
  /\ (chk_ok (fst r) = true -> probedOk P o h (snd r) (chk_url (fst r))).
Proof.
  unfold checkUrlExists. cbv zeta.
  destruct (isEmpty (normalizeUrlString P x)) eqn:Eu.
  - simpl. repeat split; [lia | constructor | discriminate].
  - cbn [bind await exec].
    destruct (o h (ProbeUrl (normalizeUrlString P x) 3000)) as [| st final] eqn:Eo;
      cbn [exec fst snd List.length].
    + repeat split; [lia | repeat constructor | simpl; discriminate].
    + repeat split; [lia | repeat constructor |].
      cbn [chk_ok chk_url]. intros Hok.
      exists [], [], (normalizeUrlString P x), st, final.
      rewrite app_nil_r. repeat split; try assumption.
      unfold resolvedUrl. cbv zeta.
      destruct (isEmpty (normalizeUrlString P
                  (if isEmpty final then normalizeUrlString P x else final))) eqn:En.
      * intros E. rewrite E in Eu. discriminate.
      * intros E. rewrite E in En. discriminate.
Qed.

Lemma mapM_checks_run (P : Platform) (l : list (nat * string)) :
  forall (o : Oracle) (h : list Call),
    let r := exec o h (mapM (fun x => checkUrlExists P (snd x) 3000) l) in
    List.length (fst r) = List.length l
    /\ (List.length (snd r) <= List.length l)%nat
    /\ Forall (fun c => isProbe c = true) (snd r)
    /\ Forall (fun chk => chk_ok chk = true -> probedOk P o h (snd r) (chk_url chk)) (fst r).
Proof.
  induction l as [| x l IH]; intros o h; cbv zeta.
  - simpl. repeat split; [lia | constructor | constructor].
  - cbn [mapM]. rewrite exec_bind.
    pose proof (checkUrlExists_run P (snd x) o h) as Hx. cbv zeta in Hx.
    destruct (exec o h (checkUrlExists P (snd x) 3000)) as [chk t1].
    cbn [fst snd] in Hx. destruct Hx as (Hl1 & Hp1 & Hok1).
    rewrite exec_bind.
    specialize (IH o (h ++ t1)%list). cbv zeta in IH.
    destruct (exec o (h ++ t1) (mapM (fun x0 => checkUrlExists P (snd x0) 3000) l))
      as [chks t2].
    cbn [fst snd] in IH. destruct IH as (Hl2 & Hl2' & Hp2 & Hok2).
    cbn [exec fst snd]. rewrite app_nil_r.
    repeat split.
    + simpl. lia.
    + rewrite length_app. simpl. lia.
    + apply Forall_app. split; assumption.
    + constructor.
      * intros Hok. apply probedOk_app_r, Hok1, Hok.
      * eapply Forall_impl; [| exact Hok2]. cbn beta. intros c Hc Hok.
        apply probedOk_app_l, Hc, Hok.
Qed.

Lemma nth_error_setUrlAt (i : nat) (u : string) (l : list RagDoc) :
  forall j,
    nth_error (setUrlAt i u l) j
    = if (i =? j)%nat then option_map (fun d => setUrl d u) (nth_error l j)
      else nth_error l j.
Proof.
  revert i. induction l as [| d l IH]; intros i j.
  - simpl. destruct j; simpl; destruct (i =? _)%nat; reflexivity.
  - destruct i as [| i], j as [| j]; simpl; try reflexivity. apply IH.
Qed.

Lemma setUrlAt_same (i : nat) (u : string) (l : list RagDoc) (docs : list JsVal) :
  Forall2 sameButUrl l docs -> Forall2 sameButUrl (setUrlAt i u l) docs.
Proof.
  intros H. revert i. induction H as [| d d0 l docs Hd Hl IH]; intros i.
  - destruct i; constructor.
  - destruct i as [| i]; simpl; constructor; auto.
Qed.

(** What the acceptance loop keeps: each accepted index holds a link that
    satisfies whatever every accepted check satisfies. *)
Lemma acceptLoop_links (Q : string -> Prop) (rows : list ((nat * string) * UrlCheck)) :
  Forall (fun rc => chk_ok (snd rc) = true -> Q (chk_url (snd rc))) rows ->
  forall okIndex normalized,
    (forall idx d, In idx okIndex -> nth_error normalized idx = Some d -> Q (rd_url d)) ->
    forall idx d,
      In idx (fst (acceptLoop rows okIndex normalized)) ->
      nth_error (snd (acceptLoop rows okIndex normalized)) idx = Some d ->
      Q (rd_url d).
Proof.
  induction 1 as [| [row chk] rows Hrc Hrows IH]; intros okIndex normalized Hinv.
  - exact Hinv.
  - cbn [acceptLoop]. cbn [snd] in Hrc. destruct (chk_ok chk) eqn:Eok.
    + apply IH. intros idx d Hin Hnth.
      rewrite nth_error_setUrlAt in Hnth.
      destruct (fst row =? idx)%nat eqn:Ei.
      * destruct (nth_error normalized idx) as [d0 |]; [| discriminate].
        inversion Hnth; subst d. cbn [rd_url setUrl]. auto.
      * apply in_app_or in Hin. destruct Hin as [Hin | [E | []]].
        -- eapply Hinv; eassumption.
        -- apply Nat.eqb_neq in Ei. contradiction.
    + apply IH. exact Hinv.
Qed.

Lemma acceptLoop_length (rows : list ((nat * string) * UrlCheck)) :
  forall okIndex normalized,
    (List.length (fst (acceptLoop rows okIndex normalized))
     <= List.length okIndex + List.length rows)%nat.
Proof.
  induction rows as [| [row chk] rows IH]; intros okIndex normalized; cbn [acceptLoop].
  - simpl. lia.
  - destruct (chk_ok chk).
    + specialize (IH (okIndex ++ [fst row])%list (setUrlAt (fst row) (chk_url chk) normalized)).
      rewrite length_app in IH. simpl in *. lia.
    + specialize (IH okIndex normalized). simpl. lia.
Qed.

Lemma acceptLoop_same (rows : list ((nat * string) * UrlCheck)) (docs : list JsVal) :
  forall okIndex normalized,
    Forall2 sameButUrl normalized docs ->
    Forall2 sameButUrl (snd (acceptLoop rows okIndex normalized)) docs.
Proof.
  induction rows as [| [row chk] rows IH]; intros okIndex normalized H; cbn [acceptLoop].
  - exact H.
  - destruct (chk_ok chk); apply IH; [apply setUrlAt_same |]; exact H.
Qed.

Lemma mapi_pair_In (l : list RagDoc) :
  forall k i d,
    In (i, d) (mapi (fun idx x => (idx, x)) k l) ->
    (k <= i)%nat /\ nth_error l (i - k) = Some d.
Proof.
  induction l as [| x l IH]; intros k i d H; simpl in H; [contradiction |].
  destruct H as [E | H].
  - inversion E; subst. rewrite Nat.sub_diag. split; [lia | reflexivity].
  - apply IH in H. destruct H as [Hk Hn]. split; [lia |].
    replace (i - k)%nat with (S (i - S k)) by lia. exact Hn.
Qed.

Lemma mapi_fst_seq {A : Type} (l : list A) :
  forall k, map fst (mapi (fun idx x => (idx, x)) k l) = seq k (List.length l).
Proof.
  induction l as [| x l IH]; intros k; simpl; [reflexivity |]. rewrite IH. reflexivity.
Qed.

Lemma map_fst_filter {A : Type} (f : nat -> bool) (l : list (nat * A)) :
  map fst (filter (fun ix => f (fst ix)) l) = filter f (map fst l).
Proof.
  induction l as [| x l IH]; simpl; [reflexivity |].
  destruct (f (fst x)); simpl; rewrite IH; reflexivity.
Qed.

(** The rows selected by index: no more than the indices, and kept in
    order. *)
Lemma selected_length (okIndex : list nat) (l : list RagDoc) :
  (List.length (filter (fun ix : nat * RagDoc => existsb (Nat.eqb (fst ix)) okIndex)
                       (mapi (fun idx d => (idx, d)) 0 l))
   <= List.length okIndex)%nat.
Proof.
  rewrite <- (length_map fst).
  rewrite (map_fst_filter (fun i => existsb (Nat.eqb i) okIndex)).
  rewrite mapi_fst_seq.
  apply NoDup_incl_length.
  - apply NoDup_filter, seq_NoDup.
  - intros i Hi. apply filter_In in Hi. destruct Hi as [_ Hi].
    apply existsb_exists in Hi. destruct Hi as [j [Hj E]].
    apply Nat.eqb_eq in E. subst j. exact Hj.
Qed.

Lemma selected_kept (f : nat -> bool) (l : list RagDoc) (docs : list JsVal) :
  Forall2 sameButUrl l docs ->
  forall k,
    KeptFrom (map snd (filter (fun ix : nat * RagDoc => f (fst ix))
                              (mapi (fun idx d => (idx, d)) k l)))
             docs.
Proof.
  induction 1 as [| d d0 l docs Hd Hl IH]; intros k; simpl.
  - constructor.
  - destruct (f k); simpl.
    + apply KeptFrom_take; [exact Hd | apply IH].
    + apply KeptFrom_skip, IH.
Qed.

Lemma normalized_same (P : Platform) (docs : list JsVal) :
  Forall2 sameButUrl (map (normalizedDoc P) docs) docs.
Proof.
  induction docs as [| d docs IH]; simpl; constructor; [| exact IH].
  unfold normalizedDoc. cbv zeta.
  destruct (isEmpty (rowUrl P d)); repeat split.
Qed.

(** [docs.map] throws exactly when a row is [null] or [undefined]. *)
Lemma readError_none (P : Platform) (k : string) (rows : list JsVal) :
  readError P k rows = None <-> Forall (fun d => isNullish d = false) rows.
Proof.
  unfold readError. induction rows as [| d rows IH]; cbn [find].
  - split; [constructor | reflexivity].
  - destruct (isNullish d) eqn:E.
    + split; [discriminate | intros H; inversion H; congruence].
    + rewrite IH. split; [intros H; constructor; assumption | intros H; inversion H; assumption].
Qed.

Lemma toCheckOf_length (normalized : list RagDoc) :
  (List.length (toCheckOf normalized) <= 8)%nat.
Proof. unfold toCheckOf. rewrite length_firstn. lia. Qed.

(** A run of [verifyUrls]. *)
Lemma verifyUrls_run (P : Platform) (docs : list JsVal) (o : Oracle) (h : list Call) :
  let r := exec o h (verifyUrls P docs) in
  (List.length (snd r) <= 8)%nat
  /\ Forall (fun c => isProbe c = true) (snd r)
  /\ match fst r with
     | inl thrown => readError P "url" docs = Some thrown /\ snd r = []
     | inr kept =>
         readError P "url" docs = None
         /\ (List.length kept <= 8)%nat
         /\ KeptFrom kept docs
         /\ Forall (fun d => probedOk P o h (snd r) (rd_url d)) kept
     end.
Proof.
  unfold verifyUrls. cbv zeta.
  destruct (readError P "url" docs) as [thrown |] eqn:Eread.
  { cbn [exec fst snd List.length]. repeat split; [lia | constructor]. }
  rewrite exec_bind.
  pose proof (mapM_checks_run P (toCheckOf (map (normalizedDoc P) docs)) o h) as Hm.
  cbv zeta in Hm.
  pose proof (toCheckOf_length (map (normalizedDoc P) docs)) as H8.
  destruct (exec o h (mapM (fun x => checkUrlExists P (snd x) 3000)
                           (toCheckOf (map (normalizedDoc P) docs)))) as [checks t].
  cbn [fst snd] in Hm. destruct Hm as (Hlen & Ht & Hprobe & Hok).
  set (rows := combine (toCheckOf (map (normalizedDoc P) docs)) checks).
  pose proof (acceptLoop_length rows [] (map (normalizedDoc P) docs)) as Hal.
  pose proof (acceptLoop_same rows docs [] (map (normalizedDoc P) docs)
                (normalized_same P docs)) as Hsame.
  assert (Hrows : Forall (fun rc : (nat * string) * UrlCheck =>
                            chk_ok (snd rc) = true -> probedOk P o h t (chk_url (snd rc)))
                         rows).
  { apply Forall_forall. intros [row chk] Hin. cbn [snd].
    apply in_combine_r in Hin. rewrite Forall_forall in Hok. apply Hok, Hin. }
  pose proof (acceptLoop_links (probedOk P o h t) rows Hrows [] (map (normalizedDoc P) docs))
    as Hlinks.
  assert (Hrl : (List.length rows <= 8)%nat).
  { unfold rows. rewrite length_combine. lia. }
  destruct (acceptLoop rows [] (map (normalizedDoc P) docs)) as [okIndex normalized'].
  cbn [fst snd] in *. cbn [exec fst snd]. rewrite app_nil_r.
  pose proof (selected_length okIndex normalized') as Hsel.
  rewrite length_map.
  simpl List.length in Hal.
  repeat split.
  - lia.
  - exact Hprobe.
  - lia.
  - apply (selected_kept (fun i => existsb (Nat.eqb i) okIndex)). exact Hsame.
  - apply Forall_forall. intros d Hd.
    apply in_map_iff in Hd. destruct Hd as [[i d'] [E Hin]]. cbn [snd] in E. subst d'.
    apply filter_In in Hin. destruct Hin as [Hin Hmem]. cbn [fst] in Hmem.
    apply mapi_pair_In in Hin. destruct Hin as [_ Hnth]. rewrite Nat.sub_0_r in Hnth.
    apply existsb_exists in Hmem. destruct Hmem as [j [Hj E]].
    apply Nat.eqb_eq in E. subst j.
    apply (Hlinks ltac:(intros ? ? []) i d Hj Hnth).
Qed.

(* ================================================================== *)
(** ** Retrieval outside private mode *)

Lemma VerifiedState_app_r (P : Platform) (o : Oracle) (h t1 t2 : list Call) (n : nat)
    (st : RetrievalState) :
  VerifiedState P o h t1 n st -> VerifiedState P o h (t1 ++ t2)%list n st.
Proof.
  intros (Hf & Hl & Hc). repeat split; [exact Hf | exact Hl |].
  eapply Forall_impl; [| exact Hc]. intros c. apply probedOk_app_r.
Qed.

Lemma VerifiedState_app_l (P : Platform) (o : Oracle) (h t1 t2 : list Call) (n : nat)
    (st : RetrievalState) :
  VerifiedState P o (h ++ t1)%list t2 n st -> VerifiedState P o h (t1 ++ t2)%list n st.
Proof.
  intros (Hf & Hl & Hc). repeat split; [exact Hf | exact Hl |].
  eapply Forall_impl; [| exact Hc]. intros c. apply probedOk_app_l.
Qed.

Lemma VerifiedState_le (P : Platform) (o : Oracle) (h t : list Call) (n m : nat)
    (st : RetrievalState) :
  (n <= m)%nat -> VerifiedState P o h t n st -> VerifiedState P o h t m st.
Proof. intros Hnm (Hf & Hl & Hc). repeat split; [exact Hf | lia | exact Hc]. Qed.

Lemma docCitations_verified (P : Platform) (o : Oracle) (h t : list Call) (docs : list RagDoc) :
  Forall (fun d => probedOk P o h t (rd_url d)) docs ->
  Forall (fun c => probedOk P o h t (url c)) (map docCitation docs).
Proof.
  intros H. apply Forall_map. eapply Forall_impl; [| exact H].
  cbn beta. intros d Hu. exact Hu.
Qed.

Lemma VerifiedState_none (P : Platform) (o : Oracle) (h t : list Call) (n : nat)
    (st : RetrievalState) :
  citations st = [] -> internetFallbackUsed st = false -> VerifiedState P o h t n st.
Proof.
  intros Hc Hf. repeat split; [exact Hf | rewrite Hc; simpl; lia | rewrite Hc; constructor].
Qed.

(** The citations made of a verified list. *)
Lemma verified_state (P : Platform) (docs : list JsVal) (o : Oracle) (h : list Call)
    (kept : list RagDoc) (st : RetrievalState) :
  let r := exec o h (verifyUrls P docs) in
  fst r = inr kept ->
  internetFallbackUsed st = false ->
  citations st = map docCitation kept ->
  VerifiedState P o h (snd r) 8 st.
Proof.
  cbv zeta. intros Hk Hf Hc.
  destruct (verifyUrls_run P docs o h) as (_ & _ & Hv). rewrite Hk in Hv.
  destruct Hv as (_ & Hl & _ & Hv).
  repeat split; [exact Hf | rewrite Hc, length_map; exact Hl |].
  rewrite Hc. apply docCitations_verified, Hv.
Qed.

Lemma indexAnswer_run (P : Platform) (D : ErrorDetails) (p : Parsed) (pub : EdgeResult)
    (o : Oracle) (h : list Call) :
  let r := exec o h (indexAnswer P D p pub) in
  VerifiedState P o h (snd r) 8 (fst (fst r)).
Proof.
  unfold indexAnswer. cbv zeta.
  destruct (error pub) as [retError |]; [apply VerifiedState_none; reflexivity |].
  destruct (data pub) as [| | | | | rows |]; try (apply VerifiedState_none; reflexivity).
  rewrite exec_bind.
  pose proof (fun kept st => verified_state P rows o h kept st) as Hv. cbv zeta in Hv.
  destruct (exec o h (verifyUrls P rows)) as [[thrown | validDocs] t1].
  { cbn [exec fst snd]. apply VerifiedState_none; reflexivity. }
  cbn [fst snd] in Hv. specialize (Hv validDocs).
  destruct (isGeneralMode p).
  - rewrite exec_bind.
    destruct (exec o (h ++ t1) (invokeEdgeFunctionWithRetry _ _ _ _)) as [priv2 t2].
    cbn [exec fst snd]. rewrite app_nil_r.
    apply VerifiedState_app_r.
    destruct (data priv2) as [| | | | | chunks2 |]; try (apply Hv; reflexivity).
    destruct (readError P "content" chunks2); apply Hv; reflexivity.
  - cbn [exec fst snd]. rewrite app_nil_r. apply Hv; reflexivity.
Qed.

Lemma universeTextFallback_run (P : Platform) (p : Parsed) (st1 : RetrievalState)
    (o : Oracle) (h : list Call) :
  let r := exec o h (universeTextFallback P p st1) in
  internetFallbackUsed st1 = false ->
  fst r = st1
  \/ (citations (fst r) = citations st1 /\ internetFallbackUsed (fst r) = false)
  \/ VerifiedState P o h (snd r) 8 (fst r).
Proof.
  unfold universeTextFallback. cbv zeta. intros Hf. rewrite exec_bind.
  destruct (exec o h (fallbackPublicTextSearch _ _)) as [found t1].
  destruct found as [err | [| d fallbackDocs]].
  - right; left. cbn [exec fst snd citations internetFallbackUsed]. split; [reflexivity | exact Hf].
  - left. reflexivity.
  - rewrite exec_bind.
    pose proof (fun kept st => verified_state P (d :: fallbackDocs) o (h ++ t1)%list kept st)
      as Hv.
    cbv zeta in Hv.
    destruct (exec o (h ++ t1) (verifyUrls P (d :: fallbackDocs))) as [[thrown | docs2] t2].
    + right; left. cbn [exec fst snd citations internetFallbackUsed].
      split; [reflexivity | exact Hf].
    + right; right. cbn [fst snd] in Hv. cbn [exec fst snd]. rewrite app_nil_r.
      apply VerifiedState_app_l. apply (Hv docs2); [reflexivity | exact Hf | reflexivity].
Qed.

Lemma publicBranch_run (P : Platform) (D : ErrorDetails) (p : Parsed)
    (o : Oracle) (h : list Call) :
  let r := exec o h (publicBranch P D p) in
  VerifiedState P o h (snd r) 8 (fst r).
Proof.
  unfold publicBranch. cbv zeta. rewrite exec_bind.
  destruct (exec o h (invokeEdgeFunctionWithRetry _ _ _ _)) as [pub t0].
  rewrite exec_bind.
  pose proof (indexAnswer_run P D p pub o (h ++ t0)%list) as H1. cbv zeta in H1.
  destruct (exec o (h ++ t0) (indexAnswer P D p pub)) as [[st1 thrown] t1].
  cbn [fst snd] in H1.
  destruct thrown as [err |].
  { cbn [exec fst snd]. rewrite app_nil_r. apply VerifiedState_app_l.
    destruct H1 as (Hf & Hl & Hc). repeat split; assumption. }
  destruct (isEmpty (context st1)).
  - pose proof (universeTextFallback_run P p st1 o ((h ++ t0) ++ t1)%list) as H2.
    cbv zeta in H2.
    destruct (exec o ((h ++ t0) ++ t1) (universeTextFallback P p st1)) as [st2 t2].
    cbn [fst snd] in H2 |- *.
    apply VerifiedState_app_l.
    destruct (H2 (proj1 H1)) as [E | [[Ec Ef] | Hv]].
    + subst st2. apply VerifiedState_app_r, H1.
    + destruct H1 as (_ & Hl & Hc). repeat split; [exact Ef | rewrite Ec; exact Hl |].
      rewrite Ec. eapply Forall_impl; [| exact Hc]. intros c. apply probedOk_app_r.
    + apply VerifiedState_app_l, Hv.
  - cbn [exec fst snd]. rewrite app_nil_r. apply VerifiedState_app_l, H1.
Qed.

Lemma collectBoost_run (P : Platform) (p : Parsed) (st : RetrievalState)
    (o : Oracle) (h : list Call) :
  let r := exec o h (collectBoost P p st) in
  internetFallbackUsed st = false ->
  fst r = st \/ VerifiedState P o h (snd r) 5 (fst r).
Proof.
  unfold collectBoost. cbv zeta. intros Hf. cbn [bind await exec].
  destruct (o h (CollectDocuments _ _)) as [fJson |]; [| left; reflexivity].
  destruct (readError P "title" (retrievedDocs st)); [left; reflexivity |].
  match goal with
  | |- context [match ?m with [] => _ | _ :: _ => _ end] => destruct m as [| d0 merged] eqn:Em
  end; [left; reflexivity |].
  rewrite exec_bind.
  match goal with
  | |- context [verifyUrls P ?docs] =>
      pose proof (verifyUrls_run P docs o (h ++ [CollectDocuments (keywordText p)
                    (if isNewsMode p then 20000 else 8000)])%list) as Hv;
      assert (Hlen : (List.length docs <= 5)%nat)
  end.
  { rewrite length_map. unfold rankedDocs. cbv zeta. rewrite length_firstn. lia. }
  cbv zeta in Hv.
  destruct (exec o _ (verifyUrls P _)) as [[thrown | verified] t1];
    [left; reflexivity | right].
  cbn [fst snd] in Hv. destruct Hv as (_ & _ & _ & _ & Hk & Hv).
  cbn [exec fst snd]. rewrite app_nil_r.
  change (CollectDocuments (keywordText p) (if isNewsMode p then 20000 else 8000) :: t1)
    with ([CollectDocuments (keywordText p) (if isNewsMode p then 20000 else 8000)] ++ t1)%list.
  apply VerifiedState_app_l.
  repeat split; [exact Hf | | apply docCitations_verified, Hv].
  cbn [citations]. rewrite length_map.
  assert (Hle : forall out docs, KeptFrom out docs -> (List.length out <= List.length docs)%nat).
  { induction 1; simpl; lia. }
  specialize (Hle _ _ Hk). lia.
Qed.

Lemma internetFallback_run (P : Platform) (p : Parsed) (st : RetrievalState)
    (o : Oracle) (h : list Call) :
  let r := exec o h (internetFallback P p st) in
  internetFallbackUsed (fst r) = true
  \/ (citations (fst r) = citations st
      /\ internetFallbackUsed (fst r) = internetFallbackUsed st).
Proof.
  unfold internetFallback. cbv zeta. cbn [bind await exec].
  destruct (o h (CollectInternetDocs _ _ _ _)) as [err | [| d docs]]; cbn [exec fst snd].
  - right. split; reflexivity.
  - right. split; reflexivity.
  - left. reflexivity.
Qed.

Lemma retrieval_public_run (P : Platform) (D : ErrorDetails) (p : Parsed)
    (o : Oracle) (h : list Call) :
  isPrivateMode p = false ->
  let r := exec o h (retrieval P (routeRetrieval P D) p) in
  internetFallbackUsed (fst r) = false ->
  VerifiedState P o h (snd r) 8 (fst r).
Proof.
  intros Hp. unfold retrieval. rewrite Hp. cbn [negb andb routeRetrieval publicIndexBranch
                                                   secondaryBoost].
  rewrite exec_bind.
  pose proof (publicBranch_run P D p o h) as H0. cbv zeta in H0.
  destruct (exec o h (publicBranch P D p)) as [st0 t0]. cbn [fst snd] in H0.
  rewrite exec_bind.
  assert (H1 : let r := exec o (h ++ t0)%list
                          (if (List.length (citations st0) <? 3)%nat
                           then collectBoost P p st0 else Ret st0) in
               VerifiedState P o h (t0 ++ snd r) 8 (fst r)).
  { cbv zeta. destruct (List.length (citations st0) <? 3)%nat.
    - pose proof (collectBoost_run P p st0 o (h ++ t0)%list) as Hb. cbv zeta in Hb.
      destruct (exec o (h ++ t0) (collectBoost P p st0)) as [st1 t1]. cbn [fst snd] in *.
      destruct (Hb (proj1 H0)) as [E | Hv].
      + subst st1. apply VerifiedState_app_r, H0.
      + apply VerifiedState_app_l. eapply VerifiedState_le; [| exact Hv]. lia.
    - cbn [exec fst snd]. apply VerifiedState_app_r, H0. }
  cbv zeta in H1.
  destruct (exec o (h ++ t0) (if (List.length (citations st0) <? 3)%nat
                              then collectBoost P p st0 else Ret st0)) as [st1 t1].
  cbn [fst snd] in H1.
  destruct (List.length (citations st1) =? 0)%nat.
  - pose proof (internetFallback_run P p st1 o ((h ++ t0) ++ t1)%list) as Hi. cbv zeta in Hi.
    destruct (exec o ((h ++ t0) ++ t1) (internetFallback P p st1)) as [st2 t2].
    cbn [fst snd] in Hi |- *. intros Hf2.
    destruct Hi as [Ht | [Ec Ef]]; [congruence |].
    rewrite app_assoc. apply VerifiedState_app_r.
    destruct H1 as (_ & Hl & Hc). repeat split; [exact Hf2 | | ]; rewrite Ec; assumption.
  - cbn [exec fst snd]. rewrite app_nil_r. intros _. exact H1.
Qed.

Lemma configurationCheck_fails (env : Env) (p : Parsed) (r : Response) :
  configurationCheck env p = Some r -> exists e, r = Failure e.
Proof.
  unfold configurationCheck, failure. intros H.
  repeat match type of H with
         | (if ?c then _ else _) = _ => destruct c
         | match ?c with _ => _ end = _ => destruct c
         end; inversion H; eexists; reflexivity.
Qed.

Lemma swarmAgentsCheck_fails (env : Env) (p : Parsed) (r : Response) :
  swarmAgentsCheck env p = Some r -> exists e, r = Failure e.
Proof.
  unfold swarmAgentsCheck, failure. intros H.
  repeat match type of H with
         | (if ?c then _ else _) = _ => destruct c
         | match ?c with _ => _ end = _ => destruct c
         end; inversion H; eexists; reflexivity.
Qed.

(** A success of [POST]: the checks passed, and the run is the retrieval
    followed by the rest of the handler on some evidence. *)
Lemma POST_success (P : Platform) (T : Prompts) (R : PublicRetrieval) (env : Env)
    (b : RequestBody) (o : Oracle) (h : list Call) (payload : OutputForClient)
    (trace : list Call) :
  exec o h (POST P T R env (inr b)) = (Success payload, trace) ->
  let p := parseRequest P b in
  let h0 := (h ++ [DateNow; BackgroundCollect (keywordText p)])%list in
  exists st t1 ev t2,
    exec o h0 (retrieval P R p) = (st, t1)
    /\ sourcesGate p st = inr ev
    /\ exec o (h0 ++ t1)%list (generateAndValidate P T env p (o h DateNow) ev)
       = (Success payload, t2)
    /\ trace = ([DateNow; BackgroundCollect (keywordText p)] ++ t1 ++ t2)%list.
Proof.
  intros Hrun p h0.
  destruct (configurationCheck env p) as [early |] eqn:Ec.
  { exfalso. destruct (configurationCheck_fails _ _ _ Ec) as [e He].
    unfold POST in Hrun. fold p in Hrun. rewrite Ec in Hrun. cbn [exec] in Hrun.
    inversion Hrun. congruence. }
  destruct (swarmAgentsCheck env p) as [early |] eqn:Es.
  { exfalso. destruct (swarmAgentsCheck_fails _ _ _ Es) as [e He].
    unfold POST in Hrun. fold p in Hrun. rewrite Ec in Hrun. cbn [bind await exec] in Hrun.
    rewrite Es in Hrun. cbn [exec] in Hrun. inversion Hrun. congruence. }
  rewrite (POST_run P T R env b o h Ec Es) in Hrun. cbv zeta in Hrun. fold p h0 in Hrun.
  destruct (exec o h0 (retrieval P R p)) as [st t1].
  destruct (exec o (h0 ++ t1) (afterRetrieval P T env p (o h DateNow) st)) as [resp t2] eqn:Ea.
  apply pair_equal_spec in Hrun. destruct Hrun as [Eresp Etrace]. subst resp.
  unfold afterRetrieval in Ea.
  destruct (sourcesGate p st) as [rejection | ev] eqn:Eg.
  - exfalso. unfold sourcesGate in Eg.
    destruct (citations st); [destruct (isPrivateMode p) |]; inversion Eg.
    subst rejection. cbn [exec] in Ea. inversion Ea.
  - exists st, t1, ev, t2. split; [reflexivity |]. split; [exact Eg |].
    split; [exact Ea |]. symmetry. exact Etrace.
Qed.

(** X4. Outside private mode, when the response does not report the
    internet fallback, it cites at most eight sources, and the link of each
    is what a probe made during this request, and answered with an accepted
    status, gave. *)
Theorem cited_links_answered_a_probe :
  forall (P : Platform) (T : Prompts) (D : ErrorDetails) (env : Env) (b : RequestBody)
         (o : Oracle) (h : list Call) (payload : OutputForClient) (trace : list Call),
    exec o h (POST P T (routeRetrieval P D) env (inr b)) = (Success payload, trace) ->
    isPrivateMode (parseRequest P b) = false ->
    internet_fallback_used (cl_base payload) = false ->
    (List.length (out_citations (cl_base payload)) <= 8)%nat
    /\ Forall (fun c => probedOk P o h trace (url c)) (out_citations (cl_base payload)).
Proof.
  intros P T D env b o h payload trace Hrun Hp Hflag.
  destruct (POST_success P T (routeRetrieval P D) env b o h payload trace Hrun)
    as (st & t1 & ev & t2 & Hr & Hg & Hgen & Et).
  set (p := parseRequest P b) in *.
  set (h0 := (h ++ [DateNow; BackgroundCollect (keywordText p)])%list) in *.
  pose proof (generateAndValidate_served P T env p (o h DateNow) ev o (h0 ++ t1)%list) as Hs.
  rewrite Hgen in Hs. cbn [fst snd served] in Hs.
  destruct Hs as (_ & review & row & _ & _ & _ & _ & Hc & Hi & _).
  rewrite Hc. rewrite Hi in Hflag.
  pose proof (retrieval_public_run P D p o h0 Hp) as Hv. cbv zeta in Hv.
  rewrite Hr in Hv. cbn [fst snd] in Hv.
  unfold sourcesGate in Hg. rewrite Hp in Hg.
  destruct (citations st) as [| c cs] eqn:Ecs.
  - inversion Hg; subst ev. cbn in Hflag. discriminate.
  - inversion Hg; subst ev. cbn [ev_citations ev_internetFallbackUsed] in *.
    destruct (Hv Hflag) as (_ & Hl & Hall). rewrite Ecs in Hl, Hall.
    split; [exact Hl |]. subst trace.
    eapply Forall_impl; [| exact Hall]. intros c0 Hc0.
    apply probedOk_app_l. apply probedOk_app_r. exact Hc0.
Qed.

Lemma cited_links_answered_a_probe_witness :
  let o := Demo.oracle (fun _ => 0) (DemoRetrieval.indexFinds [DemoRetrieval.labelRow])
             (fun _ => "The draft.") Demo.allPass in
  exists payload trace,
    exec o [] (POST Demo.platform Demo.prompts
                 (routeRetrieval Demo.platform DemoRetrieval.details) Demo.env
                 (inr (Demo.request "news")))
    = (Success payload, trace)
    /\ internet_fallback_used (cl_base payload) = false
    /\ List.length (out_citations (cl_base payload)) = 1%nat
    /\ Forall (fun c => probedOk Demo.platform o [] trace (url c))
              (out_citations (cl_base payload)).
Proof.
  intros o.
  assert (E : exists payload trace,
             exec o [] (POST Demo.platform Demo.prompts
                          (routeRetrieval Demo.platform DemoRetrieval.details) Demo.env
                          (inr (Demo.request "news")))
             = (Success payload, trace)
             /\ internet_fallback_used (cl_base payload) = false
             /\ List.length (out_citations (cl_base payload)) = 1%nat).
  { vm_compute. do 2 eexists. split; [reflexivity |]. split; reflexivity. }
  destruct E as (payload & trace & E & Hf & Hl). exists payload, trace.
  split; [exact E |]. split; [exact Hf |]. split; [exact Hl |].
  exact (proj2 (cited_links_answered_a_probe Demo.platform Demo.prompts DemoRetrieval.details
                  Demo.env (Demo.request "news") o [] payload trace E eq_refl Hf)).
Defined.

(** A row of the index that is [null] ends the retrieval block: the error
    of [verifyUrls] is noted, no link is probed, the text search is not made
    and the boost leaves the state as it is; the internet fallback is what
    remains. *)
Example null_row_ends_the_public_branch :
  let o := Demo.oracle (fun _ => 0) (DemoRetrieval.indexFinds [JNull])
             (fun _ => "The draft.") Demo.allPass in
  let p := parseRequest Demo.platform (Demo.request "news") in
  let run := exec o [] (retrieval Demo.platform
                          (routeRetrieval Demo.platform DemoRetrieval.details) p) in
  retrievalError (fst run) = Some "Cannot read properties of null (reading 'url')"
  /\ citations (fst run) = []
  /\ retrievedDocs (fst run) = [JNull]
  /\ map kindOf (snd run) = [KInvoke; KCollect; KInternet].
Proof. vm_compute. repeat split. Qed.

(* ================================================================== *)
(** ** Verified lists and text search *)

Lemma toCheckOf_blank (normalized : list RagDoc) :
  Forall (fun d => trim (rd_url d) = EmptyString) normalized ->
  toCheckOf normalized = [].
Proof.
  intros H. unfold toCheckOf.
  assert (E : forall k, filter (fun x : nat * string => negb (isEmpty (snd x)))
                          (mapi (fun idx d => (idx, trim (rd_url d))) k normalized)
                        = []).
  { induction H as [| d l Hd Hl IH]; intros k; simpl; [reflexivity |].
    rewrite Hd. simpl. apply IH. }
  rewrite E. reflexivity.
Qed.

Lemma normalizedDoc_blank (P : Platform) (d : JsVal) :
  rowUrl P d = EmptyString ->
  trim (rd_url (normalizedDoc P d)) = EmptyString.
Proof.
  intros H. unfold normalizedDoc. cbv zeta. rewrite H. reflexivity.
Qed.

Lemma selected_none (l : list RagDoc) :
  forall k,
    filter (fun ix : nat * RagDoc => existsb (Nat.eqb (fst ix)) [])
           (mapi (fun idx d => (idx, d)) k l) = [].
Proof. induction l as [| d l IH]; intros k; simpl; [reflexivity | apply IH]. Qed.

(** X5. The Evidence Verifier on a list of rows.  When a row is null it
    throws the error of the first such row and probes nothing.  Otherwise it
    makes at most eight probes, each with a timeout of 3000 ms, and nothing
    else; it keeps at most eight rows, in their order and unchanged but for
    the link; the link of every row it keeps is what a probe of this run,
    answered with an accepted status, gave; and when no row carries a link
    it probes nothing and keeps nothing. *)
Theorem verifier_keeps_only_probed_rows :
  forall (P : Platform) (docs : list JsVal) (o : Oracle) (h : list Call),
    let result := fst (exec o h (verifyUrls P docs)) in
    let awaits := snd (exec o h (verifyUrls P docs)) in
    (List.length awaits <= 8)%nat
    /\ Forall (fun c => isProbe c = true) awaits
    /\ match result with
       | inl thrown =>
           (exists d, find isNullish docs = Some d
                      /\ thrown = ErrorObject (nullReadMessage P d "url"))
           /\ awaits = []
       | inr kept =>
           Forall (fun d => isNullish d = false) docs
           /\ (List.length kept <= 8)%nat
           /\ KeptFrom kept docs
           /\ Forall (fun d => probedOk P o h awaits (rd_url d)) kept
           /\ (Forall (fun d => rowUrl P d = EmptyString) docs ->
               kept = [] /\ awaits = [])
       end.
Proof.
  intros P docs o h result awaits.
  destruct (verifyUrls_run P docs o h) as (H1 & H2 & H3).
  split; [exact H1 |]. split; [exact H2 |].
  fold result awaits in H3.
  destruct result as [thrown | kept] eqn:Er.
  - destruct H3 as [Hread Hnil]. split; [| exact Hnil].
    unfold readError in Hread. destruct (find isNullish docs) as [d |]; [| discriminate].
    exists d. split; [reflexivity |]. inversion Hread. reflexivity.
  - destruct H3 as (Hread & H4 & H5 & H6).
    split; [apply (readError_none P "url"), Hread |].
    split; [exact H4 |]. split; [exact H5 |]. split; [exact H6 |].
    intros Hblank. subst result awaits. revert Er. unfold verifyUrls. cbv zeta.
    rewrite Hread, toCheckOf_blank.
    + cbn [mapM bind combine acceptLoop exec fst snd]. rewrite selected_none.
      cbn [map]. intros E. inversion E. split; reflexivity.
    + apply Forall_map. eapply Forall_impl; [| exact Hblank].
      intros d. apply normalizedDoc_blank.
Qed.

Lemma verifier_keeps_only_probed_rows_witness :
  let docs := [ JObj [("title", JStr "Notice"); ("content", JStr "No link here.")] ] in
  let o := Demo.oracle (fun _ => 0) Demo.noReply (fun _ => "The draft.") Demo.allPass in
  Forall (fun d => rowUrl Demo.platform d = EmptyString) docs
  /\ fst (exec o [] (verifyUrls Demo.platform docs)) = inr []
  /\ snd (exec o [] (verifyUrls Demo.platform docs)) = [].
Proof.
  intros docs o.
  assert (H : Forall (fun d => rowUrl Demo.platform d = EmptyString) docs).
  { repeat constructor. }
  split; [exact H |].
  pose proof (verifier_keeps_only_probed_rows Demo.platform docs o []) as Hv.
  cbv zeta in Hv. destruct Hv as (_ & _ & Hv).
  destruct (fst (exec o [] (verifyUrls Demo.platform docs))) as [thrown | kept] eqn:E.
  - exfalso. revert E. vm_compute. discriminate.
  - destruct Hv as (_ & _ & _ & _ & Hb). destruct (Hb H) as [Ek Ea].
    rewrite Ek. split; [reflexivity | exact Ea].
Defined.

(* ------------------------------------------------------------------ *)

Lemma unescape_escape (s : string) : unescapeIlike (escapeForIlike s) = s.
Proof.
  induction s as [| c r IH]; [reflexivity |].
  cbn [escapeForIlike].
  destruct (Ascii.eqb c "%"%char || Ascii.eqb c "_"%char) eqn:Ew.
  - cbn [unescapeIlike]. rewrite Ew. cbn [Ascii.eqb Bool.eqb andb]. rewrite IH. reflexivity.
  - destruct r as [| d r'].
    + reflexivity.
    + cbn [escapeForIlike] in *.
      destruct (Ascii.eqb d "%"%char || Ascii.eqb d "_"%char) eqn:Ed.
      * change (unescapeIlike (String c (String "\"%char (String d (escapeForIlike r')))))
          with (if Ascii.eqb c "\"%char
                   && (Ascii.eqb "\"%char "%"%char || Ascii.eqb "\"%char "_"%char)
                then String "\"%char (unescapeIlike (String d (escapeForIlike r')))
                else String c (unescapeIlike (String "\"%char (String d (escapeForIlike r'))))).
        cbn [Ascii.eqb Bool.eqb orb]. rewrite andb_false_r. rewrite IH. reflexivity.
      * change (unescapeIlike (String c (String d (escapeForIlike r'))))
          with (if Ascii.eqb c "\"%char && (Ascii.eqb d "%"%char || Ascii.eqb d "_"%char)
                then String d (unescapeIlike (escapeForIlike r'))
                else String c (unescapeIlike (String d (escapeForIlike r')))).
        rewrite Ed, andb_false_r. rewrite IH. reflexivity.
Qed.

Lemma wildcardsEscaped_escape (s : string) :
  forall behind, wildcardsEscaped behind (escapeForIlike s) = true.
Proof.
  induction s as [| c r IH]; intros behind; [reflexivity |].
  cbn [escapeForIlike]. fold (isWildcard c).
  destruct (isWildcard c) eqn:Ew; cbn [wildcardsEscaped].
  - rewrite Ew, IH. reflexivity.
  - rewrite Ew, IH. reflexivity.
Qed.

Lemma wildcardsEscaped_behind (s : string) :
  wildcardsEscaped false s = true -> wildcardsEscaped true s = true.
Proof.
  destruct s as [| c r]; [trivial |]. cbn [wildcardsEscaped].
  intros H. apply andb_true_iff in H. destruct H as [_ H]. rewrite H, orb_true_r. reflexivity.
Qed.

Lemma unescapeIlike_step (c d : ascii) (r : string) :
  unescapeIlike (String c (String d r))
  = if Ascii.eqb c "\"%char && isWildcard d
    then String d (unescapeIlike r)
    else String c (unescapeIlike (String d r)).
Proof. reflexivity. Qed.

(** A pattern in which every wildcard is escaped is the escaped form of
    what is left when the escapes are deleted. *)
Lemma escape_unescape (n : nat) :
  forall e : string,
    (String.length e <= n)%nat ->
    wildcardsEscaped false e = true ->
    escapeForIlike (unescapeIlike e) = e.
Proof.
  induction n as [| n IH]; intros e Hlen He.
  - destruct e; [reflexivity | simpl in Hlen; lia].
  - destruct e as [| c r]; [reflexivity |].
    cbn [wildcardsEscaped] in He. apply andb_true_iff in He. destruct He as [Hc Hr].
    rewrite orb_false_r in Hc. apply negb_true_iff in Hc.
    destruct r as [| d r'].
    + cbn [unescapeIlike escapeForIlike]. fold (isWildcard c). rewrite Hc. reflexivity.
    + rewrite unescapeIlike_step.
      cbn [String.length] in Hlen.
      destruct (Ascii.eqb c "\"%char) eqn:Eb; cbn [andb].
      * destruct (isWildcard d) eqn:Ed.
        -- cbn [escapeForIlike]. fold (isWildcard d). rewrite Ed.
           apply Ascii.eqb_eq in Eb. subst c. f_equal. f_equal.
           apply IH; [lia |].
           cbn [wildcardsEscaped] in Hr. apply andb_true_iff in Hr. destruct Hr as [_ Hr].
           assert (Enb : Ascii.eqb d "\"%char = false).
           { unfold isWildcard in Ed. apply orb_true_iff in Ed.
             destruct Ed as [Ed | Ed]; apply Ascii.eqb_eq in Ed; subst d; reflexivity. }
           rewrite Enb in Hr. exact Hr.
        -- cbn [escapeForIlike]. fold (isWildcard c). rewrite Hc. f_equal.
           apply IH; [cbn [String.length]; lia |].
           cbn [wildcardsEscaped] in Hr |- *. rewrite Ed in *. exact Hr.
      * cbn [escapeForIlike]. fold (isWildcard c). rewrite Hc. f_equal.
        apply IH; [cbn [String.length]; lia | exact Hr].
Qed.

(** X6. The two text searches.  A blank query searches nothing and finds
    no rows.  Any other query makes exactly one search, with a limit of at
    least 1, for the pattern made of the trimmed query between two [%]
    signs, in which a backslash has been put before each [%] and [_] and
    nothing else was changed: every [%] and [_] of the escaped query stands
    right behind a backslash, deleting those backslashes gives the trimmed
    query back, and no other text has these two properties. *)
Theorem text_search_escapes_the_query :
  forall (query userId : string) (topK : Z) (o : Oracle) (h : list Call),
    let q := trim query in
    let private := exec o h (fallbackPrivateTextSearch query userId topK) in
    let public := exec o h (fallbackPublicTextSearch query topK) in
    (q = EmptyString -> private = (inr [], []) /\ public = (inr [], []))
    /\ (q <> EmptyString ->
        exists escaped limit,
          wildcardsEscaped false escaped = true
          /\ unescapeIlike escaped = q
          /\ (forall e, wildcardsEscaped false e = true -> unescapeIlike e = q -> e = escaped)
          /\ 1 <= limit
          /\ snd private = [PrivateTextSearch ("%" ++ escaped ++ "%") userId limit]
          /\ snd public
             = [PublicTextSearch ("title.ilike.%" ++ escaped ++ "%,content.ilike.%"
                                  ++ escaped ++ "%") limit]).
Proof.
  intros query userId topK o h q private public.
  subst private public. unfold fallbackPrivateTextSearch, fallbackPublicTextSearch.
  cbv zeta. fold q. split.
  - intros E. rewrite E. split; reflexivity.
  - intros Hne. destruct (isEmpty q) eqn:Eq.
    { destruct q; [contradiction | discriminate]. }
    exists (escapeForIlike q), (Z.max 1 (if topK =? 0 then 5 else topK)).
    split; [apply wildcardsEscaped_escape |].
    split; [apply unescape_escape |].
    split; [intros e He Hq; rewrite <- Hq; symmetry;
            apply (escape_unescape (String.length e)); [lia | exact He] |].
    split; [lia |].
    cbn [bind await exec snd].
    split; [reflexivity |].
    rewrite !append_assoc. reflexivity.
Qed.

Lemma text_search_escapes_the_query_witness :
  let o := Demo.oracle (fun _ => 0) Demo.noReply (fun _ => "The draft.") Demo.allPass in
  exists limit,
    1 <= limit
    /\ snd (exec o [] (fallbackPrivateTextSearch " 50% of drug_x " "user-1" 0))
       = [PrivateTextSearch "%50\% of drug\_x%" "user-1" limit]
    /\ snd (exec o [] (fallbackPublicTextSearch " 50% of drug_x " 0))
       = [PublicTextSearch "title.ilike.%50\% of drug\_x%,content.ilike.%50\% of drug\_x%"
            limit].
Proof.
  intros o.
  destruct (proj2 (text_search_escapes_the_query " 50% of drug_x " "user-1" 0 o [])
              ltac:(vm_compute; discriminate))
    as (escaped & limit & _ & _ & Huniq & Hl & Hpriv & Hpub).
  rewrite <- (Huniq "50\% of drug\_x" eq_refl eq_refl) in Hpriv, Hpub.
  exists limit. split; [exact Hl |]. split; [exact Hpriv | exact Hpub].
Defined.

(* ================================================================== *)
(** ** Validation agents fail closed *)

Lemma js_lt_Fin (x y : Q) : js_lt (Fin x) (Fin y) = negb (Qle_bool y x).
Proof. reflexivity. Qed.

Lemma clamp_unit (x : JsNumber) :
  let c := clamp x (ofZ 0) (ofZ 1) in
  exists q, (if isFinite c then c else ofZ 0) = Fin q /\ (0 <= q <= 1)%Q.
Proof.
  cbv zeta. unfold clamp, ofZ.
  destruct x as [| | q |].
  - exists 0%Q. split; [reflexivity |]. split; [apply Qle_refl | discriminate].
  - exists 0%Q. split; [reflexivity |]. split; [apply Qle_refl | discriminate].
  - unfold Math_min. rewrite js_lt_Fin.
    destruct (Qle_bool (inject_Z 1) q) eqn:E1; cbn [negb].
    + unfold Math_max. rewrite js_lt_Fin.
      exists (inject_Z 1). split; [reflexivity |]. split; discriminate.
    + unfold Math_max. rewrite js_lt_Fin.
      destruct (Qle_bool q (inject_Z 0)) eqn:E0; cbn [negb isFinite].
      * exists (inject_Z 0). split; [reflexivity |]. split; [apply Qle_refl | discriminate].
      * exists q. split; [reflexivity |]. split.
        -- destruct (Qlt_le_dec 0 q) as [Hlt | Hle]; [apply Qlt_le_weak, Hlt |].
           apply Qle_bool_iff in Hle. change (inject_Z 0) with 0%Q in E0. congruence.
        -- destruct (Qlt_le_dec q 1) as [Hlt | Hle]; [apply Qlt_le_weak, Hlt |].
           apply Qle_bool_iff in Hle. change (inject_Z 1) with 1%Q in E1. congruence.
  - exists (inject_Z 1). split; [reflexivity |]. split; discriminate.
Qed.

Lemma normalizeAgentResult_pass (P : Platform) (raw : JsVal) (issue : string) :
  status (normalizeAgentResult P raw issue) = pass ->
  isRecord raw = true /\ prop raw "status" = JStr "pass".
Proof.
  unfold normalizeAgentResult. destruct (isRecord raw); cbn [negb].
  - cbn [status]. destruct (prop raw "status") as [| | | | s | |]; try discriminate.
    destruct (String.eqb s "pass") eqn:E; [| discriminate].
    apply String.eqb_eq in E. subst s. intros _. split; reflexivity.
  - discriminate.
Qed.

Lemma In_firstn {A : Type} (n : nat) (l : list A) (x : A) : In x (firstn n l) -> In x l.
Proof.
  revert l. induction n as [| n IH]; intros l H; [destruct H |].
  destruct l as [| y l]; [destruct H |]. destruct H as [E | H]; [left; exact E |].
  right. apply IH, H.
Qed.

(** X7. What [normalizeAgentResult] makes of any value: the confidence is
    a finite number from 0 to 1 and at most 25 issues are kept; the status
    is pass only for a record whose [status] is the string pass; none of
    the issues kept of a record is blank; and a value that is not a record
    gives the failed result with the fallback issue and confidence 0. *)
Theorem agent_result_is_normalised :
  forall (P : Platform) (raw : JsVal) (fallbackIssue : string),
    let r := normalizeAgentResult P raw fallbackIssue in
    (exists q, confidence r = Fin q /\ (0 <= q <= 1)%Q)
    /\ (List.length (issues r) <= 25)%nat
    /\ (status r = pass -> isRecord raw = true /\ prop raw "status" = JStr "pass")
    /\ (isRecord raw = true -> Forall (fun s => trim s <> EmptyString) (issues r))
    /\ (isRecord raw = false ->
        r = {| status := fail; issues := [fallbackIssue]; confidence := ofZ 0 |}).
Proof.
  intros P raw issue r. subst r. split; [| split; [| split; [| split]]].
  - unfold normalizeAgentResult. destruct (isRecord raw); cbn [negb].
    + cbn [confidence]. apply clamp_unit.
    + exists 0%Q. split; [reflexivity |]. split; [apply Qle_refl | discriminate].
  - unfold normalizeAgentResult. destruct (isRecord raw); cbn [negb issues failed].
    + destruct (prop raw "issues"); try (simpl; lia). rewrite length_firstn. lia.
    + simpl. lia.
  - apply normalizeAgentResult_pass.
  - intros Er. unfold normalizeAgentResult. rewrite Er. cbn [negb issues].
    destruct (prop raw "issues") as [| | | | | l |]; try constructor.
    apply Forall_forall. intros s Hs. apply In_firstn in Hs.
    apply filter_In in Hs. destruct Hs as [_ Hne].
    intros E. rewrite E in Hne. discriminate.
  - intros Er. unfold normalizeAgentResult. rewrite Er. reflexivity.
Qed.

Lemma agent_result_is_normalised_witness :
  let raw := JObj [("status", JStr "pass"); ("issues", JArr [JStr " "; JStr "dose unclear"]);
                   ("confidence", JNum (Fin (3 # 2)))] in
  isRecord raw = true
  /\ Forall (fun s => trim s <> EmptyString)
            (issues (normalizeAgentResult Demo.platform raw "citation_agent_failed")).
Proof.
  intros raw. split; [reflexivity |].
  exact (proj1 (proj2 (proj2 (proj2
           (agent_result_is_normalised Demo.platform raw "citation_agent_failed")))) eq_refl).
Defined.

Lemma agentPassed_app_r (P : Platform) (o : Oracle) (h t1 t2 : list Call) (purpose : string) :
  agentPassed P o h t1 purpose -> agentPassed P o h (t1 ++ t2)%list purpose.
Proof.
  intros (pre & post & m & s & u & ms & content & Et & Ho & Hs).
  exists pre, (post ++ t2)%list, m, s, u, ms, content. subst t1.
  rewrite <- app_assoc. repeat split; assumption.
Qed.

Lemma agentPassed_app_l (P : Platform) (o : Oracle) (h t1 t2 : list Call) (purpose : string) :
  agentPassed P o (h ++ t1)%list t2 purpose -> agentPassed P o h (t1 ++ t2)%list purpose.
Proof.
  intros (pre & post & m & s & u & ms & content & Et & Ho & Hs).
  exists (t1 ++ pre)%list, post, m, s, u, ms, content. subst t2.
  split; [rewrite <- app_assoc; reflexivity |].
  split; [rewrite app_assoc; exact Ho | exact Hs].
Qed.

(** One agent call: it passes only on an answer in which a JSON value with
    the status pass was found. *)
Lemma callOpenRouterJson_run (P : Platform) (model system user : string) (timeoutMs : JsNumber)
    (purpose agent : string) (o : Oracle) (h : list Call) :
  let r := exec o h (callOpenRouterJson P model system user timeoutMs purpose) in
  status (agentParsed P agent (fst r)) = pass -> agentPassed P o h (snd r) purpose.
Proof.
  unfold callOpenRouterJson. cbv zeta. cbn [bind await exec fst snd].
  destruct (o h (ChatCompletion purpose model system user true timeoutMs))
    as [| e | st errText | content] eqn:Eo; cbn [agentParsed failed status]; try discriminate.
  destruct (truthy (safeJsonParse P (trim content))); cbn [agentParsed failed status];
    [| discriminate].
  intros Hpass. apply normalizeAgentResult_pass in Hpass. destruct Hpass as [_ Hpass].
  exists [], [], model, system, user, timeoutMs, content.
  rewrite app_nil_r. repeat split; assumption.
Qed.

(** X8. The validation swarm fails closed.  In every run, an agent is
    reported with the status pass only if its chat completion answered with
    a text in which a JSON value with the status pass was found (a timeout,
    a transport error, an HTTP error status or an unreadable answer is a
    fail); the recency agent alone also passes when recency is not
    applicable, without being called.  So the trust score is 100 only when
    the citation, fact-check and tone agents answered pass. *)
Theorem validation_swarm_fails_closed :
  forall (P : Platform) (T : Prompts) (env : Env) (args : SwarmArgs)
         (o : Oracle) (h : list Call),
    let out := fst (exec o h (validation_swarm P T env args)) in
    let awaits := snd (exec o h (validation_swarm P T env args)) in
    (status (citation (results out)) = pass -> agentPassed P o h awaits "validation_citation")
    /\ (status (fact_check (results out)) = pass ->
        agentPassed P o h awaits "validation_fact_check")
    /\ (status (tone (results out)) = pass -> agentPassed P o h awaits "validation_tone")
    /\ (status (recency (results out)) = pass ->
        recencyApplicable args = false \/ agentPassed P o h awaits "validation_recency")
    /\ (trustScore out = ofZ 100 ->
        agentPassed P o h awaits "validation_citation"
        /\ agentPassed P o h awaits "validation_fact_check"
        /\ agentPassed P o h awaits "validation_tone").
Proof.
  intros P T env args o h out awaits.
  assert (Hmain :
    (status (citation (results out)) = pass -> agentPassed P o h awaits "validation_citation")
    /\ (status (fact_check (results out)) = pass ->
        agentPassed P o h awaits "validation_fact_check")
    /\ (status (tone (results out)) = pass -> agentPassed P o h awaits "validation_tone")
    /\ (status (recency (results out)) = pass ->
        recencyApplicable args = false \/ agentPassed P o h awaits "validation_recency")).
  { subst out awaits. unfold validation_swarm. cbv zeta.
    rewrite exec_bind.
    match goal with
    | |- context [exec o h (callOpenRouterJson P ?m ?s ?u ?ms ?pu)] =>
        pose proof (callOpenRouterJson_run P m s u ms pu "citation" o h) as H1
    end.
    cbv zeta in H1.
    destruct (exec o h (callOpenRouterJson P _ _ _ _ "validation_citation")) as [r1 t1].
    cbn [fst snd] in H1.
    rewrite exec_bind.
    match goal with
    | |- context [exec o ?h' (callOpenRouterJson P ?m ?s ?u ?ms "validation_fact_check")] =>
        pose proof (callOpenRouterJson_run P m s u ms "validation_fact_check" "fact_check" o h')
          as H2
    end.
    cbv zeta in H2.
    destruct (exec o (h ++ t1) (callOpenRouterJson P _ _ _ _ "validation_fact_check"))
      as [r2 t2].
    cbn [fst snd] in H2.
    rewrite exec_bind.
    match goal with
    | |- context [exec o ?h' (callOpenRouterJson P ?m ?s ?u ?ms "validation_tone")] =>
        pose proof (callOpenRouterJson_run P m s u ms "validation_tone" "tone" o h') as H3
    end.
    cbv zeta in H3.
    destruct (exec o ((h ++ t1) ++ t2) (callOpenRouterJson P _ _ _ _ "validation_tone"))
      as [r3 t3].
    cbn [fst snd] in H3.
    rewrite exec_bind.
    destruct (recencyApplicable args) eqn:Ea.
    - match goal with
      | |- context [exec o ?h' (callOpenRouterJson P ?m ?s ?u ?ms "validation_recency")] =>
          pose proof (callOpenRouterJson_run P m s u ms "validation_recency" "recency" o h')
            as H4
      end.
      cbv zeta in H4.
      destruct (exec o (((h ++ t1) ++ t2) ++ t3)
                  (callOpenRouterJson P _ _ _ _ "validation_recency")) as [r4 t4].
      cbn [fst snd] in H4. cbn [exec fst snd results citation recency fact_check tone].
      rewrite app_nil_r.
      split; [| split; [| split]].
      + intros Hp. apply agentPassed_app_r, H1, Hp.
      + intros Hp. apply agentPassed_app_l, agentPassed_app_r, H2, Hp.
      + intros Hp. apply agentPassed_app_l, agentPassed_app_l, agentPassed_app_r, H3, Hp.
      + intros Hp. right.
        apply agentPassed_app_l, agentPassed_app_l, agentPassed_app_l, H4, Hp.
    - cbn [exec fst snd results citation recency fact_check tone].
      rewrite !app_nil_r.
      split; [| split; [| split]].
      + intros Hp. apply agentPassed_app_r, H1, Hp.
      + intros Hp. apply agentPassed_app_l, agentPassed_app_r, H2, Hp.
      + intros Hp. apply agentPassed_app_l, agentPassed_app_l, H3, Hp.
      + intros _. left. reflexivity. }
  destruct Hmain as (Hc & Hf & Ht & Hr).
  split; [exact Hc |]. split; [exact Hf |]. split; [exact Ht |]. split; [exact Hr |].
  intros Hscore. subst out.
  rewrite validation_swarm_score, scoreOf_spec in Hscore.
  set (res := results (fst (exec o h (validation_swarm P T env args)))) in *.
  unfold spec_trustScore, spec_penalty, ofZ in Hscore.
  destruct (status (citation res)) eqn:E1, (status (fact_check res)) eqn:E2,
           (status (tone res)) eqn:E3, (status (recency res)), (recencyApplicable args);
    try (inversion Hscore; fail).
  all: split; [apply Hc; reflexivity | split; [apply Hf; reflexivity | apply Ht; reflexivity]].
Qed.

Lemma validation_swarm_fails_closed_witness :
  let o := Demo.oracle (fun _ => 0) Demo.noReply (fun _ => "The draft.") Demo.allPass in
  let args := swarmArgsOf Demo.platform Demo.env (parseRequest Demo.platform (Demo.request "news"))
                (Demo.evidence [Demo.fdaLabel] false) "The draft." "2026-01-15" in
  trustScore (fst (exec o [] (validation_swarm Demo.platform Demo.prompts Demo.env args)))
  = ofZ 100
  /\ agentPassed Demo.platform o []
       (snd (exec o [] (validation_swarm Demo.platform Demo.prompts Demo.env args)))
       "validation_fact_check".
Proof.
  intros o args.
  assert (E : trustScore (fst (exec o [] (validation_swarm Demo.platform Demo.prompts
                                            Demo.env args))) = ofZ 100).
  { vm_compute. reflexivity. }
  split; [exact E |].
  exact (proj1 (proj2 (proj2 (proj2 (proj2 (proj2
           (validation_swarm_fails_closed Demo.platform Demo.prompts Demo.env args o []))))
           E))).
Defined.

(* ================================================================== *)
(** ** Reading the answer of an agent *)

Lemma trimStart_app_solid (a b : string) (c : ascii) :
  isWhiteSpace c = false -> trimStart (a ++ String c b) = trimStart a ++ String c b.
Proof.
  intros Hc. induction a as [| x a IH]; simpl.
  - rewrite Hc. reflexivity.
  - destruct (isWhiteSpace x); [exact IH | reflexivity].
Qed.

Lemma trimEnd_app_solid (a b : string) (c : ascii) :
  isWhiteSpace c = false -> trimEnd (a ++ String c b) = a ++ String c (trimEnd b).
Proof.
  intros Hc. induction a as [| x a IH].
  - simpl. destruct (trimEnd b); [rewrite Hc |]; reflexivity.
  - change (String x a ++ String c b) with (String x (a ++ String c b)).
    cbn [trimEnd]. rewrite IH. destruct a; reflexivity.
Qed.

Lemma existsChar_trimStart (p : ascii -> bool) (s : string) :
  existsChar p s = false -> existsChar p (trimStart s) = false.
Proof.
  induction s as [| c r IH]; simpl; intros H; [reflexivity |].
  apply orb_false_iff in H. destruct H as [Hc Hr].
  destruct (isWhiteSpace c); [apply IH, Hr |]. simpl. rewrite Hc, Hr. reflexivity.
Qed.

Lemma existsChar_trimEnd (p : ascii -> bool) (s : string) :
  existsChar p s = false -> existsChar p (trimEnd s) = false.
Proof.
  induction s as [| c r IH]; simpl; intros H; [reflexivity |].
  apply orb_false_iff in H. destruct H as [Hc Hr]. specialize (IH Hr).
  destruct (trimEnd r) as [| d r'].
  - destruct (isWhiteSpace c); simpl; [reflexivity | rewrite Hc; reflexivity].
  - simpl in *. rewrite Hc. exact IH.
Qed.

Lemma indexOfChar_app (c : ascii) (a r : string) :
  existsChar (Ascii.eqb c) a = false ->
  forall i, indexOfChar c i (a ++ String c r) = Some (i + String.length a)%nat.
Proof.
  induction a as [| x a IH]; simpl; intros H i.
  - rewrite Ascii.eqb_refl. f_equal. lia.
  - apply orb_false_iff in H. destruct H as [Hx Ha]. rewrite Hx.
    rewrite IH by exact Ha. f_equal. lia.
Qed.

Lemma lastIndexOfChar_none (c : ascii) (b : string) :
  existsChar (Ascii.eqb c) b = false -> forall i, lastIndexOfChar c i b = None.
Proof.
  induction b as [| x b IH]; simpl; intros H i; [reflexivity |].
  apply orb_false_iff in H. destruct H as [Hx Hb].
  rewrite IH by exact Hb. rewrite Hx. reflexivity.
Qed.

Lemma lastIndexOfChar_app (c : ascii) (a b : string) :
  existsChar (Ascii.eqb c) b = false ->
  forall i, lastIndexOfChar c i (a ++ String c b) = Some (i + String.length a)%nat.
Proof.
  intros Hb. induction a as [| x a IH]; intros i.
  - simpl. rewrite lastIndexOfChar_none by exact Hb. rewrite Ascii.eqb_refl. f_equal. lia.
  - change (String x a ++ String c b) with (String x (a ++ String c b)).
    cbn [lastIndexOfChar]. rewrite IH. simpl. f_equal. lia.
Qed.

Lemma substring_skip (a b : string) (n : nat) :
  String.substring (String.length a) n (a ++ b) = String.substring 0 n b.
Proof. induction a as [| x a IH]; simpl; [reflexivity | exact IH]. Qed.

Lemma substring_whole (b c : string) :
  String.substring 0 (String.length b) (b ++ c) = b.
Proof.
  induction b as [| x b IH]; simpl.
  - destruct c; reflexivity.
  - rewrite IH. reflexivity.
Qed.

Lemma length_append (a b : string) :
  String.length (a ++ b) = (String.length a + String.length b)%nat.
Proof. induction a as [| x a IH]; simpl; [reflexivity | rewrite IH; reflexivity]. Qed.

Lemma trim_wrapped (a m b : string) (c1 c2 : ascii) :
  isWhiteSpace c1 = false -> isWhiteSpace c2 = false ->
  trim (a ++ String c1 (m ++ String c2 b))
  = trimStart a ++ String c1 (m ++ String c2 (trimEnd b)).
Proof.
  intros H1 H2. unfold trim. rewrite trimStart_app_solid by exact H1.
  assert (E : forall x, trimStart a ++ String c1 (m ++ String c2 x)
                        = (trimStart a ++ String c1 m) ++ String c2 x).
  { intros x. rewrite append_assoc. reflexivity. }
  rewrite !E. apply trimEnd_app_solid, H2.
Qed.

(** X9. [safeJsonParse] reads a JSON object out of the text around it.
    A blank text gives null.  When the trimmed text as a whole is not JSON
    but holds an object between its first opening brace and its last
    closing brace, as in an answer wrapped in a code fence or followed by a
    remark, the value of that object is returned; a text that is not JSON
    and has no opening brace gives null. *)
Theorem json_object_is_read_out_of_its_wrapping :
  forall (P : Platform) (before inside after : string) (v : JsVal),
    let object := "{" ++ inside ++ "}" in
    let text := before ++ "{" ++ inside ++ "}" ++ after in
    (forall blank, trim blank = EmptyString -> safeJsonParse P blank = JNull)
    /\ (existsChar (Ascii.eqb "{"%char) before = false ->
        existsChar (Ascii.eqb "}"%char) after = false ->
        JSON_parse P (trim text) = None ->
        JSON_parse P object = Some v ->
        safeJsonParse P text = v)
    /\ (forall other,
          existsChar (Ascii.eqb "{"%char) other = false ->
          JSON_parse P (trim other) = None ->
          safeJsonParse P other = JNull).
Proof.
  intros P before inside after v object text. split; [| split].
  - intros blank Hb. unfold safeJsonParse. cbv zeta. rewrite Hb. reflexivity.
  - intros Hpre Hpost Hwhole Hobj. unfold safeJsonParse. cbv zeta.
    assert (Et : trim text
                 = trimStart before ++ String "{"%char (inside ++ String "}"%char (trimEnd after))).
    { subst text. apply (trim_wrapped before inside after "{"%char "}"%char); reflexivity. }
    rewrite Hwhole. rewrite Et.
    set (p' := trimStart before). set (q' := trimEnd after).
    assert (Hne : isEmpty (p' ++ String "{"%char (inside ++ String "}"%char q')) = false).
    { destruct p'; reflexivity. }
    rewrite Hne.
    rewrite (indexOfChar_app "{"%char p' _ (existsChar_trimStart _ _ Hpre)).
    assert (El : lastIndexOfChar "}"%char 0 (p' ++ String "{"%char (inside ++ String "}"%char q'))
                 = Some (String.length p' + (1 + String.length inside))%nat).
    { replace (p' ++ String "{"%char (inside ++ String "}"%char q'))
        with ((p' ++ String "{"%char inside) ++ String "}"%char q')
        by (rewrite append_assoc; reflexivity).
      rewrite (lastIndexOfChar_app "}"%char _ q' (existsChar_trimEnd _ _ Hpost)).
      rewrite length_append. reflexivity. }
    rewrite El. cbn [Nat.add].
    assert (Hlt : (String.length p' <? String.length p' + S (String.length inside))%nat = true).
    { apply Nat.ltb_lt. lia. }
    rewrite Hlt.
    replace (String.length p' + S (String.length inside) + 1 - String.length p')%nat
      with (String.length object).
    2:{ subst object. simpl. rewrite length_append. simpl. lia. }
    rewrite substring_skip.
    replace (String "{"%char (inside ++ String "}"%char q')) with (object ++ q').
    2:{ subst object. simpl. rewrite append_assoc. reflexivity. }
    rewrite substring_whole. rewrite Hobj. reflexivity.
  - intros other Hno Hwhole. unfold safeJsonParse. cbv zeta. rewrite Hwhole.
    destruct (isEmpty (trim other)); [reflexivity |].
    assert (Hidx : forall s i, existsChar (Ascii.eqb "{"%char) s = false ->
                               indexOfChar "{"%char i s = None).
    { induction s as [| x s IH]; simpl; intros i H; [reflexivity |].
      apply orb_false_iff in H. destruct H as [Hx Hs]. rewrite Hx. apply IH, Hs. }
    rewrite Hidx; [reflexivity |].
    unfold trim. apply existsChar_trimEnd, existsChar_trimStart, Hno.
Qed.

Lemma json_object_is_read_out_of_its_wrapping_witness :
  existsChar (Ascii.eqb "{"%char) "Verdict: " = false
  /\ existsChar (Ascii.eqb "}"%char) " (checked)" = false
  /\ safeJsonParse DemoRetrieval.strictPlatform "Verdict: {pass} (checked)"
     = Demo.verdict "pass".
Proof.
  split; [reflexivity |]. split; [reflexivity |].
  exact (proj1 (proj2 (json_object_is_read_out_of_its_wrapping DemoRetrieval.strictPlatform
                         "Verdict: " "pass" " (checked)" (Demo.verdict "pass")))
           eq_refl eq_refl eq_refl eq_refl).
Defined.

(* ================================================================== *)
(** ** Request parsing *)

Lemma js_lt_ofZ (a b : Z) : js_lt (ofZ a) (ofZ b) = (a <? b).
Proof.
  unfold js_lt, ofZ, Qle_bool, inject_Z. cbn [Qnum Qden].
  rewrite !Z.mul_1_r. rewrite Z.ltb_antisym. reflexivity.
Qed.

Lemma clamp_ofZ (z lo hi : Z) :
  lo <= hi -> clamp (ofZ z) (ofZ lo) (ofZ hi) = ofZ (Z.max lo (Z.min hi z)).
Proof.
  intros H. unfold clamp.
  assert (Emin : Math_min (ofZ hi) (ofZ z) = ofZ (Z.min hi z)).
  { unfold Math_min. change (match ofZ hi with NaN => NaN | _ => match ofZ z with NaN => NaN
                              | _ => if js_lt (ofZ z) (ofZ hi) then ofZ z else ofZ hi end end)
      with (if js_lt (ofZ z) (ofZ hi) then ofZ z else ofZ hi).
    rewrite js_lt_ofZ. destruct (z <? hi) eqn:E.
    - apply Z.ltb_lt in E. rewrite Z.min_r by lia. reflexivity.
    - apply Z.ltb_ge in E. rewrite Z.min_l by lia. reflexivity. }
  rewrite Emin. unfold Math_max.
  change (match ofZ lo with NaN => NaN | _ => match ofZ (Z.min hi z) with NaN => NaN
          | _ => if js_lt (ofZ lo) (ofZ (Z.min hi z)) then ofZ (Z.min hi z) else ofZ lo end end)
    with (if js_lt (ofZ lo) (ofZ (Z.min hi z)) then ofZ (Z.min hi z) else ofZ lo).
  rewrite js_lt_ofZ. destruct (lo <? Z.min hi z) eqn:E.
  - apply Z.ltb_lt in E. rewrite Z.max_r by lia. reflexivity.
  - apply Z.ltb_ge in E. rewrite Z.max_l by lia. reflexivity.
Qed.

(** X10. The target length of a request.  When [Number(targetWordCount)]
    is a finite number above 0, the target is its integer part brought into
    the range from 50 to 2000; otherwise (absent, not a number, infinite,
    zero or negative) there is no target.  So a target, when there is one,
    is a whole number from 50 to 2000. *)
Theorem target_words_are_capped :
  forall (P : Platform) (b : RequestBody),
    let n := Number_ P (targetWordCount b) in
    let target := targetWordsCapped (parseRequest P b) in
    (forall q, n = Fin q -> (0 < q)%Q ->
               target = Some (ofZ (Z.max 50 (Z.min 2000 (Qfloor q)))))
    /\ (forall q, n = Fin q -> (q <= 0)%Q -> target = None)
    /\ (isFinite n = false -> target = None)
    /\ (forall w, target = Some w -> exists z, w = ofZ z /\ 50 <= z <= 2000).
Proof.
  intros P b n target. subst target. unfold parseRequest. cbv zeta. cbn [targetWordsCapped].
  fold n.
  assert (Hpos : forall q, n = Fin q -> (0 < q)%Q ->
                 (if isFinite n && js_gt n (ofZ 0)
                  then Some (clamp (Math_floor n) (ofZ 50) (ofZ 2000)) else None)
                 = Some (ofZ (Z.max 50 (Z.min 2000 (Qfloor q))))).
  { intros q En Hq. rewrite En. cbn [isFinite andb]. unfold js_gt.
    change (js_lt (ofZ 0) (Fin q)) with (negb (Qle_bool q (inject_Z 0))).
    destruct (Qle_bool q (inject_Z 0)) eqn:E.
    - apply Qle_bool_iff in E. exfalso. apply (Qlt_not_le _ _ Hq). exact E.
    - cbn [negb Math_floor]. rewrite clamp_ofZ by lia. reflexivity. }
  assert (Hneg : forall q, n = Fin q -> (q <= 0)%Q ->
                 (if isFinite n && js_gt n (ofZ 0)
                  then Some (clamp (Math_floor n) (ofZ 50) (ofZ 2000)) else None) = None).
  { intros q En Hq. rewrite En. cbn [isFinite andb]. unfold js_gt.
    change (js_lt (ofZ 0) (Fin q)) with (negb (Qle_bool q (inject_Z 0))).
    destruct (Qle_bool q (inject_Z 0)) eqn:E; [reflexivity |].
    apply Qle_bool_iff in Hq. change (inject_Z 0) with 0%Q in E. congruence. }
  split; [exact Hpos |]. split; [exact Hneg |]. split.
  - intros Hn. rewrite Hn. reflexivity.
  - intros w Hw. destruct n as [| | q |] eqn:En; try discriminate.
    destruct (Qlt_le_dec 0 q) as [Hq | Hq].
    + rewrite (Hpos q eq_refl Hq) in Hw. inversion Hw.
      eexists. split; [reflexivity | lia].
    + rewrite (Hneg q eq_refl Hq) in Hw. discriminate.
Qed.

Lemma target_words_are_capped_witness :
  let b := {| topic := JStr "Drug X"; keyword := JUndefined;
              primaryKeyword := JStr "drug X approval"; secondaryKeyword := JUndefined;
              mode := JStr "news"; userId := JStr "user-1";
              targetWordCount := JNum (Fin (50001 # 10)); contentType := JUndefined;
              inputBody := JUndefined; humanizeLevel := JUndefined |} in
  (0 < 50001 # 10)%Q
  /\ targetWordsCapped (parseRequest Demo.platform b) = Some (ofZ 2000).
Proof.
  intros b. split; [reflexivity |].
  exact (proj1 (target_words_are_capped Demo.platform b) (50001 # 10) eq_refl eq_refl).
Defined.

(* ================================================================== *)
(** ** Error responses *)

Lemma respond_succeeds (P : Platform) (env : Env) (p : Parsed) (ev : Evidence)
    (draft : string) (humanized : bool) (swarm : SwarmOutcome) :
  Results (fun r => exists payload, r = Success payload)
    (respond P env p ev draft humanized swarm).
Proof.
  unfold respond. cbv zeta. prog. intros r.
  match goal with
  | |- context [isEmpty ?id] => destruct (isEmpty id)
  end; prog; [| intros r']; eexists; reflexivity.
Qed.

Lemma Results_impl {A : Type} (R1 R2 : A -> Prop) (p : Prog A) :
  (forall a, R1 a -> R2 a) -> Results R1 p -> Results R2 p.
Proof.
  intros H. induction p as [a | c k IH]; simpl; [apply H |].
  intros Hk r. apply IH, Hk.
Qed.

Lemma generateAndValidate_failure (P : Platform) (T : Prompts) (env : Env) (p : Parsed)
    (startedAt : Z) (ev : Evidence) :
  Results (fun r => forall e, r = Failure e ->
                              httpStatus e = 500 /\ error_code e = "generation_failed")
    (generateAndValidate P T env p startedAt ev).
Proof.
  unfold generateAndValidate. cbv zeta.
  eapply Results_bind; [apply Results_true |]. intros [text lastError] _.
  destruct (isEmpty text).
  - prog. intros e E. inversion E. split; reflexivity.
  - eapply Results_bind; [apply Results_true |]. intros [draft humanized] _.
    eapply Results_bind; [apply Results_true |]. intros swarm _.
    eapply Results_impl; [| apply respond_succeeds].
    intros r [payload E] e E'. subst r. discriminate.
Qed.

(** X11. The error responses of the generation route.  Every failure
    carries one of seven pairs of status and code.  The status 400 is given
    only when the service key is set and the topic, the keyword or the user
    id is blank, and then nothing has been awaited; the status 422 is given
    only in private mode. *)
Theorem error_responses_are_catalogued :
  forall (P : Platform) (T : Prompts) (R : PublicRetrieval) (env : Env)
         (req : JsError + RequestBody) (o : Oracle) (h : list Call) (e : ErrorBody),
    fst (exec o h (POST P T R env req)) = Failure e ->
    In (httpStatus e, error_code e) errorCatalogue
    /\ (httpStatus e = 400 ->
        snd (exec o h (POST P T R env req)) = []
        /\ exists b,
            req = inr b
            /\ supabaseServiceRoleKey env <> EmptyString
            /\ (isEmpty (topicText (parseRequest P b))
                || isEmpty (keywordText (parseRequest P b))
                || isEmpty (userIdText (parseRequest P b))) = true)
    /\ (httpStatus e = 422 ->
        exists b, req = inr b /\ isPrivateMode (parseRequest P b) = true).
Proof.
  intros P T R env req o h e Hrun.
  destruct req as [err | b].
  { cbn [POST exec fst] in Hrun. inversion Hrun; subst e. cbn [httpStatus error_code].
    split; [left; reflexivity |]. split; intros; discriminate. }
  set (p := parseRequest P b) in *.
  destruct (configurationCheck env p) as [early |] eqn:Ec.
  { unfold POST in *. fold p in Hrun |- *. rewrite Ec in *. cbn [exec fst snd] in *.
    subst early. unfold configurationCheck in Ec.
    destruct (isEmpty (supabaseServiceRoleKey env)) eqn:Ek.
    { inversion Ec; subst e. cbn [httpStatus error_code].
      split; [right; left; reflexivity |]. split; intros; discriminate. }
    destruct (isEmpty (topicText p) || isEmpty (keywordText p) || isEmpty (userIdText p)) eqn:Eb.
    { inversion Ec; subst e. cbn [httpStatus error_code].
      split; [right; right; left; reflexivity |]. split; [| intros; discriminate].
      intros _. split; [reflexivity |]. exists b. split; [reflexivity |].
      split; [| exact Eb]. intros E. rewrite E in Ek. discriminate. }
    destruct (requireKeys _); inversion Ec; subst e. cbn [httpStatus error_code].
    split; [do 3 right; left; reflexivity |]. split; intros; discriminate. }
  destruct (swarmAgentsCheck env p) as [early |] eqn:Es.
  { unfold POST in Hrun. fold p in Hrun. rewrite Ec in Hrun. cbn [bind await exec] in Hrun.
    rewrite Es in Hrun. cbn [exec fst] in Hrun. subst early.
    assert (Hcode : httpStatus e = 500 /\ error_code e = "missing_validation_swarm_agents").
    { unfold swarmAgentsCheck in Es.
      repeat match type of Es with
             | (if ?c then _ else _) = _ => destruct c
             | match ?c with _ => _ end = _ => destruct c
             end; inversion Es; split; reflexivity. }
    destruct Hcode as [H5 Hc]. rewrite H5, Hc.
    split; [do 4 right; left; reflexivity |]. split; intros; discriminate. }
  rewrite (POST_run P T R env b o h Ec Es) in Hrun. cbv zeta in Hrun. fold p in Hrun.
  destruct (exec o _ (retrieval P R p)) as [st t1].
  unfold afterRetrieval in Hrun.
  destruct (sourcesGate p st) as [rejection | ev] eqn:Eg.
  - cbn [exec fst] in Hrun. subst rejection. unfold sourcesGate in Eg.
    destruct (citations st); [| discriminate].
    destruct (isPrivateMode p) eqn:Ep; [| discriminate].
    inversion Eg; subst e. cbn [httpStatus error_code].
    split; [do 5 right; left; reflexivity |]. split; [intros; discriminate |].
    intros _. exists b. split; [reflexivity | exact Ep].
  - match type of Hrun with
    | fst (let (resp, t2) := exec ?o' ?h' ?m in _) = _ =>
        pose proof (Results_exec _ _ (generateAndValidate_failure P T env p (o h DateNow) ev)
                      o' h') as Hf;
        destruct (exec o' h' m) as [resp t2]
    end.
    cbn [fst] in Hrun, Hf. destruct (Hf e Hrun) as [H5 Hc]. rewrite H5, Hc.
    split; [do 6 right; left; reflexivity |]. split; intros; discriminate.
Qed.

Lemma error_responses_are_catalogued_witness :
  let o := Demo.oracle (fun _ => 0) Demo.noReply (fun _ => "The draft.") Demo.allPass in
  let b := {| topic := JStr "  "; keyword := JUndefined;
              primaryKeyword := JStr "drug X approval"; secondaryKeyword := JUndefined;
              mode := JStr "news"; userId := JStr "user-1";
              targetWordCount := JUndefined; contentType := JUndefined;
              inputBody := JUndefined; humanizeLevel := JUndefined |} in
  let run := exec o [] (POST Demo.platform Demo.prompts (Demo.found []) Demo.env (inr b)) in
  exists e, fst run = Failure e /\ httpStatus e = 400 /\ snd run = [].
Proof.
  intros o b run.
  assert (E : exists e, fst run = Failure e /\ httpStatus e = 400).
  { vm_compute. eexists. split; reflexivity. }
  destruct E as [e [E H4]]. exists e. split; [exact E |]. split; [exact H4 |].
  exact (proj1 (proj1 (proj2 (error_responses_are_catalogued Demo.platform Demo.prompts
                                (Demo.found []) Demo.env (inr b) o [] e E)) H4)).
Defined.

(* ================================================================== *)
(** ** Generation attempts *)


Lemma sliceCount_ofZ (k : Z) (len : nat) :
  0 <= k -> sliceCount (ofZ k) len = Nat.min (Z.to_nat k) len.
Proof.
  intros H. unfold sliceCount, ofZ, inject_Z. cbn [Qnum Qden].
  rewrite Z.quot_1_r. destruct (k <? 0) eqn:E; [apply Z.ltb_lt in E; lia | reflexivity].
Qed.

Lemma firstn_firstn_min {A : Type} (n : nat) (l : list A) :
  firstn (Nat.min n (List.length l)) l = firstn n l.
Proof.
  destruct (Nat.le_ge_cases n (List.length l)) as [H | H].
  - rewrite Nat.min_l by exact H. reflexivity.
  - rewrite Nat.min_r by exact H. rewrite firstn_all. symmetry. apply firstn_all2. exact H.
Qed.

Lemma candidates_nonempty (env : Env) : (1 <= List.length (candidates env) <= 3)%nat.
Proof.
  unfold candidates. cbn [filter isEmpty negb].
  destruct (negb (isEmpty (textModel env))), (negb (isEmpty (textModelFallback env)));
    simpl; lia.
Qed.

(** X13. How many models a request may try.  The candidates are the text
    model, its fallback and [openrouter/auto], those that are set, in this
    order.  When [GENERATION_MAX_ATTEMPTS] is not set, the first two
    candidates are tried.  When it is set to a text that is not a number, or
    to 0, no model is called at all and the request is answered 500 with the
    code generation_failed and the details No model succeeded. *)
Theorem generation_attempts_follow_the_setting :
  forall (P : Platform) (T : Prompts) (env : Env) (p : Parsed) (startedAt : Z)
         (ev : Evidence) (o : Oracle) (h : list Call),
    (GENERATION_MAX_ATTEMPTS env = EmptyString ->
     attemptModels P env = firstn 2 (candidates env))
    /\ (GENERATION_MAX_ATTEMPTS env <> EmptyString ->
        Number_ P (JStr (GENERATION_MAX_ATTEMPTS env)) = NaN
        \/ Number_ P (JStr (GENERATION_MAX_ATTEMPTS env)) = ofZ 0 ->
        attemptModels P env = []
        /\ exec o h (generateAndValidate P T env p startedAt ev)
           = (failure 500 "generation_failed" (Some "No model succeeded"), [])).
Proof.
  intros P T env p startedAt ev o h.
  pose proof (candidates_nonempty env) as Hlen. split.
  - intros Hunset. unfold attemptModels, maxAttempts, envNumber. cbv zeta.
    rewrite Hunset. cbn [isEmpty].
    replace (Math_min (ofZ (Z.min 2 (Z.of_nat (List.length (candidates env)))))
                      (ofZ (Z.of_nat (List.length (candidates env)))))
      with (ofZ (Z.min 2 (Z.of_nat (List.length (candidates env))))).
    2:{ unfold Math_min.
        change (match ofZ (Z.min 2 (Z.of_nat (List.length (candidates env)))) with
                | NaN => NaN
                | _ => match ofZ (Z.of_nat (List.length (candidates env))) with
                       | NaN => NaN
                       | _ => if js_lt (ofZ (Z.of_nat (List.length (candidates env))))
                                       (ofZ (Z.min 2 (Z.of_nat (List.length (candidates env)))))
                              then ofZ (Z.of_nat (List.length (candidates env)))
                              else ofZ (Z.min 2 (Z.of_nat (List.length (candidates env))))
                       end
                end)
          with (if js_lt (ofZ (Z.of_nat (List.length (candidates env))))
                         (ofZ (Z.min 2 (Z.of_nat (List.length (candidates env)))))
                then ofZ (Z.of_nat (List.length (candidates env)))
                else ofZ (Z.min 2 (Z.of_nat (List.length (candidates env))))).
        rewrite js_lt_ofZ.
        destruct (Z.of_nat (List.length (candidates env))
                  <? Z.min 2 (Z.of_nat (List.length (candidates env)))) eqn:E;
          [apply Z.ltb_lt in E; lia | reflexivity]. }
    rewrite sliceCount_ofZ by lia.
    replace (Z.to_nat (Z.min 2 (Z.of_nat (List.length (candidates env)))))
      with (Nat.min 2 (List.length (candidates env))) by lia.
    rewrite <- Nat.min_assoc, Nat.min_id. apply firstn_firstn_min.
  - intros Hset Hn.
    assert (Hmodels : attemptModels P env = []).
    { unfold attemptModels, maxAttempts, envNumber. cbv zeta.
      destruct (isEmpty (GENERATION_MAX_ATTEMPTS env)) eqn:Ee.
      { destruct (GENERATION_MAX_ATTEMPTS env); [contradiction | discriminate]. }
      destruct Hn as [Hn | Hn]; rewrite Hn.
      - reflexivity.
      - unfold Math_min.
        change (match ofZ 0 with
                | NaN => NaN
                | _ => match ofZ (Z.of_nat (List.length (candidates env))) with
                       | NaN => NaN
                       | _ => if js_lt (ofZ (Z.of_nat (List.length (candidates env)))) (ofZ 0)
                              then ofZ (Z.of_nat (List.length (candidates env)))
                              else ofZ 0
                       end
                end)
          with (if js_lt (ofZ (Z.of_nat (List.length (candidates env)))) (ofZ 0)
                then ofZ (Z.of_nat (List.length (candidates env))) else ofZ 0).
        rewrite js_lt_ofZ.
        destruct (Z.of_nat (List.length (candidates env)) <? 0) eqn:E;
          [apply Z.ltb_lt in E; lia |].
        rewrite sliceCount_ofZ by lia. reflexivity. }
    split; [exact Hmodels |].
    unfold generateAndValidate. cbv zeta. fold (attemptModels P env). rewrite Hmodels.
    reflexivity.
Qed.

Lemma generation_attempts_follow_the_setting_witness :
  let env := DemoRetrieval.envWithAttempts "two" in
  let o := Demo.oracle (fun _ => 0) Demo.noReply (fun _ => "The draft.") Demo.allPass in
  GENERATION_MAX_ATTEMPTS env <> EmptyString
  /\ attemptModels Demo.platform env = []
  /\ exec o [] (generateAndValidate Demo.platform Demo.prompts env
                  (parseRequest Demo.platform (Demo.request "news")) 0
                  (Demo.evidence [Demo.fdaLabel] false))
     = (failure 500 "generation_failed" (Some "No model succeeded"), []).
Proof.
  intros env o.
  assert (H : GENERATION_MAX_ATTEMPTS env <> EmptyString) by discriminate.
  split; [exact H |].
  exact (proj2 (generation_attempts_follow_the_setting Demo.platform Demo.prompts env
                  (parseRequest Demo.platform (Demo.request "news")) 0
                  (Demo.evidence [Demo.fdaLabel] false) o [])
           H (or_introl eq_refl)).
Defined.

(* ================================================================== *)
(** ** The awaits of a request *)

Lemma Costs_le {A : Type} (w : CallKind -> nat) (p : Prog A) :
  forall n m, Costs w p n -> (n <= m)%nat -> Costs w p m.
Proof.
  induction p as [a | c k IH]; simpl; intros n m H Hnm; [exact I |].
  destruct H as [Hc Hk]. split; [lia |]. intros r. apply (IH r (n - w (kindOf c))%nat); [apply Hk | lia].
Qed.

Lemma Costs_bind {A B : Type} (w : CallKind -> nat) (m : Prog A) (f : A -> Prog B) (n2 : nat) :
  forall n1,
    Costs w m n1 -> (forall a, Costs w (f a) n2) -> Costs w (bind m f) (n1 + n2).
Proof.
  induction m as [a | c k IH]; simpl; intros n1 Hm Hf.
  - apply Costs_le with (n := n2); [apply Hf | lia].
  - destruct Hm as [Hc Hk]. split; [lia |]. intros r.
    replace (n1 + n2 - w (kindOf c))%nat with ((n1 - w (kindOf c)) + n2)%nat by lia.
    apply IH; [apply Hk | exact Hf].
Qed.

Lemma Costs_await (w : CallKind -> nat) (c : Call) : Costs w (await c) (w (kindOf c)).
Proof. simpl. split; [lia | intros; exact I]. Qed.

Lemma Costs_if {A : Type} (w : CallKind -> nat) (b : bool) (m1 m2 : Prog A) (n1 n2 : nat) :
  Costs w m1 n1 -> Costs w m2 n2 -> Costs w (if b then m1 else m2) (Nat.max n1 n2).
Proof.
  intros H1 H2. destruct b; [apply Costs_le with (n := n1) | apply Costs_le with (n := n2)];
    auto; lia.
Qed.

Lemma Costs_exec {A : Type} (w : CallKind -> nat) (p : Prog A) :
  forall n, Costs w p n ->
  forall o h, (list_sum (map (fun c => w (kindOf c)) (snd (exec o h p))) <= n)%nat.
Proof.
  induction p as [a | c k IH]; simpl; intros n H o h; [lia |].
  destruct H as [Hc Hk]. specialize (IH (o h c) _ (Hk (o h c)) o (h ++ [c])%list).
  destruct (exec o (h ++ [c]) (k (o h c))) as [a t]. simpl in *. lia.
Qed.

Lemma count_as_cost (K : CallKind) (t : list Call) :
  countKind K t
  = list_sum (map (fun c => (fun k => if CallKind_eqb k K then 1 else 0)%nat (kindOf c)) t).
Proof.
  unfold countKind. induction t as [| c t IH]; simpl; [reflexivity |].
  destruct (CallKind_eqb (kindOf c) K); simpl; rewrite IH; reflexivity.
Qed.

Section Weights.

Variable w : CallKind -> nat.

Lemma retryLoop_costs (fn : string) (body : EdgeBody) (timeoutMs max : Z) (fuel : nat) :
  forall attempt,
    attempt + Z.of_nat fuel = max + 1 ->
    Costs w (retryLoop fn body timeoutMs max fuel attempt)
      (fuel * w KInvoke + (fuel - 1) * w KSleep).
Proof.
  induction fuel as [| fuel IH]; intros attempt Hinv; [exact I |].
  cbn [retryLoop].
  assert (Hretry : (attempt <? max) = true ->
                   Costs w (bind (await (Sleep (250 * attempt)))
                                 (fun _ => retryLoop fn body timeoutMs max fuel (attempt + 1)))
                     (fuel * w KInvoke + (S fuel - 1) * w KSleep)).
  { intros Hlt. apply Z.ltb_lt in Hlt.
    apply Costs_le with (n := (w KSleep + (fuel * w KInvoke + (fuel - 1) * w KSleep))%nat).
    - apply Costs_bind; [apply Costs_await |]. intros _. apply IH. lia.
    - destruct fuel as [| fuel']; [lia |]. simpl. lia. }
  apply Costs_le with (n := (w KInvoke + (fuel * w KInvoke + (S fuel - 1) * w KSleep))%nat);
    [| simpl; lia].
  apply Costs_bind; [apply Costs_await |]. intros inv.
  destruct inv as [| val].
  - destruct (attempt <? max) eqn:Hlt; cbn [andb]; [| exact I].
    destruct (isRetryableEdgeFunctionError _); [apply Hretry; reflexivity | exact I].
  - destruct (match val with Some v => sb_error v | None => None end) as [fnError |];
      [| exact I].
    destruct (attempt <? max) eqn:Hlt; cbn [andb]; [| exact I].
    destruct (isRetryableEdgeFunctionError _); [apply Hretry; reflexivity | exact I].
Qed.

Lemma invoke_twice_costs (fn : string) (body : EdgeBody) (timeoutMs : Z) :
  Costs w (invokeEdgeFunctionWithRetry fn body timeoutMs 2) (2 * w KInvoke + w KSleep).
Proof.
  unfold invokeEdgeFunctionWithRetry. cbv zeta.
  change (Z.max 1 2) with 2. change (Z.to_nat 2) with 2%nat.
  apply Costs_le with (n := (2 * w KInvoke + (2 - 1) * w KSleep)%nat); [| simpl; lia].
  apply retryLoop_costs. reflexivity.
Qed.

Lemma checkUrlExists_costs (P : Platform) (x : string) (ms : Z) :
  Costs w (checkUrlExists P x ms) (w KProbe).
Proof.
  unfold checkUrlExists. cbv zeta. destruct (isEmpty _); [exact I |].
  cbn [bind await Costs kindOf]. split; [lia |]. intros r. destruct r; exact I.
Qed.

Lemma mapM_checks_costs (P : Platform) (l : list (nat * string)) :
  Costs w (mapM (fun x => checkUrlExists P (snd x) 3000) l) (List.length l * w KProbe).
Proof.
  induction l as [| x l IH]; [exact I |].
  cbn [mapM List.length].
  apply Costs_le with (n := (w KProbe + (List.length l * w KProbe + 0))%nat); [| simpl; lia].
  apply Costs_bind; [apply checkUrlExists_costs |]. intros chk.
  apply Costs_bind; [exact IH |]. intros chks. exact I.
Qed.

Lemma toCheckOf_length_docs (normalized : list RagDoc) :
  (List.length (toCheckOf normalized) <= List.length normalized)%nat.
Proof.
  unfold toCheckOf. rewrite length_firstn.
  pose proof (filter_length_le (fun x : nat * string => negb (isEmpty (snd x)))
                (mapi (fun idx d => (idx, trim (rd_url d))) 0 normalized)) as H.
  rewrite mapi_length in H. lia.
Qed.

Lemma verifyUrls_costs (P : Platform) (docs : list JsVal) :
  Costs w (verifyUrls P docs) (Nat.min 8 (List.length docs) * w KProbe).
Proof.
  unfold verifyUrls. cbv zeta.
  destruct (readError P "url" docs); [exact I |].
  pose proof (toCheckOf_length (map (normalizedDoc P) docs)) as H8.
  pose proof (toCheckOf_length_docs (map (normalizedDoc P) docs)) as Hd.
  rewrite length_map in Hd.
  apply Costs_le with (n := (List.length (toCheckOf (map (normalizedDoc P) docs)) * w KProbe
                             + 0)%nat).
  - apply Costs_bind; [apply mapM_checks_costs |]. intros checks.
    destruct (acceptLoop _ _ _). exact I.
  - rewrite Nat.add_0_r. apply Nat.mul_le_mono_r. lia.
Qed.

Lemma verifyUrls_costs8 (P : Platform) (docs : list JsVal) :
  Costs w (verifyUrls P docs) (8 * w KProbe).
Proof.
  eapply Costs_le; [apply verifyUrls_costs |]. apply Nat.mul_le_mono_r. lia.
Qed.

Lemma privateBranch_costs (P : Platform) (p : Parsed) :
  Costs w (privateBranch P p) (2 * w KInvoke + w KSleep + w KPrivateSearch).
Proof.
  unfold privateBranch. cbv zeta.
  apply Costs_le with (n := ((2 * w KInvoke + w KSleep) + (w KPrivateSearch + 0))%nat); [| lia].
  apply Costs_bind; [apply invoke_twice_costs |]. intros priv.
  match goal with
  | |- Costs w (match ?a with inl _ => _ | inr _ => _ end) _ =>
      destruct a as [thrown | st1]; [exact I |]
  end.
  apply Costs_bind; [| intros; exact I].
  match goal with
  | |- Costs w (if ?b then _ else _) _ => destruct b; [| exact I]
  end.
  apply Costs_le with (n := (w KPrivateSearch + 0)%nat); [| lia].
  apply Costs_bind; [| intros; exact I].
  unfold fallbackPrivateTextSearch. cbv zeta. destruct (isEmpty _); [exact I |].
  cbn [bind await Costs kindOf]. split; [lia |]. intros res. exact I.
Qed.

Lemma indexAnswer_costs (P : Platform) (D : ErrorDetails) (p : Parsed) (pub : EdgeResult) :
  Costs w (indexAnswer P D p pub) (8 * w KProbe + (2 * w KInvoke + w KSleep)).
Proof.
  unfold indexAnswer. cbv zeta.
  destruct (error pub); [exact I |]. destruct (data pub); try exact I.
  apply Costs_bind; [apply verifyUrls_costs8 |]. intros [thrown | validDocs]; [exact I |].
  destruct (isGeneralMode p); [| exact I].
  apply Costs_le with (n := ((2 * w KInvoke + w KSleep) + 0)%nat); [| lia].
  apply Costs_bind; [apply invoke_twice_costs |]. intros priv2. exact I.
Qed.

Lemma universeTextFallback_costs (P : Platform) (p : Parsed) (st1 : RetrievalState) :
  Costs w (universeTextFallback P p st1) (w KPublicSearch + 8 * w KProbe).
Proof.
  unfold universeTextFallback. cbv zeta.
  apply Costs_bind.
  - unfold fallbackPublicTextSearch. cbv zeta. destruct (isEmpty _); [exact I |].
    cbn [bind await Costs kindOf]. split; [lia |]. intros r. exact I.
  - intros [err | [| d docs]]; try exact I.
    apply Costs_le with (n := (8 * w KProbe + 0)%nat); [| lia].
    apply Costs_bind; [apply verifyUrls_costs8 |]. intros docs2. exact I.
Qed.

Lemma publicBranch_costs (P : Platform) (D : ErrorDetails) (p : Parsed) :
  Costs w (publicBranch P D p)
    (4 * w KInvoke + 2 * w KSleep + 16 * w KProbe + w KPublicSearch).
Proof.
  unfold publicBranch.
  apply Costs_le with (n := ((2 * w KInvoke + w KSleep)
                             + ((8 * w KProbe + (2 * w KInvoke + w KSleep))
                                + (w KPublicSearch + 8 * w KProbe)))%nat); [| lia].
  apply Costs_bind; [apply invoke_twice_costs |]. intros pub.
  apply Costs_bind; [apply indexAnswer_costs |]. intros [st1 [thrown |]]; [exact I |].
  destruct (isEmpty (context st1)); [apply universeTextFallback_costs | exact I].
Qed.

Lemma collectBoost_costs (P : Platform) (p : Parsed) (st : RetrievalState) :
  Costs w (collectBoost P p st) (w KCollect + 5 * w KProbe).
Proof.
  unfold collectBoost. cbv zeta.
  apply Costs_bind; [apply Costs_await |]. intros fr.
  destruct fr as [fJson |]; [| exact I].
  destruct (readError P "title" (retrievedDocs st)); [exact I |].
  match goal with
  | |- Costs w (match ?m with [] => _ | _ :: _ => _ end) _ => destruct m; [exact I |]
  end.
  apply Costs_le with (n := (5 * w KProbe + 0)%nat); [| lia].
  apply Costs_bind; [| intros; exact I].
  eapply Costs_le; [apply verifyUrls_costs |]. apply Nat.mul_le_mono_r.
  rewrite length_map. unfold rankedDocs. cbv zeta. rewrite length_firstn. lia.
Qed.

Lemma retrieval_costs (P : Platform) (D : ErrorDetails) (p : Parsed) :
  Costs w (retrieval P (routeRetrieval P D) p)
    (Nat.max (2 * w KInvoke + w KSleep + w KPrivateSearch)
             (4 * w KInvoke + 2 * w KSleep + 16 * w KProbe + w KPublicSearch)
     + (w KCollect + 5 * w KProbe) + w KInternet).
Proof.
  unfold retrieval. cbn [routeRetrieval publicIndexBranch secondaryBoost].
  rewrite <- Nat.add_assoc.
  apply Costs_bind.
  { apply Costs_if; [apply privateBranch_costs | apply publicBranch_costs]. }
  intros st. apply Costs_bind.
  { destruct (_ && _); [apply collectBoost_costs | exact I]. }
  intros st'. destruct (_ && _); [| exact I].
  unfold internetFallback. cbn [bind await Costs kindOf]. split; [lia |]. intros r. exact I.
Qed.

Lemma generationLoop_costs (system user : string) (timeoutMs : JsNumber) (models : list string) :
  forall lastError,
    Costs w (generationLoop system user timeoutMs models lastError)
      (List.length models * w KChat).
Proof.
  induction models as [| m l IH]; intros lastError; [exact I |].
  cbn [generationLoop List.length]. unfold callOpenRouterText.
  cbn [bind await Costs kindOf]. split; [simpl; lia |]. intros r.
  replace (S (List.length l) * w KChat - w KChat)%nat with (List.length l * w KChat)%nat
    by (simpl; lia).
  destruct r as [| e | st errText | content]; try apply IH.
  destruct (isEmpty (trim content)); [apply IH | exact I].
Qed.

Lemma rewritePass_costs (P : Platform) (T : Prompts) (env : Env) (p : Parsed)
    (startedAt : Z) (ev : Evidence) (finalBody : string) :
  Costs w (rewritePass P T env p startedAt ev finalBody) (2 * w KClock + 2 * w KChat).
Proof.
  unfold rewritePass, shouldRewrite, remainingMs, callOpenRouterText. cbv zeta.
  apply Costs_le with (n := (w KClock + (w KChat + (w KClock + w KChat)))%nat); [| lia].
  apply Costs_bind.
  { destruct (rewriteConfigured env p); [| exact I].
    cbn [bind await Costs kindOf]. split; [lia |]. intros; exact I. }
  intros go. destruct go; [| exact I].
  apply Costs_bind.
  { cbn [bind await Costs kindOf]. split; [lia |]. intros; exact I. }
  intros rewrite1.
  match goal with
  | |- Costs w (let '(_, _) := ?e in _) _ => destruct e as [body1 humanized1]
  end.
  apply Costs_bind.
  { destruct (HumanizeLevel_eqb _ _); [| exact I].
    cbn [bind await Costs kindOf]. split; [lia |]. intros; exact I. }
  intros again. destruct again; [| exact I].
  cbn [bind await Costs kindOf]. split; [lia |]. intros; exact I.
Qed.

Lemma validation_swarm_costs (P : Platform) (T : Prompts) (env : Env) (args : SwarmArgs) :
  Costs w (validation_swarm P T env args) (4 * w KChat).
Proof.
  unfold validation_swarm, callOpenRouterJson. cbv zeta.
  cbn [bind await Costs kindOf]. split; [lia |]. intros r1.
  split; [lia |]. intros r2. split; [lia |]. intros r3.
  destruct (recencyApplicable args); cbn [bind await Costs kindOf].
  - split; [lia |]. intros r4. exact I.
  - exact I.
Qed.

Lemma validationGate_costs (P : Platform) (T : Prompts) (env : Env) (p : Parsed)
    (startedAt : Z) (ev : Evidence) (finalBody : string) :
  Costs w (validationGate P T env p startedAt ev finalBody)
    (w KDate + w KClock + 4 * w KChat).
Proof.
  unfold validationGate, remainingMs.
  cbn [bind await Costs kindOf]. split; [lia |]. intros today.
  split; [lia |]. intros now.
  destruct (15000 <? _); [| exact I].
  eapply Costs_le; [apply validation_swarm_costs | lia].
Qed.

Lemma respond_costs (P : Platform) (env : Env) (p : Parsed) (ev : Evidence)
    (draft : string) (humanized : bool) (swarm : SwarmOutcome) :
  Costs w (respond P env p ev draft humanized swarm) (w KInsertDraft + w KInsertAgents).
Proof.
  unfold respond. cbv zeta.
  cbn [bind await Costs kindOf]. split; [lia |]. intros r.
  match goal with
  | |- context [isEmpty ?id] => destruct (isEmpty id)
  end; cbn [bind await Costs kindOf]; [exact I |].
  split; [lia |]. intros; exact I.
Qed.

Lemma generateAndValidate_costs (P : Platform) (T : Prompts) (env : Env) (p : Parsed)
    (startedAt : Z) (ev : Evidence) :
  Costs w (generateAndValidate P T env p startedAt ev)
    (3 * w KChat + ((2 * w KClock + 2 * w KChat)
                    + ((w KDate + w KClock + 4 * w KChat)
                       + (w KInsertDraft + w KInsertAgents)))).
Proof.
  unfold generateAndValidate. cbv zeta.
  apply Costs_bind.
  { eapply Costs_le; [apply generationLoop_costs |].
    apply Nat.mul_le_mono_r. rewrite length_firstn.
    pose proof (candidates_nonempty env). lia. }
  intros [text lastError]. destruct (isEmpty text); [exact I |].
  apply Costs_bind; [apply rewritePass_costs |]. intros [draft humanized].
  apply Costs_bind; [apply validationGate_costs |]. intros swarm.
  apply respond_costs.
Qed.

Lemma POST_costs (P : Platform) (T : Prompts) (D : ErrorDetails) (env : Env)
    (req : JsError + RequestBody) :
  Costs w (POST P T (routeRetrieval P D) env req)
    (w KClock + (w KBackground
     + ((Nat.max (2 * w KInvoke + w KSleep + w KPrivateSearch)
                 (4 * w KInvoke + 2 * w KSleep + 16 * w KProbe + w KPublicSearch)
         + (w KCollect + 5 * w KProbe) + w KInternet)
        + (3 * w KChat + ((2 * w KClock + 2 * w KChat)
                          + ((w KDate + w KClock + 4 * w KChat)
                             + (w KInsertDraft + w KInsertAgents))))))).
Proof.
  unfold POST. destruct req as [err | b]; [exact I |]. cbv zeta.
  destruct (configurationCheck env _); [exact I |].
  apply Costs_bind; [apply Costs_await |]. intros startedAt.
  destruct (swarmAgentsCheck env _); [exact I |].
  apply Costs_bind; [apply Costs_await |]. intros _.
  apply Costs_bind; [apply retrieval_costs |]. intros st.
  unfold afterRetrieval. destruct (sourcesGate _ st); [exact I |].
  apply generateAndValidate_costs.
Qed.

End Weights.

(** X14. What one request may await.  In every run of the route, with the
    retrieval of the route, the awaits stay within the budget of their kind:
    at most 9 chat completions (3 for generation, 2 for rewriting, 4 for
    validation), 21 link probes, 4 invocations of the edge function with 2
    pauses between them, one text search of each kind, one call of the
    collector, one internet search, 4 readings of the clock, and one insert
    in each table. *)
Theorem request_stays_within_its_call_budget :
  forall (P : Platform) (T : Prompts) (D : ErrorDetails) (env : Env)
         (req : JsError + RequestBody) (o : Oracle) (h : list Call) (K : CallKind),
    (countKind K (snd (exec o h (POST P T (routeRetrieval P D) env req))) <= callBudget K)%nat.
Proof.
  intros P T D env req o h K. rewrite count_as_cost.
  eapply Nat.le_trans.
  - apply (Costs_exec (fun k => if CallKind_eqb k K then 1 else 0)%nat).
    apply POST_costs.
  - destruct K; vm_compute; lia.
Qed.

(* ================================================================== *)
(** ** The text of a page *)

Lemma takeWhile_app (p : ascii -> bool) (s x : string) :
  dropWhile p s <> EmptyString -> takeWhile p (s ++ x) = takeWhile p s.
Proof.
  induction s as [| c s IH]; simpl; [congruence |].
  destruct (p c); [intros H; rewrite IH by exact H; reflexivity | reflexivity].
Qed.

Lemma dropWhile_notGt (r : string) :
  dropWhile (fun d => negb (isGt d)) r = EmptyString <-> existsChar isGt r = false.
Proof.
  induction r as [| c r IH]; simpl; [split; reflexivity |].
  destruct (isGt c); simpl; [split; discriminate | exact IH].
Qed.

(** A tag begins the string when it begins with [<], then a character other
    than [>], and holds a [>] further on. *)
Lemma tagAt_spec (c : ascii) (r : string) :
  tagAt (String c r)
  = isLt c && match r with
              | String d r' => negb (isGt d) && existsChar isGt r'
              | EmptyString => false
              end.
Proof.
  unfold tagAt, tagLen. destruct (isLt c); [| reflexivity]. cbn [andb].
  destruct r as [| d r']; [reflexivity |]. cbn [takeWhile dropWhile].
  destruct (isGt d) eqn:Ed; cbn [negb andb]; [reflexivity |].
  destruct (dropWhile (fun d0 => negb (isGt d0)) r') eqn:Er.
  - apply dropWhile_notGt in Er. rewrite Er. reflexivity.
  - destruct (existsChar isGt r') eqn:Ee; [reflexivity |].
    apply dropWhile_notGt in Ee. congruence.
Qed.

Lemma existsChar_append (p : ascii -> bool) (a b : string) :
  existsChar p (a ++ b) = existsChar p a || existsChar p b.
Proof. induction a as [| c a IH]; simpl; [reflexivity |]. rewrite IH. apply orb_assoc. Qed.

Lemma tagAt_extensible : Extensible tagAt.
Proof.
  intros a b. destruct a as [| c r]; [discriminate |].
  change (String c r ++ b) with (String c (r ++ b)). rewrite !tagAt_spec.
  destruct (isLt c); [| discriminate]. cbn [andb].
  destruct r as [| d r']; [discriminate |].
  change (String d r' ++ b) with (String d (r' ++ b)). cbv iota.
  destruct (negb (isGt d)); [| discriminate]. cbn [andb].
  rewrite existsChar_append. intros H. rewrite H. reflexivity.
Qed.

Lemma tagLen_positive (s : string) (n : nat) : tagLen s = Some n -> (2 <= n)%nat.
Proof.
  unfold tagLen. destruct s as [| c r]; [discriminate |]. destruct (isLt c); [| discriminate].
  destruct (takeWhile _ r); [discriminate |]. destruct (dropWhile _ r); [discriminate |].
  intros H. inversion H. lia.
Qed.

(** Replacing by a space or by nothing brings no [>] in. *)
Lemma replaceAll_noGt (m : string -> option nat) (rep : string) (s : string) :
  existsChar isGt rep = false ->
  existsChar isGt s = false ->
  forall k, existsChar isGt (replaceAll m rep k s) = false.
Proof.
  intros Hrep. induction s as [| c r IH]; intros Hs k; [reflexivity |].
  simpl in Hs. apply orb_false_iff in Hs. destruct Hs as [Hc Hr].
  cbn [replaceAll]. destruct k as [| k]; [| apply IH, Hr].
  destruct (m (String c r)) as [[| n] |].
  - simpl. rewrite Hc. apply IH, Hr.
  - rewrite existsChar_append, Hrep. apply IH, Hr.
  - simpl. rewrite Hc. apply IH, Hr.
Qed.

Lemma replaceAll_head_kept (m : string -> option nat) (rep : string) (c : ascii) (r : string) :
  m (String c r) = None ->
  replaceAll m rep 0 (String c r) = String c (replaceAll m rep 0 r).
Proof. intros H. cbn [replaceAll]. rewrite H. reflexivity. Qed.

(** After the tags are replaced no tag is left. *)
Lemma tags_replaced (s : string) :
  forall k, anyMatch tagAt (replaceAll tagLen " " k s) = false.
Proof.
  induction s as [| c r IH]; intros k; [reflexivity |].
  cbn [replaceAll]. destruct k as [| k]; [| apply IH].
  destruct (tagLen (String c r)) as [[| n] |] eqn:Et.
  - apply tagLen_positive in Et. lia.
  - change (" " ++ replaceAll tagLen " " n r) with (String " "%char (replaceAll tagLen " " n r)).
    cbn [anyMatch]. rewrite tagAt_spec. cbn [isLt Ascii.eqb Bool.eqb andb orb]. apply IH.
  - cbn [anyMatch]. rewrite IH, orb_false_r.
    assert (Hno : tagAt (String c r) = false) by (unfold tagAt; rewrite Et; reflexivity).
    rewrite tagAt_spec in Hno |- *.
    destruct (isLt c); [| reflexivity]. cbn [andb] in *.
    destruct r as [| d r']; [reflexivity |].
    destruct (isGt d) eqn:Ed; cbn [negb andb] in Hno.
    + assert (Hd : tagLen (String d r') = None).
      { unfold tagLen. unfold isGt in Ed. apply Ascii.eqb_eq in Ed. subst d. reflexivity. }
      rewrite (replaceAll_head_kept _ _ _ _ Hd). rewrite Ed. reflexivity.
    + assert (Hgt : existsChar isGt (String d r') = false).
      { simpl. rewrite Ed, Hno. reflexivity. }
      pose proof (replaceAll_noGt tagLen " " (String d r') eq_refl Hgt 0) as Hout.
      destruct (replaceAll tagLen " " 0 (String d r')) as [| x out]; [reflexivity |].
      simpl in Hout. apply orb_false_iff in Hout. destruct Hout as [Hx Ho].
      rewrite Hx, Ho. reflexivity.
Qed.

Lemma squeeze_noGt (s : string) :
  existsChar isGt s = false -> forall b, existsChar isGt (squeeze b s) = false.
Proof.
  induction s as [| c r IH]; intros H b; [reflexivity |].
  simpl in H. apply orb_false_iff in H. destruct H as [Hc Hr].
  cbn [squeeze]. destruct (isWhiteSpace c).
  - destruct b; [apply IH, Hr | simpl; apply IH, Hr].
  - simpl. rewrite Hc. apply IH, Hr.
Qed.

Lemma squeeze_noTag (s : string) :
  anyMatch tagAt s = false -> forall b, anyMatch tagAt (squeeze b s) = false.
Proof.
  induction s as [| c r IH]; intros H b; [reflexivity |].
  cbn [anyMatch] in H. apply orb_false_iff in H. destruct H as [Hc Hr].
  cbn [squeeze]. destruct (isWhiteSpace c) eqn:Ew.
  - destruct b; [apply IH, Hr |].
    cbn [anyMatch]. rewrite tagAt_spec. cbn [isLt Ascii.eqb Bool.eqb andb orb]. apply IH, Hr.
  - cbn [anyMatch]. rewrite (IH Hr), orb_false_r.
    rewrite tagAt_spec in Hc |- *.
    destruct (isLt c); [| reflexivity]. cbn [andb] in *.
    destruct r as [| d r']; [reflexivity |].
    destruct (isGt d) eqn:Ed; cbn [negb andb] in Hc.
    + assert (Hd : isWhiteSpace d = false).
      { unfold isGt in Ed. apply Ascii.eqb_eq in Ed. subst d. reflexivity. }
      cbn [squeeze]. rewrite Hd, Ed. reflexivity.
    + assert (Hgt : existsChar isGt (String d r') = false).
      { simpl. rewrite Ed, Hc. reflexivity. }
      pose proof (squeeze_noGt _ Hgt false) as Hout.
      destruct (squeeze false (String d r')) as [| x out]; [reflexivity |].
      simpl in Hout. apply orb_false_iff in Hout. destruct Hout as [Hx Ho].
      rewrite Hx, Ho. reflexivity.
Qed.

(** The replacement of [/\s+/g] by a space is [squeeze]. *)
Lemma spaceLen_cons (c : ascii) (r : string) :
  spaceLen (String c r)
  = if isWhiteSpace c then Some (S (String.length (takeWhile isWhiteSpace r))) else None.
Proof. unfold spaceLen. cbn [takeWhile]. destruct (isWhiteSpace c); reflexivity. Qed.

Lemma spaces_replaced (s : string) :
  replaceAll spaceLen " " 0 s = squeeze false s
  /\ replaceAll spaceLen " " (String.length (takeWhile isWhiteSpace s)) s = squeeze true s.
Proof.
  induction s as [| c r [IH0 IH1]]; [split; reflexivity |].
  destruct (isWhiteSpace c) eqn:Ew; split.
  - cbn [replaceAll]. rewrite spaceLen_cons, Ew, IH1. cbn [squeeze]. rewrite Ew. reflexivity.
  - cbn [takeWhile]. rewrite Ew. cbn [String.length replaceAll]. rewrite IH1.
    cbn [squeeze]. rewrite Ew. reflexivity.
  - cbn [replaceAll]. rewrite spaceLen_cons, Ew, IH0. cbn [squeeze]. rewrite Ew. reflexivity.
  - cbn [takeWhile]. rewrite Ew. cbn [String.length replaceAll].
    rewrite spaceLen_cons, Ew, IH0. cbn [squeeze]. rewrite Ew. reflexivity.
Qed.

Lemma squeeze_singleSpaced (s : string) :
  forall b, singleSpaced (squeeze b s) = true
            /\ (b = true -> startsClean (squeeze b s) = true).
Proof.
  induction s as [| c r IH]; intros b; [split; reflexivity |].
  cbn [squeeze]. destruct (isWhiteSpace c) eqn:Ew.
  - destruct (IH true) as [Hs Hc]. destruct b.
    + split; [exact Hs | exact Hc].
    + split; [| discriminate]. cbn [singleSpaced]. rewrite Hs, andb_true_r.
      cbn [isWhiteSpace code Ascii.eqb Bool.eqb negb orb andb].
      specialize (Hc eq_refl). destruct (squeeze true r); [reflexivity | exact Hc].
  - destruct (IH false) as [Hs _]. split.
    + cbn [singleSpaced]. rewrite Ew, Hs. reflexivity.
    + intros _. cbn [startsClean]. rewrite Ew. reflexivity.
Qed.

Lemma singleSpaced_tail (c : ascii) (r : string) :
  singleSpaced (String c r) = true -> singleSpaced r = true.
Proof. cbn [singleSpaced]. intros H. apply andb_true_iff in H. apply H. Qed.

Lemma singleSpaced_trimStart (s : string) :
  singleSpaced s = true -> singleSpaced (trimStart s) = true.
Proof.
  induction s as [| c r IH]; intros H; [reflexivity |]. cbn [trimStart].
  destruct (isWhiteSpace c); [apply IH, (singleSpaced_tail _ _ H) | exact H].
Qed.

Lemma singleSpaced_trimEnd (s : string) :
  singleSpaced s = true -> singleSpaced (trimEnd s) = true.
Proof.
  induction s as [| c r IH]; intros H; [reflexivity |].
  pose proof (singleSpaced_tail _ _ H) as Hr. specialize (IH Hr).
  cbn [trimEnd]. destruct (trimEnd r) as [| d r'] eqn:Et.
  - destruct (isWhiteSpace c) eqn:Ew; [reflexivity |].
    cbn [singleSpaced]. rewrite Ew. reflexivity.
  - change (singleSpaced (String c (String d r')))
      with ((negb (isWhiteSpace c) || (Ascii.eqb c " "%char && negb (isWhiteSpace d)))
            && singleSpaced (String d r')).
    rewrite IH, andb_true_r.
    cbn [singleSpaced] in H. apply andb_true_iff in H. destruct H as [H _].
    destruct (isWhiteSpace c) eqn:Ew; cbn [negb orb] in *; [| reflexivity].
    apply andb_true_iff in H. destruct H as [Hsp Hnext]. rewrite Hsp. cbn [andb].
    destruct r as [| x r0]; [discriminate |].
    cbn [trimEnd] in Et. destruct (trimEnd r0).
    + destruct (isWhiteSpace x) eqn:Ex; [discriminate |]. inversion Et; subst.
      rewrite Ex. reflexivity.
    + inversion Et; subst. exact Hnext.
Qed.

Lemma startsClean_trim (s : string) : startsClean (trim s) = true.
Proof.
  unfold trim.
  assert (H : startsClean (trimStart s) = true).
  { induction s as [| c r IH]; [reflexivity |]. cbn [trimStart].
    destruct (isWhiteSpace c) eqn:Ew; [exact IH |]. cbn [startsClean]. rewrite Ew. reflexivity. }
  destruct (trimStart s) as [| c r]; [reflexivity |].
  cbn [startsClean] in H. cbn [trimEnd].
  destruct (trimEnd r).
  - destruct (isWhiteSpace c) eqn:Ew; [reflexivity |]. cbn [startsClean]. rewrite Ew. reflexivity.
  - exact H.
Qed.

Lemma replaceAll_length (m : string -> option nat) (rep : string) (s : string) :
  (String.length rep <= 1)%nat ->
  forall k, (String.length (replaceAll m rep k s) <= String.length s)%nat.
Proof.
  intros Hrep. induction s as [| c r IH]; intros k; [simpl; lia |].
  cbn [replaceAll]. destruct k as [| k]; [| specialize (IH k); simpl; lia].
  destruct (m (String c r)) as [[| n] |].
  - specialize (IH 0%nat). simpl. lia.
  - rewrite length_append. specialize (IH n). simpl. lia.
  - specialize (IH 0%nat). simpl. lia.
Qed.

(** X15. The text read off a page is plain: no tag [<...>] is left in it,
    every white space character of it is a single space between two other
    characters, and it is no longer than the page. *)
Theorem page_text_is_plain :
  forall html : string,
    let text := stripHtml html in
    anyMatch tagAt text = false
    /\ singleSpaced text = true
    /\ startsClean text = true
    /\ endsClean text = true
    /\ (String.length text <= String.length html)%nat.
Proof.
  intros html text. subst text. unfold stripHtml.
  set (s1 := replaceAll (blockLen "<script" "</script>") EmptyString 0 html).
  set (s2 := replaceAll (blockLen "<style" "</style>") EmptyString 0 s1).
  set (s3 := replaceAll tagLen " " 0 s2).
  destruct (spaces_replaced s3) as [Esq _]. rewrite Esq.
  split; [| split; [| split; [| split]]].
  - apply anyMatch_trim_none; [apply tagAt_extensible |].
    apply squeeze_noTag. apply tags_replaced.
  - unfold trim. apply singleSpaced_trimEnd, singleSpaced_trimStart.
    apply (squeeze_singleSpaced s3 false).
  - apply startsClean_trim.
  - unfold trim. apply trimEnd_endsClean.
  - rewrite <- Esq.
    pose proof (trim_length (replaceAll spaceLen " " 0 s3)) as H0.
    pose proof (replaceAll_length spaceLen " " s3 ltac:(simpl; lia) 0) as H1.
    pose proof (replaceAll_length tagLen " " s2 ltac:(simpl; lia) 0) as H2.
    pose proof (replaceAll_length (blockLen "<style" "</style>") EmptyString s1
                  ltac:(simpl; lia) 0) as H3.
    pose proof (replaceAll_length (blockLen "<script" "</script>") EmptyString html
                  ltac:(simpl; lia) 0) as H4.
    fold s1 in H4. fold s2 in H3. fold s3 in H2. lia.
Qed.

(* ================================================================== *)
(** ** The internet search *)

Lemma length_sliceTo (n : nat) (s : string) :
  String.length (sliceTo n s) = Nat.min n (String.length s).
Proof.
  unfold sliceTo. revert n.
  induction s as [| c r IH]; intros [| n]; simpl; try reflexivity.
  rewrite IH. reflexivity.
Qed.

Lemma readFrom_cons (o : WebOracle) (h : list WebCall) (c : WebCall) (t : list WebCall)
    (pMs : Z) (d : InternetDoc) :
  readFrom o (h ++ [c]) t pMs d -> readFrom o h (c :: t) pMs d.
Proof.
  intros (pre & post & ct & body & Et & Eo & H).
  exists (c :: pre), post, ct, body. split; [rewrite Et; reflexivity |].
  split; [| exact H]. rewrite <- Eo. f_equal. rewrite <- app_assoc. reflexivity.
Qed.

(** The loop over the result links: one request at most for each link, and
    every document it adds was read from the page of a link. *)
Lemma internetPages_run (P : Platform) (maxDocs pMs : Z) (o : WebOracle) (urls : list string) :
  forall (docs : list InternetDoc) (h : list WebCall),
    let run := wexec o h (internetPages P maxDocs pMs urls docs) in
    (List.length (snd run) <= List.length urls)%nat
    /\ forallb isPageRequest (snd run) = true
    /\ Z.of_nat (List.length (fst run)) <= Z.max (Z.of_nat (List.length docs) + 1) maxDocs
    /\ exists added : list InternetDoc,
         fst run = (docs ++ added)%list
         /\ Forall (fun d => In (idoc_url d) urls /\ readFrom o h (snd run) pMs d) added.
Proof.
  induction urls as [| u rest IH]; intros docs h.
  - cbn. split; [lia |]. split; [reflexivity |]. split; [lia |].
    exists []. split; [rewrite app_nil_r; reflexivity | constructor].
  - assert (Hskip :
      forall docs0,
        let sub := wexec o (h ++ [FetchPage u pMs]) (internetPages P maxDocs pMs rest docs0) in
        Z.of_nat (List.length docs0) <= Z.max (Z.of_nat (List.length docs) + 1) maxDocs ->
        (Z.of_nat (List.length docs0) + 1 <= Z.max (Z.of_nat (List.length docs) + 1) maxDocs
         \/ docs0 = docs) ->
        (exists mine, docs0 = (docs ++ mine)%list
           /\ Forall (fun d => idoc_url d = u
                               /\ readFrom o h (FetchPage u pMs :: snd sub) pMs d) mine) ->
        (S (List.length (snd sub)) <= List.length (u :: rest))%nat
        /\ forallb isPageRequest (FetchPage u pMs :: snd sub) = true
        /\ Z.of_nat (List.length (fst sub)) <= Z.max (Z.of_nat (List.length docs) + 1) maxDocs
        /\ exists added : list InternetDoc,
             fst sub = (docs ++ added)%list
             /\ Forall (fun d => In (idoc_url d) (u :: rest)
                                 /\ readFrom o h (FetchPage u pMs :: snd sub) pMs d) added).
    { intros docs0 sub Hlen Hroom (mine & Emine & Hmine).
      destruct (IH docs0 (h ++ [FetchPage u pMs])%list) as (H1 & H2 & H3 & added & Ea & Ha).
      fold sub in H1, H2, H3, Ea, Ha.
      split; [simpl; lia |]. split; [cbn [forallb isPageRequest]; exact H2 |].
      split.
      { destruct Hroom as [Hroom | ->]; [lia | exact H3]. }
      exists (mine ++ added)%list. split.
      { rewrite Ea, Emine, <- app_assoc. reflexivity. }
      apply Forall_app. split.
      - eapply Forall_impl; [| exact Hmine]. intros d [Eu Hr]. split; [left; symmetry; exact Eu | exact Hr].
      - eapply Forall_impl; [| exact Ha]. intros d [Hin Hr].
        split; [right; exact Hin | apply readFrom_cons; exact Hr]. }
    cbn [internetPages wbind wawait wexec].
    destruct (o h (FetchPage u pMs)) as [e | contentType body] eqn:Eo.
    + specialize (Hskip docs).
      destruct (wexec o (h ++ [FetchPage u pMs]) (internetPages P maxDocs pMs rest docs))
        as [a t] eqn:Es.
      cbn [fst snd] in *. apply Hskip; [lia | right; reflexivity |].
      exists []. split; [rewrite app_nil_r; reflexivity | constructor].
    + cbn [wbind].
      destruct (notHtml contentType) eqn:Ect.
      { specialize (Hskip docs).
        destruct (wexec o (h ++ [FetchPage u pMs]) (internetPages P maxDocs pMs rest docs))
          as [a t] eqn:Es.
        cbn [fst snd] in *. apply Hskip; [lia | right; reflexivity |].
        exists []. split; [rewrite app_nil_r; reflexivity | constructor]. }
      destruct (String.length (stripHtml (orEmpty body)) <? 300)%nat eqn:Elen.
      { specialize (Hskip docs).
        destruct (wexec o (h ++ [FetchPage u pMs]) (internetPages P maxDocs pMs rest docs))
          as [a t] eqn:Es.
        cbn [fst snd] in *. apply Hskip; [lia | right; reflexivity |].
        exists []. split; [rewrite app_nil_r; reflexivity | constructor]. }
      apply Nat.ltb_ge in Elen.
      set (d := {| idoc_title := if isEmpty (titleOfHtml (orEmpty body)) then u
                                 else titleOfHtml (orEmpty body);
                   idoc_url := u;
                   idoc_content := sliceTo 12000 (stripHtml (orEmpty body));
                   idoc_source := toHostSource P u |}).
      assert (Hd : forall t, readFrom o h (FetchPage u pMs :: t) pMs d).
      { intros t. exists [], t, contentType, body.
        split; [reflexivity |]. split; [rewrite app_nil_r; exact Eo |].
        split; [exact Ect |]. split; [exact Elen |]. split; reflexivity. }
      destruct (maxDocs <=? Z.of_nat (List.length (docs ++ [d]))) eqn:Efull.
      * cbn [wexec fst snd List.length forallb isPageRequest].
        split; [lia |]. split; [reflexivity |].
        rewrite length_app. cbn [List.length]. split; [lia |].
        exists [d]. split; [reflexivity |]. constructor; [| constructor].
        split; [left; reflexivity | apply Hd].
      * apply Z.leb_gt in Efull. rewrite length_app in Efull. cbn [List.length] in Efull.
        specialize (Hskip (docs ++ [d])%list).
        destruct (wexec o (h ++ [FetchPage u pMs])
                    (internetPages P maxDocs pMs rest (docs ++ [d])))
          as [a t] eqn:Es.
        cbn [fst snd] in *. apply Hskip.
        -- rewrite length_app. cbn [List.length]. lia.
        -- left. rewrite length_app. cbn [List.length]. lia.
        -- exists [d]. split; [reflexivity |]. constructor; [| constructor].
           split; [reflexivity | apply Hd].
Qed.

Lemma resultUrls_spec (P : Platform) (W : WebPlatform) (maxDocs : Z) (page u : string) :
  In u (resultUrls P W maxDocs page) ->
  u <> EmptyString /\ looksLikeAssetUrl u = false
  /\ exists raw : string, u = normalizeUrlString P raw.
Proof.
  unfold resultUrls. intros H. apply In_firstn in H.
  apply filter_In in H. destruct H as [H Hasset].
  apply filter_In in H. destruct H as [H Hne].
  apply in_map_iff in H. destruct H as (raw & Eraw & _).
  split; [intros ->; discriminate |].
  split; [destruct (looksLikeAssetUrl u); [discriminate | reflexivity] |].
  exists raw. symmetry. exact Eraw.
Qed.

Lemma resultUrls_length (P : Platform) (W : WebPlatform) (maxDocs : Z) (page : string) :
  1 <= maxDocs ->
  Z.of_nat (List.length (resultUrls P W maxDocs page)) <= 4 * maxDocs.
Proof.
  intros Hm. unfold resultUrls. rewrite length_firstn, sliceCount_ofZ by lia. lia.
Qed.

(** X16. The internet search asks for pages only: the search page first
    and then at most four result links for each document wanted. A blank
    query gives no document without any request, and a search page that
    cannot be requested gives the error. Otherwise at most [maxDocs]
    documents come back, each under a non-empty normalised link that is not
    an asset, read from the page that the request of that link delivered,
    with between 300 and 12000 characters of its plain text and a title. *)
Theorem internet_search_reads_result_pages :
  forall (P : Platform) (W : WebPlatform) (query : string) (maxDocs sMs pMs : Z)
         (o : WebOracle) (h : list WebCall),
    1 <= maxDocs ->
    let searchPage := FetchPage ("https://duckduckgo.com/html/?q="
                                 ++ encodeURIComponent W (trim query)) sMs in
    let run := wexec o h (collectInternetDocs P W query maxDocs sMs pMs) in
    forallb isPageRequest (snd run) = true
    /\ Z.of_nat (List.length (snd run)) <= 1 + 4 * maxDocs
    /\ (trim query = EmptyString -> run = (inr [], []))
    /\ (trim query <> EmptyString ->
        exists t, snd run = searchPage :: t
                  /\ forall e, o h searchPage = FetchThrew e -> run = (inl e, [searchPage]))
    /\ forall docs : list InternetDoc,
         fst run = inr docs ->
         Z.of_nat (List.length docs) <= maxDocs
         /\ Forall (fun d =>
                      idoc_url d <> EmptyString
                      /\ looksLikeAssetUrl (idoc_url d) = false
                      /\ (exists raw : string, idoc_url d = normalizeUrlString P raw)
                      /\ idoc_title d <> EmptyString
                      /\ (300 <= String.length (idoc_content d) <= 12000)%nat
                      /\ readFrom o h (snd run) pMs d)
                   docs.
Proof.
  intros P W query maxDocs sMs pMs o h Hm searchPage run. subst run.
  unfold collectInternetDocs. cbv zeta.
  destruct (isEmpty (trim query)) eqn:Eq.
  { cbn [wexec fst snd forallb List.length].
    split; [reflexivity |]. split; [lia |]. split; [reflexivity |].
    split; [intros Hne; destruct (trim query); [contradiction | discriminate] |].
    intros docs Hd. injection Hd as <-. split; [simpl; lia | constructor]. }
  assert (Hne : trim query <> EmptyString) by (intros E0; rewrite E0 in Eq; discriminate).
  cbn [wbind wawait wexec]. fold searchPage.
  destruct (o h searchPage) as [e | contentType body] eqn:Eo.
  { cbn [wbind wexec fst snd forallb isPageRequest List.length]. subst searchPage.
    cbn [isPageRequest andb].
    split; [reflexivity |]. split; [lia |]. split; [intros E0; contradiction |].
    split.
    - intros _. eexists. split; [reflexivity |]. intros e0 He0.
      injection He0 as <-. reflexivity.
    - intros docs Hd. discriminate. }
  cbn [wbind].
  set (urls := resultUrls P W maxDocs (orEmpty body)).
  destruct (internetPages_run P maxDocs pMs o urls [] (h ++ [searchPage])%list)
    as (H1 & H2 & H3 & added & Ea & Ha).
  assert (Hbind : forall (A B : Type) (m : WebProg A) (f : A -> B) (h0 : list WebCall),
             wexec o h0 (wbind m (fun a => WRet (f a)))
             = (f (fst (wexec o h0 m)), snd (wexec o h0 m))).
  { intros A B m f. induction m as [a | c k IHk]; intros h0; [reflexivity |].
    cbn [wbind wexec]. rewrite IHk.
    destruct (wexec o (h0 ++ [c]) (k (o h0 c))) as [a t]. reflexivity. }
  rewrite Hbind.
  destruct (wexec o (h ++ [searchPage]) (internetPages P maxDocs pMs urls [])) as [docs0 t].
  cbn [fst snd] in *. cbn [forallb List.length].
  split; [subst searchPage; cbn [isPageRequest andb]; exact H2 |].
  split.
  { pose proof (resultUrls_length P W maxDocs (orEmpty body) Hm) as Hl. fold urls in Hl.
    rewrite Nat2Z.inj_succ. lia. }
  split; [intros E0; contradiction |].
  split.
  { intros _. exists t. split; [reflexivity |]. intros e0 He0. discriminate. }
  intros docs Hd. injection Hd as <-.
  split; [cbn [List.length] in H3; lia |].
  cbn [app] in Ea. subst docs0.
  eapply Forall_impl; [| exact Ha]. intros d [Hin Hr].
  destruct (resultUrls_spec P W maxDocs (orEmpty body) (idoc_url d) Hin) as (Hu & Hasset & Hraw).
  pose proof (readFrom_cons o h searchPage t pMs d Hr) as Hr'.
  split; [exact Hu |]. split; [exact Hasset |]. split; [exact Hraw |].
  destruct Hr as (pre & post & ct & page & _ & _ & _ & Hlen & Ec & Et).
  split.
  { rewrite Et. destruct (isEmpty (titleOfHtml (orEmpty page))) eqn:Ei; [exact Hu |].
    intros E0. rewrite E0 in Ei. discriminate. }
  split; [| exact Hr'].
  rewrite Ec, length_sliceTo.
  assert (H300 : (300 <= 12000)%nat) by (apply Nat.leb_le; vm_compute; reflexivity).
  lia.
Qed.

Lemma internet_search_reads_result_pages_witness :
  1 <= 5
  /\ wexec DemoRetrieval.offline []
       (collectInternetDocs Demo.platform DemoRetrieval.web "aspirin" 5 15000 15000)
     = (inl (ErrorString "offline"),
        [FetchPage "https://duckduckgo.com/html/?q=aspirin" 15000]).
Proof.
  assert (H : 1 <= 5) by lia. split; [exact H |].
  destruct (internet_search_reads_result_pages Demo.platform DemoRetrieval.web "aspirin"
              5 15000 15000 DemoRetrieval.offline [] H) as (_ & _ & _ & Hs & _).
  destruct Hs as (t & _ & He); [discriminate |].
  apply He. reflexivity.
Defined.

(* ================================================================== *)
(** ** The collector *)

Lemma wexec_bind {A B : Type} (o : WebOracle) (m : WebProg A) (f : A -> WebProg B) :
  forall h : list WebCall,
    wexec o h (wbind m f)
    = (fst (wexec o (h ++ snd (wexec o h m)) (f (fst (wexec o h m)))),
       (snd (wexec o h m)
        ++ snd (wexec o (h ++ snd (wexec o h m)) (f (fst (wexec o h m)))))%list).
Proof.
  induction m as [a | c k IH]; intros h.
  - cbn [wbind wexec fst snd app]. rewrite app_nil_r.
    destruct (wexec o h (f a)); reflexivity.
  - cbn [wbind wexec]. rewrite IH.
    destruct (wexec o (h ++ [c]) (k (o h c))) as [a t]. cbn [fst snd].
    rewrite <- !app_assoc. reflexivity.
Qed.

Lemma forallb_app_true {A : Type} (p : A -> bool) (l1 l2 : list A) :
  forallb p l1 = true -> forallb p l2 = true -> forallb p (l1 ++ l2) = true.
Proof. intros H1 H2. rewrite forallb_app, H1, H2. reflexivity. Qed.

Section CollectorRuns.

Variables (P : Platform) (W : WebPlatform) (env : Env) (o : WebOracle).

Import Collector.

(** The loop over the links of a source asks for each link once and
    keeps pages of more than 100 characters of text under their link. *)
Lemma readLinks_run (s : Source) (links : list string) :
  forall (collected : list CollectedDoc) (h : list WebCall),
    let run := wexec o h (readLinks s links collected) in
    List.length (snd run) = List.length links
    /\ forallb isPageRequest (snd run) = true
    /\ exists added : list CollectedDoc,
         fst run = (collected ++ added)%list
         /\ (List.length added <= List.length links)%nat
         /\ Forall (fun d => In (cd_url d) links /\ cd_source d = src_name s
                             /\ (100 < String.length (cd_content d) <= 10000)%nat)
                   added.
Proof.
  induction links as [| url rest IH]; intros collected h.
  - cbn. split; [reflexivity |]. split; [reflexivity |].
    exists []. rewrite app_nil_r. split; [reflexivity |]. split; [simpl; lia | constructor].
  - cbn [readLinks wbind wawait wexec].
    assert (Hskip :
      let sub := wexec o (h ++ [FetchPage url 15000]) (readLinks s rest collected) in
      List.length (FetchPage url 15000 :: snd sub) = List.length (url :: rest)
      /\ forallb isPageRequest (FetchPage url 15000 :: snd sub) = true
      /\ exists added : list CollectedDoc,
           fst sub = (collected ++ added)%list
           /\ (List.length added <= List.length (url :: rest))%nat
           /\ Forall (fun d => In (cd_url d) (url :: rest) /\ cd_source d = src_name s
                               /\ (100 < String.length (cd_content d) <= 10000)%nat)
                     added).
    { intros sub. destruct (IH collected (h ++ [FetchPage url 15000])%list)
        as (H1 & H2 & added & Ea & Hl & Ha). fold sub in H1, H2, Ea.
      split; [simpl; rewrite H1; reflexivity |]. split; [exact H2 |].
      exists added. split; [exact Ea |]. split; [simpl; lia |].
      eapply Forall_impl; [| exact Ha]. intros d (Hin & Hs & Hc).
      split; [right; exact Hin | split; [exact Hs | exact Hc]]. }
    cbv zeta in Hskip.
    destruct (o h (FetchPage url 15000)) as [e | contentType [html |]] eqn:Eo; cbn [wbind].
    + destruct (wexec o (h ++ [FetchPage url 15000]) (readLinks s rest collected)). exact Hskip.
    + destruct (notHtml contentType).
      { destruct (wexec o (h ++ [FetchPage url 15000]) (readLinks s rest collected)).
        exact Hskip. }
      destruct (100 <? String.length (strip html))%nat eqn:Elen.
      2:{ destruct (wexec o (h ++ [FetchPage url 15000]) (readLinks s rest collected)).
          exact Hskip. }
      apply Nat.ltb_lt in Elen.
      set (d := {| cd_source := src_name s; cd_url := url;
                   cd_title := orElse (titleOf html) url;
                   cd_content := sliceTo 10000 (strip html) |}).
      destruct (IH (collected ++ [d])%list (h ++ [FetchPage url 15000])%list)
        as (H1 & H2 & added & Ea & Hl & Ha).
      destruct (wexec o (h ++ [FetchPage url 15000]) (readLinks s rest (collected ++ [d])))
        as [a t].
      cbn [fst snd] in *.
      split; [simpl; rewrite H1; reflexivity |]. split; [exact H2 |].
      exists (d :: added). split; [rewrite Ea, <- app_assoc; reflexivity |].
      split; [simpl; lia |].
      constructor.
      * split; [left; reflexivity |]. split; [reflexivity |].
        cbn [cd_content d]. rewrite length_sliceTo.
        assert (H100 : (100 < 10000)%nat) by (apply Nat.ltb_lt; vm_compute; reflexivity).
        lia.
      * eapply Forall_impl; [| exact Ha]. intros d0 (Hin & Hs & Hc).
        split; [right; exact Hin | split; [exact Hs | exact Hc]].
    + destruct (notHtml contentType);
        destruct (wexec o (h ++ [FetchPage url 15000]) (readLinks s rest collected));
        exact Hskip.
Qed.

Lemma keepLinks_spec (s : Source) (searchUrl : string) (links : list string) (u : string) :
  In u (keepLinks P W env s searchUrl links) ->
  isAllowedUrl P env u = true
  /\ (exists p : URL, URL_parse P u = Some p /\ hostMatches (hostname p) (src_host s) = true)
  /\ isLikelyContentUrl P W u searchUrl (src_host s) = true.
Proof.
  unfold keepLinks. intros H.
  apply filter_In in H. destruct H as [H Hlikely].
  apply filter_In in H. destruct H as [H Hhost].
  apply filter_In in H. destruct H as [_ Hallowed].
  split; [exact Hallowed |]. split; [| exact Hlikely].
  destruct (URL_parse P u) as [p |]; [| discriminate]. exists p. split; [reflexivity | exact Hhost].
Qed.

Lemma In_addOnce (x y : string) (out : list string) :
  In y (addOnce x out) -> y = x \/ In y out.
Proof.
  unfold addOnce. destruct (existsb (String.eqb x) out); intros H; [right; exact H |].
  apply in_app_or in H. destruct H as [H | [H | []]]; [right; exact H | left; symmetry; exact H].
Qed.

Lemma In_distinct (l : list string) (y : string) : In y (distinct l) -> In y l.
Proof.
  unfold distinct.
  assert (G : forall out, In y (fold_left (fun out x => addOnce x out) l out)
                          -> In y out \/ In y l).
  { induction l as [| x l IH]; intros out H; [left; exact H |].
    cbn [fold_left] in H. apply IH in H. destruct H as [H | H]; [| right; right; exact H].
    apply In_addOnce in H. destruct H as [-> | H]; [right; left; reflexivity | left; exact H]. }
  intros H. apply G in H. destruct H as [[] | H]. exact H.
Qed.

Lemma In_addOnce_intro (x y : string) (out : list string) :
  y = x \/ In y out -> In y (addOnce x out).
Proof.
  unfold addOnce. destruct (existsb (String.eqb x) out) eqn:E; intros [-> | H].
  - apply existsb_exists in E. destruct E as (z & Hz & Ez).
    apply String.eqb_eq in Ez. subst z. exact Hz.
  - exact H.
  - apply in_or_app. right. left. reflexivity.
  - apply in_or_app. left. exact H.
Qed.

Lemma distinct_In (l : list string) (y : string) : In y l -> In y (distinct l).
Proof.
  unfold distinct.
  assert (G : forall out, In y out \/ In y l
                          -> In y (fold_left (fun out x => addOnce x out) l out)).
  { induction l as [| x l IH]; intros out H; [destruct H as [H | []]; exact H |].
    cbn [fold_left]. apply IH. destruct H as [H | [-> | H]].
    - left. apply In_addOnce_intro. right. exact H.
    - left. apply In_addOnce_intro. left. reflexivity.
    - right. exact H. }
  intros H. apply G. right. exact H.
Qed.

Lemma length_addOnce (x : string) (out : list string) :
  (List.length (addOnce x out) <= S (List.length out))%nat.
Proof.
  unfold addOnce. destruct (existsb (String.eqb x) out); [lia |].
  rewrite length_app. simpl. lia.
Qed.

Lemma length_distinct (l : list string) : (List.length (distinct l) <= List.length l)%nat.
Proof.
  unfold distinct.
  assert (G : forall out, (List.length (fold_left (fun out x => addOnce x out) l out)
                           <= List.length out + List.length l)%nat).
  { induction l as [| x l IH]; intros out; [simpl; lia |].
    cbn [fold_left]. specialize (IH (addOnce x out)).
    pose proof (length_addOnce x out). simpl. lia. }
  apply (G []).
Qed.

Lemma pushAll_spec (s : Source) (items : list RssItem) :
  forall collected : list CollectedDoc,
    exists added : list CollectedDoc,
      pushAll collected (map (itemDoc P W env s) items) = (collected ++ added)%list
      /\ (List.length added <= List.length items)%nat
      /\ Forall (allowedDoc P W env s) added.
Proof.
  induction items as [| it rest IH]; intros collected.
  - exists []. rewrite app_nil_r. split; [reflexivity |]. split; [simpl; lia | constructor].
  - unfold pushAll. cbn [map fold_left]. fold (pushAll).
    destruct (itemDoc P W env s it) as [d |] eqn:Ed.
    + destruct (IH (collected ++ [d])%list) as (added & Ea & Hl & Ha).
      exists (d :: added). unfold pushAll in Ea |- *. rewrite Ea, <- app_assoc.
      split; [reflexivity |]. split; [simpl; lia |].
      constructor; [| exact Ha].
      unfold itemDoc in Ed. cbv zeta in Ed.
      destruct (isEmpty (rss_link it)); [discriminate |].
      destruct (isAllowedUrl P env (rss_link it)) eqn:Eallowed; [| discriminate].
      cbn [negb] in Ed.
      destruct (URL_parse P (rss_link it)) as [u |] eqn:Eu; [| discriminate].
      destruct (hostMatches (hostname u) (src_host s)) eqn:Ehost; [| discriminate].
      destruct (isLikelyContentUrl P W (rss_link it) rssUrl (src_host s)) eqn:Elikely;
        [| discriminate].
      cbn [negb] in Ed.
      set (content := sliceTo 10000 _) in Ed.
      assert (Hsl : (String.length content <= 10000)%nat).
      { subst content. rewrite length_sliceTo. apply Nat.le_min_l. }
      destruct (50 <? String.length content)%nat eqn:Elen; [| discriminate].
      injection Ed as <-. apply Nat.ltb_lt in Elen.
      unfold allowedDoc. cbn [cd_source cd_url cd_content].
      split; [reflexivity |]. split; [exact Eallowed |].
      split; [exists u; split; [exact Eu | exact Ehost] |].
      split; [exists rssUrl; exact Elikely |].
      split; [exact Elen | exact Hsl].
    + destruct (IH collected) as (added & Ea & Hl & Ha).
      exists added. unfold pushAll in Ea |- *. rewrite Ea.
      split; [reflexivity |]. split; [simpl; lia | exact Ha].
Qed.

Lemma length_itemsToUse (k : string) (items : list RssItem) :
  (List.length (itemsToUse k items) <= 5)%nat.
Proof. unfold itemsToUse. rewrite length_firstn. lia. Qed.

(** One source: seven requests at most, all of pages, and five documents
    at most, all of them allowed for the source. *)
Lemma collectFrom_run (keyword : JsVal) (s : Source) (collected : list CollectedDoc)
    (h : list WebCall) :
  let run := wexec o h (collectFrom P W env keyword s collected) in
  (List.length (snd run) <= 7)%nat
  /\ forallb isPageRequest (snd run) = true
  /\ exists added : list CollectedDoc,
       fst run = (collected ++ added)%list
       /\ (List.length added <= 5)%nat
       /\ Forall (allowedDoc P W env s) added.
Proof.
  unfold collectFrom.
  destruct (String.eqb (src_host s) "fiercebiotech.com").
  - cbn [wbind wawait wexec fst snd List.length forallb isPageRequest andb].
    split; [lia |]. split; [reflexivity |].
    destruct (textOf (o h (FetchPage rssUrl 20000))) as [xml |];
      [| exists []; rewrite app_nil_r; split; [reflexivity |]; split; [simpl; lia | constructor]].
    destruct keyword as [| | b | n | k | items | fields];
      try (exists []; rewrite app_nil_r; split; [reflexivity |]; split;
           [simpl; lia | constructor]).
    destruct (pushAll_spec s (itemsToUse k (extractRssItems xml)) collected)
      as (added & Ea & Hl & Ha).
    exists added. split; [exact Ea |]. split; [| exact Ha].
    pose proof (length_itemsToUse k (extractRssItems xml)). lia.
  - cbv zeta.
    destruct (URL_parse P (src_search s (String_ P keyword))) as [su |].
    2:{ cbn. split; [lia |]. split; [reflexivity |]. exists []. rewrite app_nil_r.
        split; [reflexivity |]. split; [simpl; lia | constructor]. }
    set (directSearchUrl := src_search s (String_ P keyword)).
    set (ddgUrl := ddgSearchUrl W (src_host s) (String_ P keyword)).
    cbn [wbind wawait wexec].
    set (sr := o h (FetchPage directSearchUrl 12000)).
    set (found := match textOf sr with
                  | Some sh => keepLinks P W env s directSearchUrl
                                 (extractUrls P W sh (URL_origin W su))
                  | None => []
                  end).
    assert (Hfound : forall u, In u (distinct found) ->
              isAllowedUrl P env u = true
              /\ (exists p : URL, URL_parse P u = Some p
                                  /\ hostMatches (hostname p) (src_host s) = true)
              /\ exists searchUrl, isLikelyContentUrl P W u searchUrl (src_host s) = true).
    { intros u Hu. apply In_distinct in Hu. subst found.
      destruct (textOf sr) as [sh |]; [| destruct Hu].
      apply keepLinks_spec in Hu. destruct Hu as (Ha & Hh & Hl).
      split; [exact Ha |]. split; [exact Hh |]. exists directSearchUrl. exact Hl. }
    assert (Hread :
      forall (links : list string) (h0 : list WebCall),
        (forall u, In u links ->
           isAllowedUrl P env u = true
           /\ (exists p : URL, URL_parse P u = Some p
                               /\ hostMatches (hostname p) (src_host s) = true)
           /\ exists searchUrl, isLikelyContentUrl P W u searchUrl (src_host s) = true) ->
        let run := wexec o h0 (readLinks s (firstn 5 links) collected) in
        (List.length (snd run) <= 5)%nat
        /\ forallb isPageRequest (snd run) = true
        /\ exists added : list CollectedDoc,
             fst run = (collected ++ added)%list
             /\ (List.length added <= 5)%nat
             /\ Forall (allowedDoc P W env s) added).
    { intros links h0 Hlinks.
      destruct (readLinks_run s (firstn 5 links) collected h0)
        as (H1 & H2 & added & Ea & Hl & Ha).
      pose proof (length_firstn 5 links) as Hf.
      cbv zeta. split; [lia |]. split; [exact H2 |].
      exists added. split; [exact Ea |]. split; [lia |].
      eapply Forall_impl; [| exact Ha]. intros d (Hin & Hs & Hc).
      apply In_firstn in Hin. destruct (Hlinks _ Hin) as (Hallowed & Hhost & Hlikely).
      unfold allowedDoc. split; [exact Hs |]. split; [exact Hallowed |].
      split; [exact Hhost |]. split; [exact Hlikely |]. lia. }
    destruct (distinct found) as [| l0 ls] eqn:Edist.
    + cbn [wbind wawait wexec].
      set (dr := o (h ++ [FetchPage directSearchUrl 12000])%list (FetchPage ddgUrl 12000)).
      set (links := match textOf dr with
                    | Some dh => keepLinks P W env s ddgUrl
                                   (extractDuckDuckGoResultUrls P W dh)
                    | None => []
                    end).
      destruct (Hread links
                  ((h ++ [FetchPage directSearchUrl 12000]) ++ [FetchPage ddgUrl 12000])%list)
        as (H1 & H2 & added & Ea & Hl & Ha).
      { intros u Hu. subst links. destruct (textOf dr) as [dh |]; [| destruct Hu].
        apply keepLinks_spec in Hu. destruct Hu as (Ha & Hh & Hl).
        split; [exact Ha |]. split; [exact Hh |]. exists ddgUrl. exact Hl. }
      destruct (wexec o ((h ++ [FetchPage directSearchUrl 12000]) ++ [FetchPage ddgUrl 12000])%list
                  (readLinks s (firstn 5 links) collected)) as [a t].
      cbn [fst snd List.length forallb isPageRequest andb] in *.
      split; [lia |]. split; [exact H2 |]. exists added. split; [exact Ea |].
      split; [exact Hl | exact Ha].
    + cbn [wbind wexec].
      destruct (Hread (l0 :: ls) (h ++ [FetchPage directSearchUrl 12000])%list Hfound)
        as (H1 & H2 & added & Ea & Hl & Ha).
      destruct (wexec o (h ++ [FetchPage directSearchUrl 12000])%list
                  (readLinks s (firstn 5 (l0 :: ls)) collected)) as [a t].
      cbn [fst snd List.length forallb isPageRequest andb] in *.
      split; [lia |]. split; [exact H2 |]. exists added. split; [exact Ea |].
      split; [exact Hl | exact Ha].
Qed.

(** All the sources. *)
Lemma collectAll_run (keyword : JsVal) (sources : list Source) :
  forall (collected : list CollectedDoc) (h : list WebCall),
    let run := wexec o h (collectAll P W env keyword sources collected) in
    (List.length (snd run) <= 7 * List.length sources)%nat
    /\ forallb isPageRequest (snd run) = true
    /\ exists added : list CollectedDoc,
         fst run = (collected ++ added)%list
         /\ (List.length added <= 5 * List.length sources)%nat
         /\ Forall (fun d => exists s, In s sources /\ allowedDoc P W env s d) added.
Proof.
  induction sources as [| s rest IH]; intros collected h.
  - cbn. split; [lia |]. split; [reflexivity |]. exists []. rewrite app_nil_r.
    split; [reflexivity |]. split; [simpl; lia | constructor].
  - cbn [collectAll]. cbv zeta. rewrite wexec_bind.
    destruct (collectFrom_run keyword s collected h) as (H1 & H2 & added1 & Ea1 & Hl1 & Ha1).
    destruct (wexec o h (collectFrom P W env keyword s collected)) as [c1 t1].
    cbn [fst snd] in *.
    destruct (IH c1 (h ++ t1)%list) as (H3 & H4 & added2 & Ea2 & Hl2 & Ha2).
    destruct (wexec o (h ++ t1)%list (collectAll P W env keyword rest c1)) as [c2 t2].
    cbn [fst snd] in *.
    split; [rewrite length_app; simpl List.length; lia |].
    split; [apply forallb_app_true; assumption |].
    exists (added1 ++ added2)%list.
    split; [rewrite Ea2, Ea1, <- app_assoc; reflexivity |].
    split; [rewrite length_app; simpl List.length; lia |].
    apply Forall_app. split.
    + eapply Forall_impl; [| exact Ha1]. intros d Hd. exists s. split; [left; reflexivity | exact Hd].
    + eapply Forall_impl; [| exact Ha2]. intros d (s0 & Hs0 & Hd).
      exists s0. split; [right; exact Hs0 | exact Hd].
Qed.

End CollectorRuns.


Section CollectorHandler.

Variables (P : Platform) (W : WebPlatform) (describe : JsError -> string) (env : Env).

Import Collector.

Lemma sourcesOf_length :
  (List.length (sourcesOf P W env) <= 6 + List.length (allowedDomains env))%nat.
Proof.
  unfold sourcesOf. cbv zeta. rewrite length_app, length_map.
  apply Nat.add_le_mono.
  - etransitivity; [apply filter_length_le | simpl; lia].
  - etransitivity; [apply filter_length_le |]. unfold allowedList.
    etransitivity; [apply length_distinct |].
    etransitivity; [apply filter_length_le |]. rewrite length_map. lia.
Qed.

Lemma hostMatches_refl (h : string) : hostMatches h h = true.
Proof. unfold hostMatches. rewrite String.eqb_refl. reflexivity. Qed.

Lemma knownSources_normal (s : Source) :
  In s (knownSources W) -> normalizeHost P (src_host s) = src_host s.
Proof.
  intros H. simpl in H.
  repeat (destruct H as [<- | H]; [reflexivity |]). destruct H.
Qed.

Lemma In_allowedList (h : string) :
  In h (allowedList P env)
  <-> h <> EmptyString /\ exists d, In d (allowedDomains env) /\ h = normalizeHost P d.
Proof.
  unfold allowedList. split.
  - intros H. apply In_distinct in H. apply filter_In in H. destruct H as [H Hne].
    apply in_map_iff in H. destruct H as (d & Ed & Hd).
    split; [intros ->; discriminate |]. exists d. split; [exact Hd | symmetry; exact Ed].
  - intros (Hne & d & Hd & ->). apply distinct_In. apply filter_In. split.
    + apply in_map. exact Hd.
    + destruct (normalizeHost P d); [contradiction | reflexivity].
Qed.

Variable o : WebOracle.

(** What an accepted request answers, from the run of the collection. *)
Lemma collector_POST_run (b : JsVal) (h : list WebCall) :
  supabaseServiceRoleKey env <> EmptyString ->
  truthy (prop b "keyword") = true ->
  let crun := wexec o h (collectAll P W env (prop b "keyword") (sourcesOf P W env) []) in
  let collected := fst crun in
  let pages := snd crun in
  let n := List.length collected in
  wexec o h (POST P W describe env (Some b))
  = if truthy (prop b "returnDocuments") then (Inserted n None (Some collected), pages)
    else
      match collected with
      | [] => (Inserted n None None, pages)
      | _ :: _ =>
          match prop b "waitForCompletion" with
          | JBool false =>
              (Inserted n None None, (pages ++ [EmbedDocsDetached collected])%list)
          | _ =>
              (Inserted n
                 (option_map (detailsOf describe) (o (h ++ pages)%list (EmbedDocs collected)))
                 None,
               (pages ++ [EmbedDocs collected])%list)
          end
      end.
Proof.
  intros Hkey Hkw. cbv zeta. unfold POST.
  destruct (isEmpty (supabaseServiceRoleKey env)) eqn:Ek.
  { destruct (supabaseServiceRoleKey env); [contradiction | discriminate]. }
  destruct b as [| | b0 | n0 | s0 | items | fields]; try discriminate Hkw.
  cbv zeta. rewrite Hkw. cbn [negb]. rewrite wexec_bind.
  destruct (wexec o h (collectAll P W env (prop (JObj fields) "keyword") (sourcesOf P W env) []))
    as [collected pages].
  cbn [fst snd].
  destruct (truthy (prop (JObj fields) "returnDocuments")) eqn:Erd.
  { rewrite andb_false_r. cbn [wexec fst snd]. rewrite app_nil_r. reflexivity. }
  destruct collected as [| d ds].
  { cbn [List.length Nat.ltb Nat.leb andb wexec fst snd]. rewrite app_nil_r. reflexivity. }
  change ((0 <? List.length (d :: ds))%nat) with true. cbn [andb negb].
  destruct (prop (JObj fields) "waitForCompletion") as [| | [|] | n1 | s1 | items1 | fields1];
    cbn [wbind wawait wexec fst snd]; try reflexivity;
    destruct (o (h ++ pages)%list (EmbedDocs (d :: ds))); reflexivity.
Qed.

(** A request is rejected without any request of its own, or accepted. *)
Lemma collector_POST_cases (body : option JsVal) (h : list WebCall) :
  (wexec o h (POST P W describe env body) = (ServerError, [])
   /\ (supabaseServiceRoleKey env = EmptyString
       \/ body = None \/ body = Some JUndefined \/ body = Some JNull))
  \/ (wexec o h (POST P W describe env body) = (KeywordRequired, [])
      /\ supabaseServiceRoleKey env <> EmptyString
      /\ exists b, body = Some b /\ b <> JUndefined /\ b <> JNull
                   /\ truthy (prop b "keyword") = false)
  \/ (supabaseServiceRoleKey env <> EmptyString
      /\ exists b, body = Some b /\ truthy (prop b "keyword") = true).
Proof.
  destruct (isEmpty (supabaseServiceRoleKey env)) eqn:Ek.
  { left. unfold POST. rewrite Ek. split; [reflexivity |]. left.
    destruct (supabaseServiceRoleKey env); [reflexivity | discriminate]. }
  assert (Hkey : supabaseServiceRoleKey env <> EmptyString).
  { intros E0. rewrite E0 in Ek. discriminate. }
  destruct body as [b |].
  2:{ left. unfold POST. rewrite Ek. split; [reflexivity |]. right. left. reflexivity. }
  destruct (truthy (prop b "keyword")) eqn:Ekw.
  { right. right. split; [exact Hkey |]. exists b. split; [reflexivity | exact Ekw]. }
  destruct b as [| | b0 | n0 | s0 | items | fields];
    try (left; unfold POST; rewrite Ek; split; [reflexivity |]; right; right;
         solve [left; reflexivity | right; reflexivity]);
    right; left; (split; [unfold POST; rewrite Ek; cbv zeta; rewrite Ekw; reflexivity |]);
    (split; [exact Hkey |]); eexists; (split; [reflexivity |]);
    (split; [discriminate |]); (split; [discriminate | exact Ekw]).
Qed.

End CollectorHandler.

(** X17. Every document that the collector hands to the embedding
    function or returns to the caller was kept for one of the planned
    sources: its link passes the allowlist, the host of the link is the host
    of that source or below it, the link is likely content, the document is
    filed under the name of the source, and its text has more than 50 and at
    most 10000 characters. *)
Theorem collector_keeps_allowed_pages_only :
  forall (P : Platform) (W : WebPlatform) (describe : JsError -> string) (env : Env)
         (body : option JsVal) (o : WebOracle) (h : list WebCall),
    let run := wexec o h (Collector.POST P W describe env body) in
    forall docs : list CollectedDoc,
      In (Some docs) (map embedded (snd run))
      \/ (exists n e, fst run = Collector.Inserted n e (Some docs)) ->
      Forall (fun d => exists s, In s (Collector.sourcesOf P W env) /\ allowedDoc P W env s d)
             docs.
Proof.
  intros P W describe env body o h run docs Hdocs. subst run.
  destruct (collector_POST_cases P W describe env o body h)
    as [[E _] | [[E _] | (Hkey & b & -> & Hkw)]].
  - rewrite E in Hdocs. cbn [fst snd map In] in Hdocs.
    destruct Hdocs as [[] | (n & e & Hr)]. discriminate Hr.
  - rewrite E in Hdocs. cbn [fst snd map In] in Hdocs.
    destruct Hdocs as [[] | (n & e & Hr)]. discriminate Hr.
  - rewrite (collector_POST_run P W describe env o b h Hkey Hkw) in Hdocs.
    destruct (collectAll_run P W env o (prop b "keyword") (Collector.sourcesOf P W env) [] h)
      as (_ & Hpages & added & Ea & _ & Ha).
    destruct (wexec o h (Collector.collectAll P W env (prop b "keyword")
                           (Collector.sourcesOf P W env) [])) as [collected pages].
    cbn [fst snd app] in *. subst added.
    assert (Hnone : forall l, forallb isPageRequest l = true -> ~ In (Some docs) (map embedded l)).
    { induction l as [| c l IH]; intros Hl Hin; [destruct Hin |].
      cbn [map In] in Hin. cbn [forallb] in Hl. apply andb_prop in Hl.
      destruct Hl as [Hc Hl]. destruct Hin as [E | Hin]; [| exact (IH Hl Hin)].
      destruct c; cbn in Hc, E; discriminate. }
    assert (Hlast : forall c, In (Some docs) (map embedded (pages ++ [c])) ->
                              embedded c = Some docs).
    { intros c Hin. rewrite map_app in Hin. apply in_app_or in Hin.
      destruct Hin as [Hin | [E | []]]; [destruct (Hnone pages Hpages Hin) | exact E]. }
    destruct (truthy (prop b "returnDocuments")).
    { cbn [fst snd] in Hdocs. destruct Hdocs as [Hin | (n & e & Hr)].
      - destruct (Hnone pages Hpages Hin).
      - injection Hr as _ _ <-. exact Ha. }
    destruct collected as [| d ds].
    { cbn [fst snd] in Hdocs. destruct Hdocs as [Hin | (n & e & Hr)].
      - destruct (Hnone pages Hpages Hin).
      - discriminate Hr. }
    destruct (prop b "waitForCompletion") as [| | [|] | n1 | s1 | items1 | fields1];
      cbn [fst snd] in Hdocs;
      (destruct Hdocs as [Hin | (n & e & Hr)];
       [apply Hlast in Hin; cbn [embedded] in Hin; injection Hin as <-; exact Ha
       | discriminate Hr]).
Qed.

Lemma collector_keeps_allowed_pages_only_witness :
  let run :=
    wexec DemoRetrieval.fdaWeb []
      (Collector.POST Demo.platform DemoRetrieval.web errorMessage Demo.env
         (Some (JObj [("keyword", JStr "aspirin"); ("returnDocuments", JBool true)]))) in
  fst run = Collector.Inserted 1 None (Some [DemoRetrieval.aspirinDoc])
  /\ Forall (fun d => exists s, In s (Collector.sourcesOf Demo.platform DemoRetrieval.web Demo.env)
                                /\ allowedDoc Demo.platform DemoRetrieval.web Demo.env s d)
            [DemoRetrieval.aspirinDoc].
Proof.
  assert (E : fst (wexec DemoRetrieval.fdaWeb []
                     (Collector.POST Demo.platform DemoRetrieval.web errorMessage Demo.env
                        (Some (JObj [("keyword", JStr "aspirin");
                                     ("returnDocuments", JBool true)]))))
              = Collector.Inserted 1 None (Some [DemoRetrieval.aspirinDoc])).
  { vm_compute. reflexivity. }
  split; [exact E |].
  apply (collector_keeps_allowed_pages_only Demo.platform DemoRetrieval.web errorMessage
           Demo.env
           (Some (JObj [("keyword", JStr "aspirin"); ("returnDocuments", JBool true)]))
           DemoRetrieval.fdaWeb []).
  right. exists 1%nat, None. exact E.
Defined.


(** X18. The collector plans at most six known sources and one more for
    every configured domain; it asks for at most seven pages for a source
    and keeps at most five documents of it, and besides the page requests a
    run makes at most one call. *)
Theorem collector_requests_are_bounded :
  forall (P : Platform) (W : WebPlatform) (describe : JsError -> string) (env : Env)
         (body : option JsVal) (o : WebOracle) (h : list WebCall),
    let run := wexec o h (Collector.POST P W describe env body) in
    let sources := List.length (Collector.sourcesOf P W env) in
    (sources <= 6 + List.length (allowedDomains env))%nat
    /\ (List.length (filter isPageRequest (snd run)) <= 7 * sources)%nat
    /\ (List.length (snd run) <= List.length (filter isPageRequest (snd run)) + 1)%nat
    /\ (forall n e ds, fst run = Collector.Inserted n e ds -> (n <= 5 * sources)%nat).
Proof.
  intros P W describe env body o h run sources. subst run sources.
  split; [apply sourcesOf_length |].
  destruct (collector_POST_cases P W describe env o body h)
    as [[E _] | [[E _] | (Hkey & b & -> & Hkw)]].
  - rewrite E. cbn [fst snd filter List.length].
    split; [lia |]. split; [lia |]. intros n e ds Hr. discriminate Hr.
  - rewrite E. cbn [fst snd filter List.length].
    split; [lia |]. split; [lia |]. intros n e ds Hr. discriminate Hr.
  - rewrite (collector_POST_run P W describe env o b h Hkey Hkw).
    destruct (collectAll_run P W env o (prop b "keyword") (Collector.sourcesOf P W env) [] h)
      as (Hlen & Hpages & added & Ea & Hl & _).
    destruct (wexec o h (Collector.collectAll P W env (prop b "keyword")
                           (Collector.sourcesOf P W env) [])) as [collected pages].
    cbn [fst snd app] in *. subst added.
    assert (Hall : filter isPageRequest pages = pages).
    { clear - Hpages. induction pages as [| c l IH]; [reflexivity |].
      cbn [forallb] in Hpages. apply andb_prop in Hpages. destruct Hpages as [Hc Hl].
      cbn [filter]. rewrite Hc, (IH Hl). reflexivity. }
    destruct (truthy (prop b "returnDocuments")).
    { cbn [fst snd]. rewrite Hall. split; [exact Hlen |]. split; [lia |].
      intros n e ds Hr. injection Hr as <- _ _. exact Hl. }
    destruct collected as [| d ds0].
    { cbn [fst snd]. rewrite Hall. split; [exact Hlen |]. split; [lia |].
      intros n e ds Hr. injection Hr as <- _ _. simpl. lia. }
    destruct (prop b "waitForCompletion") as [| | [|] | n1 | s1 | items1 | fields1];
      cbn [fst snd]; rewrite filter_app, Hall; cbn [filter isPageRequest];
      rewrite app_nil_r, length_app; cbn [List.length];
      (split; [exact Hlen |]); (split; [lia |]);
      intros n e ds Hr; injection Hr as <- _ _; exact Hl.
Qed.

(** X19. A request without the service key, without a readable body or
    without a keyword is rejected before any page is requested. An accepted
    request answers with the number of documents collected. The documents
    are handed to the embedding function exactly when there is at least one
    and the caller did not ask to have them returned; that is one call, made
    after every page request, with exactly the documents counted, awaited
    unless [waitForCompletion] is [false], and its error is reported beside
    the count. *)
Theorem collector_embeds_what_it_counts :
  forall (P : Platform) (W : WebPlatform) (describe : JsError -> string) (env : Env)
         (body : option JsVal) (o : WebOracle) (h : list WebCall),
    let run := wexec o h (Collector.POST P W describe env body) in
    (Collector.statusOf (fst run) <> 200 -> snd run = [])
    /\ (fst run = Collector.ServerError
        <-> supabaseServiceRoleKey env = EmptyString
            \/ body = None \/ body = Some JUndefined \/ body = Some JNull)
    /\ (fst run = Collector.KeywordRequired
        <-> supabaseServiceRoleKey env <> EmptyString
            /\ exists b, body = Some b /\ b <> JUndefined /\ b <> JNull
                         /\ truthy (prop b "keyword") = false)
    /\ forall n e ds,
         fst run = Collector.Inserted n e ds ->
         exists (b : JsVal) (pages : list WebCall) (collected : list CollectedDoc),
           body = Some b
           /\ forallb isPageRequest pages = true
           /\ n = List.length collected
           /\ if truthy (prop b "returnDocuments")
              then snd run = pages /\ ds = Some collected /\ e = None
              else
                ds = None
                /\ match collected with
                   | [] => snd run = pages /\ e = None
                   | _ :: _ =>
                       match prop b "waitForCompletion" with
                       | JBool false =>
                           snd run = (pages ++ [EmbedDocsDetached collected])%list /\ e = None
                       | _ =>
                           snd run = (pages ++ [EmbedDocs collected])%list
                           /\ e = option_map (Collector.detailsOf describe)
                                    (o (h ++ pages)%list (EmbedDocs collected))
                       end
                   end.
Proof.
  intros P W describe env body o h run. subst run.
  destruct (collector_POST_cases P W describe env o body h)
    as [[E Hwhy] | [[E Hwhy] | (Hkey & b & -> & Hkw)]].
  - rewrite E. cbn [fst snd].
    split; [reflexivity |]. split; [split; [intros _; exact Hwhy | reflexivity] |].
    split.
    + split; [discriminate |]. intros (Hkey & b & -> & Hu & Hn & _).
      destruct Hwhy as [Hk | [Hb | [Hb | Hb]]];
        [contradiction | discriminate | injection Hb as ->; contradiction
        | injection Hb as ->; contradiction].
    + intros n e ds Hr. discriminate Hr.
  - rewrite E. cbn [fst snd].
    split; [reflexivity |].
    split.
    + split; [discriminate |]. destruct Hwhy as (Hkey & b & -> & Hu & Hn & _).
      intros [Hk | [Hb | [Hb | Hb]]];
        [contradiction | discriminate | injection Hb as ->; contradiction
        | injection Hb as ->; contradiction].
    + split; [split; [intros _; exact Hwhy | reflexivity] |].
      intros n e ds Hr. discriminate Hr.
  - rewrite (collector_POST_run P W describe env o b h Hkey Hkw).
    destruct (collectAll_run P W env o (prop b "keyword") (Collector.sourcesOf P W env) [] h)
      as (_ & Hpages & _).
    destruct (wexec o h (Collector.collectAll P W env (prop b "keyword")
                           (Collector.sourcesOf P W env) [])) as [collected pages].
    cbn [fst snd] in *.
    assert (Hb : b <> JUndefined /\ b <> JNull).
    { split; intros ->; discriminate Hkw. }
    assert (Hnot500 :
              ~ (supabaseServiceRoleKey env = EmptyString
                 \/ Some b = None \/ Some b = Some JUndefined \/ Some b = Some JNull)).
    { intros [Hk | [H0 | [H0 | H0]]];
        [contradiction | discriminate | injection H0 as ->; destruct Hb as [Hb _]; contradiction
        | injection H0 as ->; destruct Hb as [_ Hb]; contradiction]. }
    assert (Hnot400 :
              ~ (supabaseServiceRoleKey env <> EmptyString
                 /\ exists b0, Some b = Some b0 /\ b0 <> JUndefined /\ b0 <> JNull
                               /\ truthy (prop b0 "keyword") = false)).
    { intros (_ & b0 & H0 & _ & _ & Hf). injection H0 as <-. rewrite Hkw in Hf. discriminate. }
    assert (Hshape : forall (r : Collector.Response) (t : list WebCall),
              Collector.statusOf r = 200 ->
              (Collector.statusOf r <> 200 -> t = [])
              /\ (r = Collector.ServerError
                  <-> supabaseServiceRoleKey env = EmptyString
                      \/ Some b = None \/ Some b = Some JUndefined \/ Some b = Some JNull)
              /\ (r = Collector.KeywordRequired
                  <-> supabaseServiceRoleKey env <> EmptyString
                      /\ exists b0, Some b = Some b0 /\ b0 <> JUndefined /\ b0 <> JNull
                                    /\ truthy (prop b0 "keyword") = false)).
    { intros r t Hr. split; [intros Hne; contradiction |].
      split; (split; [intros ->; discriminate Hr | intros H0; contradiction]). }
    destruct (truthy (prop b "returnDocuments")) eqn:Erd.
    { cbn [fst snd]. destruct (Hshape (Collector.Inserted (List.length collected) None
                                         (Some collected)) pages eq_refl) as (H1 & H2 & H3).
      split; [exact H1 |]. split; [exact H2 |]. split; [exact H3 |].
      intros n e ds Hr. injection Hr as <- <- <-.
      exists b, pages, collected. rewrite Erd. repeat split; assumption. }
    destruct collected as [| d ds0].
    { cbn [fst snd]. destruct (Hshape (Collector.Inserted 0 None None) pages eq_refl)
        as (H1 & H2 & H3).
      split; [exact H1 |]. split; [exact H2 |]. split; [exact H3 |].
      intros n e ds Hr. injection Hr as <- <- <-.
      exists b, pages, []. rewrite Erd. repeat split; assumption. }
    destruct (prop b "waitForCompletion") as [| | [|] | n1 | s1 | items1 | fields1] eqn:Ew;
      cbn [fst snd];
      match goal with
      | |- (Collector.statusOf ?r <> 200 -> ?t = []) /\ _ =>
          destruct (Hshape r t eq_refl) as (H1 & H2 & H3)
      end;
      (split; [exact H1 |]); (split; [exact H2 |]); (split; [exact H3 |]);
      intros n e ds Hr; injection Hr as <- <- <-;
      exists b, pages, (d :: ds0); rewrite Erd, Ew; repeat split; assumption.
Qed.

(** X20. The sources are planned from the allowlist and cover it: the
    host of every planned source is an allowed host or below one, and every
    configured domain with a host is the host of a planned source, below it
    or above it. *)
Theorem collector_sources_cover_the_allowlist :
  forall (P : Platform) (W : WebPlatform) (env : Env),
    (forall s, In s (Collector.sourcesOf P W env) ->
       exists d, In d (allowedDomains env)
                 /\ Collector.hostMatches (Collector.src_host s) (Collector.normalizeHost P d)
                    = true)
    /\ (forall d, In d (allowedDomains env) ->
          Collector.normalizeHost P d <> EmptyString ->
          exists s, In s (Collector.sourcesOf P W env)
                    /\ (Collector.hostMatches (Collector.normalizeHost P d) (Collector.src_host s)
                        || Collector.hostMatches (Collector.src_host s)
                             (Collector.normalizeHost P d)) = true).
Proof.
  intros P W env. split.
  - intros s Hs. unfold Collector.sourcesOf in Hs. cbv zeta in Hs.
    apply in_app_or in Hs. destruct Hs as [Hs | Hs].
    + apply filter_In in Hs. destruct Hs as [_ Hs].
      apply existsb_exists in Hs. destruct Hs as (hst & Hin & Hm).
      apply In_allowedList in Hin. destruct Hin as (_ & d & Hd & ->).
      exists d. split; [exact Hd | exact Hm].
    + apply in_map_iff in Hs. destruct Hs as (hst & <- & Hin).
      apply filter_In in Hin. destruct Hin as [Hin _].
      apply In_allowedList in Hin. destruct Hin as (_ & d & Hd & ->).
      exists d. split; [exact Hd |]. cbn [Collector.src_host]. apply hostMatches_refl.
  - intros d Hd Hne.
    assert (Hin : In (Collector.normalizeHost P d) (Collector.allowedList P env)).
    { apply In_allowedList. split; [exact Hne |]. exists d. split; [exact Hd | reflexivity]. }
    unfold Collector.sourcesOf. cbv zeta.
    set (baseSources := filter _ (Collector.knownSources W)).
    set (knownHosts := Collector.distinct _).
    destruct (existsb (fun k => Collector.hostMatches (Collector.normalizeHost P d) k
                                || Collector.hostMatches k (Collector.normalizeHost P d))
                      knownHosts) eqn:Eknown.
    + apply existsb_exists in Eknown. destruct Eknown as (k & Hk & Hm).
      subst knownHosts. apply In_distinct in Hk. apply in_map_iff in Hk.
      destruct Hk as (s & Es & Hs).
      assert (Hknown : In s (Collector.knownSources W)).
      { subst baseSources. apply filter_In in Hs. apply Hs. }
      rewrite (knownSources_normal P W s Hknown) in Es. subst k.
      exists s. split; [apply in_or_app; left; exact Hs | exact Hm].
    + exists {| Collector.src_name := Collector.normalizeHost P d;
                Collector.src_host := Collector.normalizeHost P d;
                Collector.src_search :=
                  fun q => Collector.ddgSearchUrl W (Collector.normalizeHost P d) q |}.
      split.
      * apply in_or_app. right.
        apply (in_map (fun h0 => {| Collector.src_name := h0; Collector.src_host := h0;
                                    Collector.src_search :=
                                      fun q => Collector.ddgSearchUrl W h0 q |})).
        apply filter_In. split; [exact Hin |]. rewrite Eknown. reflexivity.
      * cbn [Collector.src_host]. rewrite hostMatches_refl. reflexivity.
Qed.

Lemma collector_sources_cover_the_allowlist_witness :
  exists s,
    In s (Collector.sourcesOf Demo.platform DemoRetrieval.web Demo.env)
    /\ (Collector.hostMatches (Collector.normalizeHost Demo.platform "nih.gov")
          (Collector.src_host s)
        || Collector.hostMatches (Collector.src_host s)
             (Collector.normalizeHost Demo.platform "nih.gov")) = true.
Proof.
  apply (proj2 (collector_sources_cover_the_allowlist Demo.platform DemoRetrieval.web Demo.env)).
  - right. left. reflexivity.
  - discriminate.
Defined.

(* ================================================================== *)
(** ** Links and hosts *)

Lemma fold_left_invariant {A B : Type} (f : A -> B -> A) (Inv : A -> Prop) (l : list B) :
  (forall a b, Inv a -> Inv (f a b)) -> forall a, Inv a -> Inv (fold_left f l a).
Proof.
  intros Hf. induction l as [| b l IH]; intros a Ha; [exact Ha |].
  cbn [fold_left]. apply IH, Hf, Ha.
Qed.

Lemma addOnce_keeps (Q : string -> Prop) (x : string) (out : list string) :
  Q x -> NoDup out /\ Forall Q out -> NoDup (addOnce x out) /\ Forall Q (addOnce x out).
Proof.
  intros Hx [Hnd Hq]. unfold addOnce.
  destruct (existsb (String.eqb x) out) eqn:E; [split; assumption |].
  split.
  - assert (Hnot : ~ In x out).
    { intros Hin. assert (Ht : existsb (String.eqb x) out = true).
      { apply existsb_exists. exists x. split; [exact Hin | apply String.eqb_refl]. }
      rewrite Ht in E. discriminate. }
    clear E Hq. induction out as [| y out IH]; cbn [app].
    + constructor; [intros [] | constructor].
    + inversion Hnd as [| y0 out0 Hy Hout]; subst. constructor.
      * intros Hin. apply in_app_or in Hin. destruct Hin as [Hin | [E | []]].
        -- contradiction.
        -- apply Hnot. left. symmetry. exact E.
      * apply IH; [exact Hout |]. intros Hin. apply Hnot. right. exact Hin.
  - apply Forall_app. split; [exact Hq |]. constructor; [exact Hx | constructor].
Qed.

(** X21. The links read off a search page come without repetition, and
    those of a DuckDuckGo page are all written with the scheme [http] or
    [https]: a redirection target of any other kind is left out. *)
Theorem result_links_are_distinct_web_links :
  forall (P : Platform) (W : WebPlatform) (html baseUrl : string),
    (NoDup (extractDuckDuckGoResultUrls P W html)
     /\ forallb isWebLink (extractDuckDuckGoResultUrls P W html) = true)
    /\ (NoDup (Collector.extractDuckDuckGoResultUrls P W html)
        /\ forallb isWebLink (Collector.extractDuckDuckGoResultUrls P W html) = true)
    /\ NoDup (Collector.extractUrls P W html baseUrl).
Proof.
  intros P W html baseUrl.
  assert (Hempty : NoDup (@nil string) /\ Forall (fun u => isWebLink u = true) []).
  { split; constructor. }
  assert (Hempty' : NoDup (@nil string) /\ Forall (fun _ : string => True) []).
  { split; constructor. }
  split; [| split].
  - rewrite forallb_forall, <- Forall_forall.
    unfold extractDuckDuckGoResultUrls.
    apply (fold_left_invariant _
             (fun out => NoDup out /\ Forall (fun u => isWebLink u = true) out));
      [| exact Hempty].
    intros out raw Hout. cbv zeta.
    destruct (isEmpty (trim raw)); [exact Hout |].
    match goal with |- context [negb (includes ?a ?b)] => destruct (includes a b) end;
      [| exact Hout].
    cbn [negb].
    match goal with |- context [URL_parse P ?a] => destruct (URL_parse P a) as [u |] end;
      [| exact Hout].
    destruct (URL_searchParam W u "uddg") as [uddg |]; [| exact Hout].
    destruct (isEmpty uddg); [exact Hout |].
    destruct (decodeURIComponent W uddg) as [decoded |]; [| exact Hout].
    destruct (startsWith decoded "http://" || startsWith decoded "https://") eqn:Eweb;
      [| exact Hout].
    apply (addOnce_keeps (fun u => isWebLink u = true)); [exact Eweb | exact Hout].
  - rewrite forallb_forall, <- Forall_forall.
    unfold Collector.extractDuckDuckGoResultUrls.
    apply (fold_left_invariant _
             (fun out => NoDup out /\ Forall (fun u => isWebLink u = true) out));
      [| exact Hempty].
    intros out raw Hout. cbv zeta.
    destruct (isEmpty (trim raw)); [exact Hout |].
    destruct (startsWith (trim raw) "https://duckduckgo.com/l/"); [| exact Hout].
    cbn [negb].
    destruct (URL_parse P (trim raw)) as [u |]; [| exact Hout].
    destruct (URL_searchParam W u "uddg") as [uddg |]; [| exact Hout].
    destruct (isEmpty uddg); [exact Hout |].
    destruct (decodeURIComponent W uddg) as [decoded |]; [| exact Hout].
    destruct (startsWith decoded "http://" || startsWith decoded "https://") eqn:Eweb;
      [| exact Hout].
    apply (addOnce_keeps (fun u => isWebLink u = true)); [exact Eweb | exact Hout].
  - unfold Collector.extractUrls. cbv zeta.
    apply (fold_left_invariant _ (fun out => NoDup out /\ Forall (fun _ => True) out)).
    + intros out abs Hout. destruct (URL_parse P abs) as [u |]; [| exact Hout].
      apply (addOnce_keeps (fun _ => True)); [exact I | exact Hout].
    + apply (fold_left_invariant _ (fun out => NoDup out /\ Forall (fun _ => True) out));
        [| exact Hempty'].
      intros out m Hout.
      destruct (isEmpty (trim m)); [exact Hout |].
      destruct (startsWith (trim m) "#"); [exact Hout |].
      match goal with |- context [if ?c then out else _] => destruct c end; [exact Hout |].
      destruct (URL_resolve W (trim m) baseUrl) as [u |]; [| exact Hout].
      apply (addOnce_keeps (fun _ => True)); [exact I | exact Hout].
Qed.

Lemma endsWith_spec (s suffix : string) :
  Collector.endsWith s suffix = true <-> exists pre : string, s = pre ++ suffix.
Proof.
  split.
  - induction s as [| c r IH]; cbn [Collector.endsWith]; intros H.
    + rewrite orb_false_r in H. apply String.eqb_eq in H. exists EmptyString. exact H.
    + apply orb_prop in H. destruct H as [H | H].
      * apply String.eqb_eq in H. exists EmptyString. exact H.
      * destruct (IH H) as (pre & ->). exists (String c pre). reflexivity.
  - intros (pre & ->). induction pre as [| c pre IH].
    + cbn [append]. destruct suffix; cbn [Collector.endsWith]; rewrite String.eqb_refl;
        reflexivity.
    + cbn [append Collector.endsWith]. rewrite IH. apply orb_true_r.
Qed.

(** X22. Matching of hosts is reflexive and transitive: a host matches
    itself, and a host that matches a second one matches every host the
    second one matches. *)
Theorem host_matching_is_a_preorder :
  forall h a b : string,
    Collector.hostMatches h h = true
    /\ (Collector.hostMatches h a = true -> Collector.hostMatches a b = true ->
        Collector.hostMatches h b = true).
Proof.
  intros h a b. split; [apply hostMatches_refl |].
  unfold Collector.hostMatches. cbv zeta.
  set (h' := toLowerCase (Collector.stripWww h)).
  set (a' := toLowerCase (Collector.stripWww a)).
  set (b' := toLowerCase (Collector.stripWww b)).
  intros Hha Hab. apply orb_prop in Hha. apply orb_prop in Hab.
  destruct Hha as [Hha | Hha].
  - apply String.eqb_eq in Hha. rewrite Hha.
    destruct Hab as [Hab | Hab]; rewrite Hab; [reflexivity | apply orb_true_r].
  - destruct Hab as [Hab | Hab].
    + apply String.eqb_eq in Hab. rewrite <- Hab, Hha. apply orb_true_r.
    + apply endsWith_spec in Hha. apply endsWith_spec in Hab.
      destruct Hha as (p & Hp). destruct Hab as (q & Hq).
      assert (Hends : Collector.endsWith h' ("." ++ b') = true).
      { apply endsWith_spec. exists (p ++ "." ++ q). rewrite Hp, Hq.
        rewrite !append_assoc. reflexivity. }
      rewrite Hends. apply orb_true_r.
Qed.

Lemma host_matching_is_a_preorder_witness :
  Collector.hostMatches "www.accessdata.fda.gov" "accessdata.fda.gov" = true
  /\ Collector.hostMatches "accessdata.fda.gov" "FDA.gov" = true
  /\ Collector.hostMatches "www.accessdata.fda.gov" "FDA.gov" = true.
Proof.
  assert (H1 : Collector.hostMatches "www.accessdata.fda.gov" "accessdata.fda.gov" = true)
    by reflexivity.
  assert (H2 : Collector.hostMatches "accessdata.fda.gov" "FDA.gov" = true) by reflexivity.
  split; [exact H1 |]. split; [exact H2 |].
  exact (proj2 (host_matching_is_a_preorder "www.accessdata.fda.gov" "accessdata.fda.gov"
                  "FDA.gov") H1 H2).
Defined.


Lemma searchFrom_app (m : string -> bool) (s t : string) :
  m t = true -> forall i, exists k, searchFrom m i (s ++ t) = Some k.
Proof.
  intros Ht. induction s as [| c s IH]; intros i.
  - exists i. cbn [append]. destruct t; cbn [searchFrom]; rewrite Ht; reflexivity.
  - cbn [append searchFrom]. destruct (m (String c (s ++ t))); [exists i; reflexivity |].
    apply IH.
Qed.

Lemma searchFrom_none (m : string -> bool) (p : ascii -> bool) (s : string) :
  (forall s', m s' = true -> exists c r, s' = String c r /\ p c = true) ->
  existsChar p s = false -> forall i, searchFrom m i s = None.
Proof.
  intros Hm. induction s as [| c s IH]; intros Hs i.
  - cbn [searchFrom]. destruct (m EmptyString) eqn:E; [| reflexivity].
    destruct (Hm _ E) as (c & r & Hc & _). discriminate Hc.
  - cbn [existsChar] in Hs. apply orb_false_elim in Hs. destruct Hs as [Hc Hs].
    cbn [searchFrom]. destruct (m (String c s)) eqn:E.
    + destruct (Hm _ E) as (c0 & r & Hc0 & Hp). injection Hc0 as <- <-.
      rewrite Hp in Hc. discriminate.
    + apply IH, Hs.
Qed.

Lemma lowerChar_dot (c : ascii) : isDot (lowerChar c) = isDot c.
Proof. destruct c as [[] [] [] [] [] [] [] []]; vm_compute; reflexivity. Qed.

Lemma existsChar_toLowerCase_dot (s : string) :
  existsChar isDot (toLowerCase s) = existsChar isDot s.
Proof.
  induction s as [| c s IH]; [reflexivity |].
  cbn [toLowerCase existsChar]. rewrite lowerChar_dot, IH. reflexivity.
Qed.

Lemma endsPath_toLowerCase (rest : string) : endsPath (toLowerCase rest) = endsPath rest.
Proof.
  destruct rest as [| c r]; [reflexivity |]. cbn [toLowerCase endsPath].
  destruct c as [[] [] [] [] [] [] [] []]; vm_compute; reflexivity.
Qed.

(** X23. A link is taken for an asset whenever it holds one of the listed
    extensions, in any letter case, at its end or before a query or a
    fragment, and whenever it holds [/favicon]; a link without a dot and
    without [/favicon] is never taken for one. *)
Theorem asset_links_are_told_apart :
  forall before ext rest url : string,
    (In (toLowerCase ext) assetExtensions -> endsPath rest = true ->
     looksLikeAssetUrl (before ++ "." ++ ext ++ rest) = true)
    /\ (includes (toLowerCase url) "/favicon" = true -> looksLikeAssetUrl url = true)
    /\ (existsChar isDot url = false -> includes (toLowerCase url) "/favicon" = false ->
        looksLikeAssetUrl url = false).
Proof.
  intros before ext rest url. split; [| split].
  - intros Hext Hrest. unfold looksLikeAssetUrl. cbv zeta.
    destruct (includes (toLowerCase (before ++ "." ++ ext ++ rest)) "/favicon");
      [reflexivity |].
    rewrite !toLowerCase_app.
    assert (Hm : assetSuffixAt (toLowerCase "." ++ toLowerCase ext ++ toLowerCase rest) = true).
    { change (toLowerCase ".") with ".". unfold assetSuffixAt.
      cbn [append afterLiteral]. change (Ascii.eqb "." ".") with true. cbv iota.
      apply existsb_exists. exists (toLowerCase ext). split; [exact Hext |].
      rewrite <- endsPath_toLowerCase in Hrest.
      assert (Hlit : afterLiteralCI (toLowerCase ext) (toLowerCase ext ++ toLowerCase rest)
                     = Some (toLowerCase rest)).
      { clear - Hext. cbn [assetExtensions In] in Hext.
        repeat (destruct Hext as [<- | Hext]; [reflexivity |]). destruct Hext. }
      rewrite Hlit. destruct (toLowerCase rest); [reflexivity | exact Hrest]. }
    unfold test, search.
    destruct (searchFrom_app assetSuffixAt (toLowerCase before) _ Hm 0%nat) as (k & ->).
    reflexivity.
  - intros H. unfold looksLikeAssetUrl. cbv zeta. rewrite H. reflexivity.
  - intros Hdot Hfav. unfold looksLikeAssetUrl. cbv zeta. rewrite Hfav.
    unfold test, search.
    rewrite (searchFrom_none assetSuffixAt isDot (toLowerCase url)); [reflexivity | |].
    + intros s' Hs'. unfold assetSuffixAt in Hs'. destruct s' as [| c r]; [discriminate |].
      cbn [afterLiteral] in Hs'. exists c, r. split; [reflexivity |].
      unfold isDot. destruct (Ascii.eqb c "."); [reflexivity | discriminate].
    + rewrite existsChar_toLowerCase_dot. exact Hdot.
Qed.

Lemma asset_links_are_told_apart_witness :
  looksLikeAssetUrl "https://www.fda.gov/media/label.PDF?download=1" = true
  /\ looksLikeAssetUrl "https://localhost/drugs" = false.
Proof.
  destruct (asset_links_are_told_apart "https://www.fda.gov/media/label" "PDF" "?download=1"
              "https://localhost/drugs") as (Hasset & _ & Hplain).
  split.
  - apply Hasset; [| reflexivity]. cbn [toLowerCase]. unfold assetExtensions.
    do 12 right. left. reflexivity.
  - apply Hplain; reflexivity.
Defined.
